(** * zepp-export: decoders, normalizer and interchange export

    A shallow embedding of the decoding and normalization core of the
    zepp-export client ([zepp_export/decoders.py], [zepp_export/client.py],
    [zepp_export/export.py]) together with the properties its
    specification states about it.

    Layout:
    - Part I    Python values, exceptions and the small error monad
    - Part II   the standard-library functions the code calls
                (base64, json, datetime), modelled on CPython
    - Part III  the decoders
    - Part IV   the normalizer (band data, sleep, steps, stress)
    - Part V    the Apple Health export; the rest of the client and
                its requests, the date ranges and credentials of the
                command line, the cache and the routes of the local
                server
    - Part VI   the wording of the properties, as definitions
    - Part VII  lemmas and theorems of the specification
    - Part VIII further properties of the program *)

From Stdlib Require Import ZArith NArith List String Ascii Lia Bool.
From Stdlib Require Import DecimalString DecimalZ DecimalPos Sorted Permutation.
From Stdlib.Strings Require Import Byte.
Import ListNotations.

Set Warnings "-register-all".

Open Scope string_scope.
Open Scope list_scope.
Infix "+++" := String.append (at level 60, right associativity).
Open Scope Z_scope.

(* ================================================================== *)
(** * Part I. Python values, exceptions, error monad                   *)
(* ================================================================== *)

(** The exception classes that the embedded code raises, catches or lets
    through.  [BinasciiError], [JSONDecodeError] and [UnicodeDecodeError]
    are subclasses of [ValueError] in Python; an [except] clause that
    names them does not catch a plain [ValueError]. *)
Inductive exn : Set :=
| ZeppDecodeError
| ZeppAPIError
| BinasciiError
| JSONDecodeError
| UnicodeDecodeError
| ValueError
| TypeError
| KeyError
| AttributeError
| OverflowError.

(** Outcome of a computation: a value, a raised exception, or
    [Unmodelled] when the computation leaves what this development
    interprets (arithmetic on a binary64 float, a date string in a form
    whose treatment depends on the interpreter's version, a document
    nested so deep that the interpreter's recursion limit decides, a
    response whose body was not read).  No [except] clause ever catches
    [Unmodelled]. *)
Inductive res (A : Type) : Type :=
| Ok (a : A)
| Raise (e : exn)
| Unmodelled.

Arguments Ok {A} a.
Arguments Raise {A} e.
Arguments Unmodelled {A}.

Definition bind {A B : Type} (c : res A) (k : A -> res B) : res B :=
  match c with
  | Ok a => k a
  | Raise e => Raise e
  | Unmodelled => Unmodelled
  end.

Declare Scope py_scope.
Delimit Scope py_scope with py.
Notation "x <- c ;; k" := (bind c (fun x => k))
  (at level 61, c at next level, right associativity) : py_scope.
Notation "' pat <- c ;; k" := (bind c (fun x => match x with pat => k end))
  (at level 61, pat pattern, c at next level, right associativity) : py_scope.
Open Scope py_scope.

Definition exn_eqb (a b : exn) : bool :=
  match a, b with
  | ZeppDecodeError, ZeppDecodeError | ZeppAPIError, ZeppAPIError
  | BinasciiError, BinasciiError | JSONDecodeError, JSONDecodeError
  | UnicodeDecodeError, UnicodeDecodeError | ValueError, ValueError
  | TypeError, TypeError | KeyError, KeyError
  | AttributeError, AttributeError | OverflowError, OverflowError => true
  | _, _ => false
  end.

(** [try: c  except (classes): handler e]. *)
Definition try_except {A : Type} (c : res A) (classes : list exn)
    (handler : exn -> res A) : res A :=
  match c with
  | Raise e => if existsb (exn_eqb e) classes then handler e else Raise e
  | other => other
  end.

(** [except Exception]: every exception is caught. *)
Definition try_except_all {A : Type} (c : res A) (handler : res A) : res A :=
  match c with
  | Raise _ => handler
  | other => other
  end.

Fixpoint mapM {A B : Type} (f : A -> res B) (l : list A) : res (list B) :=
  match l with
  | [] => Ok []
  | a :: l' => b <- f a ;; bs <- mapM f l' ;; Ok (b :: bs)
  end.

(** The values that flow through the program: what [resp.json()] and
    [json.loads] produce, and the dicts and lists the code builds from
    them.  A Python [str] is held as its UTF-8 bytes (one [ascii] per
    byte), so ASCII text is itself; dict keys are strings, kept in
    insertion order.  A non-integer JSON number keeps its literal. *)
Inductive pyval : Type :=
| PNone
| PBool (b : bool)
| PInt (z : Z)
| PFloat (lit : string)
| PStr (s : string)
| PList (l : list pyval)
| PDict (d : list (string * pyval)).

Definition pydict := list (string * pyval).

Fixpoint dict_lookup (k : string) (d : pydict) : option pyval :=
  match d with
  | [] => None
  | (k', v) :: d' => if String.eqb k k' then Some v else dict_lookup k d'
  end.

(** [d[k] = v]: an existing key keeps its position. *)
Fixpoint dict_set (k : string) (v : pyval) (d : pydict) : pydict :=
  match d with
  | [] => [(k, v)]
  | (k', v') :: d' =>
      if String.eqb k k' then (k', v) :: d' else (k', v') :: dict_set k v d'
  end.

(** [bool(v)] / [not v]. *)
Definition truthy (v : pyval) : res bool :=
  match v with
  | PNone => Ok false
  | PBool b => Ok b
  | PInt z => Ok (negb (z =? 0))
  | PFloat _ => Unmodelled
  | PStr s => Ok (negb (String.eqb s EmptyString))
  | PList l => Ok (match l with [] => false | _ => true end)
  | PDict d => Ok (match d with [] => false | _ => true end)
  end.


(** [obj.get(k, default)]: only dicts have [get]. *)
Definition py_get (obj : pyval) (k : string) (default : pyval) : res pyval :=
  match obj with
  | PDict d => Ok (match dict_lookup k d with Some v => v | None => default end)
  | _ => Raise AttributeError
  end.

(** [obj[k]] with a string key. *)
Definition py_item (obj : pyval) (k : string) : res pyval :=
  match obj with
  | PDict d => match dict_lookup k d with Some v => Ok v | None => Raise KeyError end
  | _ => Raise TypeError
  end.

Definition is_substring (k s : string) : bool :=
  match index 0 k s with Some _ => true | None => false end.

(** [k in obj] / [k not in obj] for a string [k]: key test on a dict,
    element test on a list, substring test on a str. *)
Definition py_in (k : string) (obj : pyval) : res bool :=
  match obj with
  | PDict d => Ok (match dict_lookup k d with Some _ => true | None => false end)
  | PList l => Ok (existsb (fun v => match v with PStr s => String.eqb s k | _ => false end) l)
  | PStr s => Ok (is_substring k s)
  | _ => Raise TypeError
  end.

(** Iterating over [obj] in a [for] loop. A dict yields its keys and a
    str its characters; the loops of this program index every item with
    a string key, so those two cases are kept apart from a list. *)
Definition py_iter (obj : pyval) : res (list pyval) :=
  match obj with
  | PList l => Ok l
  | PDict d => Ok (map (fun kv => PStr (fst kv)) d)
  | PStr s => Ok (map (fun c => PStr (String c EmptyString)) (list_ascii_of_string s))
  | _ => Raise TypeError
  end.

(** The decimal text of an int. *)
Definition str_of_Z (z : Z) : string := NilZero.string_of_int (Z.to_int z).

(** [sys.int_info.default_max_str_digits]: the number of decimal digits
    beyond which CPython refuses to convert between [int] and [str], in
    [int(text)], [str(n)], an f-string and the [json] module alike, with
    a plain [ValueError]. *)
Definition default_max_str_digits : Z := 4300.

(** The decimal text of [z] has more digits than that (the sign is
    not counted). *)
Definition too_long (z : Z) : bool :=
  default_max_str_digits <? Z.of_nat (String.length (str_of_Z (Z.abs z))).

Arguments too_long : simpl never.

(** [str(z)] for an int. *)
Definition str_int (z : Z) : res string :=
  if too_long z then Raise ValueError else Ok (str_of_Z z).

(** The number of containers, one inside the other, up to which this
    development interprets what recurses over a value or a document
    (the [json] module, [repr]).  CPython recurses once per container
    and raises [RecursionError] when it runs out of stack, at a depth
    that depends on the recursion limit and on the stack of the
    caller. *)
Definition MAX_DEPTH : nat := 100.

(** [repr(v)] converts: no int in [v] has more than 4300 digits, and
    [v] nests at most [depth] containers. *)
Fixpoint printable (depth : nat) (v : pyval) {struct v} : bool :=
  match v with
  | PInt z => negb (too_long z)
  | PList l =>
      match depth with
      | O => false
      | S depth' => forallb (printable depth') l
      end
  | PDict d =>
      match depth with
      | O => false
      | S depth' => forallb (fun kv => printable depth' (snd kv)) d
      end
  | _ => true
  end.

(* ================================================================== *)
(** * Part II. Standard-library functions                              *)
(* ================================================================== *)

(** ** base64 *)

(** [(unsigned char) n]. *)
Definition byte_of_N (n : N) : byte :=
  match Byte.of_N (n mod 256) with
  | Some b => b
  | None => x00
  end.

Definition b64_alphabet : string :=
  "ABCDEFGHIJKLMNOPQRSTUVWXYZabcdefghijklmnopqrstuvwxyz0123456789+/".

Definition b64_char (n : N) : ascii :=
  match get (N.to_nat n) b64_alphabet with
  | Some c => c
  | None => "="%char
  end.

(** [table_a2b_base64]: the six-bit value of an alphabet character. *)
Definition b64_value (c : ascii) : option N :=
  let n := N_of_ascii c in
  if (65 <=? n)%N && (n <=? 90)%N then Some (n - 65)%N
  else if (97 <=? n)%N && (n <=? 122)%N then Some (n - 71)%N
  else if (48 <=? n)%N && (n <=? 57)%N then Some (n + 4)%N
  else if (n =? 43)%N then Some 62%N
  else if (n =? 47)%N then Some 63%N
  else None.

(** [base64.b64encode]. *)
Fixpoint b64encode (bs : list byte) : string :=
  match bs with
  | [] => EmptyString
  | [a] =>
      let a := Byte.to_N a in
      String (b64_char (N.shiftr a 2))
     (String (b64_char (N.shiftl (N.land a 3) 4)) "==")
  | [a; b] =>
      let a := Byte.to_N a in
      let b := Byte.to_N b in
      String (b64_char (N.shiftr a 2))
     (String (b64_char (N.lor (N.shiftl (N.land a 3) 4) (N.shiftr b 4)))
     (String (b64_char (N.shiftl (N.land b 15) 2)) "="))
  | a :: b :: c :: rest =>
      let a := Byte.to_N a in
      let b := Byte.to_N b in
      let c := Byte.to_N c in
      String (b64_char (N.shiftr a 2))
     (String (b64_char (N.lor (N.shiftl (N.land a 3) 4) (N.shiftr b 4)))
     (String (b64_char (N.lor (N.shiftl (N.land b 15) 2) (N.shiftr c 6)))
     (String (b64_char (N.land c 63)) (b64encode rest))))
  end.

(** The loop of [binascii.a2b_base64] with [strict_mode] off, as
    [base64.b64decode] calls it by default: a character outside the
    alphabet is skipped, a pad character ends the input once the current
    quad holds at least two characters and the pads complete it, and
    input that ends inside a quad is an error. *)
Fixpoint a2b_base64_loop (s : string) (quad_pos leftchar pads : N)
    (out : list byte) : res (list byte) :=
  match s with
  | EmptyString =>
      if (quad_pos =? 0)%N then Ok (rev out) else Raise BinasciiError
  | String this_ch rest =>
      if Ascii.eqb this_ch "="
      then
        if (2 <=? quad_pos)%N
        then
          if (4 <=? quad_pos + (pads + 1))%N then Ok (rev out)
          else a2b_base64_loop rest quad_pos leftchar (pads + 1)%N out
        else a2b_base64_loop rest quad_pos leftchar pads out
      else
        match b64_value this_ch with
        | None => a2b_base64_loop rest quad_pos leftchar pads out
        | Some v =>
            if (quad_pos =? 0)%N then
              a2b_base64_loop rest 1%N v 0%N out
            else if (quad_pos =? 1)%N then
              a2b_base64_loop rest 2%N (N.land v 15) 0%N
                (byte_of_N (N.lor (N.shiftl leftchar 2) (N.shiftr v 4)) :: out)
            else if (quad_pos =? 2)%N then
              a2b_base64_loop rest 3%N (N.land v 3) 0%N
                (byte_of_N (N.lor (N.shiftl leftchar 4) (N.shiftr v 2)) :: out)
            else
              a2b_base64_loop rest 0%N 0%N 0%N
                (byte_of_N (N.lor (N.shiftl leftchar 6) v) :: out)
        end
  end.

Definition is_ascii (s : string) : bool :=
  forallb (fun c => (N_of_ascii c <? 128)%N) (list_ascii_of_string s).

(** [base64.b64decode(s)] for a [str] argument: the string is first
    encoded as ASCII (a [ValueError] when it cannot be), then decoded. *)
Definition b64decode (s : string) : res (list byte) :=
  if is_ascii s then a2b_base64_loop s 0%N 0%N 0%N []
  else Raise ValueError.

(** ** json *)

(** Code point to UTF-8 bytes (a surrogate code point, which a [\u]
    escape can produce, takes the three-byte form). *)
Definition utf8_encode (cp : N) : list ascii :=
  if (cp <? 128)%N then [ascii_of_N cp]
  else if (cp <? 2048)%N then
    [ascii_of_N (192 + cp / 64); ascii_of_N (128 + cp mod 64)]%N
  else if (cp <? 65536)%N then
    [ascii_of_N (224 + cp / 4096); ascii_of_N (128 + (cp / 64) mod 64);
     ascii_of_N (128 + cp mod 64)]%N
  else
    [ascii_of_N (240 + cp / 262144); ascii_of_N (128 + (cp / 4096) mod 64);
     ascii_of_N (128 + (cp / 64) mod 64); ascii_of_N (128 + cp mod 64)]%N.

Definition dquote : ascii := ascii_of_N 34.
Definition backslash : ascii := ascii_of_N 92.

Definition hex_value (c : ascii) : option N :=
  let n := N_of_ascii c in
  if (48 <=? n)%N && (n <=? 57)%N then Some (n - 48)%N
  else if (65 <=? n)%N && (n <=? 70)%N then Some (n - 55)%N
  else if (97 <=? n)%N && (n <=? 102)%N then Some (n - 87)%N
  else None.

Definition is_digit (c : ascii) : bool :=
  let n := N_of_ascii c in (48 <=? n)%N && (n <=? 57)%N.

Definition is_json_ws (c : ascii) : bool :=
  let n := N_of_ascii c in
  (n =? 32)%N || (n =? 9)%N || (n =? 10)%N || (n =? 13)%N.

Definition is_high_surrogate (cp : N) : bool := (55296 <=? cp)%N && (cp <=? 56319)%N.
Definition is_low_surrogate (cp : N) : bool := (56320 <=? cp)%N && (cp <=? 57343)%N.

Definition string_of_rev (acc : list ascii) : string :=
  string_of_list_ascii (rev acc).

(** The value of a decimal integer literal, [int(numstr)]. *)
Fixpoint digits_value (s : list ascii) (acc : Z) : Z :=
  match s with
  | [] => acc
  | c :: s' => digits_value s' (10 * acc + Z.of_N (N_of_ascii c - 48))
  end.

Definition int_of_literal (lit : list ascii) : Z :=
  match lit with
  | "-"%char :: ds => - digits_value ds 0
  | ds => digits_value ds 0
  end.

(** The tokens of a document; [TBad] stands where the text has no
    token, and ends the scan. *)
Inductive jtoken : Type :=
| TLBrace | TRBrace | TLBrack | TRBrack | TComma | TColon
| TAtom (v : pyval)
| TBad.

(** Where the scanner is inside a number literal: an optional minus,
    an integer part without a leading zero, an optional fraction and an
    optional exponent. *)
Inductive numstate : Set :=
| NMinus | NZero | NInt | NDot | NFrac | NExp | NExpSign | NExpDigits.

Inductive lexmode : Type :=
| MDefault
| MWord (rest : list ascii) (v : pyval)
| MStr (acc : list ascii) (hi : option N)
| MEsc (acc : list ascii) (hi : option N)
| MHex (acc : list ascii) (hi : option N) (k : nat) (v : N)
| MNum (lit : list ascii) (st : numstate).

(** A pending high surrogate that found no low surrogate to pair with
    stays in the string as it is. *)
Definition flush (hi : option N) (acc : list ascii) : list ascii :=
  match hi with
  | Some h => rev (utf8_encode h) ++ acc
  | None => acc
  end.

(** First character of a token. *)
Definition lex_start (c : ascii) : option (lexmode * list jtoken) :=
  if is_json_ws c then Some (MDefault, [])
  else if Ascii.eqb c "{" then Some (MDefault, [TLBrace])
  else if Ascii.eqb c "}" then Some (MDefault, [TRBrace])
  else if Ascii.eqb c "[" then Some (MDefault, [TLBrack])
  else if Ascii.eqb c "]" then Some (MDefault, [TRBrack])
  else if Ascii.eqb c "," then Some (MDefault, [TComma])
  else if Ascii.eqb c ":" then Some (MDefault, [TColon])
  else if Ascii.eqb c dquote then Some (MStr [] None, [])
  else if Ascii.eqb c "n" then Some (MWord (list_ascii_of_string "ull") PNone, [])
  else if Ascii.eqb c "t" then Some (MWord (list_ascii_of_string "rue") (PBool true), [])
  else if Ascii.eqb c "f" then Some (MWord (list_ascii_of_string "alse") (PBool false), [])
  else if Ascii.eqb c "N" then Some (MWord (list_ascii_of_string "aN") (PFloat "NaN"), [])
  else if Ascii.eqb c "I" then
    Some (MWord (list_ascii_of_string "nfinity") (PFloat "Infinity"), [])
  else if Ascii.eqb c "-" then Some (MNum [c] NMinus, [])
  else if Ascii.eqb c "0" then Some (MNum [c] NZero, [])
  else if is_digit c then Some (MNum [c] NInt, [])
  else None.

(** The token of a number literal that ends here, when it may end here. *)
Definition num_finish (lit : list ascii) (st : numstate) : option jtoken :=
  match st with
  | NZero | NInt => Some (TAtom (PInt (int_of_literal (rev lit))))
  | NFrac | NExpDigits => Some (TAtom (PFloat (string_of_rev lit)))
  | NMinus | NDot | NExp | NExpSign => None
  end.

(** One more character of a number literal, when it continues it. *)
Definition num_step (st : numstate) (c : ascii) : option numstate :=
  match st with
  | NMinus =>
      if Ascii.eqb c "0" then Some NZero
      else if is_digit c then Some NInt else None
  | NZero =>
      if Ascii.eqb c "." then Some NDot
      else if Ascii.eqb c "e" || Ascii.eqb c "E" then Some NExp else None
  | NInt =>
      if is_digit c then Some NInt
      else if Ascii.eqb c "." then Some NDot
      else if Ascii.eqb c "e" || Ascii.eqb c "E" then Some NExp else None
  | NDot => if is_digit c then Some NFrac else None
  | NFrac =>
      if is_digit c then Some NFrac
      else if Ascii.eqb c "e" || Ascii.eqb c "E" then Some NExp else None
  | NExp =>
      if Ascii.eqb c "+" || Ascii.eqb c "-" then Some NExpSign
      else if is_digit c then Some NExpDigits else None
  | NExpSign => if is_digit c then Some NExpDigits else None
  | NExpDigits => if is_digit c then Some NExpDigits else None
  end.

(** The character an escape sequence stands for. *)
Definition escape_char (c : ascii) : option ascii :=
  if Ascii.eqb c dquote then Some dquote
  else if Ascii.eqb c backslash then Some backslash
  else if Ascii.eqb c "/" then Some "/"%char
  else if Ascii.eqb c "b" then Some (ascii_of_N 8)
  else if Ascii.eqb c "f" then Some (ascii_of_N 12)
  else if Ascii.eqb c "n" then Some (ascii_of_N 10)
  else if Ascii.eqb c "r" then Some (ascii_of_N 13)
  else if Ascii.eqb c "t" then Some (ascii_of_N 9)
  else None.

(** A completed [\uXXXX] escape with value [v]: a low surrogate joins a
    pending high one, a high surrogate waits for the next escape. *)
Definition lex_unicode (acc : list ascii) (hi : option N) (v : N) : lexmode :=
  match hi with
  | Some h =>
      if is_low_surrogate v
      then MStr (rev (utf8_encode (65536 + ((h - 55296) * 1024 + (v - 56320)))%N) ++ acc) None
      else if is_high_surrogate v then MStr (flush hi acc) (Some v)
      else MStr (rev (utf8_encode v) ++ flush hi acc) None
  | None =>
      if is_high_surrogate v then MStr acc (Some v)
      else MStr (rev (utf8_encode v) ++ acc) None
  end.

(** One character of input: the next mode and the tokens completed.
    [None] is a scanning error. *)
Definition lex_step (m : lexmode) (c : ascii) : option (lexmode * list jtoken) :=
  match m with
  | MDefault => lex_start c
  | MWord [] v =>
      match lex_start c with
      | Some (m', ts) => Some (m', TAtom v :: ts)
      | None => None
      end
  | MWord (e :: rest) v => if Ascii.eqb c e then Some (MWord rest v, []) else None
  | MStr acc hi =>
      if Ascii.eqb c dquote then Some (MDefault, [TAtom (PStr (string_of_rev (flush hi acc)))])
      else if Ascii.eqb c backslash then Some (MEsc acc hi, [])
      else if (N_of_ascii c <? 32)%N then None
      else Some (MStr (c :: flush hi acc) None, [])
  | MEsc acc hi =>
      if Ascii.eqb c "u" then Some (MHex acc hi 0 0%N, [])
      else match escape_char c with
           | Some e => Some (MStr (e :: flush hi acc) None, [])
           | None => None
           end
  | MHex acc hi k v =>
      match hex_value c with
      | Some d =>
          let v' := (16 * v + d)%N in
          if Nat.eqb k 3 then Some (lex_unicode acc hi v', [])
          else Some (MHex acc hi (S k) v', [])
      | None => None
      end
  | MNum lit st =>
      if Ascii.eqb c "I" && match st with NMinus => true | _ => false end
      then Some (MWord (list_ascii_of_string "nfinity") (PFloat "-Infinity"), [])
      else
        match num_step st c with
        | Some st' => Some (MNum (c :: lit) st', [])
        | None =>
            match num_finish lit st, lex_start c with
            | Some t, Some (m', ts) => Some (m', t :: ts)
            | _, _ => None
            end
        end
  end.

(** End of input: the token still open, when the input may end there. *)
Definition lex_end (m : lexmode) : option (list jtoken) :=
  match m with
  | MDefault => Some []
  | MWord [] v => Some [TAtom v]
  | MNum lit st =>
      match num_finish lit st with Some t => Some [t] | None => None end
  | _ => None
  end.

(** The number that stands before the place where a literal breaks
    off: the scanner takes the longest prefix that is a number, so
    [12.] and [12e] are the integer 12 and [1.5e+] is 1.5 (followed by
    text that is no token). *)
Definition prefix_token (lit : list ascii) : jtoken :=
  if existsb (Ascii.eqb ".") lit then TAtom (PFloat (string_of_rev lit))
  else TAtom (PInt (int_of_literal (rev lit))).

Definition num_prefix (lit : list ascii) (st : numstate) : option jtoken :=
  match st with
  | NMinus => None
  | NZero | NInt | NFrac | NExpDigits => num_finish lit st
  | NDot | NExp => Some (prefix_token (tl lit))
  | NExpSign => Some (prefix_token (tl (tl lit)))
  end.

(** The token that is complete where the scan breaks off. *)
Definition lex_break (m : lexmode) : list jtoken :=
  match m with
  | MWord [] v => [TAtom v]
  | MNum lit st => match num_prefix lit st with Some t => [t] | None => [] end
  | _ => []
  end.

(** The tokens of a text, in order; where the text has no token the
    scan ends with [TBad], after the token that was complete there. *)
Fixpoint json_lex (m : lexmode) (s : string) : list jtoken :=
  match s with
  | EmptyString =>
      match lex_end m with
      | Some ts => ts
      | None => lex_break m ++ [TBad]
      end
  | String c rest =>
      match lex_step m c with
      | Some (m', ts) => ts ++ json_lex m' rest
      | None => lex_break m ++ [TBad]
      end
  end.

(** A container still open: an array with the elements read so far
    (latest first), or an object with its members so far and the key
    that awaits its value. *)
Inductive frame : Type :=
| FArr (acc : list pyval)
| FObj (acc : pydict) (key : option string).

(** What the grammar allows next. *)
Inductive expect : Type :=
| EVal             (* a value *)
| EValOrClose      (* just after an opening bracket *)
| EKeyOrClose      (* just after an opening brace *)
| EKey             (* after a comma inside an object *)
| EColon
| ECommaOrClose
| EEnd (v : pyval) (* the document is complete *).

(** A value is complete: it goes into the enclosing container, or is
    the document. *)
Definition push_value (v : pyval) (stk : list frame) : option (list frame * expect) :=
  match stk with
  | [] => Some ([], EEnd v)
  | FArr acc :: stk' => Some (FArr (v :: acc) :: stk', ECommaOrClose)
  | FObj d (Some k) :: stk' => Some (FObj (dict_set k v d) None :: stk', ECommaOrClose)
  | FObj _ None :: _ => None
  end.

Definition parse_step (stk : list frame) (e : expect) (t : jtoken)
    : option (list frame * expect) :=
  match e, t with
  | (EVal | EValOrClose), TAtom v => push_value v stk
  | (EVal | EValOrClose), TLBrack => Some (FArr [] :: stk, EValOrClose)
  | (EVal | EValOrClose), TLBrace => Some (FObj [] None :: stk, EKeyOrClose)
  | EValOrClose, TRBrack =>
      match stk with
      | FArr _ :: stk' => push_value (PList []) stk'
      | _ => None
      end
  | (EKeyOrClose | EKey), TAtom (PStr k) =>
      match stk with
      | FObj d _ :: stk' => Some (FObj d (Some k) :: stk', EColon)
      | _ => None
      end
  | EKeyOrClose, TRBrace =>
      match stk with
      | FObj d _ :: stk' => push_value (PDict d) stk'
      | _ => None
      end
  | EColon, TColon => Some (stk, EVal)
  | ECommaOrClose, TComma =>
      match stk with
      | FArr _ :: _ => Some (stk, EVal)
      | FObj _ _ :: _ => Some (stk, EKey)
      | [] => None
      end
  | ECommaOrClose, TRBrack =>
      match stk with
      | FArr acc :: stk' => push_value (PList (rev acc)) stk'
      | _ => None
      end
  | ECommaOrClose, TRBrace =>
      match stk with
      | FObj d _ :: stk' => push_value (PDict d) stk'
      | _ => None
      end
  | _, _ => None
  end.

(** An integer literal of more than 4300 digits.  A JSON integer has
    no leading zero, so the digits of the literal are those of its
    value. *)
Definition over_limit (t : jtoken) : bool :=
  match t with
  | TAtom (PInt z) => too_long z
  | _ => false
  end.

(** The scanner takes the tokens in order and stops at the first that
    the grammar does not allow ([JSONDecodeError]); an integer is
    converted when it is taken as a value, which fails with a plain
    [ValueError] for a literal of more than 4300 digits.  A document
    with more than [MAX_DEPTH] containers open at once is not
    interpreted. *)
Fixpoint json_parse (stk : list frame) (e : expect) (ts : list jtoken) : res pyval :=
  match ts with
  | [] => match e with EEnd v => Ok v | _ => Raise JSONDecodeError end
  | t :: ts' =>
      match parse_step stk e t with
      | Some (stk', e') =>
          if over_limit t then Raise ValueError
          else if (MAX_DEPTH <? List.length stk')%nat then Unmodelled
          else json_parse stk' e' ts'
      | None => Raise JSONDecodeError
      end
  end.

(** [json.loads(s)] for a [str]: the document, [JSONDecodeError] at the
    first place where the text is not a document, or [ValueError] at an
    integer of more than 4300 digits that stands before that place. *)
Definition json_loads_str (s : string) : res pyval :=
  json_parse [] EVal (json_lex MDefault s).

(** [json.loads(x)] for a value [x] of the program: anything but a
    [str] is a [TypeError]. *)
Definition json_loads (x : pyval) : res pyval :=
  match x with
  | PStr s => json_loads_str s
  | _ => Raise TypeError
  end.

(** Well-formed UTF-8, as [bytes.decode('utf-8', 'surrogatepass')]
    accepts it: shortest forms only, nothing above U+10FFFF, encoded
    surrogates let through. *)
Fixpoint utf8_valid (bs : list N) : bool :=
  let cont b := (128 <=? b)%N && (b <=? 191)%N in
  match bs with
  | [] => true
  | b0 :: r0 =>
      if (b0 <? 128)%N then utf8_valid r0
      else if (194 <=? b0)%N && (b0 <=? 223)%N then
        match r0 with
        | b1 :: r1 => cont b1 && utf8_valid r1
        | _ => false
        end
      else if (224 <=? b0)%N && (b0 <=? 239)%N then
        match r0 with
        | b1 :: b2 :: r2 =>
            cont b1 && cont b2 && (negb (b0 =? 224)%N || (160 <=? b1)%N)
            && utf8_valid r2
        | _ => false
        end
      else if (240 <=? b0)%N && (b0 <=? 244)%N then
        match r0 with
        | b1 :: b2 :: b3 :: r3 =>
            cont b1 && cont b2 && cont b3
            && (negb (b0 =? 240)%N || (144 <=? b1)%N)
            && (negb (b0 =? 244)%N || (b1 <=? 143)%N)
            && utf8_valid r3
        | _ => false
        end
      else false
  end.

Inductive encoding : Set := Utf8 | Utf8Sig | Utf16 | Utf32.

(** [json.detect_encoding]: byte-order marks first, then the pattern of
    zero bytes at the start. *)
Definition detect_encoding (b : list N) : encoding :=
  match b with
  | 0 :: 0 :: 254 :: 255 :: _ | 255 :: 254 :: 0 :: 0 :: _ => Utf32
  | 254 :: 255 :: _ | 255 :: 254 :: _ => Utf16
  | 239 :: 187 :: 191 :: _ => Utf8Sig
  | [b0; b1] => if (b0 =? 0)%N || (b1 =? 0)%N then Utf16 else Utf8
  | b0 :: b1 :: _ :: _ :: _ =>
      if (b0 =? 0)%N then (if (b1 =? 0)%N then Utf32 else Utf16)
      else if (b1 =? 0)%N then
        match b with
        | _ :: _ :: 0 :: 0 :: _ => Utf32
        | _ => Utf16
        end
      else Utf8
  | _ => Utf8
  end%N.

(** [json.loads(b)] for [bytes]: decode, then parse.  Documents in
    UTF-16 or UTF-32 are not interpreted. *)
Definition json_loads_bytes (b : list byte) : res pyval :=
  let ns := map Byte.to_N b in
  match detect_encoding ns with
  | Utf8 =>
      if utf8_valid ns then json_loads_str (string_of_list_byte b)
      else Raise UnicodeDecodeError
  | Utf8Sig =>
      if utf8_valid ns then json_loads_str (string_of_list_byte (skipn 3 b))
      else Raise UnicodeDecodeError
  | Utf16 | Utf32 => Unmodelled
  end.

(** ** datetime *)

(** The calendar arithmetic of CPython's [datetime] module: proleptic
    Gregorian ordinals, day 1 being 0001-01-01. *)
Definition _is_leap (year : Z) : bool :=
  (year mod 4 =? 0) && (negb (year mod 100 =? 0) || (year mod 400 =? 0)).

Definition _days_before_year (year : Z) : Z :=
  let y := year - 1 in y * 365 + y / 4 - y / 100 + y / 400.

Definition _DAYS_IN_MONTH : list Z :=
  [-1; 31; 28; 31; 30; 31; 30; 31; 31; 30; 31; 30; 31].

Definition _DAYS_BEFORE_MONTH : list Z :=
  [-1; 0; 31; 59; 90; 120; 151; 181; 212; 243; 273; 304; 334].

Definition _days_in_month (year month : Z) : Z :=
  if (month =? 2) && _is_leap year then 29
  else nth (Z.to_nat month) _DAYS_IN_MONTH 0.

Definition _days_before_month (year month : Z) : Z :=
  nth (Z.to_nat month) _DAYS_BEFORE_MONTH 0
  + (if (2 <? month) && _is_leap year then 1 else 0).

Definition _ymd2ord (year month day : Z) : Z :=
  _days_before_year year + _days_before_month year month + day.

Definition _DI400Y : Z := 146097.
Definition _DI100Y : Z := 36524.
Definition _DI4Y : Z := 1461.

Definition _ord2ymd (n : Z) : Z * Z * Z :=
  let n := n - 1 in
  let n400 := n / _DI400Y in
  let n := n mod _DI400Y in
  let year := n400 * 400 + 1 in
  let n100 := n / _DI100Y in
  let n := n mod _DI100Y in
  let n4 := n / _DI4Y in
  let n := n mod _DI4Y in
  let n1 := n / 365 in
  let n := n mod 365 in
  let year := year + n100 * 100 + n4 * 4 + n1 in
  if (n1 =? 4) || (n100 =? 4) then (year - 1, 12, 31)
  else
    let leapyear := (n1 =? 3) && (negb (n4 =? 24) || (n100 =? 3)) in
    let month := Z.shiftr (n + 50) 5 in
    let preceding :=
      nth (Z.to_nat month) _DAYS_BEFORE_MONTH 0
      + (if (2 <? month) && leapyear then 1 else 0) in
    if n <? preceding then
      let month := month - 1 in
      let preceding :=
        preceding - (nth (Z.to_nat month) _DAYS_IN_MONTH 0
                     + (if (month =? 2) && leapyear then 1 else 0)) in
      (year, month, n - preceding + 1)
    else (year, month, n - preceding + 1).

Definition MINORD : Z := 1.
Definition MAXORD : Z := 3652059.       (* 9999-12-31 *)
Definition EPOCH_ORD : Z := 719163.     (* 1970-01-01 *)

(** A [datetime] with whole seconds: the day as an ordinal, the second
    of the day, and the UTC offset in seconds when the value is aware. *)
Record datetime : Set := mkdt {
  dt_ord : Z;
  dt_sec : Z;
  dt_utcoffset : option Z
}.

Definition dt_date (dt : datetime) : Z * Z * Z := _ord2ymd (dt_ord dt).

(** Seconds on the wall clock since 0001-01-01T00:00:00 (day 1). *)
Definition dt_wall (dt : datetime) : Z := (dt_ord dt - 1) * 86400 + dt_sec dt.

Definition digit_char (z : Z) : ascii := ascii_of_N (48 + Z.to_N z).

(** [%02d] and [%04d] of a number that is not negative. *)
Definition pad2 (z : Z) : string :=
  if z <? 10 then String "0" (str_of_Z z) else str_of_Z z.

Definition pad4 (z : Z) : string :=
  if z <? 10 then "000" +++ str_of_Z z
  else if z <? 100 then "00" +++ str_of_Z z
  else if z <? 1000 then String "0" (str_of_Z z)
  else str_of_Z z.

Definition fmt_ymd (d : Z * Z * Z) : string :=
  let '(y, m, dd) := d in pad4 y +++ "-" +++ pad2 m +++ "-" +++ pad2 dd.

Definition fmt_hms (sec : Z) : string :=
  pad2 (sec / 3600) +++ ":" +++ pad2 (sec mod 3600 / 60) +++ ":" +++ pad2 (sec mod 60).

(** [%z]: sign, hours and minutes of the offset (and seconds when there
    are any); empty for a naive value. *)
Definition fmt_z (off : option Z) : string :=
  match off with
  | None => EmptyString
  | Some o =>
      let a := Z.abs o in
      (if o <? 0 then "-" else "+") +++ pad2 (a / 3600) +++ pad2 (a mod 3600 / 60)
      +++ (if a mod 60 =? 0 then EmptyString else pad2 (a mod 60))
  end.

(** [dt.isoformat()]. *)
Definition isoformat (dt : datetime) : string :=
  fmt_ymd (dt_date dt) +++ "T" +++ fmt_hms (dt_sec dt)
  +++ match dt_utcoffset dt with
     | None => EmptyString
     | Some o =>
         let a := Z.abs o in
         (if o <? 0 then "-" else "+") +++ pad2 (a / 3600) +++ ":" +++ pad2 (a mod 3600 / 60)
         +++ (if a mod 60 =? 0 then EmptyString else ":" +++ pad2 (a mod 60))
     end.

(** [dt.strftime(...)] goes through the platform's [strftime], whose
    [%Y] differs between platforms for years below 1000. *)
Definition strftime_ymd (dt : datetime) : res string :=
  let '(y, m, d) := dt_date dt in
  if y <? 1000 then Unmodelled else Ok (fmt_ymd (y, m, d)).

(** A number that Python takes as an integer: an [int], or a [bool]
    (which is an [int]); a float is not interpreted. *)
Definition as_int (v : pyval) : res Z :=
  match v with
  | PInt z => Ok z
  | PBool b => Ok (if b then 1 else 0)
  | PFloat _ => Unmodelled
  | _ => Raise TypeError
  end.

Definition digit_val (c : ascii) : Z := Z.of_N (N_of_ascii c) - 48.

Definition in_range (lo hi c : ascii) : bool :=
  (N_of_ascii lo <=? N_of_ascii c)%N && (N_of_ascii c <=? N_of_ascii hi)%N.

(** [datetime(year, month, day, ...)]: the constructor checks its fields. *)
Definition make_datetime (y m d sec : Z) : res datetime :=
  if (1 <=? y) && (y <=? 9999) && (1 <=? m) && (m <=? 12)
     && (1 <=? d) && (d <=? _days_in_month y m)
  then Ok (mkdt (_ymd2ord y m d) sec None)
  else Raise ValueError.

(** The directive [%m]: [1[0-2]|0[1-9]|[1-9]], followed by the rest. *)
Definition parse_month (r : list ascii) : option (Z * list ascii) :=
  match r with
  | c1 :: c2 :: r' =>
      if Ascii.eqb c1 "1" && in_range "0" "2" c2 then Some (10 + digit_val c2, r')
      else if Ascii.eqb c1 "0" && in_range "1" "9" c2 then Some (digit_val c2, r')
      else if in_range "1" "9" c1 then Some (digit_val c1, c2 :: r')
      else None
  | [c1] => if in_range "1" "9" c1 then Some (digit_val c1, []) else None
  | [] => None
  end.

(** The directive [%d]: [3[0-1]|[1-2]\d|0[1-9]|[1-9]| [1-9]]. *)
Definition parse_day (r : list ascii) : option (Z * list ascii) :=
  match r with
  | c1 :: c2 :: r' =>
      if Ascii.eqb c1 "3" && in_range "0" "1" c2 then Some (30 + digit_val c2, r')
      else if in_range "1" "2" c1 && is_digit c2 then
        Some (10 * digit_val c1 + digit_val c2, r')
      else if Ascii.eqb c1 "0" && in_range "1" "9" c2 then Some (digit_val c2, r')
      else if in_range "1" "9" c1 then Some (digit_val c1, c2 :: r')
      else if Ascii.eqb c1 " " && in_range "1" "9" c2 then Some (digit_val c2, r')
      else None
  | [c1] => if in_range "1" "9" c1 then Some (digit_val c1, []) else None
  | [] => None
  end.

(** [datetime.strptime(s, "%Y-%m-%d")].  The digit class of the regular
    expression also takes digits outside ASCII; a string with a byte
    outside ASCII is not interpreted. *)
Definition strptime_ymd (v : pyval) : res datetime :=
  match v with
  | PStr s =>
      if negb (is_ascii s) then Unmodelled
      else
        match list_ascii_of_string s with
        | y1 :: y2 :: y3 :: y4 :: "-"%char :: r =>
            if is_digit y1 && is_digit y2 && is_digit y3 && is_digit y4 then
              match parse_month r with
              | Some (m, "-"%char :: r') =>
                  match parse_day r' with
                  | Some (d, []) =>
                      make_datetime
                        (1000 * digit_val y1 + 100 * digit_val y2
                         + 10 * digit_val y3 + digit_val y4) m d 0
                  | _ => Raise ValueError
                  end
              | _ => Raise ValueError
              end
            else Raise ValueError
        | _ => Raise ValueError
        end
  | _ => Raise TypeError
  end.

(** [datetime.fromisoformat(s)] on the form that [isoformat] writes for
    a naive value with whole seconds, [YYYY-MM-DDTHH:MM:SS].  Which other
    forms are accepted depends on the interpreter's version; they are
    not interpreted. *)
Definition fromisoformat (v : pyval) : res datetime :=
  match v with
  | PStr s =>
      match list_ascii_of_string s with
      | [y1; y2; y3; y4; "-"%char; m1; m2; "-"%char; d1; d2; "T"%char;
         h1; h2; ":"%char; n1; n2; ":"%char; s1; s2] =>
          if forallb is_digit [y1; y2; y3; y4; m1; m2; d1; d2; h1; h2; n1; n2; s1; s2]
          then
            let two a b := 10 * digit_val a + digit_val b in
            let h := two h1 h2 in
            let n := two n1 n2 in
            let sec := two s1 s2 in
            if h =? 24 then Unmodelled
            else if (h <? 24) && (n <? 60) && (sec <? 60) then
              make_datetime (100 * two y1 y2 + two y3 y4) (two m1 m2) (two d1 d2)
                            (3600 * h + 60 * n + sec)
            else Raise ValueError
          else Unmodelled
      | _ => Unmodelled
      end
  | _ => Raise TypeError
  end.

(** [timezone(timedelta(hours=h))]: the UTC offset in seconds.  The
    offset must lie strictly between -24 and 24 hours. *)
Definition timezone_hours (h : Z) : res Z :=
  if (Z.abs (h / 24) >? 999999999) then Raise OverflowError
  else if (-24 <? h) && (h <? 24) then Ok (h * 3600)
  else Raise ValueError.

(** [dt + timedelta(minutes=m)]: arithmetic on the wall clock; the
    offset stays. *)
Definition add_minutes (dt : datetime) (m : Z) : res datetime :=
  let s := dt_sec dt + 60 * m in
  let ord := dt_ord dt + s / 86400 in
  if (MINORD <=? ord) && (ord <=? MAXORD)
  then Ok (mkdt ord (s mod 86400) (dt_utcoffset dt))
  else Raise OverflowError.

(** [dt.replace(tzinfo=tz)]. *)
Definition replace_tzinfo (dt : datetime) (off : Z) : datetime :=
  mkdt (dt_ord dt) (dt_sec dt) (Some off).

Section LocalTime.

(** The platform's local time zone: the UTC offset, in seconds, in
    force at an instant given in seconds since the epoch. *)
Variable local_offset : Z -> Z.

(** [datetime.fromtimestamp(t)]: the naive local time of an instant.
    Outside the years 1..9999 it raises ([OverflowError] instead, once
    the value leaves the platform's [time_t]). *)
Definition fromtimestamp (t : pyval) : res datetime :=
  t <- as_int t ;;
  let local := t + local_offset t in
  let ord := EPOCH_ORD + local / 86400 in
  if (MINORD <=? ord) && (ord <=? MAXORD)
  then Ok (mkdt ord (local mod 86400) None)
  else Raise ValueError.

End LocalTime.

(* ================================================================== *)
(** * Part III. Decoders ([zepp_export/decoders.py])                   *)
(* ================================================================== *)

(** [decode_summary(raw_b64)]. *)
Definition decode_summary (raw_b64 : string) : res pyval :=
  try_except
    (decoded_bytes <- b64decode raw_b64 ;;
     json_loads_bytes decoded_bytes)
    [BinasciiError; JSONDecodeError; UnicodeDecodeError]
    (fun _ => Raise ZeppDecodeError).

(** The dict appended for one valid reading. *)
Definition hr_reading (minute bpm : Z) : pyval :=
  PDict [("minute", PInt minute);
         ("time", PStr (pad2 (minute / 60) +++ ":" +++ pad2 (minute mod 60)));
         ("bpm", PInt bpm)].

(** The loop [for minute, bpm in enumerate(hr_bytes)]. *)
Fixpoint hr_loop (hr_bytes : list byte) (minute : Z) (readings : list pyval)
    : list pyval :=
  match hr_bytes with
  | [] => readings
  | b :: rest =>
      let bpm := Z.of_N (Byte.to_N b) in
      hr_loop rest (minute + 1)
        (if (0 <? bpm) && (bpm <? 254)
         then readings ++ [hr_reading minute bpm]
         else readings)
  end.

(** [decode_heart_rate(raw_b64)]. *)
Definition decode_heart_rate (raw_b64 : string) : res (list pyval) :=
  hr_bytes <- try_except (b64decode raw_b64) [BinasciiError]
                (fun _ => Raise ZeppDecodeError) ;;
  Ok (hr_loop hr_bytes 0 []).

(** [decode_heart_rate_raw(raw_b64)]. *)
Definition decode_heart_rate_raw (raw_b64 : string) : res (list pyval) :=
  try_except
    (hr_bytes <- b64decode raw_b64 ;;
     Ok (map (fun b => PInt (Z.of_N (Byte.to_N b))) hr_bytes))
    [BinasciiError]
    (fun _ => Raise ZeppDecodeError).

(** [decode_stress_data(data_string)]. *)
Definition decode_stress_data (data_string : pyval) : res pyval :=
  try_except (json_loads data_string) [JSONDecodeError; TypeError]
    (fun _ => Raise ZeppDecodeError).

(* ================================================================== *)
(** * Part IV. Normalizer ([zepp_export/client.py])                    *)
(* ================================================================== *)

(** A table from integer codes to names, as [SLEEP_STAGES] and
    [ACTIVITY_MODES] are. *)
Definition code_table := list (Z * string).

Definition SLEEP_STAGES : code_table :=
  [(4, "light"); (5, "deep"); (7, "awake"); (8, "rem")].

Definition ACTIVITY_MODES : code_table :=
  [(1, "slow_walking"); (3, "fast_walking"); (7, "running"); (76, "light_activity")].

Fixpoint table_lookup (t : code_table) (z : Z) : option string :=
  match t with
  | [] => None
  | (k, name) :: t' => if z =? k then Some name else table_lookup t' z
  end.

(** [f"unknown_{mode}"]: an int is formatted as [str] writes it. *)
Definition unknown_name (mode : pyval) : res string :=
  match mode with
  | PInt z => text <- str_int z ;; Ok ("unknown_" +++ text)
  | PBool b => Ok ("unknown_" +++ (if b then "True" else "False"))
  | PNone => Ok "unknown_None"
  | PStr s => Ok ("unknown_" +++ s)
  | PFloat _ => Unmodelled
  | PList _ | PDict _ => Unmodelled
  end.

(** [TABLE.get(mode, f"unknown_{mode}")].  Both arguments are evaluated
    first; a list or a dict is formatted by [repr] and cannot be
    hashed. *)
Definition mode_name (t : code_table) (mode : pyval) : res pyval :=
  match mode with
  | PList _ | PDict _ =>
      if printable MAX_DEPTH mode then Raise TypeError else Unmodelled
  | _ =>
      default <- unknown_name mode ;;
      match mode with
      | PInt z =>
          Ok (PStr (match table_lookup t z with Some n => n | None => default end))
      | PBool b =>
          Ok (PStr (match table_lookup t (if b then 1 else 0) with
                    | Some n => n | None => default end))
      | _ => Ok (PStr default)
      end
  end.

Definition is_number (v : pyval) : bool :=
  match v with
  | PInt _ | PBool _ | PFloat _ => true
  | _ => false
  end.

(** [a - b]: defined between numbers. *)
Definition py_sub (a b : pyval) : res pyval :=
  if is_number a && is_number b
  then x <- as_int a ;; y <- as_int b ;; Ok (PInt (x - y))
  else Raise TypeError.

(** One element of [stages] / [nap_stages]. *)
Definition sleep_stage (s : pyval) : res pyval :=
  start <- py_item s "start" ;;
  stop <- py_item s "stop" ;;
  duration <- py_sub stop start ;;
  mode <- py_item s "mode" ;;
  stage <- mode_name SLEEP_STAGES mode ;;
  Ok (PDict [("start_minute", start); ("end_minute", stop);
             ("duration_minutes", duration); ("stage", stage)]).

(** The loop that builds [stages] (from the key [stage]) and
    [nap_stages] (from [odd_stage]). *)
Definition stage_list (best_sleep : pyval) (key : string) : res (list pyval) :=
  raw <- py_get best_sleep key (PList []) ;;
  raw <- py_iter raw ;;
  mapM sleep_stage raw.

(** [x == y] for a string [y]. *)
Definition py_eq_str (x : pyval) (y : string) : bool :=
  match x with PStr s => String.eqb s y | _ => false end.

(** [x != 1]. *)
Definition py_ne_1 (x : pyval) : res bool :=
  match x with
  | PInt z => Ok (negb (z =? 1))
  | PBool b => Ok (negb b)
  | PFloat _ => Unmodelled
  | _ => Ok true
  end.

(** The three decoding steps of the loop of [_fetch_band_data], each
    adding its keys to the [result] dict of the day. *)
Definition fetch_summary (day : pyval) (result : pydict) : res pydict :=
  has_summary <- py_in "summary" day ;;
  if has_summary then
    summary <- py_item day "summary" ;;
    match summary with
    | PStr raw =>
        v <- try_except (decode_summary raw) [ZeppDecodeError]
               (fun _ => Ok PNone) ;;
        Ok (dict_set "summary" v result)
    | _ => Ok result
    end
  else Ok result.

Definition fetch_heart_rate (day : pyval) (result : pydict) : res pydict :=
  has_hr <- py_in "data_hr" day ;;
  if has_hr then
    data_hr <- py_item day "data_hr" ;;
    match data_hr with
    | PStr raw =>
        '(hr, hr_raw) <-
          try_except
            (hr <- decode_heart_rate raw ;;
             hr_raw <- decode_heart_rate_raw raw ;;
             Ok (hr, hr_raw))
            [ZeppDecodeError]
            (fun _ => Ok ([], [])) ;;
        Ok (dict_set "heart_rate_raw" (PList hr_raw)
              (dict_set "heart_rate" (PList hr) result))
    | _ => Ok result
    end
  else Ok result.

Definition fetch_activity (day : pyval) (result : pydict) : res pydict :=
  has_data <- py_in "data" day ;;
  if has_data then
    data <- py_item day "data" ;;
    match data with
    | PStr raw =>
        try_except_all
          (activity_bytes <- b64decode raw ;;
           Ok (dict_set "activity_bytes_length"
                 (PInt (Z.of_nat (List.length activity_bytes))) result))
          (Ok result)
    | _ => Ok result
    end
  else Ok result.

(** The body of the loop of [_fetch_band_data]: one day of the API
    response becomes one result dict. *)
Definition fetch_day (day : pyval) : res pyval :=
  date_time <- py_get day "date_time" PNone ;;
  let result := [("date", date_time)] in
  result <- fetch_summary day result ;;
  result <- fetch_heart_rate day result ;;
  result <- fetch_activity day result ;;
  Ok (PDict result).

(** [_fetch_band_data], from the response [data] of the request on. *)
Definition _fetch_band_data (data : pyval) : res (list pyval) :=
  code <- py_get data "code" PNone ;;
  bad <- py_ne_1 code ;;
  if bad then Raise ZeppAPIError
  else
    items <- py_get data "data" (PList []) ;;
    items <- py_iter items ;;
    mapM fetch_day items.

(** [get_band_data]. *)
Definition get_band_data (data : pyval) (date : string) : res pyval :=
  days <- _fetch_band_data data ;;
  match days with
  | [] => Ok (PDict [("date", PStr date); ("summary", PNone);
                     ("heart_rate", PList []); ("heart_rate_raw", PList [])])
  | day :: _ => Ok day
  end.

(** [get_heart_rate]. *)
Definition get_heart_rate (data : pyval) (date : string) : res pyval :=
  day <- get_band_data data date ;;
  py_get day "heart_rate" (PList []).

Section Sleep.

Variable local_offset : Z -> Z.

(** What the scan of [get_sleep] holds: [best_sleep] and
    [best_source_date], both [None] until a day is taken. *)
Definition best := option (pyval * pyval).

(** What one iteration of the scan does with [day]. *)
Inductive verdict : Type :=
| Skip                               (* [continue] *)
| Accept (slp source_date : pyval)   (* end date is the wake date: take it and [break] *)
| Fallback (slp source_date : pyval) (* the day's own date is the wake date *)
| Pass                               (* neither *).

Definition inspect_day (date : string) (day : pyval) : res verdict :=
  summary <- py_get day "summary" PNone ;;
  has_summary <- truthy summary ;;
  if negb has_summary then Ok Skip
  else
    has_slp <- py_in "slp" summary ;;
    if negb has_slp then Ok Skip
    else
      slp <- py_item summary "slp" ;;
      ed <- py_get slp "ed" PNone ;;
      has_ed <- truthy ed ;;
      if negb has_ed then Ok Skip
      else
        st <- py_get slp "st" PNone ;;
        has_st <- truthy st ;;
        if negb has_st then Ok Skip
        else
          ed <- py_item slp "ed" ;;
          end_dt <- fromtimestamp local_offset ed ;;
          end_date_str <- strftime_ymd end_dt ;;
          if String.eqb end_date_str date then
            source <- py_item day "date" ;;
            Ok (Accept slp source)
          else
            day_date <- py_item day "date" ;;
            if py_eq_str day_date date then Ok (Fallback slp day_date)
            else Ok Pass.

(** The loop [for day in days] of [get_sleep]. *)
Fixpoint scan_days (date : string) (days : list pyval) (b : best) : res best :=
  match days with
  | [] => Ok b
  | day :: rest =>
      v <- inspect_day date day ;;
      match v with
      | Skip | Pass => scan_days date rest b
      | Accept slp source => Ok (Some (slp, source))
      | Fallback slp source =>
          match b with
          | None => scan_days date rest (Some (slp, source))
          | Some _ => scan_days date rest b
          end
      end
  end.

(** [int((end - start).total_seconds() / 60)]: the quotient is taken
    in binary64 and truncated toward zero; over the range of [datetime]
    that is the integer quotient truncated toward zero. *)
Definition duration_minutes (start end_ : datetime) : Z :=
  Z.quot (dt_wall end_ - dt_wall start) 60.

(** The record built from the session that the scan took. *)
Definition sleep_record (date : string) (best_sleep source : pyval) : res pyval :=
  stages <- stage_list best_sleep "stage" ;;
  nap_stages <- stage_list best_sleep "odd_stage" ;;
  rhr <- py_get best_sleep "rhr" PNone ;;
  ss <- py_get best_sleep "ss" PNone ;;
  dp <- py_get best_sleep "dp" PNone ;;
  lt <- py_get best_sleep "lt" PNone ;;
  let result :=
    [("date", PStr date); ("fetched_from", source);
     ("resting_hr", rhr); ("sleep_score", ss);
     ("deep_minutes", dp); ("light_minutes", lt);
     ("stages", PList stages); ("nap_stages", PList nap_stages)] in
  st <- py_get best_sleep "st" PNone ;;
  has_st <- truthy st ;;
  has_both <-
    (if has_st then ed <- py_get best_sleep "ed" PNone ;; truthy ed
     else Ok false) ;;
  if has_both then
    st <- py_item best_sleep "st" ;;
    start <- fromtimestamp local_offset st ;;
    ed <- py_item best_sleep "ed" ;;
    end_ <- fromtimestamp local_offset ed ;;
    Ok (PDict (dict_set "duration_minutes" (PInt (duration_minutes start end_))
              (dict_set "end" (PStr (isoformat end_))
              (dict_set "start" (PStr (isoformat start)) result))))
  else Ok (PDict result).

(** [get_sleep(date)], from the response [data] of the request for the
    two days on.  The wake date is parsed first, and the day before it
    computed, as the request needs them. *)
Definition get_sleep (data : pyval) (date : string) : res pyval :=
  dt <- strptime_ymd (PStr date) ;;
  prev <- add_minutes dt (-1440) ;;
  prev_date <- strftime_ymd prev ;;
  days <- _fetch_band_data data ;;
  b <- scan_days date days None ;;
  match b with
  | None => Ok (PDict [])
  | Some (best_sleep, source) =>
      nonempty <- truthy best_sleep ;;
      if nonempty then sleep_record date best_sleep source
      else Ok (PDict [])
  end.

End Sleep.

(** [get_steps]. *)
Definition steps_stage (s : pyval) : res pyval :=
  start <- py_item s "start" ;;
  stop <- py_item s "stop" ;;
  mode <- py_item s "mode" ;;
  mode <- mode_name ACTIVITY_MODES mode ;;
  step <- py_get s "step" (PInt 0) ;;
  dis <- py_get s "dis" (PInt 0) ;;
  cal <- py_get s "cal" (PInt 0) ;;
  Ok (PDict [("start_minute", start); ("end_minute", stop); ("mode", mode);
             ("steps", step); ("distance_meters", dis); ("calories", cal)]).

Definition get_steps (data : pyval) (date : string) : res pyval :=
  day <- get_band_data data date ;;
  summary <- py_get day "summary" PNone ;;
  has_summary <- truthy summary ;;
  if negb has_summary then Ok (PDict [])
  else
    has_stp <- py_in "stp" summary ;;
    if negb has_stp then Ok (PDict [])
    else
      stp <- py_item summary "stp" ;;
      raw <- py_get stp "stage" (PList []) ;;
      raw <- py_iter raw ;;
      stages <- mapM steps_stage raw ;;
      ttl <- py_get stp "ttl" PNone ;;
      dis <- py_get stp "dis" PNone ;;
      cal <- py_get stp "cal" PNone ;;
      run_dist <- py_get stp "runDist" PNone ;;
      run_cal <- py_get stp "runCal" PNone ;;
      goal <- py_get summary "goal" PNone ;;
      Ok (PDict [("date", PStr date); ("total_steps", ttl);
                 ("distance_meters", dis); ("calories", cal);
                 ("run_distance_meters", run_dist); ("run_calories", run_cal);
                 ("goal", goal); ("stages", PList stages)]).

(** [int(text)] for a literal of decimal digits: more than 4300 of
    them are refused. *)
Definition int_of_digits (negative : bool) (ds : list ascii) : res pyval :=
  if default_max_str_digits <? Z.of_nat (List.length ds) then Raise ValueError
  else Ok (PInt (if negative then - digits_value ds 0 else digits_value ds 0)).

(** [int(v)].  For a [str], the plain decimal form is interpreted
    (Python also takes surrounding blanks, a plus sign, underscores and
    digits outside ASCII, and rejects the rest with [ValueError]). *)
Definition py_int (v : pyval) : res pyval :=
  match v with
  | PInt z => Ok (PInt z)
  | PBool b => Ok (PInt (if b then 1 else 0))
  | PFloat _ => Unmodelled
  | PStr s =>
      match list_ascii_of_string s with
      | "-"%char :: d :: ds =>
          if forallb is_digit (d :: ds) then int_of_digits true (d :: ds)
          else Unmodelled
      | d :: ds =>
          if forallb is_digit (d :: ds) then int_of_digits false (d :: ds)
          else Unmodelled
      | [] => Raise ValueError
      end
  | PNone | PList _ | PDict _ => Raise TypeError
  end.

(** [int(item[k]) if k in item else None]. *)
Definition int_if_present (item : pyval) (k : string) : res pyval :=
  present <- py_in k item ;;
  if present then v <- py_item item k ;; py_int v else Ok PNone.

(** [int(item.get(k, 0))]. *)
Definition int_or_zero (item : pyval) (k : string) : res pyval :=
  v <- py_get item k (PInt 0) ;; py_int v.

(** [s.startswith("[")]. *)
Definition starts_with_bracket (s : string) : bool :=
  match s with
  | String c _ => Ascii.eqb c "["
  | EmptyString => false
  end.

(** The [readings] of an item, from its [data] field. *)
Definition stress_readings (data_str : pyval) : res pyval :=
  match data_str with
  | PStr s =>
      if starts_with_bracket s then
        try_except (decode_stress_data data_str) [ZeppDecodeError]
          (fun _ => Ok (PList []))
      else Ok (PList [])
  | _ => Ok (PList [])
  end.

(** The body of the loop of [get_stress]: one record per item. *)
Definition stress_record (item : pyval) : res pyval :=
  timestamp <- py_get item "timestamp" PNone ;;
  avg <- int_if_present item "avgStress" ;;
  max <- int_if_present item "maxStress" ;;
  min <- int_if_present item "minStress" ;;
  relaxed <- int_or_zero item "relaxProportion" ;;
  normal <- int_or_zero item "normalProportion" ;;
  medium <- int_or_zero item "mediumProportion" ;;
  high <- int_or_zero item "highProportion" ;;
  let record :=
    [("timestamp", timestamp); ("avg_stress", avg); ("max_stress", max);
     ("min_stress", min);
     ("zone_percentages",
      PDict [("relaxed", relaxed); ("normal", normal);
             ("medium", medium); ("high", high)])] in
  data_str <- py_get item "data" (PStr EmptyString) ;;
  readings <- stress_readings data_str ;;
  Ok (PDict (dict_set "readings" readings record)).

(** [get_stress], from the fetched [items] on. *)
Definition get_stress (items : pyval) : res (list pyval) :=
  items <- py_iter items ;;
  mapM stress_record items.

(* ================================================================== *)
(** * Part V. Apple Health export ([zepp_export/export.py])            *)
(* ================================================================== *)

Definition ZEPP_TO_APPLE_SLEEP : list (string * string) :=
  [("light", "HKCategoryValueSleepAnalysisAsleepCore");
   ("deep", "HKCategoryValueSleepAnalysisAsleepDeep");
   ("rem", "HKCategoryValueSleepAnalysisAsleepREM");
   ("awake", "HKCategoryValueSleepAnalysisAwake")].

Fixpoint assoc (k : string) (t : list (string * string)) : option string :=
  match t with
  | [] => None
  | (k', v) :: t' => if String.eqb k k' then Some v else assoc k t'
  end.

(** [ZEPP_TO_APPLE_SLEEP.get(stage)]: [None] for what is not a key; a
    list or a dict cannot be hashed. *)
Definition apple_sleep_value (stage : pyval) : res (option string) :=
  match stage with
  | PStr s => Ok (assoc s ZEPP_TO_APPLE_SLEEP)
  | PList _ | PDict _ => Raise TypeError
  | _ => Ok None
  end.

(** A [Record] element under the root, with the attributes set on it. *)
Record xml_record : Set := mkrec {
  r_type : string;
  r_sourceName : string;
  r_unit : option string;
  r_value : string;
  r_startDate : string;
  r_endDate : string
}.

(** [_apple_date(dt)]: [strftime("%Y-%m-%d %H:%M:%S %z")]. *)
Definition _apple_date (dt : datetime) : res string :=
  ymd <- strftime_ymd dt ;;
  Ok (ymd +++ " " +++ fmt_hms (dt_sec dt) +++ " " +++ fmt_z (dt_utcoffset dt)).

(** [_minute_to_datetime(date_str, minute, tz_offset_hours)]. *)
Definition _minute_to_datetime (date_str minute : pyval) (tz_offset_hours : Z)
    : res datetime :=
  tz <- timezone_hours tz_offset_hours ;;
  base <- strptime_ymd date_str ;;
  let base := replace_tzinfo base tz in
  minute <- as_int minute ;;
  add_minutes base minute.

(** [str(v)], for the values whose text does not depend on [repr]. *)
Definition py_str (v : pyval) : res string :=
  match v with
  | PInt z => str_int z
  | PBool b => Ok (if b then "True" else "False")
  | PNone => Ok "None"
  | PStr s => Ok s
  | PFloat _ | PList _ | PDict _ => Unmodelled
  end.

(** [sorted(d.items())]: by key. *)
Fixpoint insert_item (kv : string * pyval) (l : pydict) : pydict :=
  match l with
  | [] => [kv]
  | kv' :: l' =>
      if String.leb (fst kv) (fst kv') then kv :: l else kv' :: insert_item kv l'
  end.

Definition sorted_items (d : pydict) : pydict :=
  fold_right insert_item [] d.

(** [d.items()] of a dict; other values have no [items]. *)
Definition py_items (v : pyval) : res pydict :=
  match v with
  | PDict d => Ok d
  | _ => Raise AttributeError
  end.

Section AppleHealth.

Variable source_name : string.
Variable tz_offset_hours : Z.

(** The export state: the records under the root, in document order,
    and the counter of the section being written. *)
Definition out := (list xml_record * Z)%type.

(** The record of one heart-rate reading. *)
Definition hr_record (date_str : string) (r : pyval) : res xml_record :=
  minute <- py_item r "minute" ;;
  dt <- _minute_to_datetime (PStr date_str) minute tz_offset_hours ;;
  bpm <- py_item r "bpm" ;;
  value <- py_str bpm ;;
  date <- _apple_date dt ;;
  Ok (mkrec "HKQuantityTypeIdentifierHeartRate" source_name
            (Some "count/min") value date date).

(** The loop [for r in readings] of the heart-rate section. *)
Fixpoint hr_records (date_str : string) (readings : list pyval) (o : out) : res out :=
  match readings with
  | [] => Ok o
  | r :: rest =>
      record <- hr_record date_str r ;;
      hr_records date_str rest (fst o ++ [record], snd o + 1)
  end.

Fixpoint hr_days (days : pydict) (o : out) : res out :=
  match days with
  | [] => Ok o
  | (date_str, readings) :: rest =>
      readings <- py_iter readings ;;
      o <- hr_records date_str readings o ;;
      hr_days rest o
  end.

(** The record of one day of the step section; none for a day without
    steps. *)
Definition steps_record (date_str : string) (steps : pyval) : res (option xml_record) :=
  nonempty <- truthy steps ;;
  skip <-
    (if negb nonempty then Ok true
     else total <- py_get steps "total_steps" PNone ;;
          has_total <- truthy total ;; Ok (negb has_total)) ;;
  if (skip : bool) then Ok None
  else
    day_start <- _minute_to_datetime (PStr date_str) (PInt 0) tz_offset_hours ;;
    day_end <- _minute_to_datetime (PStr date_str) (PInt 1439) tz_offset_hours ;;
    total <- py_item steps "total_steps" ;;
    value <- py_str total ;;
    startDate <- _apple_date day_start ;;
    endDate <- _apple_date day_end ;;
    Ok (Some (mkrec "HKQuantityTypeIdentifierStepCount" source_name
                    (Some "count") value startDate endDate)).

(** The loop of the step section. *)
Fixpoint steps_days (days : pydict) (o : out) : res out :=
  match days with
  | [] => Ok o
  | (date_str, steps) :: rest =>
      record <- steps_record date_str steps ;;
      match record with
      | None => steps_days rest o
      | Some record => steps_days rest (fst o ++ [record], snd o + 1)
      end
  end.

(** The record of one sleep stage; none for a stage whose name has no
    Apple value. *)
Definition stage_record (source_date stage : pyval) : res (option xml_record) :=
  name <- py_item stage "stage" ;;
  apple_value <- apple_sleep_value name ;;
  match apple_value with
  | None => Ok None
  | Some apple_value =>
      if String.eqb apple_value EmptyString then Ok None
      else
        start_minute <- py_item stage "start_minute" ;;
        start_dt <- _minute_to_datetime source_date start_minute tz_offset_hours ;;
        end_minute <- py_item stage "end_minute" ;;
        end_dt <- _minute_to_datetime source_date end_minute tz_offset_hours ;;
        startDate <- _apple_date start_dt ;;
        endDate <- _apple_date end_dt ;;
        Ok (Some (mkrec "HKCategoryTypeIdentifierSleepAnalysis" source_name
                        None apple_value startDate endDate))
  end.

(** The loop [for stage in sleep["stages"]]. *)
Fixpoint stage_records (source_date : pyval) (stages : list pyval) (o : out) : res out :=
  match stages with
  | [] => Ok o
  | stage :: rest =>
      record <- stage_record source_date stage ;;
      match record with
      | None => stage_records source_date rest o
      | Some record => stage_records source_date rest (fst o ++ [record], snd o + 1)
      end
  end.

(** The InBed record of a session that has [start] and [end]; [tz] is
    the offset that the export computed on entry. *)
Definition inbed_record (tz : Z) (sleep : pyval) (o : out) : res out :=
  start <- py_get sleep "start" PNone ;;
  has_start <- truthy start ;;
  has_both <-
    (if has_start then e <- py_get sleep "end" PNone ;; truthy e else Ok false) ;;
  if has_both then
    start <- py_item sleep "start" ;;
    start_dt <- fromisoformat start ;;
    end_ <- py_item sleep "end" ;;
    end_dt <- fromisoformat end_ ;;
    startDate <- _apple_date (replace_tzinfo start_dt tz) ;;
    endDate <- _apple_date (replace_tzinfo end_dt tz) ;;
    let record := mkrec "HKCategoryTypeIdentifierSleepAnalysis" source_name
                        None "HKCategoryValueSleepAnalysisInBed" startDate endDate in
    Ok (fst o ++ [record], snd o + 1)
  else Ok o.

(** The body of the loop of the sleep section: the records of one
    session, filed under the wake date [date_str]. *)
Definition sleep_session (tz : Z) (date_str : string) (sleep : pyval) (o : out)
    : res out :=
  nonempty <- truthy sleep ;;
  skip <-
    (if negb nonempty then Ok true
     else stages <- py_get sleep "stages" PNone ;;
          has_stages <- truthy stages ;; Ok (negb has_stages)) ;;
  if (skip : bool) then Ok o
  else
    source_date <- py_get sleep "fetched_from" (PStr date_str) ;;
    stages <- py_item sleep "stages" ;;
    stages <- py_iter stages ;;
    o <- stage_records source_date stages o ;;
    inbed_record tz sleep o.

Fixpoint sleep_days (tz : Z) (days : pydict) (o : out) : res out :=
  match days with
  | [] => Ok o
  | (date_str, sleep) :: rest =>
      o <- sleep_session tz date_str sleep o ;;
      sleep_days tz rest o
  end.

(** One section of the export: skipped when its argument is falsy. *)
Definition section (loop : pydict -> out -> res out) (data : pyval)
    (records : list xml_record) : res out :=
  present <- truthy data ;;
  if present then
    items <- py_items data ;;
    loop (sorted_items items) (records, 0)
  else Ok (records, 0).

(** What [export_apple_health] hands to the XML writer and returns. *)
Record export : Set := mkexport {
  export_date : string;
  records : list xml_record;
  hr_count : Z;
  steps_count : Z;
  sleep_count : Z
}.

(** [export_apple_health(heart_rate_data, steps_data, sleep_data, ...)]
    up to the element tree; [now] is the clock, in seconds since the
    epoch. *)
Definition export_apple_health (now : Z)
    (heart_rate_data steps_data sleep_data : pyval) : res export :=
  tz <- timezone_hours tz_offset_hours ;;
  now_dt <- (let local := now + tz in
             let ord := EPOCH_ORD + local / 86400 in
             if (MINORD <=? ord) && (ord <=? MAXORD)
             then Ok (mkdt ord (local mod 86400) (Some tz))
             else Raise OverflowError) ;;
  export_date <- _apple_date now_dt ;;
  '(rs, hr_count) <- section hr_days heart_rate_data [] ;;
  '(rs, steps_count) <- section steps_days steps_data rs ;;
  '(rs, sleep_count) <- section (sleep_days tz) sleep_data rs ;;
  Ok (mkexport export_date rs hr_count steps_count sleep_count).

End AppleHealth.

(* ================================================================== *)
(** * Part V, continued. The rest of the client, its callers           *)
(* ================================================================== *)

(** ** Outcomes with [ZeppAuthError] *)

(** The outcome of a method of the client, or of the body of a [try]
    of the server: as [res], with [ZeppAuthError] apart. *)
Inductive tried (A : Type) : Type :=
| TOk (a : A)
| TAuth
| TRaise (e : exn)
| TUnmodelled.

Arguments TOk {A} a.
Arguments TAuth {A}.
Arguments TRaise {A} e.
Arguments TUnmodelled {A}.

Definition tbind {A B : Type} (c : tried A) (f : A -> tried B) : tried B :=
  match c with
  | TOk a => f a
  | TAuth => TAuth
  | TRaise e => TRaise e
  | TUnmodelled => TUnmodelled
  end.

(** A computation that does not raise [ZeppAuthError]. *)
Definition lift {A : Type} (c : res A) : tried A :=
  match c with
  | Ok a => TOk a
  | Raise e => TRaise e
  | Unmodelled => TUnmodelled
  end.

(** ** The event endpoints ([zepp_export/client.py]) *)

(** [_fetch_events_v2], from the response [data] of the request on. *)
Definition _fetch_events_v2 (data : pyval) : res pyval :=
  py_get data "items" (PList []).

(** [_fetch_events_v1], from the response [data] of the request on. *)
Definition _fetch_events_v1 (data : pyval) : res pyval :=
  py_get data "items" (PList []).

(** One element of the [activities] comprehension of [get_training_load]. *)
Definition training_activity (a : pyval) : res pyval :=
  start <- py_get a "startTime" PNone ;;
  end_ <- py_get a "endTime" PNone ;;
  score <- py_get a "currentScore" PNone ;;
  Ok (PDict [("start_minute", start); ("end_minute", end_); ("score", score)]).

(** [{...} if plan else None]. *)
Definition training_plan (plan : pyval) : res pyval :=
  has_plan <- truthy plan ;;
  if has_plan then
    hr_lower <- py_get plan "heartRateLower" PNone ;;
    hr_upper <- py_get plan "heartRateUpper" PNone ;;
    duration <- py_get plan "duration" PNone ;;
    intensity <- py_get plan "intensity" PNone ;;
    Ok (PDict [("hr_lower", hr_lower); ("hr_upper", hr_upper);
               ("duration_minutes", duration); ("intensity", intensity)])
  else Ok PNone.

(** The body of the loop of [get_training_load]. *)
Definition training_record (item : pyval) : res pyval :=
  val <- py_get item "value" (PDict []) ;;
  plan <- py_get val "exercisePlan" (PDict []) ;;
  activities <- py_get val "activities" (PList []) ;;
  timestamp <- py_get item "timestamp" PNone ;;
  exercise_score <- py_get val "exerciseScore" PNone ;;
  total_score <- py_get val "totalScore" PNone ;;
  target_score <- py_get val "targetScore" PNone ;;
  completion_percent <- py_get val "completionPercent" PNone ;;
  recovery_factor <- py_get val "recoveryFactor" PNone ;;
  atl <- py_get val "atl" PNone ;;
  ctl <- py_get val "ctl" PNone ;;
  tsb <- py_get val "tsb" PNone ;;
  exercise_plan <- training_plan plan ;;
  activities <- py_iter activities ;;
  activities <- mapM training_activity activities ;;
  Ok (PDict [("timestamp", timestamp); ("exercise_score", exercise_score);
             ("total_score", total_score); ("target_score", target_score);
             ("completion_percent", completion_percent);
             ("recovery_factor", recovery_factor);
             ("atl", atl); ("ctl", ctl); ("tsb", tsb);
             ("exercise_plan", exercise_plan);
             ("activities", PList activities)]).

(** [get_training_load], from the response [data] of the request on. *)
Definition get_training_load (data : pyval) : res (list pyval) :=
  items <- _fetch_events_v2 data ;;
  items <- py_iter items ;;
  mapM training_record items.

(** The body of the loop of [get_phn]. *)
Definition phn_record (item : pyval) : res pyval :=
  val <- py_get item "value" (PDict []) ;;
  result <- py_get val "result" (PDict []) ;;
  timestamp <- py_get item "timestamp" PNone ;;
  trimp <- py_get result "trimp" PNone ;;
  atl <- py_get result "atl" PNone ;;
  ctl <- py_get result "ctl" PNone ;;
  tsb <- py_get result "tsb" PNone ;;
  Ok (PDict [("timestamp", timestamp); ("trimp", trimp);
             ("atl", atl); ("ctl", ctl); ("tsb", tsb)]).

(** [get_phn], from the response [data] of the request on. *)
Definition get_phn (data : pyval) : res (list pyval) :=
  items <- _fetch_events_v2 data ;;
  items <- py_iter items ;;
  mapM phn_record items.

(** The body of the loop of [get_sport_load]; the key of the daily
    load is spelled as the API spells it. *)
Definition sport_load_record (item : pyval) : res pyval :=
  date <- py_get item "dayId" PNone ;;
  daily_load <- py_get item "currnetDayTrainLoad" PNone ;;
  weekly_load <- py_get item "wtlSum" PNone ;;
  optimal_min <- py_get item "wtlSumOptimalMin" PNone ;;
  optimal_max <- py_get item "wtlSumOptimalMax" PNone ;;
  overreaching <- py_get item "wtlSumOverreaching" PNone ;;
  Ok (PDict [("date", date); ("daily_load", daily_load);
             ("weekly_load", weekly_load); ("optimal_min", optimal_min);
             ("optimal_max", optimal_max); ("overreaching", overreaching)]).

(** [get_sport_load], from the response [data] of the request on. *)
Definition get_sport_load (data : pyval) : res (list pyval) :=
  items <- py_get data "items" (PList []) ;;
  items <- py_iter items ;;
  mapM sport_load_record items.

(** [get_vo2_max], from the response [data] of the request on. *)
Definition get_vo2_max (data : pyval) : res pyval :=
  py_get data "items" (PList []).

(** ** The client ([zepp_export/client.py]) *)

Definition REGIONS : list (string * string) :=
  [("us", "https://api-mifit-us2.zepp.com");
   ("global", "https://api-mifit.huami.com");
   ("eu", "https://api-mifit-de2.zepp.com")].

(** [s.rstrip(ch)] for one character [ch]. *)
Fixpoint rstrip_char (ch : ascii) (s : string) : string :=
  match s with
  | EmptyString => EmptyString
  | String c rest =>
      match rstrip_char ch rest with
      | EmptyString => if Ascii.eqb c ch then EmptyString else String c EmptyString
      | rest' => String c rest'
      end
  end.

(** [not v] for an argument that is a [str] or [None]. *)
Definition not_given (v : option string) : bool :=
  match v with
  | None => true
  | Some s => String.eqb s EmptyString
  end.

(** What [ZeppClient(token, user_id, base_url)] does: it raises
    [ZeppAuthError] or [ValueError], or sets the three attributes. *)
Inductive client_init : Set :=
| InitAuthError
| InitValueError
| InitClient (token user_id base_url : string).

(** [ZeppClient.__init__], up to the headers. *)
Definition ZeppClient_init (token user_id base_url : option string) : client_init :=
  match token with
  | None => InitAuthError
  | Some token =>
      if String.eqb token EmptyString then InitAuthError
      else
        match user_id with
        | None => InitValueError
        | Some user_id =>
            if String.eqb user_id EmptyString then InitValueError
            else
              let url :=
                if not_given base_url
                then match assoc "us" REGIONS with Some u => u | None => EmptyString end
                else match base_url with Some u => u | None => EmptyString end in
              InitClient token user_id (rstrip_char "/" url)
        end
  end.

(** ** Days as query windows ([zepp_export/client.py]) *)

Section QueryWindow.

(** The platform's local time zone, as for [fromtimestamp]. *)
Variable local_offset : Z -> Z.

(** Seconds from the day before 0001-01-01 to the epoch. *)
Definition EPOCH_SECONDS : Z := EPOCH_ORD * 86400.

(** [local(u)] of [datetime.timestamp]: the wall clock that the local
    zone shows at the instant [u], both in seconds counted from the day
    before 0001-01-01.  A wall clock outside the years 1..9999 is a
    [ValueError]. *)
Definition local_seconds (u : Z) : res Z :=
  let t := u - EPOCH_SECONDS in
  let wall := t + local_offset t in
  let ord := EPOCH_ORD + wall / 86400 in
  if (MINORD <=? ord) && (ord <=? MAXORD)
  then Ok (ord * 86400 + wall mod 86400)
  else Raise ValueError.

(** [local_to_seconds] of [datetime.timestamp] for a naive value with
    [fold = 0]: the instant [u] with [local(u) = t], found from the
    offsets in force around [t]; the earlier one of two, and for a wall
    clock that the zone skips the later one of the two candidates. *)
Definition local_to_seconds (dt : datetime) : res Z :=
  let t := dt_ord dt * 86400 + dt_sec dt in
  lt <- local_seconds t ;;
  let a := lt - t in
  let u1 := t - a in
  t1 <- local_seconds u1 ;;
  let second_offset (b : Z) : res Z :=
    let u2 := t - b in
    t2 <- local_seconds u2 ;;
    if t2 =? t then Ok u2
    else if t1 =? t then Ok u1
    else Ok (Z.max u1 u2) in
  if t1 =? t then
    let u2 := u1 - 86400 in
    lt <- local_seconds u2 ;;
    let b := lt - u2 in
    if a =? b then Ok u1 else second_offset b
  else second_offset (t1 - u1).

(** [dt.timestamp()] of a naive value with whole seconds, a float that
    holds the number of seconds exactly. *)
Definition timestamp (dt : datetime) : res Z :=
  seconds <- local_to_seconds dt ;;
  Ok (seconds - EPOCH_SECONDS).

(** [_date_to_ms(date_str)]; the product is exact for every value of
    [timestamp]. *)
Definition _date_to_ms (date_str : pyval) : res Z :=
  dt <- strptime_ymd date_str ;;
  ts <- timestamp dt ;;
  Ok (ts * 1000).

(** [_end_of_day_ms(date_str)]. *)
Definition _end_of_day_ms (date_str : pyval) : res Z :=
  dt <- strptime_ymd date_str ;;
  ts <- timestamp dt ;;
  Ok (ts * 1000 + 86400000 - 1).

End QueryWindow.

(** ** The methods of the client, with their requests
       ([zepp_export/client.py]) *)

(** What [resp.json()] gives for the body of an answer. *)
Inductive body : Type :=
| Json (data : pyval)   (* the decoded document *)
| NotJson               (* a [ValueError]: the body is no JSON document *)
| Unread                (* anything else, which is not interpreted *).

(** What the HTTP exchange of a request comes to. *)
Inductive exchange : Type :=
| NoAnswer                        (* [requests.request] raises a [RequestException] *)
| Answer (status : Z) (b : body)  (* [resp.status_code] and the body *).

Module ZeppClient.

Section Methods.

(** The platform's local time zone, as for [fromtimestamp]. *)
Variable local_offset : Z -> Z.

(** [self.user_id]. *)
Variable user_id : string.

(** The service: the exchange that a GET of [path] under the base URL
    comes to, with the web headers or those of the iOS app and with the
    query [params]. *)
Variable http : string -> bool -> pydict -> exchange.

(** [_request("GET", path, headers, params=params)]. *)
Definition _request (path : string) (ios_headers : bool) (params : pydict)
    : tried pyval :=
  match http path ios_headers params with
  | NoAnswer => TRaise ZeppAPIError
  | Answer status b =>
      if status =? 401 then TAuth
      else if negb (status =? 200) then TRaise ZeppAPIError
      else
        match b with
        | Json data => TOk data
        | NotJson => TRaise ZeppAPIError
        | Unread => TUnmodelled
        end
  end.

(** The request of [_fetch_band_data(from_date, to_date)]. *)
Definition band_data_request (from_date to_date : string) : tried pyval :=
  _request "/v1/data/band_data.json" false
    [("query_type", PStr "detail"); ("device_type", PStr "android_phone");
     ("userid", PStr user_id);
     ("from_date", PStr from_date); ("to_date", PStr to_date)].

(** [_fetch_band_data(from_date, to_date)]. *)
Definition _fetch_band_data (from_date to_date : string) : tried (list pyval) :=
  tbind (band_data_request from_date to_date) (fun data =>
  lift (_fetch_band_data data)).

(** [get_band_data(date)]. *)
Definition get_band_data (date : string) : tried pyval :=
  tbind (band_data_request date date) (fun data =>
  lift (get_band_data data date)).

(** [get_heart_rate(date)]. *)
Definition get_heart_rate (date : string) : tried pyval :=
  tbind (band_data_request date date) (fun data =>
  lift (get_heart_rate data date)).

(** [get_steps(date)]. *)
Definition get_steps (date : string) : tried pyval :=
  tbind (band_data_request date date) (fun data =>
  lift (get_steps data date)).

(** [get_sleep(date)]: the wake date is parsed and the day before it
    written before the request is made. *)
Definition get_sleep (date : string) : tried pyval :=
  tbind (lift (dt <- strptime_ymd (PStr date) ;;
               prev <- add_minutes dt (-1440) ;;
               strftime_ymd prev)) (fun prev_date =>
  tbind (band_data_request prev_date date) (fun data =>
  lift (get_sleep local_offset data date))).

(** The request of [_fetch_events_v2(event_type, sub_type, from_ms, to_ms)]. *)
Definition events_v2_request (event_type sub_type : string) (from_ms to_ms : Z)
    : tried pyval :=
  _request "/v2/users/me/events" true
    [("eventType", PStr event_type); ("subType", PStr sub_type);
     ("from", PInt from_ms); ("to", PInt to_ms); ("limit", PInt 200)].

(** The request of [_fetch_events_v1(event_type, from_ms, to_ms)], without
    a sub-type. *)
Definition events_v1_request (event_type : string) (from_ms to_ms : Z)
    : tried pyval :=
  _request ("/users/" +++ user_id +++ "/events") true
    [("eventType", PStr event_type);
     ("from", PInt from_ms); ("to", PInt to_ms); ("limit", PInt 200)].

(** [get_stress(from_date, to_date)]. *)
Definition get_stress (from_date to_date : string) : tried (list pyval) :=
  tbind (lift (_date_to_ms local_offset (PStr from_date))) (fun from_ms =>
  tbind (lift (_end_of_day_ms local_offset (PStr to_date))) (fun to_ms =>
  tbind (events_v1_request "all_day_stress" from_ms to_ms) (fun data =>
  lift (items <- _fetch_events_v1 data ;; get_stress items)))).

(** [get_training_load(from_date, to_date)]: the window starts at 0. *)
Definition get_training_load (from_date to_date : string) : tried (list pyval) :=
  tbind (lift (_end_of_day_ms local_offset (PStr to_date))) (fun to_ms =>
  tbind (events_v2_request "exertion" "algo_result" 0 to_ms) (fun data =>
  lift (get_training_load data))).

(** [get_phn(from_date, to_date)]. *)
Definition get_phn (from_date to_date : string) : tried (list pyval) :=
  tbind (lift (_end_of_day_ms local_offset (PStr to_date))) (fun to_ms =>
  tbind (events_v2_request "phn" "daily_analysis" 0 to_ms) (fun data =>
  lift (get_phn data))).

(** The request of the two statistics of the watch. *)
Definition statistics_request (name from_date to_date : string) : tried pyval :=
  _request ("/v2/watch/users/" +++ user_id +++ "/WatchSportStatistics/" +++ name) true
    [("startDay", PStr from_date); ("endDay", PStr to_date);
     ("limit", PInt 900); ("isReverse", PStr "true")].

(** [get_sport_load(from_date, to_date)]. *)
Definition get_sport_load (from_date to_date : string) : tried (list pyval) :=
  tbind (statistics_request "SPORT_LOAD" from_date to_date) (fun data =>
  lift (get_sport_load data)).

(** [get_vo2_max(from_date, to_date)]. *)
Definition get_vo2_max (from_date to_date : string) : tried pyval :=
  tbind (statistics_request "VO2_MAX" from_date to_date) (fun data =>
  lift (get_vo2_max data)).

End Methods.

End ZeppClient.

(** ** Credentials of the command line ([zepp_export/cli.py]) *)

(** [str.isspace] of an ASCII character. *)
Definition py_isspace (c : ascii) : bool :=
  let n := N_of_ascii c in
  ((9 <=? n) && (n <=? 13) || (28 <=? n) && (n <=? 32))%N.

Fixpoint lstrip (s : string) : string :=
  match s with
  | EmptyString => EmptyString
  | String c rest => if py_isspace c then lstrip rest else s
  end.

Fixpoint rstrip (s : string) : string :=
  match s with
  | EmptyString => EmptyString
  | String c rest =>
      match rstrip rest with
      | EmptyString => if py_isspace c then EmptyString else String c EmptyString
      | rest' => String c rest'
      end
  end.

(** [s.strip()] of ASCII text. *)
Definition strip (s : string) : string := rstrip (lstrip s).

(** [line.partition("=")] when there is a ["="] in the line: what
    stands before the first one and what stands after it. *)
Fixpoint partition_eq (s : string) : option (string * string) :=
  match s with
  | EmptyString => None
  | String c rest =>
      if Ascii.eqb c "=" then Some (EmptyString, rest)
      else match partition_eq rest with
           | Some (key, value) => Some (String c key, value)
           | None => None
           end
  end.

(** [not v] for a value that is a [str] or [None]. *)
Definition unset (v : option string) : bool :=
  match v with
  | None => true
  | Some s => String.eqb s EmptyString
  end.

(** [a or b]. *)
Definition py_or (a b : option string) : option string :=
  if unset a then b else a.

(** The key and the value of a line of the config file; none for a
    comment and for a line without ["="]. *)
Definition config_entry (line : string) : option (string * string) :=
  let line := strip line in
  if prefix "#" line then None
  else match partition_eq line with
       | Some (key, value) => Some (strip key, strip value)
       | None => None
       end.

(** The credentials: token, user id and base URL. *)
Definition credentials := (option string * option string * option string)%type.

(** The body of the loop over the lines of the config file. *)
Definition config_line (c : credentials) (line : string) : credentials :=
  let '(token, user_id, base_url) := c in
  match config_entry line with
  | None => c
  | Some (key, value) =>
      if String.eqb key "ZEPP_TOKEN" && unset token then (Some value, user_id, base_url)
      else if String.eqb key "ZEPP_USER_ID" && unset user_id
      then (token, Some value, base_url)
      else if String.eqb key "ZEPP_BASE_URL" && unset base_url
      then (token, user_id, Some value)
      else c
  end.

(** [resolve_credentials()]: [getenv] is the environment once the
    [.env] file is loaded, [config] the lines of the config file when
    there is one.  Lines with characters outside ASCII are not
    interpreted. *)
Definition resolve_credentials (getenv : string -> option string)
    (config : option (list string)) : res credentials :=
  let token := py_or (getenv "ZEPP_TOKEN") (getenv "HUAMI_APP_TOKEN") in
  let user_id := py_or (getenv "ZEPP_USER_ID") (getenv "HUAMI_USER_ID") in
  let base_url := getenv "ZEPP_BASE_URL" in
  if unset token || unset user_id then
    match config with
    | Some lines =>
        if forallb is_ascii lines
        then Ok (fold_left config_line lines (token, user_id, base_url))
        else Unmodelled
    | None => Ok (token, user_id, base_url)
    end
  else Ok (token, user_id, base_url).

(** ** Date ranges of the command line ([zepp_export/cli.py]) *)

(** [(d2 - d1).days]: the difference of two naive values is normalized
    to days and seconds of the day. *)
Definition timedelta_days (d2 d1 : datetime) : Z :=
  (dt_wall d2 - dt_wall d1) / 86400.

(** [count_days(from_date, to_date)]. *)
Definition count_days (from_date to_date : pyval) : res Z :=
  d1 <- strptime_ymd from_date ;;
  d2 <- strptime_ymd to_date ;;
  Ok (timedelta_days d2 d1 + 1).

(** What a generator does when it is consumed: it yields a value and
    goes on, returns, or raises. *)
Inductive gen (A : Type) : Type :=
| GDone
| GYield (a : A) (rest : gen A)
| GRaise (e : exn)
| GUnmodelled.

Arguments GDone {A}.
Arguments GYield {A} a rest.
Arguments GRaise {A} e.
Arguments GUnmodelled {A}.

(** [d <= end] between naive values. *)
Definition dt_le (a b : datetime) : bool := dt_wall a <=? dt_wall b.

(** The loop [while d <= end: yield ...; d += timedelta(days=1)] of
    [iter_dates].  Every turn moves [d] one day on, so the loop makes at
    most [end - d + 1] turns in days; [turns] bounds them from above and
    is never used up (lemma [iter_dates_loop_unfold]). *)
Fixpoint iter_dates_loop (turns : nat) (d end_ : datetime) : gen string :=
  match turns with
  | O => GUnmodelled
  | S turns' =>
      if dt_le d end_ then
        match strftime_ymd d with
        | Ok s =>
            GYield s
              match add_minutes d 1440 with
              | Ok d' => iter_dates_loop turns' d' end_
              | Raise e => GRaise e
              | Unmodelled => GUnmodelled
              end
        | Raise e => GRaise e
        | Unmodelled => GUnmodelled
        end
      else GDone
  end.

(** [iter_dates(from_date, to_date)]. *)
Definition iter_dates (from_date to_date : pyval) : gen string :=
  match strptime_ymd from_date with
  | Ok d =>
      match strptime_ymd to_date with
      | Ok end_ =>
          iter_dates_loop (S (Z.to_nat (dt_ord end_ - dt_ord d + 1))) d end_
      | Raise e => GRaise e
      | Unmodelled => GUnmodelled
      end
  | Raise e => GRaise e
  | Unmodelled => GUnmodelled
  end.

(** ** json.dump *)

(** [py_encode_basestring_ascii]: the escape of a character of ASCII
    text inside a JSON string.  Everything but the printable characters
    is escaped, by a short escape where there is one and by
    [\u00xx] otherwise. *)
Definition hex_digit (n : N) : ascii :=
  if (n <? 10)%N then ascii_of_N (48 + n) else ascii_of_N (87 + n).

Definition json_escape (c : ascii) : string :=
  let n := N_of_ascii c in
  if (n =? 34)%N then String backslash (String dquote EmptyString)
  else if (n =? 92)%N then String backslash (String backslash EmptyString)
  else if (n =? 10)%N then String backslash "n"
  else if (n =? 13)%N then String backslash "r"
  else if (n =? 9)%N then String backslash "t"
  else if (n =? 12)%N then String backslash "f"
  else if (n =? 8)%N then String backslash "b"
  else if (32 <=? n)%N && (n <=? 126)%N then String c EmptyString
  else String backslash
         ("u00" +++ String (hex_digit (n / 16)) (String (hex_digit (n mod 16)) EmptyString)).

Fixpoint json_escape_string (s : string) : string :=
  match s with
  | EmptyString => EmptyString
  | String c rest => json_escape c +++ json_escape_string rest
  end.

(** The JSON text of a [str] of ASCII characters; text with other
    characters is not interpreted. *)
Definition encode_basestring_ascii (s : string) : res string :=
  if is_ascii s
  then Ok (String dquote (json_escape_string s +++ String dquote EmptyString))
  else Unmodelled.

Fixpoint spaces (n : nat) : string :=
  match n with
  | O => EmptyString
  | S n' => String " " (spaces n')
  end.

(** ["\n" + indent * level] for an indent of two spaces. *)
Definition newline_indent (level : nat) : string :=
  String (ascii_of_N 10) (spaces (2 * level)).

(** [JSONEncoder(indent=2).iterencode(o)], joined: containers that are
    not empty get one line per item, at two spaces per level; the items
    are separated by [","] and a key from its value by [": "].  The
    text of a float depends on its value and is not interpreted; an
    int is written as [str] writes it, with its limit; a container
    inside [MAX_DEPTH] others is not interpreted. *)
Fixpoint iterencode (level : nat) (o : pyval) : res string :=
  match o with
  | PNone => Ok "null"
  | PBool true => Ok "true"
  | PBool false => Ok "false"
  | PInt z => str_int z
  | PFloat _ => Unmodelled
  | PStr s => encode_basestring_ascii s
  | PList l =>
      if (MAX_DEPTH <=? level)%nat then Unmodelled
      else
      match l with
      | [] => Ok "[]"
      | first :: rest =>
      text <- iterencode (S level) first ;;
      items <-
        (fix items (l : list pyval) : res string :=
           match l with
           | [] => Ok EmptyString
           | value :: l' =>
               text <- iterencode (S level) value ;;
               more <- items l' ;;
               Ok ("," +++ newline_indent (S level) +++ text +++ more)
           end) rest ;;
      Ok ("[" +++ newline_indent (S level) +++ text +++ items
          +++ newline_indent level +++ "]")
      end
  | PDict d =>
      if (MAX_DEPTH <=? level)%nat then Unmodelled
      else
      match d with
      | [] => Ok "{}"
      | (key, first) :: rest =>
      key <- encode_basestring_ascii key ;;
      text <- iterencode (S level) first ;;
      items <-
        (fix items (d : list (string * pyval)) : res string :=
           match d with
           | [] => Ok EmptyString
           | (key, value) :: d' =>
               key <- encode_basestring_ascii key ;;
               text <- iterencode (S level) value ;;
               more <- items d' ;;
               Ok ("," +++ newline_indent (S level) +++ key +++ ": " +++ text +++ more)
           end) rest ;;
      Ok ("{" +++ newline_indent (S level) +++ key +++ ": " +++ text +++ items
          +++ newline_indent level +++ "}")
      end
  end.

(** ** The cache of the local server ([zepp_export/server.py]) *)

(** [_write_cache(data_type, key, data)]: the text that it writes to
    the file of the entry. *)
Definition _write_cache (data : pyval) : res string := iterencode 0 data.

(** [_read_cache(data_type, key)], from the text of the file of the
    entry when there is one. *)
Definition _read_cache (file : option string) : res pyval :=
  match file with
  | Some text => json_loads_str text
  | None => Ok PNone
  end.

(** ** The cached routes of the local server ([zepp_export/server.py]) *)

(** [_is_today(date_str)]: [now] is the day that the clock shows, as
    [strftime("%Y-%m-%d")] writes it. *)
Definition _is_today (now date_str : string) : bool := String.eqb date_str now.

(** What a call of the client gives: [ZeppAuthError], or what the
    getter returns or raises from the response on. *)
Inductive fetched : Type :=
| AuthError
| Fetched (r : res pyval).

(** What a route returns: the JSON of a value, or the error answer
    with status 500 (whose message, the text of the exception, is left
    out). *)
Inductive response : Type :=
| Body (v : pyval)
| Error500.

(** ** The local server ([zepp_export/server.py]) *)

(** [_is_empty(data)]. *)
Definition _is_empty (data : pyval) : bool :=
  match data with
  | PNone => true
  | PList [] => true
  | PDict [] => true
  | _ => false
  end.

(** The routes [api_heart_rate], [api_sleep], [api_steps], [api_stress]
    and [api_phn], which differ in the getter they call: [now1] and
    [now2] are the days that the clock shows at the two calls of
    [_is_today], [file] the text of the cache file of the date when
    there is one, [fetch] what the getter gives when it is called.  The
    result is the answer and the text written to the cache file, when
    one is written. *)
Definition cached_route (now1 now2 date : string) (file : option string)
    (fetch : fetched) : res (response * option string) :=
  cached <- (if negb (_is_today now1 date) then _read_cache file else Ok PNone) ;;
  match cached with
  | PNone =>
      match fetch with
      | AuthError => Ok (Error500, None)
      | Fetched (Raise ZeppAPIError) => Ok (Error500, None)
      | Fetched (Raise e) => Raise e
      | Fetched Unmodelled => Unmodelled
      | Fetched (Ok data) =>
          if negb (_is_empty data) && negb (_is_today now2 date) then
            text <- _write_cache data ;;
            Ok (Body data, Some text)
          else Ok (Body data, None)
      end
  | _ => Ok (Body cached, None)
  end.

(** The numbers of a list of [int]s; a [bool] or a float among them is
    not interpreted ([min] and [max] return the element itself). *)
Fixpoint int_values (l : list pyval) : res (list Z) :=
  match l with
  | [] => Ok []
  | PInt z :: l' => zs <- int_values l' ;; Ok (z :: zs)
  | (PBool _ | PFloat _) :: _ => Unmodelled
  | _ :: _ => Raise TypeError
  end.

Definition list_min (z : Z) (zs : list Z) : Z := fold_left Z.min zs z.
Definition list_max (z : Z) (zs : list Z) : Z := fold_left Z.max zs z.
Definition list_sum (zs : list Z) : Z := fold_left Z.add zs 0.

(** The heart-rate entry of [api_summary]: count, average, minimum and
    maximum of the readings, or [None] without readings. *)
Definition heart_rate_summary (hr : pyval) : res pyval :=
  present <- truthy hr ;;
  if present then
    readings <- py_iter hr ;;
    bpms <- mapM (fun r => py_item r "bpm") readings ;;
    bpms <- int_values bpms ;;
    match bpms with
    | [] => Unmodelled
    | b :: rest =>
        Ok (PDict [("readings", PInt (Z.of_nat (List.length readings)));
                   ("avg", PInt (list_sum bpms / Z.of_nat (List.length bpms)));
                   ("min", PInt (list_min b rest));
                   ("max", PInt (list_max b rest))])
    end
  else Ok PNone.

(** [v if v else None]. *)
Definition value_or_none (v : pyval) : res pyval :=
  present <- truthy v ;;
  Ok (if present then v else PNone).

(** [stress[0]] of a value that counts as true. *)
Definition first_item (v : pyval) : res pyval :=
  match v with
  | PList (x :: _) => Ok x
  | PStr (String c _) =>
      if (N_of_ascii c <? 128)%N then Ok (PStr (String c EmptyString)) else Unmodelled
  | PDict _ => Raise KeyError
  | PInt _ | PBool _ => Raise TypeError
  | _ => Unmodelled
  end.

(** The stress entry of [api_summary]: the aggregates of the first
    record, or [None] without records. *)
Definition stress_summary (stress : pyval) : res pyval :=
  present <- truthy stress ;;
  if present then
    s <- first_item stress ;;
    avg <- py_get s "avg_stress" PNone ;;
    max <- py_get s "max_stress" PNone ;;
    min <- py_get s "min_stress" PNone ;;
    zones <- py_get s "zone_percentages" PNone ;;
    Ok (PDict [("avg", avg); ("max", max); ("min", min); ("zones", zones)])
  else Ok PNone.

(** A call of the client inside the [try] of a route. *)
Definition call (fetch : fetched) : tried pyval :=
  match fetch with
  | AuthError => TAuth
  | Fetched (Ok v) => TOk v
  | Fetched (Raise e) => TRaise e
  | Fetched Unmodelled => TUnmodelled
  end.

(** The [except (ZeppAuthError, ZeppAPIError)] clause of the routes. *)
Definition handled (body : tried (response * option string))
    : res (response * option string) :=
  match body with
  | TOk r => Ok r
  | TAuth => Ok (Error500, None)
  | TRaise ZeppAPIError => Ok (Error500, None)
  | TRaise e => Raise e
  | TUnmodelled => Unmodelled
  end.

(** [api_summary(date)]: [hr], [sleep], [steps] and [stress] are what
    the four getters give when they are called, in this order. *)
Definition api_summary (now1 now2 date : string) (file : option string)
    (hr sleep steps stress : fetched) : res (response * option string) :=
  cached <- (if negb (_is_today now1 date) then _read_cache file else Ok PNone) ;;
  match cached with
  | PNone =>
      handled
        (tbind (call hr) (fun hr =>
         tbind (lift (heart_rate_summary hr)) (fun heart_rate =>
         tbind (call sleep) (fun sleep =>
         tbind (lift (value_or_none sleep)) (fun sleep =>
         tbind (call steps) (fun steps =>
         tbind (lift (value_or_none steps)) (fun steps =>
         tbind (call stress) (fun stress =>
         tbind (lift (stress_summary stress)) (fun stress =>
         let summary :=
           PDict [("heart_rate", heart_rate); ("sleep", sleep);
                  ("steps", steps); ("stress", stress)] in
         if negb (_is_today now2 date) then
           tbind (lift (_write_cache summary)) (fun text =>
           TOk (Body summary, Some text))
         else TOk (Body summary, None))))))))))
  | _ => Ok (Body cached, None)
  end.

(* ================================================================== *)
(** * Part VI. The specification's wording, as definitions             *)
(* ================================================================== *)

(** ** Finite enumerations used by the exhaustive checks *)

Definition all_bytes : list byte :=
  map (fun n => byte_of_N (N.of_nat n)) (seq 0 256).

Definition sextets : list N := map N.of_nat (seq 0 64).

(** The four six-bit groups of three bytes. *)
Definition sx0 (a : N) : N := N.shiftr a 2.
Definition sx1 (a b : N) : N := N.lor (N.shiftl (N.land a 3) 4) (N.shiftr b 4).
Definition sx2 (b c : N) : N := N.lor (N.shiftl (N.land b 15) 2) (N.shiftr c 6).
Definition sx3 (c : N) : N := N.land c 63.

(** ** Heart-rate samples *)

(** The bytes of a day with their positions: index [i] is minute [i]. *)
Fixpoint enumerate_from (i : Z) (bs : list byte) : list (Z * Z) :=
  match bs with
  | [] => []
  | b :: rest => (i, Z.of_N (Byte.to_N b)) :: enumerate_from (i + 1) rest
  end.

(** A byte is a reading iff [0 < v < 254]. *)
Definition valid_bpm (v : Z) : bool := (0 <? v) && (v <? 254).

(** One sample per position that holds a reading, in position order. *)
Definition hr_samples (bs : list byte) : list pyval :=
  map (fun iv => hr_reading (fst iv) (snd iv))
      (filter (fun iv => valid_bpm (snd iv)) (enumerate_from 0 bs)).

(** Two decimal digits. *)
Definition two_digits (z : Z) : string :=
  String (digit_char (z / 10)) (String (digit_char (z mod 10)) EmptyString).

(** ** Mode codes *)

(** The name of a sleep stage code, as the table and its fallback are
    worded. *)
Definition sleep_stage_name (z : Z) : string :=
  if z =? 4 then "light" else if z =? 5 then "deep"
  else if z =? 7 then "awake" else if z =? 8 then "rem"
  else "unknown_" +++ str_of_Z z.

(** The name of an activity mode code. *)
Definition activity_mode_name (z : Z) : string :=
  if z =? 1 then "slow_walking" else if z =? 3 then "fast_walking"
  else if z =? 7 then "running" else if z =? 76 then "light_activity"
  else "unknown_" +++ str_of_Z z.

(** The stage of [get_sleep] made from a raw stage. *)
Definition sleep_stage_of (start stop : Z) (stage : string) : pyval :=
  PDict [("start_minute", PInt start); ("end_minute", PInt stop);
         ("duration_minutes", PInt (stop - start)); ("stage", PStr stage)].

(** [x] stands somewhere in [v]: it is [v], or stands in an element of
    the list [v] or in a value of the dict [v]. *)
Inductive inside (x : pyval) : pyval -> Prop :=
| inside_here : inside x x
| inside_list (y : pyval) (l : list pyval) :
    In y l -> inside x y -> inside x (PList l)
| inside_dict (k : string) (y : pyval) (d : pydict) :
    In (k, y) d -> inside x y -> inside x (PDict d).

(** ** JSON documents *)

(** A text of [n] nines. *)
Fixpoint nines (n : nat) : string :=
  match n with
  | O => EmptyString
  | S n' => String "9" (nines n')
  end.

(** The array of one integer of 4301 digits, with blanks and line
    breaks nowhere: JSON by the grammar, and more digits than [int]
    converts. *)
Definition long_array : string := "[" +++ nines 4301 +++ "]".


(** A token of the scanner holds no list and no dict. *)
Definition atomic (v : pyval) : Prop :=
  match v with
  | PList _ | PDict _ => False
  | _ => True
  end.

Definition atomic_token (t : jtoken) : Prop :=
  match t with
  | TAtom v => atomic v
  | _ => True
  end.

(** The values held by the open containers convert: those of a
    container with [n] containers around it nest at most
    [MAX_DEPTH - n - 1] deep and hold no int beyond the limit. *)
Fixpoint frames_ok (stk : list frame) : Prop :=
  match stk with
  | [] => True
  | f :: stk' =>
      match f with
      | FArr acc =>
          Forall (fun v => printable (MAX_DEPTH - List.length stk) v = true) acc
      | FObj d _ =>
          Forall (fun kv => printable (MAX_DEPTH - List.length stk) (snd kv) = true) d
      end
      /\ frames_ok stk'
  end.


(** ** Stress readings *)





(** An outcome other than raising [e]. *)
Definition never_raises {A : Type} (e : exn) (c : res A) : Prop := c <> Raise e.


Definition field_or (d : pydict) (k : string) (default : pyval) : pyval :=
  match dict_lookup k d with Some v => v | None => default end.


(** ** Base64 text *)

(** A character that is neither in the base64 alphabet nor the pad. *)
Definition outside_alphabet (c : ascii) : bool :=
  match b64_value c with
  | None => negb (Ascii.eqb c "=")
  | Some _ => false
  end.


(** ** Sleep reconciliation *)

(** The first day, in scan order, whose session ends on the wake date. *)
Fixpoint first_accept (vs : list verdict) : best :=
  match vs with
  | [] => None
  | Accept slp source :: _ => Some (slp, source)
  | _ :: vs' => first_accept vs'
  end.

(** The first day, in scan order, whose own date is the wake date. *)
Fixpoint first_fallback (vs : list verdict) : best :=
  match vs with
  | [] => None
  | Fallback slp source :: _ => Some (slp, source)
  | _ :: vs' => first_fallback vs'
  end.

(** The reconciliation as the specification words it: a session that
    ends on the wake date wins; failing that, the session of the wake
    date itself; failing that, nothing. *)
Definition reconcile (vs : list verdict) : best :=
  match first_accept vs with
  | Some b => Some b
  | None => first_fallback vs
  end.

(** An instant that [datetime] can hold as local time. *)
Definition in_datetime_range (local : Z) : Prop :=
  MINORD <= EPOCH_ORD + local / 86400 <= MAXORD.

(** [m] is a whole number of minutes nearest to [secs] seconds. *)
Definition nearest_minute (secs m : Z) : Prop :=
  forall k, Z.abs (60 * m - secs) <= Z.abs (60 * k - secs).

(** A field that the scan treats as missing: absent, [None] or zero. *)
Definition missing_field (d : pydict) (k : string) : Prop :=
  dict_lookup k d = None \/ dict_lookup k d = Some PNone
  \/ dict_lookup k d = Some (PInt 0).

(** ** Example data *)

(** JSON text written with single quotes standing for the double ones. *)
Definition json_text (s : string) : string :=
  string_of_list_ascii
    (map (fun c => if Ascii.eqb c "'" then dquote else c) (list_ascii_of_string s)).

Definition b64_json (s : string) : pyval :=
  PStr (b64encode (list_byte_of_string (json_text s))).

(** A response for the wake date 2026-02-06: the night is stored under
    the day before (23:30 to 07:15 at UTC-6), the day itself has no
    session. *)
Definition night_response : pyval :=
  PDict [("code", PInt 1);
         ("data",
          PList [PDict [("date_time", PStr "2026-02-05");
                        ("summary",
                         b64_json "{'slp': {'st': 1770355800, 'ed': 1770383700, 'rhr': 57}}")];
                 PDict [("date_time", PStr "2026-02-06")]])].

Definition night_session : pyval :=
  PDict [("st", PInt 1770355800); ("ed", PInt 1770383700); ("rhr", PInt 57)].

(** The two days of that response as [_fetch_band_data] returns them. *)
Definition night_days : list pyval :=
  [PDict [("date", PStr "2026-02-05");
          ("summary", PDict [("slp", night_session)])];
   PDict [("date", PStr "2026-02-06")]].

(** A session of 119 seconds. *)
Definition short_session : pydict :=
  [("st", PInt 1770355800); ("ed", PInt 1770355919)].

Definition short_response : pyval :=
  PDict [("code", PInt 1);
         ("data",
          PList [PDict [("date_time", PStr "2026-02-05");
                        ("summary",
                         b64_json "{'slp': {'st': 1770355800, 'ed': 1770355919}}")]])].

Definition utc_minus_6 (t : Z) : Z := -21600.

(** ** Interchange export *)

(** The text of the timestamp of minute [minute] of the day
    [source_date], at the configured offset. *)
Definition stamp (tz_offset_hours : Z) (source_date minute : pyval) : res string :=
  dt <- _minute_to_datetime source_date minute tz_offset_hours ;;
  _apple_date dt.

(** The Apple value of a stage whose name is a key of the table. *)
Definition apple_of (stage : pyval) : option string :=
  match stage with
  | PDict d =>
      match dict_lookup "stage" d with
      | Some (PStr name) => assoc name ZEPP_TO_APPLE_SLEEP
      | _ => None
      end
  | _ => None
  end.

(** The Apple value of a stage name, entry by entry as the table is
    worded: light is AsleepCore, deep is AsleepDeep, rem is AsleepREM and
    awake is Awake; no other name has one. *)
Definition apple_value_of_name (name : string) : option string :=
  if String.eqb name "light" then Some "HKCategoryValueSleepAnalysisAsleepCore"
  else if String.eqb name "deep" then Some "HKCategoryValueSleepAnalysisAsleepDeep"
  else if String.eqb name "rem" then Some "HKCategoryValueSleepAnalysisAsleepREM"
  else if String.eqb name "awake" then Some "HKCategoryValueSleepAnalysisAwake"
  else None.

(** A stage is classified when its name is a key of the table. *)
Definition classified (stage : pyval) : bool :=
  match apple_of stage with Some _ => true | None => false end.

Fixpoint somes {A : Type} (l : list (option A)) : list A :=
  match l with
  | [] => []
  | Some a :: l' => a :: somes l'
  | None :: l' => somes l'
  end.

(** The InBed record of a session. *)
Definition inbed (source_name startDate endDate : string) : xml_record :=
  mkrec "HKCategoryTypeIdentifierSleepAnalysis" source_name None
        "HKCategoryValueSleepAnalysisInBed" startDate endDate.

(** The suffix of a timestamp at an offset of whole hours. *)
Definition tz_suffix (tz_offset_hours : Z) : string :=
  (if tz_offset_hours <? 0 then "-" else "+")
  +++ pad2 (Z.abs tz_offset_hours) +++ "00".

Definition has_suffix (suffix s : string) : Prop :=
  exists body, s = body +++ suffix.

(** Both timestamps of a record carry the offset [tz_offset_hours]. *)
Definition stamped (tz_offset_hours : Z) (r : xml_record) : Prop :=
  has_suffix (" " +++ tz_suffix tz_offset_hours) (r_startDate r)
  /\ has_suffix (" " +++ tz_suffix tz_offset_hours) (r_endDate r).

(** A field that the export treats as missing: absent, [None] or the
    empty string. *)
Definition missing_text (d : pydict) (k : string) : Prop :=
  dict_lookup k d = None \/ dict_lookup k d = Some PNone
  \/ dict_lookup k d = Some (PStr EmptyString).

Definition export_stage (start_minute end_minute : Z) (name : string) : pyval :=
  PDict [("start_minute", PInt start_minute); ("end_minute", PInt end_minute);
         ("duration_minutes", PInt (end_minute - start_minute));
         ("stage", PStr name)].

(** The session of the export test, with one unmapped stage added. *)
Definition test_stages : list pyval :=
  [export_stage 1410 1440 "light"; export_stage 1440 1470 "deep";
   export_stage 1470 1490 "rem"; export_stage 1490 1500 "awake";
   export_stage 1500 1510 "unknown_9"].

Definition test_session : pydict :=
  [("fetched_from", PStr "2026-02-05");
   ("start", PStr "2026-02-05T23:30:00"); ("end", PStr "2026-02-06T07:15:00");
   ("stages", PList test_stages); ("nap_stages", PList [])].

(** A session with start and end and no stage, as [get_sleep] returns it
    for a night whose summary has no stage list. *)
Definition stageless_session : pydict :=
  [("date", PStr "2026-02-06"); ("fetched_from", PStr "2026-02-05");
   ("stages", PList []); ("nap_stages", PList []);
   ("start", PStr "2026-02-05T23:30:00"); ("end", PStr "2026-02-06T07:15:00");
   ("duration_minutes", PInt 465)].

(** A session whose start falls inside a minute. *)
Definition odd_session : pydict :=
  [("fetched_from", PStr "2026-02-05");
   ("start", PStr "2026-02-05T23:30:15"); ("end", PStr "2026-02-06T07:15:00");
   ("stages", PList [export_stage 1410 1440 "light"]); ("nap_stages", PList [])].

(* ================================================================== *)
(** * Part VI, continued. Wording of the further properties            *)
(* ================================================================== *)

(** ** Heart-rate lists *)

(** Every byte of a day as a number, position by position. *)
Definition raw_values (bs : list byte) : list pyval :=
  map (fun b => PInt (Z.of_N (Byte.to_N b))) bs.

(** ** Band data *)

(** The [code] of a response that [_fetch_band_data] refuses: anything
    but the number 1 (as which [True] counts). *)
Definition code_rejected (d : pydict) : Prop :=
  match dict_lookup "code" d with
  | Some (PInt z) => z <> 1
  | Some (PBool b) => b = false
  | Some (PFloat _) => False
  | _ => True
  end.

(** The field [k] of [d], when it is a string, is ASCII text. *)
Definition ascii_field (d : pydict) (k : string) : Prop :=
  forall s, dict_lookup k d = Some (PStr s) -> is_ascii s = true.

(** The summary blob of [d], when there is one, is settled by
    [decode_summary]: it decodes, or fails with [ZeppDecodeError]. *)
Definition summary_settled (d : pydict) : Prop :=
  forall s, dict_lookup "summary" d = Some (PStr s) ->
            (exists v, decode_summary s = Ok v)
            \/ decode_summary s = Raise ZeppDecodeError.

(** What makes [_request] raise [ZeppAPIError]: no answer at all, a
    status other than 200 (401 apart, which is [ZeppAuthError]), or a
    body that is no JSON document. *)
Definition request_fails (x : exchange) : Prop :=
  match x with
  | NoAnswer => True
  | Answer status b => status <> 401 /\ (status <> 200 \/ b = NotJson)
  end.

(** A day of [_fetch_band_data] without a usable summary. *)
Definition no_summary (day : pyval) : Prop :=
  exists r, day = PDict r
            /\ (dict_lookup "summary" r = None \/ dict_lookup "summary" r = Some PNone).

(** A wake date that [get_sleep] takes: it parses, and the day before it
    exists and can be written. *)
Definition wake_date (date : string) : Prop :=
  exists dt prev prev_date,
    strptime_ymd (PStr date) = Ok dt
    /\ add_minutes dt (-1440) = Ok prev
    /\ strftime_ymd prev = Ok prev_date.

(** ** Steps *)

(** A stage of [get_steps] made from the raw stage [d]. *)
Definition steps_stage_of (d : pydict) (start stop : pyval) (mode : string) : pyval :=
  PDict [("start_minute", start); ("end_minute", stop); ("mode", PStr mode);
         ("steps", field_or d "step" (PInt 0));
         ("distance_meters", field_or d "dis" (PInt 0));
         ("calories", field_or d "cal" (PInt 0))].

(** The record of [get_steps] for the step summary [stp] of [summary]. *)
Definition steps_record_of (date : string) (summary stp : pydict)
    (stages : list pyval) : pyval :=
  PDict [("date", PStr date); ("total_steps", field_or stp "ttl" PNone);
         ("distance_meters", field_or stp "dis" PNone);
         ("calories", field_or stp "cal" PNone);
         ("run_distance_meters", field_or stp "runDist" PNone);
         ("run_calories", field_or stp "runCal" PNone);
         ("goal", field_or summary "goal" PNone);
         ("stages", PList stages)].

(** ** Sleep sessions *)

(** A session that the scan can take: it has a start and an end epoch
    that count as true. *)
Definition usable_session (slp : pyval) : Prop :=
  exists d st ed,
    slp = PDict d
    /\ dict_lookup "st" d = Some st /\ truthy st = Ok true
    /\ dict_lookup "ed" d = Some ed /\ truthy ed = Ok true.

(** The session ends, in local time, on the day [date]. *)
Definition ends_on (local_offset : Z -> Z) (slp : pyval) (date : string) : Prop :=
  exists d ed end_dt,
    slp = PDict d /\ dict_lookup "ed" d = Some ed
    /\ fromtimestamp local_offset ed = Ok end_dt
    /\ strftime_ymd end_dt = Ok date.

(** The keys of a record of [get_sleep] that holds a session. *)
Definition session_keys : list string :=
  ["date"; "fetched_from"; "resting_hr"; "sleep_score"; "deep_minutes";
   "light_minutes"; "stages"; "nap_stages"; "start"; "end"; "duration_minutes"].

(** ** Interchange export: the three sections *)

Definition heart_rate_kind (source_name : string) (r : xml_record) : Prop :=
  r_type r = "HKQuantityTypeIdentifierHeartRate"
  /\ r_sourceName r = source_name /\ r_unit r = Some "count/min".

Definition step_kind (source_name : string) (r : xml_record) : Prop :=
  r_type r = "HKQuantityTypeIdentifierStepCount"
  /\ r_sourceName r = source_name /\ r_unit r = Some "count".

Definition sleep_kind (source_name : string) (r : xml_record) : Prop :=
  r_type r = "HKCategoryTypeIdentifierSleepAnalysis"
  /\ r_sourceName r = source_name /\ r_unit r = None.

(** From [o] to [o'] records were only appended, all of them with [P],
    and the counter went up by their number. *)
Definition grows (P : xml_record -> Prop) (o o' : list xml_record * Z) : Prop :=
  exists new,
    fst o' = fst o ++ new
    /\ snd o' = snd o + Z.of_nat (List.length new)
    /\ Forall P new.

(** The order of [sorted]: by key. *)
Definition key_le (a b : string * pyval) : Prop := String.leb (fst a) (fst b) = true.

(** A dict holds every key once. *)
Definition keyed_once (d : pydict) : Prop := NoDup (map fst d).

(** ** The calendar *)

(** A date of the proleptic Gregorian calendar that [datetime] holds. *)
Definition valid_date (y m d : Z) : Prop :=
  1 <= y <= 9999 /\ 1 <= m <= 12 /\ 1 <= d <= _days_in_month y m.

(** Month and day of the day [n] (counted from 0) of a year, as the
    last step of [_ord2ymd] finds them: an estimate of the month, put
    right when it is one too far. *)
Definition month_day (leapyear : bool) (n : Z) : Z * Z :=
  let month := Z.shiftr (n + 50) 5 in
  let preceding :=
    nth (Z.to_nat month) _DAYS_BEFORE_MONTH 0
    + (if (2 <? month) && leapyear then 1 else 0) in
  if n <? preceding then
    let month := month - 1 in
    let preceding :=
      preceding - (nth (Z.to_nat month) _DAYS_IN_MONTH 0
                   + (if (month =? 2) && leapyear then 1 else 0)) in
    (month, n - preceding + 1)
  else (month, n - preceding + 1).

(** Days in a month and before it, by the kind of year. *)
Definition days_in (leapyear : bool) (month : Z) : Z :=
  nth (Z.to_nat month) _DAYS_IN_MONTH 0 + (if (month =? 2) && leapyear then 1 else 0).

Definition days_before (leapyear : bool) (month : Z) : Z :=
  nth (Z.to_nat month) _DAYS_BEFORE_MONTH 0 + (if (2 <? month) && leapyear then 1 else 0).

(** A check that holds from [start] on, [count] times. *)
Fixpoint forall_from (count : nat) (start : Z) (f : Z -> bool) : bool :=
  match count with
  | O => true
  | S count' => if f start then forall_from count' (start + 1) f else false
  end.

(** The day [n] of a year falls on a date of that year. *)
Definition month_day_ok (leapyear : bool) (n : Z) : bool :=
  let '(m, d) := month_day leapyear n in
  (1 <=? m) && (m <=? 12) && (1 <=? d) && (d <=? days_in leapyear m)
  && (days_before leapyear m + d =? n + 1).

(** Four decimal digits. *)
Definition four_digits (z : Z) : string :=
  String (digit_char (z / 1000))
    (String (digit_char (z / 100 mod 10))
       (String (digit_char (z / 10 mod 10))
          (String (digit_char (z mod 10)) EmptyString))).

(** The text of a date, digit by digit. *)
Definition date_text (y m d : Z) : string :=
  four_digits y +++ "-" +++ two_digits m +++ "-" +++ two_digits d.

(** ** Interchange export: records of decoded data *)

(** The text of minute [mm] of the day written [date]. *)
Definition minute_text (tz_offset_hours : Z) (date : string) (mm : Z) : string :=
  date +++ " " +++ two_digits (mm / 60) +++ ":" +++ two_digits (mm mod 60)
  +++ ":00 " +++ tz_suffix tz_offset_hours.

(** The record of the reading [bpm] of minute [fst iv]. *)
Definition reading_record (source_name : string) (tz_offset_hours : Z)
    (date : string) (iv : Z * Z) : xml_record :=
  mkrec "HKQuantityTypeIdentifierHeartRate" source_name (Some "count/min")
        (str_of_Z (snd iv))
        (minute_text tz_offset_hours date (fst iv))
        (minute_text tz_offset_hours date (fst iv)).

(** ** Date ranges *)

(** The day with the ordinal [n], written as a date. *)
Definition date_of_ord (n : Z) : string := fmt_ymd (_ord2ymd n).

(** [n] days in a row, from the day [o] on. *)
Fixpoint days_from (o : Z) (n : nat) : list string :=
  match n with
  | O => []
  | S n' => date_of_ord o :: days_from (o + 1) n'
  end.

(** A generator that yields the elements of [l] and ends as [last]. *)
Definition yields {A : Type} (l : list A) (last : gen A) : gen A :=
  fold_right GYield last l.

(** ** Event records *)

(** The keys of a record of [get_training_load]. *)
Definition training_keys : list string :=
  ["timestamp"; "exercise_score"; "total_score"; "target_score";
   "completion_percent"; "recovery_factor"; "atl"; "ctl"; "tsb";
   "exercise_plan"; "activities"].

(** An error of a value of the wrong kind: no [get] or not iterable. *)
Definition kind_error (e : exn) : Prop := e = AttributeError \/ e = TypeError.

(** ** Credentials *)

(** The first value of [key] in the lines of the config file that is
    not empty. *)
Fixpoint first_value (key : string) (lines : list string) : option string :=
  match lines with
  | [] => None
  | line :: rest =>
      match config_entry line with
      | Some (k, v) =>
          if String.eqb k key && negb (String.eqb v EmptyString) then Some v
          else first_value key rest
      | None => first_value key rest
      end
  end.

(** What the config file adds to a value [v] of the environment: nothing
    when [v] is set, else the first value of [key] that is not empty;
    without one the value stays unset. *)
Definition completed (v : option string) (key : string) (lines : list string)
    (r : option string) : Prop :=
  if unset v then
    match first_value key lines with
    | Some x => r = Some x
    | None => unset r = true
    end
  else r = v.

(** ** Days in calendar order *)

(** The key of an entry is the text of the day with the ordinal [n]. *)
Definition date_key (kv : string * pyval) (n : Z) : Prop :=
  exists y m d, fst kv = date_text y m d /\ valid_date y m d /\ _ymd2ord y m d = n.

(** An entry for a day that is not later than the day of another. *)
Definition day_le (a b : string * pyval) : Prop :=
  forall na nb, date_key a na -> date_key b nb -> na <= nb.

(** ** The client *)

(** A run of [n] slashes. *)
Fixpoint slashes (n : nat) : string :=
  match n with
  | O => EmptyString
  | S n' => String "/" (slashes n')
  end.

(** The text ends with a slash. *)
Definition ends_with_slash (s : string) : Prop := exists body, s = body +++ "/".

(** ** The cache: values that come back as they were written *)

(** No string twice. *)
Fixpoint distinct (l : list string) : bool :=
  match l with
  | [] => true
  | k :: l' => negb (existsb (String.eqb k) l') && distinct l'
  end.

(** A value of [None], [bool], [int], ASCII [str], and lists and dicts
    of such values, every dict with ASCII keys that differ. *)
Fixpoint plain (v : pyval) : bool :=
  match v with
  | PNone | PBool _ | PInt _ => true
  | PFloat _ => false
  | PStr s => is_ascii s
  | PList l => forallb plain l
  | PDict d =>
      forallb (fun kv => let '(k, x) := kv in is_ascii k && plain x) d
      && distinct (map fst d)
  end.

(** The items of a list after the first, as [iterencode] writes them. *)
Definition list_items (level : nat) : list pyval -> res string :=
  fix items (l : list pyval) : res string :=
    match l with
    | [] => Ok EmptyString
    | value :: l' =>
        text <- iterencode level value ;;
        more <- items l' ;;
        Ok ("," +++ newline_indent level +++ text +++ more)
    end.

(** The items of a dict after the first. *)
Definition dict_items (level : nat) : pydict -> res string :=
  fix items (d : list (string * pyval)) : res string :=
    match d with
    | [] => Ok EmptyString
    | (key, value) :: d' =>
        key <- encode_basestring_ascii key ;;
        text <- iterencode level value ;;
        more <- items d' ;;
        Ok ("," +++ newline_indent level +++ key +++ ": " +++ text +++ more)
    end.

(** The tokens of the JSON text of a value. *)
Fixpoint toks (v : pyval) : list jtoken :=
  match v with
  | PList [] => [TLBrack; TRBrack]
  | PList (first :: rest) =>
      TLBrack :: toks first ++ flat_map (fun x => TComma :: toks x) rest ++ [TRBrack]
  | PDict [] => [TLBrace; TRBrace]
  | PDict ((key, first) :: rest) =>
      TLBrace :: TAtom (PStr key) :: TColon :: toks first
      ++ flat_map (fun kv => let '(k, x) := kv in
                             TComma :: TAtom (PStr k) :: TColon :: toks x) rest
      ++ [TRBrace]
  | atom => [TAtom atom]
  end.

(** The scanner run over a piece of text: the mode it ends in and the
    tokens it completes. *)
Fixpoint lex_run (m : lexmode) (s : string) : option (lexmode * list jtoken) :=
  match s with
  | EmptyString => Some (m, [])
  | String c rest =>
      match lex_step m c with
      | Some (m', ts) =>
          match lex_run m' rest with
          | Some (m'', ts') => Some (m'', ts ++ ts')
          | None => None
          end
      | None => None
      end
  end.

(** Text that ends a number before it: nothing, a comma or a line
    break. *)
Definition delimited (rest : string) : Prop :=
  match rest with
  | EmptyString => True
  | String c _ => c = ","%char \/ c = ascii_of_N 10
  end.

(** The parser takes the tokens of [v] where a value may stand and goes
    on as with [v] read, when [v] is written at the level of the open
    containers. *)
Definition parses (v : pyval) : Prop :=
  forall stk e ts text,
    e = EVal \/ e = EValOrClose ->
    (List.length stk <= MAX_DEPTH)%nat ->
    iterencode (List.length stk) v = Ok text ->
    json_parse stk e (toks v ++ ts) =
    match push_value v stk with
    | Some (stk', e') => json_parse stk' e' ts
    | None => Raise JSONDecodeError
    end.

(** ** The summary of a day *)

(** The summary of a day without data. *)
Definition empty_summary : pyval :=
  PDict [("heart_rate", PNone); ("sleep", PNone); ("steps", PNone); ("stress", PNone)].

(* ================================================================== *)
(** * Part VII. Lemmas and theorems                                    *)
(* ================================================================== *)

(** ** Tactics *)

(** Case analysis on the scrutinee of the first [match] or [if] in the
    goal. *)
Ltac case_match :=
  match goal with
  | |- context [match ?x with _ => _ end] => destruct x eqn:?
  end.

Ltac inv H := inversion H; subst; clear H.

(** ** Bytes: every byte is one of the 256 *)

Lemma byte_of_to_N (b : byte) : byte_of_N (Byte.to_N b) = b.
Proof.
  unfold byte_of_N.
  rewrite N.mod_small by (pose proof (Byte.to_N_bounded b); lia).
  now rewrite Byte.of_to_N.
Qed.

Lemma all_bytes_complete (b : byte) : In b all_bytes.
Proof.
  unfold all_bytes. apply in_map_iff.
  exists (N.to_nat (Byte.to_N b)). split.
  - rewrite N2Nat.id. apply byte_of_to_N.
  - apply in_seq. pose proof (Byte.to_N_bounded b). lia.
Qed.

Lemma forall_byte (P : byte -> bool) :
  forallb P all_bytes = true -> forall b, P b = true.
Proof.
  intros H b. rewrite forallb_forall in H. apply H, all_bytes_complete.
Qed.

Lemma forall_byte2 (P : byte -> byte -> bool) :
  forallb (fun a => forallb (P a) all_bytes) all_bytes = true ->
  forall a b, P a b = true.
Proof.
  intros H a b.
  apply (forall_byte (P a)).
  apply (forall_byte (fun a => forallb (P a) all_bytes) H).
Qed.

(** ** base64: decoding undoes encoding *)

Lemma sextets_complete (n : N) : (n < 64)%N -> In n sextets.
Proof.
  intros H. unfold sextets. apply in_map_iff.
  exists (N.to_nat n). split; [apply N2Nat.id | apply in_seq; lia].
Qed.

Lemma b64_char_value (n : N) :
  (n < 64)%N ->
  b64_value (b64_char n) = Some n
  /\ Ascii.eqb (b64_char n) "=" = false
  /\ (N_of_ascii (b64_char n) <? 128)%N = true.
Proof.
  intros H.
  assert (C : forallb (fun n =>
                match b64_value (b64_char n) with
                | Some m => (m =? n)%N
                | None => false
                end
                && negb (Ascii.eqb (b64_char n) "=")
                && (N_of_ascii (b64_char n) <? 128)%N) sextets = true)
    by (vm_compute; reflexivity).
  rewrite forallb_forall in C. specialize (C n (sextets_complete n H)).
  apply andb_true_iff in C as [C C3]. apply andb_true_iff in C as [C1 C2].
  repeat split; auto.
  - destruct (b64_value (b64_char n)); [|discriminate].
    apply N.eqb_eq in C1. now subst.
  - now apply negb_true_iff.
Qed.

(** The bit manipulations of the encoder and the decoder, checked over
    all bytes. *)
Lemma sextet_bounds (a b : byte) :
  let x := Byte.to_N a in
  let y := Byte.to_N b in
  (sx0 x < 64 /\ sx1 x y < 64 /\ sx2 x y < 64 /\ sx3 x < 64
   /\ N.shiftl (N.land x 3) 4 < 64 /\ N.shiftl (N.land x 15) 2 < 64)%N.
Proof.
  pose (P := fun a b : byte =>
    let x := Byte.to_N a in
    let y := Byte.to_N b in
    ((sx0 x <? 64) && (sx1 x y <? 64) && (sx2 x y <? 64) && (sx3 x <? 64)
     && (N.shiftl (N.land x 3) 4 <? 64) && (N.shiftl (N.land x 15) 2 <? 64))%N).
  assert (C : forall a b, P a b = true)
    by (apply forall_byte2; vm_compute; reflexivity).
  specialize (C a b). unfold P in C. cbv zeta in *.
  repeat (apply andb_true_iff in C as [C ?]).
  repeat split; now apply N.ltb_lt.
Qed.

Lemma decode_byte1 (a b : byte) :
  byte_of_N (N.lor (N.shiftl (sx0 (Byte.to_N a)) 2)
                   (N.shiftr (sx1 (Byte.to_N a) (Byte.to_N b)) 4)) = a
  /\ byte_of_N (N.lor (N.shiftl (sx0 (Byte.to_N a)) 2)
                      (N.shiftr (N.shiftl (N.land (Byte.to_N a) 3) 4) 4)) = a.
Proof.
  pose (P := fun a b : byte =>
    Byte.eqb (byte_of_N (N.lor (N.shiftl (sx0 (Byte.to_N a)) 2)
                               (N.shiftr (sx1 (Byte.to_N a) (Byte.to_N b)) 4))) a
    && Byte.eqb (byte_of_N (N.lor (N.shiftl (sx0 (Byte.to_N a)) 2)
                   (N.shiftr (N.shiftl (N.land (Byte.to_N a) 3) 4) 4))) a).
  assert (C : forall a b, P a b = true)
    by (apply forall_byte2; vm_compute; reflexivity).
  specialize (C a b). unfold P in C.
  apply andb_true_iff in C as [C1 C2].
  split; now apply Byte.byte_dec_bl.
Qed.

Lemma decode_left1 (a b : byte) :
  N.land (sx1 (Byte.to_N a) (Byte.to_N b)) 15 = N.shiftr (Byte.to_N b) 4.
Proof.
  pose (P := fun a b : byte =>
    (N.land (sx1 (Byte.to_N a) (Byte.to_N b)) 15 =? N.shiftr (Byte.to_N b) 4)%N).
  assert (C : forall a b, P a b = true)
    by (apply forall_byte2; vm_compute; reflexivity).
  now apply N.eqb_eq, C.
Qed.

Lemma decode_byte2 (b c : byte) :
  byte_of_N (N.lor (N.shiftl (N.shiftr (Byte.to_N b) 4) 4)
                   (N.shiftr (sx2 (Byte.to_N b) (Byte.to_N c)) 2)) = b
  /\ byte_of_N (N.lor (N.shiftl (N.shiftr (Byte.to_N b) 4) 4)
                      (N.shiftr (N.shiftl (N.land (Byte.to_N b) 15) 2) 2)) = b.
Proof.
  pose (P := fun b c : byte =>
    Byte.eqb (byte_of_N (N.lor (N.shiftl (N.shiftr (Byte.to_N b) 4) 4)
                               (N.shiftr (sx2 (Byte.to_N b) (Byte.to_N c)) 2))) b
    && Byte.eqb (byte_of_N (N.lor (N.shiftl (N.shiftr (Byte.to_N b) 4) 4)
                   (N.shiftr (N.shiftl (N.land (Byte.to_N b) 15) 2) 2))) b).
  assert (C : forall b c, P b c = true)
    by (apply forall_byte2; vm_compute; reflexivity).
  specialize (C b c). unfold P in C.
  apply andb_true_iff in C as [C1 C2].
  split; now apply Byte.byte_dec_bl.
Qed.

Lemma decode_byte3 (b c : byte) :
  byte_of_N (N.lor (N.shiftl (N.land (sx2 (Byte.to_N b) (Byte.to_N c)) 3) 6)
                   (sx3 (Byte.to_N c))) = c.
Proof.
  pose (P := fun b c : byte =>
    Byte.eqb (byte_of_N (N.lor (N.shiftl (N.land (sx2 (Byte.to_N b) (Byte.to_N c)) 3) 6)
                               (sx3 (Byte.to_N c)))) c).
  assert (C : forall b c, P b c = true)
    by (apply forall_byte2; vm_compute; reflexivity).
  now apply Byte.byte_dec_bl, C.
Qed.

Section Base64Loop.

Variables (c : ascii) (v : N) (rest : string).
Hypothesis Hv : b64_value c = Some v.
Hypothesis Hc : Ascii.eqb c "=" = false.

Lemma loop_q0 l p out :
  a2b_base64_loop (String c rest) 0 l p out = a2b_base64_loop rest 1 v 0 out.
Proof. cbn [a2b_base64_loop]. rewrite Hc, Hv. reflexivity. Qed.

Lemma loop_q1 l p out :
  a2b_base64_loop (String c rest) 1 l p out =
  a2b_base64_loop rest 2 (N.land v 15) 0
    (byte_of_N (N.lor (N.shiftl l 2) (N.shiftr v 4)) :: out).
Proof. cbn [a2b_base64_loop]. rewrite Hc, Hv. reflexivity. Qed.

Lemma loop_q2 l p out :
  a2b_base64_loop (String c rest) 2 l p out =
  a2b_base64_loop rest 3 (N.land v 3) 0
    (byte_of_N (N.lor (N.shiftl l 4) (N.shiftr v 2)) :: out).
Proof. cbn [a2b_base64_loop]. rewrite Hc, Hv. reflexivity. Qed.

Lemma loop_q3 l p out :
  a2b_base64_loop (String c rest) 3 l p out =
  a2b_base64_loop rest 0 0 0 (byte_of_N (N.lor (N.shiftl l 6) v) :: out).
Proof. cbn [a2b_base64_loop]. rewrite Hc, Hv. reflexivity. Qed.

End Base64Loop.

Lemma b64encode_3 a b c bs :
  b64encode (a :: b :: c :: bs) =
  String (b64_char (sx0 (Byte.to_N a)))
 (String (b64_char (sx1 (Byte.to_N a) (Byte.to_N b)))
 (String (b64_char (sx2 (Byte.to_N b) (Byte.to_N c)))
 (String (b64_char (sx3 (Byte.to_N c))) (b64encode bs)))).
Proof. reflexivity. Qed.

Lemma b64encode_2 a b :
  b64encode [a; b] =
  String (b64_char (sx0 (Byte.to_N a)))
 (String (b64_char (sx1 (Byte.to_N a) (Byte.to_N b)))
 (String (b64_char (N.shiftl (N.land (Byte.to_N b) 15) 2)) "=")).
Proof. reflexivity. Qed.

Lemma b64encode_1 a :
  b64encode [a] =
  String (b64_char (sx0 (Byte.to_N a)))
 (String (b64_char (N.shiftl (N.land (Byte.to_N a) 3) 4)) "==").
Proof. reflexivity. Qed.

Lemma a2b_chunk a b c bs out :
  a2b_base64_loop (b64encode (a :: b :: c :: bs)) 0 0 0 out =
  a2b_base64_loop (b64encode bs) 0 0 0 (c :: b :: a :: out).
Proof.
  rewrite b64encode_3.
  destruct (sextet_bounds a b) as (B0 & B1 & _).
  destruct (sextet_bounds b c) as (_ & _ & B2 & _).
  destruct (sextet_bounds c c) as (_ & _ & _ & B3 & _).
  destruct (b64_char_value _ B0) as (V0 & E0 & _).
  destruct (b64_char_value _ B1) as (V1 & E1 & _).
  destruct (b64_char_value _ B2) as (V2 & E2 & _).
  destruct (b64_char_value _ B3) as (V3 & E3 & _).
  rewrite (loop_q0 _ _ _ V0 E0), (loop_q1 _ _ _ V1 E1).
  rewrite (proj1 (decode_byte1 a b)), decode_left1.
  rewrite (loop_q2 _ _ _ V2 E2), (proj1 (decode_byte2 b c)).
  rewrite (loop_q3 _ _ _ V3 E3), decode_byte3.
  reflexivity.
Qed.

Lemma a2b_tail2 a b out :
  a2b_base64_loop (b64encode [a; b]) 0 0 0 out = Ok (rev (b :: a :: out)).
Proof.
  rewrite b64encode_2.
  destruct (sextet_bounds a b) as (B0 & B1 & _).
  destruct (sextet_bounds b b) as (_ & _ & _ & _ & _ & B2).
  destruct (b64_char_value _ B0) as (V0 & E0 & _).
  destruct (b64_char_value _ B1) as (V1 & E1 & _).
  destruct (b64_char_value _ B2) as (V2 & E2 & _).
  rewrite (loop_q0 _ _ _ V0 E0), (loop_q1 _ _ _ V1 E1).
  rewrite (proj1 (decode_byte1 a b)), decode_left1.
  rewrite (loop_q2 _ _ _ V2 E2), (proj2 (decode_byte2 b b)).
  reflexivity.
Qed.

Lemma a2b_tail1 a out :
  a2b_base64_loop (b64encode [a]) 0 0 0 out = Ok (rev (a :: out)).
Proof.
  rewrite b64encode_1.
  destruct (sextet_bounds a a) as (B0 & _ & _ & _ & B1 & _).
  destruct (b64_char_value _ B0) as (V0 & E0 & _).
  destruct (b64_char_value _ B1) as (V1 & E1 & _).
  rewrite (loop_q0 _ _ _ V0 E0), (loop_q1 _ _ _ V1 E1).
  rewrite (proj2 (decode_byte1 a a)).
  reflexivity.
Qed.

Lemma a2b_encode_len (n : nat) :
  forall bs out, (List.length bs < n)%nat ->
  a2b_base64_loop (b64encode bs) 0 0 0 out = Ok (rev out ++ bs).
Proof.
  induction n as [|n IH]; intros bs out Hlen; [lia|].
  destruct bs as [|a [|b [|c bs]]].
  - cbn. now rewrite app_nil_r.
  - rewrite a2b_tail1. cbn [rev]. reflexivity.
  - rewrite a2b_tail2. cbn [rev]. now rewrite <- app_assoc.
  - rewrite a2b_chunk, IH by (cbn [List.length] in Hlen; lia).
    cbn [rev]. now rewrite <- !app_assoc.
Qed.

Lemma is_ascii_String c s :
  is_ascii (String c s) = (N_of_ascii c <? 128)%N && is_ascii s.
Proof. reflexivity. Qed.

Lemma is_ascii_encode_len (n : nat) :
  forall bs, (List.length bs < n)%nat -> is_ascii (b64encode bs) = true.
Proof.
  induction n as [|n IH]; intros bs Hlen; [lia|].
  destruct bs as [|a [|b [|c bs]]].
  - reflexivity.
  - rewrite b64encode_1.
    destruct (sextet_bounds a a) as (B0 & _ & _ & _ & B1 & _).
    rewrite !is_ascii_String.
    rewrite (proj2 (proj2 (b64_char_value _ B0))), (proj2 (proj2 (b64_char_value _ B1))).
    reflexivity.
  - rewrite b64encode_2.
    destruct (sextet_bounds a b) as (B0 & B1 & _).
    destruct (sextet_bounds b b) as (_ & _ & _ & _ & _ & B2).
    rewrite !is_ascii_String.
    rewrite (proj2 (proj2 (b64_char_value _ B0))), (proj2 (proj2 (b64_char_value _ B1))),
      (proj2 (proj2 (b64_char_value _ B2))).
    reflexivity.
  - rewrite b64encode_3.
    destruct (sextet_bounds a b) as (B0 & B1 & _).
    destruct (sextet_bounds b c) as (_ & _ & B2 & _).
    destruct (sextet_bounds c c) as (_ & _ & _ & B3 & _).
    rewrite !is_ascii_String.
    rewrite (proj2 (proj2 (b64_char_value _ B0))), (proj2 (proj2 (b64_char_value _ B1))),
      (proj2 (proj2 (b64_char_value _ B2))), (proj2 (proj2 (b64_char_value _ B3))).
    rewrite IH by (cbn [List.length] in Hlen; lia).
    reflexivity.
Qed.

(** Decoding what [b64encode] wrote gives the bytes back. *)
Lemma b64decode_encode (bs : list byte) : b64decode (b64encode bs) = Ok bs.
Proof.
  unfold b64decode.
  rewrite (is_ascii_encode_len (S (List.length bs))) by lia.
  now rewrite (a2b_encode_len (S (List.length bs))) by lia.
Qed.

(** ** Heart-rate samples *)

Lemma hr_loop_spec (bs : list byte) :
  forall i acc,
  hr_loop bs i acc =
  acc ++ map (fun iv => hr_reading (fst iv) (snd iv))
             (filter (fun iv => valid_bpm (snd iv)) (enumerate_from i bs)).
Proof.
  induction bs as [|b bs IH]; intros i acc; cbn [hr_loop enumerate_from filter map].
  - now rewrite app_nil_r.
  - rewrite IH. cbn [snd]. unfold valid_bpm at 2.
    destruct ((0 <? Z.of_N (Byte.to_N b)) && (Z.of_N (Byte.to_N b) <? 254)).
    + cbn [map fst snd]. now rewrite <- app_assoc.
    + reflexivity.
Qed.

Lemma enumerate_from_In (bs : list byte) :
  forall i j v,
  In (j, v) (enumerate_from i bs) <->
  i <= j /\ exists b, nth_error bs (Z.to_nat (j - i)) = Some b
                      /\ v = Z.of_N (Byte.to_N b).
Proof.
  induction bs as [|b bs IH]; intros i j v; cbn [enumerate_from In].
  - split; [tauto|]. intros (_ & b & H & _). now destruct (Z.to_nat (j - i)).
  - rewrite IH. split.
    + intros [E | (Hle & b' & Hn & Hv)].
      * inv E. split; [lia|]. exists b. now rewrite Z.sub_diag.
      * split; [lia|]. exists b'. split; [|assumption].
        replace (Z.to_nat (j - i)) with (S (Z.to_nat (j - (i + 1)))) by lia.
        assumption.
    + intros (Hle & b' & Hn & Hv).
      destruct (Z.eq_dec i j) as [->|Hne].
      * left. rewrite Z.sub_diag in Hn. cbn in Hn. now inv Hn.
      * right. split; [lia|]. exists b'. split; [|assumption].
        replace (Z.to_nat (j - i)) with (S (Z.to_nat (j - (i + 1)))) in Hn by lia.
        assumption.
Qed.

Lemma StronglySorted_filter {A : Type} (R : A -> A -> Prop) (f : A -> bool) (l : list A) :
  StronglySorted R l -> StronglySorted R (filter f l).
Proof.
  induction 1 as [|a l Hs IH Hall]; cbn [filter]; [constructor|].
  destruct (f a); [|assumption].
  constructor; [assumption|].
  rewrite Forall_forall in *. intros x Hx. apply Hall.
  now apply filter_In in Hx.
Qed.

Lemma enumerate_from_sorted (bs : list byte) :
  forall i, StronglySorted (fun p q => fst p < fst q) (enumerate_from i bs).
Proof.
  induction bs as [|b bs IH]; intros i; cbn [enumerate_from]; constructor.
  - apply IH.
  - rewrite Forall_forall. intros [j v] Hin.
    apply enumerate_from_In in Hin. cbn [fst]. lia.
Qed.

Lemma pad2_two_digits (z : Z) : 0 <= z < 100 -> pad2 z = two_digits z.
Proof.
  intros H.
  assert (C : forallb (fun n => String.eqb (pad2 (Z.of_nat n)) (two_digits (Z.of_nat n)))
                (seq 0 100) = true) by (vm_compute; reflexivity).
  rewrite forallb_forall in C.
  specialize (C (Z.to_nat z)). rewrite Z2Nat.id in C by lia.
  apply String.eqb_eq, C, in_seq. lia.
Qed.

Lemma decode_heart_rate_ok (raw : string) (bs : list byte) :
  b64decode raw = Ok bs -> decode_heart_rate raw = Ok (hr_samples bs).
Proof.
  intros H. unfold decode_heart_rate. rewrite H. cbn.
  now rewrite hr_loop_spec.
Qed.

(** C5. For every byte sequence, [decode_heart_rate] returns one sample
    per index [i] whose byte [v] satisfies [0 < v < 254], and nothing
    else, in ascending minute order, with [minute = i], [bpm = v] and the
    time written as two-digit hours [i / 60] and minutes [i mod 60]; the
    bytes [0,0,0,72,75,0,0,80,0,65] give the four samples of minutes 3,
    4, 7 and 9. *)
Theorem decode_heart_rate_samples :
  (forall raw bs, b64decode raw = Ok bs -> decode_heart_rate raw = Ok (hr_samples bs))
  /\ (forall bs, decode_heart_rate (b64encode bs) = Ok (hr_samples bs))
  /\ (forall bs i v,
        In (i, v) (filter (fun iv => valid_bpm (snd iv)) (enumerate_from 0 bs)) <->
        (0 <= i
         /\ (exists b, nth_error bs (Z.to_nat i) = Some b /\ v = Z.of_N (Byte.to_N b))
         /\ 0 < v < 254))
  /\ (forall bs,
        StronglySorted (fun p q => fst p < fst q)
          (filter (fun iv => valid_bpm (snd iv)) (enumerate_from 0 bs)))
  /\ (forall i v, 0 <= i < 6000 ->
        hr_reading i v =
        PDict [("minute", PInt i);
               ("time", PStr (two_digits (i / 60) +++ ":" +++ two_digits (i mod 60)));
               ("bpm", PInt v)])
  /\ decode_heart_rate (b64encode [x00; x00; x00; x48; x4b; x00; x00; x50; x00; x41]) =
     Ok [PDict [("minute", PInt 3); ("time", PStr "00:03"); ("bpm", PInt 72)];
         PDict [("minute", PInt 4); ("time", PStr "00:04"); ("bpm", PInt 75)];
         PDict [("minute", PInt 7); ("time", PStr "00:07"); ("bpm", PInt 80)];
         PDict [("minute", PInt 9); ("time", PStr "00:09"); ("bpm", PInt 65)]].
Proof.
  split; [exact decode_heart_rate_ok|].
  split; [intros bs; apply decode_heart_rate_ok, b64decode_encode|].
  split.
  { intros bs i v. rewrite filter_In, enumerate_from_In. cbn [snd].
    unfold valid_bpm. rewrite andb_true_iff, !Z.ltb_lt, Z.sub_0_r. tauto. }
  split; [intros bs; apply StronglySorted_filter, enumerate_from_sorted|].
  split.
  { intros i v Hi. unfold hr_reading.
    rewrite !pad2_two_digits; [reflexivity | |].
    - pose proof (Z.mod_pos_bound i 60). lia.
    - split; [apply Z.div_pos; lia | apply Z.div_lt_upper_bound; lia]. }
  vm_compute. reflexivity.
Qed.

Lemma decode_heart_rate_samples_witness :
  b64decode "AABISw==" = Ok [x00; x00; x48; x4b]
  /\ decode_heart_rate "AABISw==" =
     Ok [PDict [("minute", PInt 2); ("time", PStr "00:02"); ("bpm", PInt 72)];
         PDict [("minute", PInt 3); ("time", PStr "00:03"); ("bpm", PInt 75)]].
Proof.
  split; [reflexivity|].
  exact (proj1 decode_heart_rate_samples "AABISw==" [x00; x00; x48; x4b] eq_refl).
Defined.

(** ** Helpers *)

Lemma str_of_Z_inj (a b : Z) : str_of_Z a = str_of_Z b -> a = b.
Proof.
  unfold str_of_Z. intros H.
  assert (N : forall z, Z.to_int z <> Decimal.Pos Decimal.Nil
                        /\ Z.to_int z <> Decimal.Neg Decimal.Nil).
  { intros [|p|p]; cbn; split; try discriminate;
      intros E; injection E as E; now apply Unsigned.to_uint_nonnil in E. }
  apply (f_equal NilZero.int_of_string) in H.
  rewrite !NilZero.isi in H by apply N.
  injection H as H. apply (f_equal Z.of_int) in H.
  now rewrite !DecimalZ.of_to in H.
Qed.

Lemma mapM_length {A B : Type} (f : A -> res B) (l : list A) :
  forall l', mapM f l = Ok l' -> List.length l' = List.length l.
Proof.
  induction l as [|a l IH]; intros l' H; cbn in H.
  - now inv H.
  - destruct (f a); cbn in H; try discriminate.
    destruct (mapM f l); cbn in H; try discriminate.
    inv H. cbn. f_equal. now apply IH.
Qed.

Lemma mapM_Forall2 {A B : Type} (f : A -> res B) (l : list A) :
  forall l', mapM f l = Ok l' -> Forall2 (fun a b => f a = Ok b) l l'.
Proof.
  induction l as [|a l IH]; intros l' H; cbn in H.
  - inv H. constructor.
  - destruct (f a) eqn:Fa; cbn in H; try discriminate.
    destruct (mapM f l); cbn in H; try discriminate.
    inv H. constructor; auto.
Qed.

(** ** JSON: outcomes of the parser *)

Lemma json_parse_outcome (ts : list jtoken) :
  forall stk e,
  (exists v, json_parse stk e ts = Ok v)
  \/ json_parse stk e ts = Raise JSONDecodeError
  \/ json_parse stk e ts = Raise ValueError
  \/ json_parse stk e ts = Unmodelled.
Proof.
  induction ts as [|t ts IH]; intros stk e; cbn [json_parse].
  - destruct e; eauto.
  - destruct (parse_step stk e t) as [[stk' e']|]; [|now auto].
    destruct (over_limit t); [now auto|].
    destruct (MAX_DEPTH <? List.length stk')%nat; [now auto|]. apply IH.
Qed.

Lemma json_loads_str_outcome (s : string) :
  (exists v, json_loads_str s = Ok v)
  \/ json_loads_str s = Raise JSONDecodeError
  \/ json_loads_str s = Raise ValueError
  \/ json_loads_str s = Unmodelled.
Proof. apply json_parse_outcome. Qed.

Lemma json_loads_str_raises (s : string) (e : exn) :
  json_loads_str s = Raise e -> e = JSONDecodeError \/ e = ValueError.
Proof.
  intros H. destruct (json_loads_str_outcome s) as [[v E]|[E|[E|E]]];
    rewrite E in H; inv H; auto.
Qed.





(** *** What the parser returns converts

    The tokens of the scanner are atoms, the parser takes no integer
    beyond the limit and opens no more than [MAX_DEPTH] containers at
    once, so the document it returns holds no such integer and nests no
    deeper. *)

Lemma lex_start_atomic (c : ascii) (m : lexmode) (ts : list jtoken) :
  lex_start c = Some (m, ts) ->
  Forall atomic_token ts /\ match m with MWord _ v => atomic v | _ => True end.
Proof.
  unfold lex_start. intros H.
  repeat (match type of H with
          | (if ?b then _ else _) = _ => destruct b
          end; [inv H; split; [repeat constructor | exact I]|]).
  discriminate H.
Qed.

Lemma lex_step_atomic (m m' : lexmode) (c : ascii) (ts : list jtoken) :
  match m with MWord _ v => atomic v | _ => True end ->
  lex_step m c = Some (m', ts) ->
  Forall atomic_token ts /\ match m' with MWord _ v => atomic v | _ => True end.
Proof.
  intros A H. destruct m as [|rest v|acc hi|acc hi|acc hi k v|lit st]; cbn [lex_step] in H.
  - eapply lex_start_atomic; eassumption.
  - destruct rest as [|e rest].
    + destruct (lex_start c) as [[m1 ts1]|] eqn:S; [|discriminate]. inv H.
      destruct (lex_start_atomic _ _ _ S) as [F M]. split; [constructor; assumption|exact M].
    + destruct (Ascii.eqb c e); [|discriminate]. inv H. split; [constructor|exact A].
  - repeat (match type of H with
            | (if ?b then _ else _) = _ => destruct b
            end; [inv H; split; [repeat constructor | exact I]|]).
    destruct (N_of_ascii c <? 32)%N; [discriminate H|].
    inv H. split; [constructor|exact I].
  - destruct (Ascii.eqb c "u"); [inv H; split; [constructor|exact I]|].
    destruct (escape_char c); [|discriminate]. inv H. split; [constructor|exact I].
  - destruct (hex_value c); [|discriminate].
    destruct (Nat.eqb k 3); inv H; (split; [constructor|]); [|exact I].
    unfold lex_unicode. destruct hi; repeat (destruct (_ : bool)); exact I.
  - destruct (Ascii.eqb c "I" && _); [inv H; split; [constructor|exact I]|].
    destruct (num_step st c); [inv H; split; [constructor|exact I]|].
    destruct (num_finish lit st) as [t|] eqn:F; [|discriminate].
    destruct (lex_start c) as [[m1 ts1]|] eqn:S; [|discriminate]. inv H.
    destruct (lex_start_atomic _ _ _ S) as [Fa M]. split; [|exact M].
    constructor; [|assumption]. destruct st; inv F; exact I.
Qed.

Lemma lex_break_atomic (m : lexmode) :
  match m with MWord _ v => atomic v | _ => True end ->
  Forall atomic_token (lex_break m ++ [TBad]).
Proof.
  intros A. destruct m as [|rest v|acc hi|acc hi|acc hi k v|lit st]; cbn [lex_break app];
    try (repeat constructor).
  - destruct rest; repeat constructor. exact A.
  - destruct (num_prefix lit st) as [t|] eqn:P; cbn [app]; repeat constructor.
    unfold num_prefix, num_finish, prefix_token in P.
    destruct st; inv P; try exact I; destruct (existsb _ _); exact I.
Qed.

Lemma json_lex_atomic (s : string) :
  forall m, match m with MWord _ v => atomic v | _ => True end ->
  Forall atomic_token (json_lex m s).
Proof.
  induction s as [|c s IH]; intros m A; cbn [json_lex].
  - destruct (lex_end m) as [ts|] eqn:E; [|now apply lex_break_atomic].
    destruct m as [|rest v|acc hi|acc hi|acc hi k v|lit st]; cbn in E; try discriminate.
    + inv E. constructor.
    + destruct rest; inv E. repeat constructor. exact A.
    + destruct (num_finish lit st) as [t|] eqn:F; inv E. repeat constructor.
      destruct st; inv F; exact I.
  - destruct (lex_step m c) as [[m' ts]|] eqn:S; [|now apply lex_break_atomic].
    destruct (lex_step_atomic _ _ _ _ A S) as [F M].
    apply Forall_app. split; [exact F | now apply IH].
Qed.

Lemma printable_atom (n : nat) (v : pyval) :
  atomic v -> over_limit (TAtom v) = false -> printable n v = true.
Proof.
  destruct v; try reflexivity; cbn [atomic]; try tauto.
  intros _ H. unfold over_limit in H. cbn [printable]. now rewrite H.
Qed.

Lemma Forall_dict_set (P : string * pyval -> Prop) (k : string) (v : pyval) (d : pydict) :
  (forall k', P (k', v)) -> Forall P d -> Forall P (dict_set k v d).
Proof.
  intros Pv. induction d as [|[k' v'] d IH]; intros F; cbn.
  - constructor; [apply Pv | constructor].
  - inv F. destruct (String.eqb k k'); constructor; auto.
Qed.

Lemma push_value_ok (v : pyval) (stk stk' : list frame) (e' : expect) :
  frames_ok stk ->
  printable (MAX_DEPTH - List.length stk) v = true ->
  push_value v stk = Some (stk', e') ->
  frames_ok stk' /\ List.length stk' = List.length stk
  /\ match e' with EEnd w => printable MAX_DEPTH w = true | _ => True end.
Proof.
  intros F P H. destruct stk as [|[acc|d [k|]] stk]; cbn [push_value] in H; inv H.
  - repeat split. exact P.
  - destruct F as [Fa Fs]. repeat split; [constructor; assumption | exact Fs].
  - destruct F as [Fa Fs]. repeat split; [|exact Fs].
    apply Forall_dict_set; [intros; exact P | exact Fa].
Qed.

Lemma printable_closed_list (acc : list pyval) (stk : list frame) (f : frame) :
  (List.length (f :: stk) <= MAX_DEPTH)%nat ->
  Forall (fun v => printable (MAX_DEPTH - List.length (f :: stk)) v = true) acc ->
  printable (MAX_DEPTH - List.length stk) (PList (rev acc)) = true.
Proof.
  intros L F. cbn [List.length] in *.
  replace (MAX_DEPTH - List.length stk)%nat
    with (S (MAX_DEPTH - S (List.length stk)))%nat by lia.
  cbn [printable]. apply forallb_forall. intros x Hx.
  apply in_rev in Hx. rewrite Forall_forall in F. now apply F.
Qed.

Lemma printable_closed_dict (d : pydict) (stk : list frame) (f : frame) :
  (List.length (f :: stk) <= MAX_DEPTH)%nat ->
  Forall (fun kv => printable (MAX_DEPTH - List.length (f :: stk)) (snd kv) = true) d ->
  printable (MAX_DEPTH - List.length stk) (PDict d) = true.
Proof.
  intros L F. cbn [List.length] in *.
  replace (MAX_DEPTH - List.length stk)%nat
    with (S (MAX_DEPTH - S (List.length stk)))%nat by lia.
  cbn [printable]. apply forallb_forall. intros x Hx.
  rewrite Forall_forall in F. now apply F.
Qed.

Lemma parse_step_ok (stk stk' : list frame) (e e' : expect) (t : jtoken) :
  frames_ok stk -> (List.length stk <= MAX_DEPTH)%nat ->
  atomic_token t -> over_limit t = false ->
  parse_step stk e t = Some (stk', e') ->
  (List.length stk' <= MAX_DEPTH)%nat ->
  frames_ok stk'
  /\ match e' with EEnd w => printable MAX_DEPTH w = true | _ => True end.
Proof.
  intros F L A O H L'.
  assert (Push : forall v s, frames_ok s ->
            printable (MAX_DEPTH - List.length s) v = true ->
            push_value v s = Some (stk', e') ->
            frames_ok stk'
            /\ match e' with EEnd w => printable MAX_DEPTH w = true | _ => True end).
  { intros v s Fs P Hp. destruct (push_value_ok _ _ _ _ Fs P Hp) as (X & _ & Y). auto. }
  assert (Atom : forall v, t = TAtom v -> push_value v stk = Some (stk', e') ->
            frames_ok stk'
            /\ match e' with EEnd w => printable MAX_DEPTH w = true | _ => True end).
  { intros v -> Hp. eapply Push; [exact F | | exact Hp].
    apply printable_atom; [exact A | exact O]. }
  assert (Open : forall f, (f = FArr [] \/ f = FObj [] None) -> frames_ok (f :: stk)).
  { intros f [-> | ->]; cbn [frames_ok]; (split; [constructor | exact F]). }
  assert (Close : forall f s, stk = f :: s ->
            forall v, match f with
                 | FArr acc => v = PList (rev acc) \/ v = PList []
                 | FObj d _ => v = PDict d
                 end ->
            push_value v s = Some (stk', e') ->
            frames_ok stk'
            /\ match e' with EEnd w => printable MAX_DEPTH w = true | _ => True end).
  { intros f s -> v Hv Hp. destruct F as [Fa Fs].
    eapply Push; [exact Fs | | exact Hp].
    destruct f as [acc|d k].
    - destruct Hv as [-> | ->].
      + eapply printable_closed_list; eassumption.
      + apply (printable_closed_list [] s (FArr acc) L). constructor.
    - subst v. eapply printable_closed_dict; eassumption. }
  destruct e, t; cbn [parse_step] in H; try discriminate H;
    try (apply (Atom v eq_refl H));
    try (inv H; split; [apply Open; auto | exact I]).
  all: try (destruct stk as [|[acc|d k] s]; try discriminate H).
  all: try (eapply (Close _ _ eq_refl); [|exact H]; cbn; auto; fail).
  all: try (destruct v; try discriminate H).
  all: try (inv H; split; [exact F | exact I]).
Qed.

Lemma json_parse_printable (ts : list jtoken) :
  forall stk e v,
  Forall atomic_token ts ->
  frames_ok stk -> (List.length stk <= MAX_DEPTH)%nat ->
  match e with EEnd w => printable MAX_DEPTH w = true | _ => True end ->
  json_parse stk e ts = Ok v -> printable MAX_DEPTH v = true.
Proof.
  induction ts as [|t ts IH]; intros stk e v A F L E H; cbn [json_parse] in H.
  - destruct e; try discriminate H. inv H. exact E.
  - inv A.
    destruct (parse_step stk e t) as [[stk' e']|] eqn:S; [|discriminate H].
    destruct (over_limit t) eqn:O; [discriminate H|].
    destruct (MAX_DEPTH <? List.length stk')%nat eqn:D; [discriminate H|].
    apply Nat.ltb_ge in D.
    destruct (parse_step_ok _ _ _ _ _ F L H2 O S D) as [F' E'].
    eapply IH; eassumption.
Qed.

(** Every document that [json.loads] returns holds no integer of more
    than 4300 digits and nests at most [MAX_DEPTH] containers. *)
Lemma json_loads_str_printable (s : string) (v : pyval) :
  json_loads_str s = Ok v -> printable MAX_DEPTH v = true.
Proof.
  intros H. eapply json_parse_printable; [| | | |exact H].
  - apply json_lex_atomic. exact I.
  - exact I.
  - cbn. unfold MAX_DEPTH. lia.
  - exact I.
Qed.

Lemma printable_inside (x v : pyval) :
  inside x v -> forall n, printable n v = true -> exists m, printable m x = true.
Proof.
  induction 1 as [|y l Hin Hy IH|k y d Hin Hy IH]; intros n P.
  - eauto.
  - destruct n; [discriminate P|]. cbn [printable] in P.
    rewrite forallb_forall in P. eapply IH, P, Hin.
  - destruct n; [discriminate P|]. cbn [printable] in P.
    rewrite forallb_forall in P. eapply IH. exact (P _ Hin).
Qed.

Lemma printable_int (v : pyval) (z : Z) (n : nat) :
  printable n v = true -> inside (PInt z) v -> too_long z = false.
Proof.
  intros P I. destruct (printable_inside _ _ I _ P) as [m Pm].
  cbn in Pm. now apply negb_true_iff in Pm.
Qed.

(** ** Mode codes *)

Lemma mode_name_int (t : code_table) (z : Z) :
  too_long z = false ->
  mode_name t (PInt z) =
  Ok (PStr (match table_lookup t z with
            | Some n => n
            | None => "unknown_" +++ str_of_Z z
            end)).
Proof. intros H. unfold mode_name, unknown_name, str_int. rewrite H. reflexivity. Qed.

Lemma sleep_stage_name_spec (z : Z) :
  match table_lookup SLEEP_STAGES z with
  | Some n => n
  | None => "unknown_" +++ str_of_Z z
  end = sleep_stage_name z.
Proof.
  unfold sleep_stage_name, SLEEP_STAGES. cbn [table_lookup].
  repeat (destruct (_ =? _); [reflexivity|]). reflexivity.
Qed.

Lemma activity_mode_name_spec (z : Z) :
  match table_lookup ACTIVITY_MODES z with
  | Some n => n
  | None => "unknown_" +++ str_of_Z z
  end = activity_mode_name z.
Proof.
  unfold activity_mode_name, ACTIVITY_MODES. cbn [table_lookup].
  repeat (destruct (_ =? _); [reflexivity|]). reflexivity.
Qed.

Lemma decode_summary_printable (s : string) (v : pyval) :
  decode_summary s = Ok v -> printable MAX_DEPTH v = true.
Proof.
  unfold decode_summary. intros H.
  destruct (b64decode s) as [bs| |]; cbn [bind try_except] in H;
    [|destruct (existsb _ _); discriminate H|discriminate H].
  assert (J : json_loads_bytes bs = Ok v).
  { destruct (json_loads_bytes bs) as [w|e|]; cbn [try_except] in H;
      [exact H | destruct (existsb _ _); discriminate H | discriminate H]. }
  unfold json_loads_bytes in J.
  destruct (detect_encoding _); try discriminate J;
    (destruct (utf8_valid _); [|discriminate J]);
    eapply json_loads_str_printable; exact J.
Qed.

(** C6. In the records of [get_sleep] and [get_steps] the mode code of
    a raw stage goes through the table: 4 light, 5 deep, 7 awake, 8 rem
    for a sleep stage, 1 slow_walking, 3 fast_walking, 7 running,
    76 light_activity for an activity; every other integer code [z]
    becomes the string [unknown_z], from which [z] can be read back and
    which is none of the table's names.  No code is an error and every
    raw stage becomes one stage, in order: [sleep_stage] and
    [steps_stage] return the stage with the name of the code, for every
    integer code that can be written in decimal, which every integer of
    a decoded summary can. *)
Theorem mode_codes_lossless :
  (forall z, too_long z = false ->
     mode_name SLEEP_STAGES (PInt z) = Ok (PStr (sleep_stage_name z)))
  /\ (forall z, too_long z = false ->
        mode_name ACTIVITY_MODES (PInt z) = Ok (PStr (activity_mode_name z)))
  /\ (forall a b, "unknown_" +++ str_of_Z a = "unknown_" +++ str_of_Z b -> a = b)
  /\ (forall z name,
        In name ["light"; "deep"; "awake"; "rem"; "slow_walking"; "fast_walking";
                 "running"; "light_activity"] ->
        "unknown_" +++ str_of_Z z <> name)
  /\ (forall d start stop z,
        dict_lookup "start" d = Some (PInt start) ->
        dict_lookup "stop" d = Some (PInt stop) ->
        dict_lookup "mode" d = Some (PInt z) -> too_long z = false ->
        sleep_stage (PDict d) = Ok (sleep_stage_of start stop (sleep_stage_name z)))
  /\ (forall d start stop z,
        dict_lookup "start" d = Some start ->
        dict_lookup "stop" d = Some stop ->
        dict_lookup "mode" d = Some (PInt z) -> too_long z = false ->
        steps_stage (PDict d) =
        Ok (steps_stage_of d start stop (activity_mode_name z)))
  /\ (forall slp key raw,
        dict_lookup key slp = Some (PList raw) ->
        stage_list (PDict slp) key = mapM sleep_stage raw)
  /\ (forall raw stages,
        mapM sleep_stage raw = Ok stages ->
        Forall2 (fun r s => sleep_stage r = Ok s) raw stages)
  /\ (forall raw stages,
        mapM steps_stage raw = Ok stages ->
        Forall2 (fun r s => steps_stage r = Ok s) raw stages)
  /\ (forall s summary z,
        decode_summary s = Ok summary -> inside (PInt z) summary ->
        too_long z = false).
Proof.
  split.
  { intros z H. now rewrite mode_name_int, sleep_stage_name_spec. }
  split.
  { intros z H. now rewrite mode_name_int, activity_mode_name_spec. }
  split.
  { intros a b H. cbn in H. injection H as H. now apply str_of_Z_inj. }
  split.
  { intros z name Hin H. cbn in Hin.
    repeat (destruct Hin as [<- | Hin]; [discriminate H|]). exact Hin. }
  split.
  { intros d start stop z Ha Hb Hz L.
    unfold sleep_stage, py_item. rewrite Ha, Hb, Hz. cbn [bind].
    unfold py_sub. cbn [is_number andb as_int bind].
    rewrite mode_name_int, sleep_stage_name_spec by exact L. reflexivity. }
  split.
  { intros d start stop z Ha Hb Hz L.
    unfold steps_stage, py_item. rewrite Ha, Hb, Hz. cbn [bind].
    rewrite mode_name_int, activity_mode_name_spec by exact L. reflexivity. }
  split.
  { intros slp key raw H. unfold stage_list, py_get. now rewrite H. }
  split; [intros raw stages H; now apply mapM_Forall2|].
  split; [intros raw stages H; now apply mapM_Forall2|].
  intros s summary z H I. eapply printable_int; [|exact I].
  eapply decode_summary_printable; exact H.
Qed.

Lemma mode_codes_lossless_witness :
  sleep_stage (PDict [("start", PInt 1479); ("stop", PInt 1508); ("mode", PInt 9)]) =
  Ok (PDict [("start_minute", PInt 1479); ("end_minute", PInt 1508);
             ("duration_minutes", PInt 29); ("stage", PStr "unknown_9")])
  /\ steps_stage (PDict [("start", PInt 480); ("stop", PInt 495); ("mode", PInt 7);
                         ("step", PInt 1200)]) =
     Ok (PDict [("start_minute", PInt 480); ("end_minute", PInt 495);
                ("mode", PStr "running"); ("steps", PInt 1200);
                ("distance_meters", PInt 0); ("calories", PInt 0)])
  /\ too_long 9 = false
  /\ "unknown_" +++ str_of_Z 9 <> "rem".
Proof.
  split.
  { exact (proj1 (proj2 (proj2 (proj2 (proj2 mode_codes_lossless))))
             [("start", PInt 1479); ("stop", PInt 1508); ("mode", PInt 9)]
             1479 1508 9 eq_refl eq_refl eq_refl eq_refl). }
  split.
  { exact (proj1 (proj2 (proj2 (proj2 (proj2 (proj2 mode_codes_lossless)))))
             [("start", PInt 480); ("stop", PInt 495); ("mode", PInt 7);
              ("step", PInt 1200)]
             (PInt 480) (PInt 495) 7 eq_refl eq_refl eq_refl eq_refl). }
  split.
  { apply (proj2 (proj2 (proj2 (proj2 (proj2 (proj2 (proj2 (proj2 (proj2
             mode_codes_lossless)))))))) "eyJtb2RlIjogOX0=" (PDict [("mode", PInt 9)]) 9).
    - reflexivity.
    - eapply inside_dict; [left; reflexivity | apply inside_here]. }
  apply (proj1 (proj2 (proj2 (proj2 mode_codes_lossless))) 9 "rem").
  cbn. tauto.
Defined.
(** ** Stress data *)






(** ** Outcomes that are never a given exception *)

Lemma bind_never {A B : Type} (e : exn) (c : res A) (k : A -> res B) :
  never_raises e c -> (forall a, never_raises e (k a)) -> never_raises e (bind c k).
Proof.
  unfold never_raises. intros Hc Hk.
  destruct c; cbn; [apply Hk | | discriminate].
  intros E. apply Hc. now inv E.
Qed.

Lemma mapM_never {A B : Type} (e : exn) (f : A -> res B) (l : list A) :
  (forall a, never_raises e (f a)) -> never_raises e (mapM f l).
Proof.
  intros Hf. induction l as [|a l IH]; cbn; [discriminate|].
  apply bind_never; [apply Hf|]. intros b.
  apply bind_never; [apply IH|]. intros bs. discriminate.
Qed.

Lemma py_get_never (obj : pyval) (k : string) (v : pyval) :
  never_raises ZeppDecodeError (py_get obj k v).
Proof. destruct obj; discriminate. Qed.

Lemma py_item_never (obj : pyval) (k : string) :
  never_raises ZeppDecodeError (py_item obj k).
Proof. destruct obj; try discriminate. cbn. destruct (dict_lookup k d); discriminate. Qed.

Lemma py_in_never (obj : pyval) (k : string) :
  never_raises ZeppDecodeError (py_in k obj).
Proof. destruct obj; discriminate. Qed.

Lemma py_iter_never (obj : pyval) : never_raises ZeppDecodeError (py_iter obj).
Proof. destruct obj; discriminate. Qed.












Lemma strptime_ymd_raises (date : string) (e : exn) :
  strptime_ymd (PStr date) = Raise e -> e = ValueError.
Proof.
  unfold strptime_ymd, make_datetime. intros H.
  repeat (match type of H with
          | match ?x with _ => _ end = _ => destruct x
          | (let '(_, _) := ?x in _) = _ => destruct x
          end; try discriminate H);
    now inv H.
Qed.

Lemma local_seconds_raises (lo : Z -> Z) (u : Z) (e : exn) :
  local_seconds lo u = Raise e -> e = ValueError.
Proof.
  unfold local_seconds. destruct (_ && _); intros H; now inv H.
Qed.

Lemma bind_raises {A B : Type} (P : exn -> Prop) (c : res A) (k : A -> res B) (e : exn) :
  (forall e', c = Raise e' -> P e') ->
  (forall a e', k a = Raise e' -> P e') ->
  bind c k = Raise e -> P e.
Proof.
  intros Hc Hk H. destruct c as [a|e'|]; cbn [bind] in H.
  - eapply Hk; eassumption.
  - inv H. now apply Hc.
  - discriminate H.
Qed.

Lemma timestamp_raises (lo : Z -> Z) (dt : datetime) (e : exn) :
  timestamp lo dt = Raise e -> e = ValueError.
Proof.
  unfold timestamp, local_to_seconds. cbv zeta.
  assert (L : forall u e', local_seconds lo u = Raise e' -> e' = ValueError)
    by (intros; eapply local_seconds_raises; eassumption).
  apply (bind_raises (fun x => x = ValueError)); [|discriminate].
  intros e'. apply (bind_raises (fun x => x = ValueError)); [apply L|]. intros lt e''.
  apply (bind_raises (fun x => x = ValueError)); [apply L|]. intros t1 e3.
  destruct (_ =? _).
  - apply (bind_raises (fun x => x = ValueError)); [apply L|]. intros lt2 e4.
    destruct (_ =? _); [discriminate|].
    apply (bind_raises (fun x => x = ValueError)); [apply L|].
    intros t2 e5. repeat (destruct (_ =? _)); discriminate.
  - apply (bind_raises (fun x => x = ValueError)); [apply L|].
    intros t2 e5. repeat (destruct (_ =? _)); discriminate.
Qed.

(** The two conversions of a date into milliseconds raise nothing but
    [ValueError]. *)
Lemma date_to_ms_raises (lo : Z -> Z) (date : string) (e : exn) :
  _date_to_ms lo (PStr date) = Raise e \/ _end_of_day_ms lo (PStr date) = Raise e ->
  e = ValueError.
Proof.
  unfold _date_to_ms, _end_of_day_ms.
  intros [H | H]; revert H;
    (apply (bind_raises (fun x => x = ValueError)); [apply strptime_ymd_raises|]; intros dt e';
     apply (bind_raises (fun x => x = ValueError)); [apply timestamp_raises | discriminate]).
Qed.

Ltac bind_inv H :=
  match type of H with
  | bind ?c _ = Ok _ =>
      let a := fresh "a" in
      let E := fresh "E" in
      destruct c as [a| |] eqn:E; cbn [bind] in H; [|discriminate H..]
  end.







(** ** Summary blobs *)

Lemma json_loads_bytes_raises (bs : list byte) (e : exn) :
  json_loads_bytes bs = Raise e ->
  e = JSONDecodeError \/ e = UnicodeDecodeError \/ e = ValueError.
Proof.
  unfold json_loads_bytes.
  destruct (detect_encoding _); try discriminate;
    (destruct (utf8_valid _); [|intros H; inv H; now auto]);
    intros H; destruct (json_loads_str_raises _ _ H); auto.
Qed.


Lemma a2b_loop_outcome (s : string) :
  forall q l p out,
  (exists bs, a2b_base64_loop s q l p out = Ok bs)
  \/ a2b_base64_loop s q l p out = Raise BinasciiError.
Proof.
  induction s as [|c s IH]; intros q l p out; cbn [a2b_base64_loop].
  - destruct (q =? 0)%N; eauto.
  - repeat (case_match; eauto).
Qed.

(** A character outside the alphabet is skipped. *)
Lemma a2b_loop_skip (c : ascii) (s2 : string) :
  outside_alphabet c = true ->
  forall s1 q l p out,
  a2b_base64_loop (s1 +++ String c s2) q l p out =
  a2b_base64_loop (s1 +++ s2) q l p out.
Proof.
  unfold outside_alphabet. intros Hc.
  destruct (b64_value c) eqn:V; [discriminate|]. apply negb_true_iff in Hc.
  induction s1 as [|c1 s1 IH]; intros q l p out.
  - cbn [String.append a2b_base64_loop]. now rewrite Hc, V.
  - cbn [String.append a2b_base64_loop].
    repeat case_match; try reflexivity; apply IH.
Qed.

Lemma is_ascii_skip (c : ascii) (s2 : string) :
  (N_of_ascii c <? 128)%N = true ->
  forall s1, is_ascii (s1 +++ String c s2) = is_ascii (s1 +++ s2).
Proof.
  intros Hc. induction s1 as [|c1 s1 IH]; cbn [String.append].
  - now rewrite is_ascii_String, Hc.
  - now rewrite !is_ascii_String, IH.
Qed.

Lemma decode_summary_raises (raw : string) (e : exn) :
  decode_summary raw = Raise e -> e = ZeppDecodeError \/ e = ValueError.
Proof.
  intros H. unfold decode_summary, b64decode in H.
  destruct (is_ascii raw); [|inv H; now right].
  destruct (a2b_loop_outcome raw 0%N 0%N 0%N []) as [[bs B]|B]; rewrite B in H;
    cbn [bind try_except existsb exn_eqb orb] in H; [|inv H; now left].
  destruct (json_loads_bytes bs) as [v|e'|] eqn:J; cbn [try_except] in H;
    try discriminate H.
  destruct (json_loads_bytes_raises _ _ J) as [-> | [-> | ->]]; inv H; auto.
Qed.




(** Text outside ASCII is refused by [b64decode] with a plain
    [ValueError], which [decode_summary] does not convert. *)
Lemma decode_summary_non_ascii :
  decode_summary (String (ascii_of_N 233) EmptyString) = Raise ValueError.
Proof. reflexivity. Qed.

(** The base64 of a JSON array with an integer of 4301 digits: the
    plain [ValueError] of [json.loads] leaves [decode_summary]
    unconverted. *)
Lemma decode_summary_long_integer :
  decode_summary (b64encode (list_byte_of_string long_array)) = Raise ValueError.
Proof. vm_compute. reflexivity. Qed.

(** ** Dict updates *)

Lemma dict_lookup_set_eq (k : string) (v : pyval) (d : pydict) :
  dict_lookup k (dict_set k v d) = Some v.
Proof.
  induction d as [|[k' v'] d IH]; cbn.
  - now rewrite String.eqb_refl.
  - destruct (String.eqb k k') eqn:E; cbn; rewrite E; [reflexivity | exact IH].
Qed.

Lemma dict_lookup_set_neq (k k' : string) (v : pyval) (d : pydict) :
  k <> k' -> dict_lookup k' (dict_set k v d) = dict_lookup k' d.
Proof.
  intros N. induction d as [|[k0 v0] d IH]; cbn.
  - destruct (String.eqb k' k) eqn:E; [|reflexivity].
    apply String.eqb_eq in E. congruence.
  - destruct (String.eqb k k0) eqn:E; cbn.
    + apply String.eqb_eq in E. subst k0.
      destruct (String.eqb k' k) eqn:E'; [|reflexivity].
      apply String.eqb_eq in E'. congruence.
    + destruct (String.eqb k' k0); [reflexivity | exact IH].
Qed.

(** ** Band data: decode failures of a day *)

Lemma fetch_activity_keeps (d result : pydict) :
  exists r,
    fetch_activity (PDict d) result = Ok r
    /\ forall k, k <> "activity_bytes_length" -> dict_lookup k r = dict_lookup k result.
Proof.
  unfold fetch_activity. cbn [py_in py_item bind].
  destruct (dict_lookup "data" d) as [v|]; cbn [bind]; [|eauto].
  destruct v; eauto.
  unfold b64decode. destruct (is_ascii s); cbn; [|eauto].
  destruct (a2b_loop_outcome s 0%N 0%N 0%N []) as [[bs H]|H]; rewrite H; cbn; [|eauto].
  eexists. split; [reflexivity|]. intros k Hk.
  now apply dict_lookup_set_neq.
Qed.

Lemma decode_summary_error_ascii (raw : string) :
  decode_summary raw = Raise ZeppDecodeError -> is_ascii raw = true.
Proof.
  unfold decode_summary, b64decode. destruct (is_ascii raw); [reflexivity|discriminate].
Qed.

Lemma decode_heart_rate_raw_ok (raw : string) (bs : list byte) :
  b64decode raw = Ok bs ->
  decode_heart_rate_raw raw = Ok (map (fun b => PInt (Z.of_N (Byte.to_N b))) bs).
Proof. intros H. unfold decode_heart_rate_raw. now rewrite H. Qed.

Lemma b64decode_outcome (s : string) :
  (exists bs, b64decode s = Ok bs)
  \/ b64decode s = Raise BinasciiError
  \/ b64decode s = Raise ValueError.
Proof.
  unfold b64decode. destruct (is_ascii s); [|now right; right].
  destruct (a2b_loop_outcome s 0%N 0%N 0%N []) as [H|H]; auto.
Qed.

Lemma decode_heart_rate_error (raw : string) :
  decode_heart_rate raw = Raise ZeppDecodeError -> b64decode raw = Raise BinasciiError.
Proof.
  unfold decode_heart_rate.
  destruct (b64decode_outcome raw) as [[bs H]|[H|H]]; rewrite H; cbn;
    try discriminate; reflexivity.
Qed.

Lemma fetch_summary_never (day : pyval) (result : pydict) :
  never_raises ZeppDecodeError (fetch_summary day result).
Proof.
  unfold fetch_summary. apply bind_never; [apply py_in_never|].
  intros []; [|discriminate].
  apply bind_never; [apply py_item_never|]. intros v.
  destruct v; try discriminate.
  apply bind_never; [|discriminate].
  destruct (decode_summary s) as [?|[]|]; discriminate.
Qed.

Lemma fetch_heart_rate_never (day : pyval) (result : pydict) :
  never_raises ZeppDecodeError (fetch_heart_rate day result).
Proof.
  unfold fetch_heart_rate. apply bind_never; [apply py_in_never|].
  intros []; [|discriminate].
  apply bind_never; [apply py_item_never|]. intros v.
  destruct v; try discriminate.
  apply bind_never; [|intros []; discriminate].
  match goal with |- never_raises _ (try_except ?c _ _) => destruct c as [?|[]|] end;
    discriminate.
Qed.

Lemma fetch_activity_never (day : pyval) (result : pydict) :
  never_raises ZeppDecodeError (fetch_activity day result).
Proof.
  unfold fetch_activity. apply bind_never; [apply py_in_never|].
  intros []; [|discriminate].
  apply bind_never; [apply py_item_never|]. intros v.
  destruct v; try discriminate.
  match goal with |- never_raises _ (try_except_all ?c _) => destruct c end;
    discriminate.
Qed.

Lemma fetch_day_never (day : pyval) : never_raises ZeppDecodeError (fetch_day day).
Proof.
  unfold fetch_day. apply bind_never; [apply py_get_never|]. intros v.
  apply bind_never; [apply fetch_summary_never|]. intros r1.
  apply bind_never; [apply fetch_heart_rate_never|]. intros r2.
  apply bind_never; [apply fetch_activity_never|]. intros r3. discriminate.
Qed.

Lemma fetch_heart_rate_keeps (d result r : pydict) :
  fetch_heart_rate (PDict d) result = Ok r ->
  forall k, k <> "heart_rate" -> k <> "heart_rate_raw" ->
  dict_lookup k r = dict_lookup k result.
Proof.
  unfold fetch_heart_rate. cbn [py_in py_item bind].
  destruct (dict_lookup "data_hr" d) as [v|]; cbn [bind];
    [|intros H; now inv H].
  destruct v; try (intros H; now inv H).
  intros H k K1 K2. bind_inv H. destruct a as [hr hr_raw]. inv H.
  rewrite !dict_lookup_set_neq by congruence. reflexivity.
Qed.

Lemma fetch_heart_rate_result (d result : pydict) (h : string) :
  dict_lookup "data_hr" d = Some (PStr h) ->
  (decode_heart_rate h = Raise ZeppDecodeError ->
   fetch_heart_rate (PDict d) result =
   Ok (dict_set "heart_rate_raw" (PList []) (dict_set "heart_rate" (PList []) result)))
  /\ (forall bs, b64decode h = Ok bs ->
      fetch_heart_rate (PDict d) result =
      Ok (dict_set "heart_rate_raw" (PList (map (fun b => PInt (Z.of_N (Byte.to_N b))) bs))
            (dict_set "heart_rate" (PList (hr_samples bs)) result))).
Proof.
  intros L. unfold fetch_heart_rate. cbn [py_in py_item bind]. rewrite L. cbn [bind].
  split.
  - intros E. rewrite E. reflexivity.
  - intros bs B.
    rewrite (decode_heart_rate_ok h bs B), (decode_heart_rate_raw_ok h bs B).
    reflexivity.
Qed.

Lemma fetch_summary_failed (d result : pydict) (raw : string) :
  dict_lookup "summary" d = Some (PStr raw) ->
  decode_summary raw = Raise ZeppDecodeError ->
  fetch_summary (PDict d) result = Ok (dict_set "summary" PNone result).
Proof.
  intros L E. unfold fetch_summary. cbn [py_in py_item bind]. rewrite L. cbn [bind].
  rewrite E. reflexivity.
Qed.

(** C4, as the code has it.  No decode error leaves [_fetch_band_data].
    When decoding a day's summary blob raises [ZeppDecodeError], the
    day's [summary] is [None]; the heart-rate lists are decided by the
    heart-rate blob alone: both are empty when decoding that blob raises
    [ZeppDecodeError], they are its samples when it decodes, and they
    are not set when the day has no such blob. *)
Theorem decode_failures_are_absent_data :
  (forall data, never_raises ZeppDecodeError (_fetch_band_data data))
  /\ (forall d raw,
        dict_lookup "summary" d = Some (PStr raw) ->
        decode_summary raw = Raise ZeppDecodeError ->
        (forall r, fetch_day (PDict d) = Ok (PDict r) ->
                   dict_lookup "summary" r = Some PNone)
        /\ (dict_lookup "data_hr" d = None ->
            exists r, fetch_day (PDict d) = Ok (PDict r)
                      /\ dict_lookup "summary" r = Some PNone
                      /\ dict_lookup "heart_rate" r = None
                      /\ dict_lookup "heart_rate_raw" r = None)
        /\ (forall h,
              dict_lookup "data_hr" d = Some (PStr h) ->
              decode_heart_rate h = Raise ZeppDecodeError ->
              exists r, fetch_day (PDict d) = Ok (PDict r)
                        /\ dict_lookup "summary" r = Some PNone
                        /\ dict_lookup "heart_rate" r = Some (PList [])
                        /\ dict_lookup "heart_rate_raw" r = Some (PList []))
        /\ (forall h bs,
              dict_lookup "data_hr" d = Some (PStr h) ->
              b64decode h = Ok bs ->
              exists r, fetch_day (PDict d) = Ok (PDict r)
                        /\ dict_lookup "summary" r = Some PNone
                        /\ dict_lookup "heart_rate" r = Some (PList (hr_samples bs))
                        /\ dict_lookup "heart_rate_raw" r =
                           Some (PList (map (fun b => PInt (Z.of_N (Byte.to_N b))) bs))))
  /\ (forall d h r,
        dict_lookup "data_hr" d = Some (PStr h) ->
        decode_heart_rate h = Raise ZeppDecodeError ->
        fetch_day (PDict d) = Ok (PDict r) ->
        dict_lookup "heart_rate" r = Some (PList [])
        /\ dict_lookup "heart_rate_raw" r = Some (PList [])).
Proof.
  split.
  { intros data. unfold _fetch_band_data.
    apply bind_never; [apply py_get_never|]. intros code.
    apply bind_never; [destruct code; discriminate|]. intros [|]; [discriminate|].
    apply bind_never; [apply py_get_never|]. intros items.
    apply bind_never; [apply py_iter_never|]. intros l.
    apply mapM_never, fetch_day_never. }
  split.
  { intros d raw L E.
    split.
    { intros r H. unfold fetch_day in H. cbn [py_get bind] in H.
      rewrite (fetch_summary_failed _ _ _ L E) in H. cbn [bind] in H.
      bind_inv H.
      destruct (fetch_activity_keeps d a) as (r3 & A & K). rewrite A in H. cbn in H.
      inv H. rewrite K by discriminate.
      rewrite (fetch_heart_rate_keeps _ _ _ E0) by discriminate.
      apply dict_lookup_set_eq. }
    split.
    { intros N. unfold fetch_day. cbn [py_get bind].
      rewrite (fetch_summary_failed _ _ _ L E). cbn [bind].
      unfold fetch_heart_rate. cbn [py_in py_item bind]. rewrite N. cbn [bind].
      match goal with
      | |- context [fetch_activity _ ?x] =>
          destruct (fetch_activity_keeps d x) as (r3 & A & K)
      end.
      rewrite A. cbn [bind]. exists r3. split; [reflexivity|].
      rewrite !K by discriminate. cbn. auto. }
    split.
    { intros h Lh Eh. unfold fetch_day. cbn [py_get bind].
      rewrite (fetch_summary_failed _ _ _ L E). cbn [bind].
      rewrite (proj1 (fetch_heart_rate_result _ _ _ Lh) Eh). cbn [bind].
      match goal with
      | |- context [fetch_activity _ ?x] =>
          destruct (fetch_activity_keeps d x) as (r3 & A & K)
      end.
      rewrite A. cbn [bind]. exists r3. split; [reflexivity|].
      rewrite !K by discriminate. cbn. auto. }
    intros h bs Lh Bh. unfold fetch_day. cbn [py_get bind].
    rewrite (fetch_summary_failed _ _ _ L E). cbn [bind].
    rewrite (proj2 (fetch_heart_rate_result _ _ _ Lh) bs Bh). cbn [bind].
    match goal with
    | |- context [fetch_activity _ ?x] =>
        destruct (fetch_activity_keeps d x) as (r3 & A & K)
    end.
    rewrite A. cbn [bind]. exists r3. split; [reflexivity|].
    rewrite !K by discriminate. cbn. auto. }
  intros d h r Lh Eh H. unfold fetch_day in H. cbn [py_get bind] in H.
  bind_inv H.
  rewrite (proj1 (fetch_heart_rate_result _ _ _ Lh) Eh) in H. cbn [bind] in H.
  match type of H with
  | context [fetch_activity _ ?x] =>
      destruct (fetch_activity_keeps d x) as (r3 & A & K)
  end.
  rewrite A in H. cbn in H. inv H. rewrite !K by discriminate.
  rewrite dict_lookup_set_neq by discriminate.
  rewrite !dict_lookup_set_eq. auto.
Qed.

Lemma decode_failures_are_absent_data_witness :
  dict_lookup "summary" [("date_time", PStr "2026-02-06"); ("summary", PStr "!!!");
                         ("data_hr", PStr "AABISw")] = Some (PStr "!!!")
  /\ decode_summary "!!!" = Raise ZeppDecodeError
  /\ decode_heart_rate "AABISw" = Raise ZeppDecodeError
  /\ exists r,
       fetch_day (PDict [("date_time", PStr "2026-02-06"); ("summary", PStr "!!!");
                         ("data_hr", PStr "AABISw")]) = Ok (PDict r)
       /\ dict_lookup "summary" r = Some PNone
       /\ dict_lookup "heart_rate" r = Some (PList [])
       /\ dict_lookup "heart_rate_raw" r = Some (PList []).
Proof.
  split; [reflexivity|]. split; [reflexivity|]. split; [reflexivity|].
  apply (proj1 (proj2 (proj2 (proj1 (proj2 decode_failures_are_absent_data)
           [("date_time", PStr "2026-02-06"); ("summary", PStr "!!!");
            ("data_hr", PStr "AABISw")] "!!!" eq_refl eq_refl))) "AABISw");
    reflexivity.
Defined.

(** The claim C4 as stated fails: the summary blob of this day does not
    decode, and its heart-rate lists are not empty. *)
Lemma summary_failure_keeps_heart_rate :
  decode_summary "!!!" = Raise ZeppDecodeError
  /\ fetch_day (PDict [("date_time", PStr "2026-02-06"); ("summary", PStr "!!!");
                       ("data_hr", PStr "AABISw==")]) =
     Ok (PDict [("date", PStr "2026-02-06"); ("summary", PNone);
                ("heart_rate",
                 PList [PDict [("minute", PInt 2); ("time", PStr "00:02"); ("bpm", PInt 72)];
                        PDict [("minute", PInt 3); ("time", PStr "00:03"); ("bpm", PInt 75)]]);
                ("heart_rate_raw", PList [PInt 0; PInt 0; PInt 72; PInt 75])]).
Proof. split; reflexivity. Qed.

(** ** Sleep reconciliation *)

Section SleepProofs.

Variable local_offset : Z -> Z.

Lemma scan_days_spec (date : string) (days : list pyval) :
  forall vs b,
  mapM (inspect_day local_offset date) days = Ok vs ->
  scan_days local_offset date days b =
  Ok (match first_accept vs with
      | Some a => Some a
      | None => match b with Some x => Some x | None => first_fallback vs end
      end).
Proof.
  induction days as [|day days IH]; intros vs b H; cbn in H.
  - inv H. cbn. now destruct b.
  - destruct (inspect_day local_offset date day) as [v| |] eqn:E; cbn [bind] in H;
      try discriminate H.
    destruct (mapM (inspect_day local_offset date) days) as [vs'| |] eqn:E0;
      cbn [bind] in H; try discriminate H.
    inv H. cbn [scan_days]. rewrite E. cbn [bind].
    destruct v; cbn [first_accept first_fallback];
      [ apply (IH _ _ eq_refl) | reflexivity | | apply (IH _ _ eq_refl) ].
    destruct b as [x|]; rewrite (IH _ _ eq_refl); destruct (first_accept vs'); reflexivity.
Qed.

Lemma scan_days_accept (date : string) (days1 : list pyval) :
  forall vs1 day days2 slp source b,
  mapM (inspect_day local_offset date) days1 = Ok vs1 ->
  first_accept vs1 = None ->
  inspect_day local_offset date day = Ok (Accept slp source) ->
  scan_days local_offset date (days1 ++ day :: days2) b = Ok (Some (slp, source)).
Proof.
  induction days1 as [|d days1 IH]; intros vs1 day days2 slp source b H N A; cbn in H.
  - cbn. now rewrite A.
  - destruct (inspect_day local_offset date d) as [v| |] eqn:E; cbn [bind] in H;
      try discriminate H.
    destruct (mapM (inspect_day local_offset date) days1) as [vs'| |] eqn:E0;
      cbn [bind] in H; try discriminate H.
    inv H. cbn [app scan_days]. rewrite E. cbn [bind].
    destruct v; cbn in N; try discriminate; try (now eapply IH; eauto).
    destruct b; eapply IH; eauto.
Qed.

Lemma truthy_int (z : Z) : z <> 0 -> truthy (PInt z) = Ok true.
Proof. intros H. cbn. apply Z.eqb_neq in H. now rewrite H. Qed.

Lemma inspect_day_skip_summary (date : string) (d : pydict) :
  dict_lookup "summary" d = None \/ dict_lookup "summary" d = Some PNone ->
  inspect_day local_offset date (PDict d) = Ok Skip.
Proof. unfold inspect_day. cbn [py_get bind]. intros [H|H]; rewrite H; reflexivity. Qed.

Lemma inspect_day_skip_slp (date : string) (d summary : pydict) :
  dict_lookup "summary" d = Some (PDict summary) ->
  dict_lookup "slp" summary = None ->
  inspect_day local_offset date (PDict d) = Ok Skip.
Proof.
  intros H1 H2. unfold inspect_day. cbn [py_get bind]. rewrite H1.
  destruct summary; [reflexivity|]. cbn [truthy bind negb py_in]. now rewrite H2.
Qed.

Lemma inspect_day_skip_ed (date : string) (d summary slp : pydict) :
  dict_lookup "summary" d = Some (PDict summary) ->
  dict_lookup "slp" summary = Some (PDict slp) ->
  missing_field slp "ed" ->
  inspect_day local_offset date (PDict d) = Ok Skip.
Proof.
  intros H1 H2 H3. unfold inspect_day. cbn [py_get bind]. rewrite H1.
  destruct summary; [discriminate|]. cbn [truthy bind negb py_in py_item]. rewrite H2.
  cbn [bind negb py_get].
  destruct H3 as [H|[H|H]]; rewrite H; reflexivity.
Qed.

Lemma inspect_day_skip_st (date : string) (d summary slp : pydict) (ed : Z) :
  dict_lookup "summary" d = Some (PDict summary) ->
  dict_lookup "slp" summary = Some (PDict slp) ->
  dict_lookup "ed" slp = Some (PInt ed) -> ed <> 0 ->
  missing_field slp "st" ->
  inspect_day local_offset date (PDict d) = Ok Skip.
Proof.
  intros H1 H2 He Hn H3. unfold inspect_day. cbn [py_get bind]. rewrite H1.
  destruct summary; [discriminate|]. cbn [truthy bind negb py_in py_item]. rewrite H2.
  cbn [bind negb py_get]. rewrite He. rewrite (truthy_int _ Hn). cbn [bind negb].
  destruct H3 as [H|[H|H]]; rewrite H; reflexivity.
Qed.

Lemma inspect_day_session (date : string) (d summary slp : pydict) (ed st : Z)
    (day_date : pyval) (end_dt : datetime) (end_date : string) :
  dict_lookup "summary" d = Some (PDict summary) ->
  dict_lookup "slp" summary = Some (PDict slp) ->
  dict_lookup "ed" slp = Some (PInt ed) -> ed <> 0 ->
  dict_lookup "st" slp = Some (PInt st) -> st <> 0 ->
  dict_lookup "date" d = Some day_date ->
  fromtimestamp local_offset (PInt ed) = Ok end_dt ->
  strftime_ymd end_dt = Ok end_date ->
  inspect_day local_offset date (PDict d) =
  Ok (if String.eqb end_date date then Accept (PDict slp) day_date
      else if py_eq_str day_date date then Fallback (PDict slp) day_date
      else Pass).
Proof.
  intros H1 H2 He Hne Hs Hns Hd Hf Hy. unfold inspect_day. cbn [py_get bind]. rewrite H1.
  destruct summary; [discriminate|]. cbn [truthy bind negb py_in py_item]. rewrite H2.
  cbn [bind negb py_get]. rewrite He, Hs. rewrite (truthy_int _ Hne), (truthy_int _ Hns).
  cbn [bind negb py_item]. rewrite He. cbn [bind]. rewrite Hf. cbn [bind].
  rewrite Hy. cbn [bind]. rewrite Hd.
  destruct (String.eqb end_date date); [reflexivity|]. cbn [bind].
  destruct (py_eq_str day_date date); reflexivity.
Qed.

Lemma fromtimestamp_in_range (t : Z) :
  in_datetime_range (t + local_offset t) ->
  fromtimestamp local_offset (PInt t) =
  Ok (mkdt (EPOCH_ORD + (t + local_offset t) / 86400) ((t + local_offset t) mod 86400) None).
Proof.
  unfold in_datetime_range, fromtimestamp. cbn [as_int bind]. intros [H1 H2].
  apply Z.leb_le in H1, H2. now rewrite H1, H2.
Qed.

Lemma duration_minutes_elapsed (s e : Z) :
  duration_minutes (mkdt (EPOCH_ORD + s / 86400) (s mod 86400) None)
                   (mkdt (EPOCH_ORD + e / 86400) (e mod 86400) None) =
  Z.quot (e - s) 60.
Proof.
  unfold duration_minutes, dt_wall. cbn [dt_ord dt_sec]. f_equal.
  pose proof (Z.div_mod s 86400). pose proof (Z.div_mod e 86400). lia.
Qed.
(** C1. The scan takes the fetched days in order.  A day is skipped
    when it has no summary, no sleep sub-structure, or no end or start
    epoch; a day whose session ends on the wake date is accepted, a day
    whose own date is the wake date is a fallback.  The first accepted
    day is the result, whatever comes after it (the scan stops there);
    without an accepted day the result is the first fallback; without
    either, [get_sleep] returns the empty record. *)
Theorem sleep_reconciliation :
  (forall date d,
     dict_lookup "summary" d = None \/ dict_lookup "summary" d = Some PNone ->
     inspect_day local_offset date (PDict d) = Ok Skip)
  /\ (forall date d summary,
        dict_lookup "summary" d = Some (PDict summary) ->
        dict_lookup "slp" summary = None ->
        inspect_day local_offset date (PDict d) = Ok Skip)
  /\ (forall date d summary slp,
        dict_lookup "summary" d = Some (PDict summary) ->
        dict_lookup "slp" summary = Some (PDict slp) ->
        missing_field slp "ed" ->
        inspect_day local_offset date (PDict d) = Ok Skip)
  /\ (forall date d summary slp ed,
        dict_lookup "summary" d = Some (PDict summary) ->
        dict_lookup "slp" summary = Some (PDict slp) ->
        dict_lookup "ed" slp = Some (PInt ed) -> ed <> 0 ->
        missing_field slp "st" ->
        inspect_day local_offset date (PDict d) = Ok Skip)
  /\ (forall date d summary slp ed st day_date end_dt end_date,
        dict_lookup "summary" d = Some (PDict summary) ->
        dict_lookup "slp" summary = Some (PDict slp) ->
        dict_lookup "ed" slp = Some (PInt ed) -> ed <> 0 ->
        dict_lookup "st" slp = Some (PInt st) -> st <> 0 ->
        dict_lookup "date" d = Some day_date ->
        fromtimestamp local_offset (PInt ed) = Ok end_dt ->
        strftime_ymd end_dt = Ok end_date ->
        inspect_day local_offset date (PDict d) =
        Ok (if String.eqb end_date date then Accept (PDict slp) day_date
            else if py_eq_str day_date date then Fallback (PDict slp) day_date
            else Pass))
  /\ (forall date days vs,
        mapM (inspect_day local_offset date) days = Ok vs ->
        scan_days local_offset date days None = Ok (reconcile vs))
  /\ (forall date days1 vs1 day days2 slp source,
        mapM (inspect_day local_offset date) days1 = Ok vs1 ->
        first_accept vs1 = None ->
        inspect_day local_offset date day = Ok (Accept slp source) ->
        scan_days local_offset date (days1 ++ day :: days2) None =
        Ok (Some (slp, source)))
  /\ (forall data date dt prev prev_date days vs,
        strptime_ymd (PStr date) = Ok dt ->
        add_minutes dt (-1440) = Ok prev ->
        strftime_ymd prev = Ok prev_date ->
        _fetch_band_data data = Ok days ->
        mapM (inspect_day local_offset date) days = Ok vs ->
        match reconcile vs with
        | None => get_sleep local_offset data date = Ok (PDict [])
        | Some (PDict (kv :: slp), source) =>
            get_sleep local_offset data date =
            sleep_record local_offset date (PDict (kv :: slp)) source
        | Some _ => True
        end).
Proof.
  split; [exact inspect_day_skip_summary|].
  split; [exact inspect_day_skip_slp|].
  split; [exact inspect_day_skip_ed|].
  split; [exact inspect_day_skip_st|].
  split; [exact inspect_day_session|].
  split.
  { intros date days vs H. rewrite (scan_days_spec _ _ _ None H). reflexivity. }
  split.
  { intros. eapply scan_days_accept; eassumption. }
  intros data date dt prev prev_date days vs H1 H2 H3 H4 H5.
  assert (S : scan_days local_offset date days None = Ok (reconcile vs))
    by (rewrite (scan_days_spec _ _ _ None H5); reflexivity).
  unfold get_sleep. rewrite H1. cbn [bind]. rewrite H2. cbn [bind].
  rewrite H3. cbn [bind]. rewrite H4. cbn [bind]. rewrite S. cbn [bind].
  destruct (reconcile vs) as [[best_sleep source]|]; [|reflexivity].
  destruct best_sleep; try exact I. destruct d; [exact I|]. reflexivity.
Qed.

Lemma sleep_record_session (date : string) (d : pydict) (source : pyval)
    (st ed : Z) (stages naps : list pyval) :
  dict_lookup "st" d = Some (PInt st) -> st <> 0 ->
  dict_lookup "ed" d = Some (PInt ed) -> ed <> 0 ->
  stage_list (PDict d) "stage" = Ok stages ->
  stage_list (PDict d) "odd_stage" = Ok naps ->
  in_datetime_range (st + local_offset st) ->
  in_datetime_range (ed + local_offset ed) ->
  sleep_record local_offset date (PDict d) source =
  Ok (PDict
        [("date", PStr date); ("fetched_from", source);
         ("resting_hr", field_or d "rhr" PNone);
         ("sleep_score", field_or d "ss" PNone);
         ("deep_minutes", field_or d "dp" PNone);
         ("light_minutes", field_or d "lt" PNone);
         ("stages", PList stages); ("nap_stages", PList naps);
         ("start",
          PStr (isoformat (mkdt (EPOCH_ORD + (st + local_offset st) / 86400)
                                ((st + local_offset st) mod 86400) None)));
         ("end",
          PStr (isoformat (mkdt (EPOCH_ORD + (ed + local_offset ed) / 86400)
                                ((ed + local_offset ed) mod 86400) None)));
         ("duration_minutes",
          PInt (Z.quot ((ed + local_offset ed) - (st + local_offset st)) 60))]).
Proof.
  intros Hs Hns He Hne H1 H2 Rs Re. unfold sleep_record.
  rewrite H1, H2. cbn [bind py_get py_item]. rewrite Hs, He.
  rewrite (truthy_int _ Hns), (truthy_int _ Hne). cbn [bind].
  rewrite (fromtimestamp_in_range _ Rs), (fromtimestamp_in_range _ Re). cbn [bind].
  rewrite duration_minutes_elapsed. reflexivity.
Qed.

(** C2, as the code has it.  For every accepted session with start and
    end epochs, [duration_minutes] is the elapsed seconds between the
    local start and the local end, divided by 60 and truncated toward
    zero: the whole minutes elapsed, a started minute not counted.
    Under one UTC offset for both instants the elapsed seconds are
    [ed - st]. *)
Theorem duration_minutes_truncates (date : string) (d : pydict) (source : pyval)
    (st ed : Z) (stages naps : list pyval) :
  dict_lookup "st" d = Some (PInt st) -> st <> 0 ->
  dict_lookup "ed" d = Some (PInt ed) -> ed <> 0 ->
  stage_list (PDict d) "stage" = Ok stages ->
  stage_list (PDict d) "odd_stage" = Ok naps ->
  in_datetime_range (st + local_offset st) ->
  in_datetime_range (ed + local_offset ed) ->
  let elapsed := (ed + local_offset ed) - (st + local_offset st) in
  let minutes := Z.quot elapsed 60 in
  (exists r,
     sleep_record local_offset date (PDict d) source = Ok (PDict r)
     /\ dict_lookup "duration_minutes" r = Some (PInt minutes))
  /\ (0 <= elapsed -> 60 * minutes <= elapsed < 60 * minutes + 60)
  /\ (elapsed <= 0 -> 60 * minutes - 60 < elapsed <= 60 * minutes)
  /\ (local_offset ed = local_offset st -> minutes = Z.quot (ed - st) 60).
Proof.
  intros Hs Hns He Hne H1 H2 Rs Re elapsed minutes.
  split.
  { eexists. split; [eapply sleep_record_session; eassumption|]. reflexivity. }
  pose proof (Z.quot_rem elapsed 60 ltac:(lia)) as Q. fold minutes in Q.
  split.
  { intros Hpos. pose proof (Z.rem_bound_pos elapsed 60 Hpos ltac:(lia)). lia. }
  split.
  { intros Hneg.
    pose proof (Z.rem_bound_pos (- elapsed) 60 ltac:(lia) ltac:(lia)) as B.
    rewrite Z.rem_opp_l in B by lia. lia. }
  intros Ho. unfold minutes, elapsed. f_equal. lia.
Qed.

End SleepProofs.

Lemma sleep_reconciliation_witness :
  mapM (inspect_day utc_minus_6 "2026-02-06") night_days =
  Ok [Accept night_session (PStr "2026-02-05"); Skip]
  /\ scan_days utc_minus_6 "2026-02-06" night_days None =
     Ok (Some (night_session, PStr "2026-02-05")).
Proof.
  split; [reflexivity|].
  apply (proj1 (proj2 (proj2 (proj2 (proj2 (proj2 (sleep_reconciliation utc_minus_6))))))
           "2026-02-06" night_days
           [Accept night_session (PStr "2026-02-05"); Skip]).
  reflexivity.
Defined.

Lemma duration_minutes_truncates_witness :
  exists r,
    sleep_record utc_minus_6 "2026-02-06" (PDict short_session) (PStr "2026-02-05") =
    Ok (PDict r)
    /\ dict_lookup "duration_minutes" r = Some (PInt 1).
Proof.
  refine (proj1 (duration_minutes_truncates utc_minus_6 "2026-02-06" short_session
                   (PStr "2026-02-05") 1770355800 1770355919 [] []
                   eq_refl _ eq_refl _ eq_refl eq_refl _ _));
    try discriminate; unfold in_datetime_range; cbv; split; discriminate.
Defined.

(** The claim C2 as stated fails: a session of 119 seconds gets
    [duration_minutes = 1], and the whole number of minutes nearest to
    119 seconds, which any rounding of [119 / 60] gives, is 2. *)
Lemma duration_minutes_not_rounded :
  get_sleep utc_minus_6 short_response "2026-02-05" =
  Ok (PDict [("date", PStr "2026-02-05"); ("fetched_from", PStr "2026-02-05");
             ("resting_hr", PNone); ("sleep_score", PNone);
             ("deep_minutes", PNone); ("light_minutes", PNone);
             ("stages", PList []); ("nap_stages", PList []);
             ("start", PStr "2026-02-05T23:30:00");
             ("end", PStr "2026-02-05T23:31:59");
             ("duration_minutes", PInt 1)])
  /\ 1770355919 - 1770355800 = 119
  /\ nearest_minute 119 2
  /\ ~ nearest_minute 119 1.
Proof.
  split; [vm_compute; reflexivity|].
  split; [reflexivity|].
  split.
  - intros k. lia.
  - intros H. specialize (H 2). lia.
Qed.

(** ** Interchange export: the records of a sleep session *)

Section ExportProofs.
Variable source_name : string.
Variable tz_offset_hours : Z.

Lemma stage_records_spec (source_date : pyval) (stages : list pyval) :
  forall opts o,
  mapM (stage_record source_name tz_offset_hours source_date) stages = Ok opts ->
  stage_records source_name tz_offset_hours source_date stages o =
  Ok (fst o ++ somes opts, snd o + Z.of_nat (List.length (somes opts))).
Proof.
  induction stages as [|stage stages IH]; intros opts o H; cbn in H.
  - inv H. cbn. rewrite app_nil_r, Z.add_0_r. now destruct o.
  - destruct (stage_record source_name tz_offset_hours source_date stage)
      as [r| |] eqn:E; cbn [bind] in H; try discriminate H.
    destruct (mapM _ stages) as [opts'| |] eqn:E0; cbn [bind] in H; try discriminate H.
    inv H. cbn [stage_records]. rewrite E. cbn [bind].
    destruct r as [r|]; rewrite (IH _ _ eq_refl); cbn [somes fst snd List.length].
    + rewrite <- app_assoc. cbn [app]. f_equal. f_equal. lia.
    + reflexivity.
Qed.

Lemma assoc_apple_nonempty (name v : string) :
  assoc name ZEPP_TO_APPLE_SLEEP = Some v -> String.eqb v EmptyString = false.
Proof.
  unfold ZEPP_TO_APPLE_SLEEP. cbn [assoc].
  repeat (destruct (String.eqb name _); [intros H; inv H; reflexivity|]).
  discriminate.
Qed.

Lemma stage_record_classified (source_date stage : pyval) (o : option xml_record) :
  stage_record source_name tz_offset_hours source_date stage = Ok o ->
  match o with
  | Some r =>
      apple_of stage = Some (r_value r)
      /\ r_type r = "HKCategoryTypeIdentifierSleepAnalysis"
      /\ r_sourceName r = source_name
      /\ exists d sm em,
           stage = PDict d
           /\ dict_lookup "start_minute" d = Some sm
           /\ dict_lookup "end_minute" d = Some em
           /\ stamp tz_offset_hours source_date sm = Ok (r_startDate r)
           /\ stamp tz_offset_hours source_date em = Ok (r_endDate r)
  | None => apple_of stage = None
  end.
Proof.
  unfold stage_record, stamp. intros H.
  destruct stage; try discriminate H. cbn [py_item bind] in H. cbn [apple_of].
  destruct (dict_lookup "stage" d) as [name|]; [|discriminate H]. cbn [bind] in H.
  destruct name; cbn [apple_sleep_value bind] in H; try discriminate H;
    try (inv H; reflexivity).
  destruct (assoc s ZEPP_TO_APPLE_SLEEP) as [v|] eqn:A; [|inv H; reflexivity].
  rewrite (assoc_apple_nonempty _ _ A) in H.
  destruct (dict_lookup "start_minute" d) as [sm|] eqn:Lsm; [|discriminate H]. cbn [bind] in H.
  destruct (_minute_to_datetime source_date sm tz_offset_hours) as [sdt| |] eqn:S;
    cbn [bind] in H; try discriminate H.
  destruct (dict_lookup "end_minute" d) as [em|] eqn:Lem; [|discriminate H]. cbn [bind] in H.
  destruct (_minute_to_datetime source_date em tz_offset_hours) as [edt| |] eqn:E;
    cbn [bind] in H; try discriminate H.
  destruct (_apple_date sdt) as [s1| |] eqn:S1; cbn [bind] in H; try discriminate H.
  destruct (_apple_date edt) as [e1| |] eqn:E1; cbn [bind] in H; try discriminate H.
  inv H. cbn. repeat split; auto.
  exists d, sm, em. rewrite S, E. cbn [bind]. auto.
Qed.

Lemma somes_classified (source_date : pyval) (stages : list pyval) :
  forall opts,
  mapM (stage_record source_name tz_offset_hours source_date) stages = Ok opts ->
  map r_value (somes opts) = somes (map apple_of stages)
  /\ List.length (somes opts) = List.length (filter classified stages).
Proof.
  induction stages as [|stage stages IH]; intros opts H; cbn in H.
  - inv H. now cbn.
  - destruct (stage_record source_name tz_offset_hours source_date stage)
      as [r| |] eqn:E; cbn [bind] in H; try discriminate H.
    destruct (mapM _ stages) as [opts'| |] eqn:E0; cbn [bind] in H; try discriminate H.
    inv H. destruct (IH _ eq_refl) as [I1 I2].
    apply stage_record_classified in E. cbn [map filter somes]. unfold classified.
    destruct r as [r|].
    + destruct E as (A & _). rewrite A. cbn [somes map List.length]. now rewrite I1, I2.
    + rewrite E. auto.
Qed.

Lemma inbed_record_present (tz : Z) (d : pydict) (start end_ : pyval)
    (sdt edt : datetime) (s e : string) (o : out) :
  dict_lookup "start" d = Some start -> truthy start = Ok true ->
  dict_lookup "end" d = Some end_ -> truthy end_ = Ok true ->
  fromisoformat start = Ok sdt -> fromisoformat end_ = Ok edt ->
  _apple_date (replace_tzinfo sdt tz) = Ok s ->
  _apple_date (replace_tzinfo edt tz) = Ok e ->
  inbed_record source_name tz (PDict d) o =
  Ok (fst o ++ [inbed source_name s e], snd o + 1).
Proof.
  intros L1 T1 L2 T2 F1 F2 A1 A2. unfold inbed_record.
  cbn [py_get py_item bind]. rewrite L1, T1. cbn [bind]. rewrite L2, T2. cbn [bind].
  rewrite F1. cbn [bind]. rewrite F2. cbn [bind]. rewrite A1. cbn [bind].
  rewrite A2. reflexivity.
Qed.

Lemma inbed_record_absent (tz : Z) (d : pydict) (o : out) :
  missing_text d "start"
  \/ ((exists start, dict_lookup "start" d = Some start /\ truthy start = Ok true)
      /\ missing_text d "end") ->
  inbed_record source_name tz (PDict d) o = Ok o.
Proof.
  unfold inbed_record, missing_text. cbn [py_get bind].
  intros [[H|[H|H]] | [(start & L & T) [H|[H|H]]]];
    try (rewrite H; reflexivity);
    rewrite L, T; cbn [bind]; rewrite H; reflexivity.
Qed.

Lemma sleep_session_skipped (tz : Z) (date_str : string) (d : pydict) (o : out) :
  dict_lookup "stages" d = None \/ dict_lookup "stages" d = Some PNone
  \/ dict_lookup "stages" d = Some (PList []) ->
  sleep_session source_name tz_offset_hours tz date_str (PDict d) o = Ok o.
Proof.
  intros H. unfold sleep_session. destruct d as [|kv d]; [reflexivity|].
  cbn [truthy bind negb py_get].
  destruct H as [H|[H|H]]; rewrite H; reflexivity.
Qed.

Lemma sleep_session_stages (tz : Z) (date_str : string) (d : pydict)
    (stage : pyval) (stages : list pyval) (opts : list (option xml_record)) (o : out) :
  dict_lookup "stages" d = Some (PList (stage :: stages)) ->
  mapM (stage_record source_name tz_offset_hours
          (field_or d "fetched_from" (PStr date_str))) (stage :: stages) = Ok opts ->
  sleep_session source_name tz_offset_hours tz date_str (PDict d) o =
  inbed_record source_name tz (PDict d)
    (fst o ++ somes opts, snd o + Z.of_nat (List.length (somes opts))).
Proof.
  intros L M. unfold sleep_session. destruct d as [|kv d]; [discriminate L|].
  cbn [truthy bind negb py_get py_item]. rewrite L. cbn [truthy bind negb py_iter].
  fold (field_or (kv :: d) "fetched_from" (PStr date_str)).
  rewrite (stage_records_spec _ _ _ o M). reflexivity.
Qed.

(** C3, as the code has it.  A session with a stage list that is not
    empty gives one record per stage whose name is in the table light,
    deep, rem, awake, with the table's value, in the order of the stages,
    and nothing for any other stage; with a start and an end it gives one
    InBed record more, after them: [N + 1] records for [N] classified
    stages, [N] without start or end.  A session whose stage list is
    empty or absent gives no record at all.  The values of the table
    are AsleepCore for light, AsleepDeep for deep, AsleepREM for rem and
    Awake for awake, and the record of a stage carries the value of its
    name. *)
Theorem sleep_session_records :
  (forall tz date_str d stage stages opts rs c,
     dict_lookup "stages" d = Some (PList (stage :: stages)) ->
     mapM (stage_record source_name tz_offset_hours
             (field_or d "fetched_from" (PStr date_str))) (stage :: stages) = Ok opts ->
     let N := List.length (filter classified (stage :: stages)) in
     List.length (somes opts) = N
     /\ map r_value (somes opts) = somes (map apple_of (stage :: stages))
     /\ (forall start end_ sdt edt s e,
           dict_lookup "start" d = Some start -> truthy start = Ok true ->
           dict_lookup "end" d = Some end_ -> truthy end_ = Ok true ->
           fromisoformat start = Ok sdt -> fromisoformat end_ = Ok edt ->
           _apple_date (replace_tzinfo sdt tz) = Ok s ->
           _apple_date (replace_tzinfo edt tz) = Ok e ->
           sleep_session source_name tz_offset_hours tz date_str (PDict d) (rs, c) =
           Ok (rs ++ somes opts ++ [inbed source_name s e], c + (Z.of_nat N + 1))
           /\ List.length (somes opts ++ [inbed source_name s e]) = (N + 1)%nat)
     /\ (missing_text d "start"
         \/ ((exists start, dict_lookup "start" d = Some start /\ truthy start = Ok true)
             /\ missing_text d "end") ->
         sleep_session source_name tz_offset_hours tz date_str (PDict d) (rs, c) =
         Ok (rs ++ somes opts, c + Z.of_nat N)))
  /\ (forall tz date_str d o,
        dict_lookup "stages" d = None \/ dict_lookup "stages" d = Some PNone
        \/ dict_lookup "stages" d = Some (PList []) ->
        sleep_session source_name tz_offset_hours tz date_str (PDict d) o = Ok o)
  /\ (forall stage name v,
        apple_of stage = Some v ->
        In (name, v) ZEPP_TO_APPLE_SLEEP ->
        In name ["light"; "deep"; "rem"; "awake"])
  /\ (forall d name,
        dict_lookup "stage" d = Some (PStr name) ->
        classified (PDict d) = true <-> In name ["light"; "deep"; "rem"; "awake"])
  /\ (forall d name,
        dict_lookup "stage" d = Some (PStr name) ->
        apple_of (PDict d) = apple_value_of_name name)
  /\ (forall source_date d name o,
        dict_lookup "stage" d = Some (PStr name) ->
        stage_record source_name tz_offset_hours source_date (PDict d) = Ok o ->
        match o with
        | Some r => apple_value_of_name name = Some (r_value r)
        | None => apple_value_of_name name = None
        end).
Proof.
  assert (Table : forall d name,
            dict_lookup "stage" d = Some (PStr name) ->
            apple_of (PDict d) = apple_value_of_name name).
  { intros d name L. unfold apple_of, apple_value_of_name. rewrite L.
    unfold ZEPP_TO_APPLE_SLEEP. cbn [assoc].
    repeat (destruct (String.eqb name _); [reflexivity|]). reflexivity. }
  split.
  { intros tz date_str d stage stages opts rs c L M N.
    destruct (somes_classified _ _ _ M) as [V Len]. fold N in Len.
    split; [exact Len|]. split; [exact V|].
    split.
    - intros start end_ sdt edt s e L1 T1 L2 T2 F1 F2 A1 A2.
      rewrite (sleep_session_stages tz date_str d stage stages opts (rs, c) L M).
      rewrite (inbed_record_present tz d start end_ sdt edt s e _ L1 T1 L2 T2 F1 F2 A1 A2).
      cbn [fst snd]. rewrite Len, <- app_assoc, <- Z.add_assoc.
      split; [reflexivity|]. rewrite length_app, Len. reflexivity.
    - intros Hmiss.
      rewrite (sleep_session_stages tz date_str d stage stages opts (rs, c) L M).
      rewrite (inbed_record_absent tz d _ Hmiss). cbn [fst snd]. now rewrite Len. }
  split; [exact sleep_session_skipped|].
  split.
  { intros stage name v _ Hin. cbn in Hin.
    repeat (destruct Hin as [E | Hin]; [inv E; cbn; tauto|]). destruct Hin. }
  split.
  { intros d name L. unfold classified, apple_of. rewrite L.
    unfold ZEPP_TO_APPLE_SLEEP. cbn [assoc In].
    destruct (String.eqb name "light") eqn:E1;
      [apply String.eqb_eq in E1; subst; tauto|].
    destruct (String.eqb name "deep") eqn:E2;
      [apply String.eqb_eq in E2; subst; tauto|].
    destruct (String.eqb name "rem") eqn:E3;
      [apply String.eqb_eq in E3; subst; tauto|].
    destruct (String.eqb name "awake") eqn:E4;
      [apply String.eqb_eq in E4; subst; tauto|].
    apply String.eqb_neq in E1, E2, E3, E4.
    split; [discriminate|]. intros [H|[H|[H|[H|[]]]]]; congruence. }
  split; [exact Table|].
  intros source_date d name o L H.
  apply stage_record_classified in H. rewrite <- (Table d name L).
  destruct o as [r|]; [exact (proj1 H) | exact H].
Qed.

End ExportProofs.

Lemma sleep_session_records_witness :
  exists rs,
    sleep_session "zepp-export" (-6) (-21600) "2026-02-06" (PDict test_session) ([], 0) =
    Ok (rs, 5)
    /\ List.length rs = 5%nat
    /\ List.length (filter classified test_stages) = 4%nat
    /\ map r_value rs =
       ["HKCategoryValueSleepAnalysisAsleepCore"; "HKCategoryValueSleepAnalysisAsleepDeep";
        "HKCategoryValueSleepAnalysisAsleepREM"; "HKCategoryValueSleepAnalysisAwake";
        "HKCategoryValueSleepAnalysisInBed"].
Proof.
  assert (M : { opts | mapM (stage_record "zepp-export" (-6)
                               (field_or test_session "fetched_from" (PStr "2026-02-06")))
                            test_stages = Ok opts })
    by (eexists; vm_compute; reflexivity).
  destruct M as [opts M].
  destruct (proj1 (sleep_session_records "zepp-export" (-6)) (-21600) "2026-02-06"
              test_session (export_stage 1410 1440 "light")
              [export_stage 1440 1470 "deep"; export_stage 1470 1490 "rem";
               export_stage 1490 1500 "awake"; export_stage 1500 1510 "unknown_9"]
              opts [] 0 eq_refl M) as (Len & V & P & _).
  destruct (P (PStr "2026-02-05T23:30:00") (PStr "2026-02-06T07:15:00")
              (mkdt 739652 84600 None) (mkdt 739653 26100 None)
              "2026-02-05 23:30:00 -0600" "2026-02-06 07:15:00 -0600"
              eq_refl eq_refl eq_refl eq_refl eq_refl eq_refl eq_refl eq_refl)
    as [S L].
  eexists. split; [exact S|]. split; [exact L|]. split; [reflexivity|].
  cbn [app]. rewrite map_app, V. reflexivity.
Defined.

(** The claim C3 as stated fails: this session has a valid start and
    end and no classified stage, and it gives no record where the claim
    counts one. *)
Lemma stageless_session_has_no_record :
  fromisoformat (PStr "2026-02-05T23:30:00") = Ok (mkdt 739652 84600 None)
  /\ fromisoformat (PStr "2026-02-06T07:15:00") = Ok (mkdt 739653 26100 None)
  /\ sleep_session "zepp-export" (-6) (-21600) "2026-02-06" (PDict stageless_session) ([], 0)
  = Ok ([], 0)
  /\ List.length (filter classified []) = 0%nat
  /\ (exists records,
        export_apple_health "zepp-export" (-6) 1770000000 PNone PNone
          (PDict [("2026-02-06", PDict stageless_session)]) =
        Ok (mkexport "2026-02-01 20:40:00 -0600" records 0 0 0)
        /\ records = []).
Proof.
  split; [reflexivity|]. split; [reflexivity|].
  split; [reflexivity|]. split; [reflexivity|].
  eexists. split; [vm_compute; reflexivity | reflexivity].
Qed.

(** ** Interchange export: timestamps *)

Ltac case_match_in H :=
  match type of H with
  | context [match ?x with _ => _ end] => destruct x eqn:?
  end.

Lemma make_datetime_fields (y m d sec : Z) (dt : datetime) :
  make_datetime y m d sec = Ok dt ->
  dt_ord dt = _ymd2ord y m d /\ dt_sec dt = sec /\ dt_utcoffset dt = None.
Proof.
  unfold make_datetime. destruct (_ && _); intros H; inv H. cbn. auto.
Qed.

Lemma strptime_ymd_midnight (v : pyval) (base : datetime) :
  strptime_ymd v = Ok base -> dt_sec base = 0 /\ dt_utcoffset base = None.
Proof.
  unfold strptime_ymd. intros H.
  repeat (case_match_in H; try discriminate H).
  all: apply make_datetime_fields in H; tauto.
Qed.

Lemma timezone_hours_ok (tz : Z) :
  -24 < tz < 24 -> timezone_hours tz = Ok (tz * 3600).
Proof.
  intros H. unfold timezone_hours.
  replace (Z.abs (tz / 24) >? 999999999) with false.
  - destruct (Z.ltb_spec (-24) tz); [|lia]. destruct (Z.ltb_spec tz 24); [|lia].
    reflexivity.
  - symmetry. rewrite Z.gtb_ltb. apply Z.ltb_ge.
    assert (-1 <= tz / 24 <= 0) by (Z.div_mod_to_equations; lia). lia.
Qed.

Lemma timezone_hours_inv (tz off : Z) :
  timezone_hours tz = Ok off -> -24 < tz < 24 /\ off = tz * 3600.
Proof.
  unfold timezone_hours. destruct (_ >? _); [discriminate|].
  destruct (Z.ltb_spec (-24) tz); cbn [andb]; [|discriminate].
  destruct (Z.ltb_spec tz 24); [|discriminate].
  intros E. inv E. lia.
Qed.

Lemma minute_to_datetime_spec (s : string) (m tz : Z) (base : datetime) :
  -24 < tz < 24 ->
  strptime_ymd (PStr s) = Ok base ->
  MINORD <= dt_ord base + m / 1440 <= MAXORD ->
  _minute_to_datetime (PStr s) (PInt m) tz =
  Ok (mkdt (dt_ord base + m / 1440) (60 * (m mod 1440)) (Some (tz * 3600))).
Proof.
  intros Htz Hb Hr. unfold _minute_to_datetime.
  rewrite (timezone_hours_ok _ Htz). cbn [bind]. rewrite Hb. cbn [bind as_int].
  destruct (strptime_ymd_midnight _ _ Hb) as [S0 _].
  unfold add_minutes, replace_tzinfo. cbn [dt_ord dt_sec dt_utcoffset]. rewrite S0.
  assert (D : (0 + 60 * m) / 86400 = m / 1440) by (Z.div_mod_to_equations; lia).
  assert (M : (0 + 60 * m) mod 86400 = 60 * (m mod 1440))
    by (Z.div_mod_to_equations; lia).
  rewrite D, M.
  destruct Hr as [H1 H2]. apply Z.leb_le in H1, H2. rewrite H1, H2. reflexivity.
Qed.

Lemma add_minutes_fields (dt dt' : datetime) (m : Z) :
  add_minutes dt m = Ok dt' ->
  dt_ord dt' = dt_ord dt + (dt_sec dt + 60 * m) / 86400
  /\ dt_sec dt' = (dt_sec dt + 60 * m) mod 86400
  /\ dt_utcoffset dt' = dt_utcoffset dt
  /\ MINORD <= dt_ord dt' <= MAXORD.
Proof.
  unfold add_minutes.
  destruct (Z.leb_spec MINORD (dt_ord dt + (dt_sec dt + 60 * m) / 86400));
    cbn [andb]; [|discriminate].
  destruct (Z.leb_spec (dt_ord dt + (dt_sec dt + 60 * m) / 86400) MAXORD);
    [|discriminate].
  intros E. injection E as <-. cbn [dt_ord dt_sec dt_utcoffset]. auto.
Qed.

Lemma minute_to_datetime_offset (src m : pyval) (tz : Z) (dt : datetime) :
  _minute_to_datetime src m tz = Ok dt ->
  -24 < tz < 24 /\ dt_utcoffset dt = Some (tz * 3600) /\ dt_sec dt mod 60 = 0.
Proof.
  unfold _minute_to_datetime. intros H.
  destruct (timezone_hours tz) as [off| |] eqn:T; cbn [bind] in H; try discriminate H.
  apply timezone_hours_inv in T as [R ->].
  destruct (strptime_ymd src) as [base| |] eqn:B; cbn [bind] in H; try discriminate H.
  destruct (as_int m) as [z| |]; cbn [bind] in H; try discriminate H.
  destruct (strptime_ymd_midnight _ _ B) as [S0 _].
  apply add_minutes_fields in H as (_ & Hs & Ho & _).
  unfold replace_tzinfo in Hs, Ho. cbn [dt_sec dt_utcoffset] in Hs, Ho.
  repeat split; try lia; [exact Ho|].
  rewrite Hs, S0.
  assert (M : (0 + 60 * z) mod 86400 = 60 * (z mod 1440))
    by (Z.div_mod_to_equations; lia).
  rewrite M, Z.mul_comm. apply Z.mod_mul. lia.
Qed.

Lemma append_assoc3 (a b c : string) : (a +++ b) +++ c = a +++ (b +++ c).
Proof. induction a as [|x a IH]; cbn; [reflexivity | now rewrite IH]. Qed.

Lemma fmt_z_hours (tz : Z) :
  -24 < tz < 24 -> fmt_z (Some (tz * 3600)) = tz_suffix tz.
Proof.
  intros H. unfold fmt_z, tz_suffix.
  assert (A : Z.abs (tz * 3600) = Z.abs tz * 3600) by lia. rewrite A.
  rewrite Z.div_mul by lia. rewrite Z.mod_mul by lia.
  assert (M : (Z.abs tz * 3600) mod 60 = 0)
    by (Z.div_mod_to_equations; lia).
  rewrite M.
  assert (S : (tz * 3600 <? 0) = (tz <? 0)).
  { destruct (Z.ltb_spec tz 0); [apply Z.ltb_lt | apply Z.ltb_ge]; lia. }
  rewrite S. reflexivity.
Qed.

Lemma apple_date_suffix (dt : datetime) (tz : Z) (s : string) :
  -24 < tz < 24 ->
  dt_utcoffset dt = Some (tz * 3600) ->
  _apple_date dt = Ok s ->
  has_suffix (" " +++ tz_suffix tz) s.
Proof.
  intros R O H. unfold _apple_date in H.
  destruct (strftime_ymd dt) as [ymd| |]; cbn [bind] in H; try discriminate H.
  injection H as <-. rewrite O, (fmt_z_hours _ R).
  exists (ymd +++ " " +++ fmt_hms (dt_sec dt)).
  now rewrite !append_assoc3.
Qed.

Lemma stamp_suffix (tz : Z) (src m : pyval) (s : string) :
  stamp tz src m = Ok s -> has_suffix (" " +++ tz_suffix tz) s.
Proof.
  unfold stamp. intros H.
  destruct (_minute_to_datetime src m tz) as [dt| |] eqn:E; cbn [bind] in H;
    try discriminate H.
  apply minute_to_datetime_offset in E as (R & O & _).
  eapply apple_date_suffix; eassumption.
Qed.

Section StampProofs.

Variable source_name : string.
Variable tz_offset_hours : Z.

Lemma hr_record_stamp (date_str : string) (r : pyval) (rec : xml_record) :
  hr_record source_name tz_offset_hours date_str r = Ok rec ->
  exists d minute,
    r = PDict d /\ dict_lookup "minute" d = Some minute
    /\ stamp tz_offset_hours (PStr date_str) minute = Ok (r_startDate rec)
    /\ r_endDate rec = r_startDate rec.
Proof.
  unfold hr_record, stamp. intros H.
  destruct r; try discriminate H. cbn [py_item bind] in H.
  destruct (dict_lookup "minute" d) as [minute|] eqn:L; [|discriminate H].
  cbn [bind] in H.
  destruct (_minute_to_datetime _ minute _) as [dt| |] eqn:M; cbn [bind] in H;
    try discriminate H.
  destruct (dict_lookup "bpm" d) as [bpm|]; [|discriminate H]. cbn [bind] in H.
  destruct (py_str bpm) as [value| |]; cbn [bind] in H; try discriminate H.
  destruct (_apple_date dt) as [date| |] eqn:A; cbn [bind] in H; try discriminate H.
  injection H as <-. exists d, minute. rewrite M. cbn. auto.
Qed.

Lemma steps_record_stamp (date_str : string) (steps : pyval) (rec : xml_record) :
  steps_record source_name tz_offset_hours date_str steps = Ok (Some rec) ->
  stamp tz_offset_hours (PStr date_str) (PInt 0) = Ok (r_startDate rec)
  /\ stamp tz_offset_hours (PStr date_str) (PInt 1439) = Ok (r_endDate rec).
Proof.
  unfold steps_record, stamp. intros H.
  destruct (truthy steps) as [nonempty| |]; cbn [bind] in H; try discriminate H.
  match type of H with
  | bind ?c _ = _ => destruct c as [skip| |]; cbn [bind] in H; try discriminate H
  end.
  destruct skip; [discriminate H|].
  destruct (_minute_to_datetime _ (PInt 0) _) as [d0| |] eqn:M0; cbn [bind] in H;
    try discriminate H.
  destruct (_minute_to_datetime _ (PInt 1439) _) as [d1| |] eqn:M1; cbn [bind] in H;
    try discriminate H.
  destruct (py_item steps "total_steps") as [total| |]; cbn [bind] in H;
    try discriminate H.
  destruct (py_str total) as [value| |]; cbn [bind] in H; try discriminate H.
  destruct (_apple_date d0) as [s0| |] eqn:A0; cbn [bind] in H; try discriminate H.
  destruct (_apple_date d1) as [s1| |] eqn:A1; cbn [bind] in H; try discriminate H.
  injection H as <-. cbn [bind r_startDate r_endDate]. auto.
Qed.

Lemma Forall_snoc {A : Type} (P : A -> Prop) (l : list A) (a : A) :
  Forall P l -> P a -> Forall P (l ++ [a]).
Proof. intros H1 H2. apply Forall_app. split; [assumption | now constructor]. Qed.

Lemma hr_records_stamped (date_str : string) (readings : list pyval) :
  forall o o',
  Forall (stamped tz_offset_hours) (fst o) ->
  hr_records source_name tz_offset_hours date_str readings o = Ok o' ->
  Forall (stamped tz_offset_hours) (fst o').
Proof.
  induction readings as [|r readings IH]; intros o o' F H; cbn [hr_records] in H.
  - now inv H.
  - destruct (hr_record _ _ _ r) as [rec| |] eqn:E; cbn [bind] in H; try discriminate H.
    eapply IH; [|exact H]. cbn [fst]. apply Forall_snoc; [assumption|].
    apply hr_record_stamp in E as (d & minute & _ & _ & S & E').
    split; [|rewrite E']; eapply stamp_suffix; eassumption.
Qed.

Lemma hr_days_stamped (days : pydict) :
  forall o o',
  Forall (stamped tz_offset_hours) (fst o) ->
  hr_days source_name tz_offset_hours days o = Ok o' ->
  Forall (stamped tz_offset_hours) (fst o').
Proof.
  induction days as [|[date_str readings] days IH]; intros o o' F H; cbn [hr_days] in H.
  - now inv H.
  - destruct (py_iter readings) as [l| |]; cbn [bind] in H; try discriminate H.
    destruct (hr_records _ _ _ l o) as [o1| |] eqn:E; cbn [bind] in H;
      try discriminate H.
    eapply IH; [|exact H]. eapply hr_records_stamped; eassumption.
Qed.

Lemma steps_days_stamped (days : pydict) :
  forall o o',
  Forall (stamped tz_offset_hours) (fst o) ->
  steps_days source_name tz_offset_hours days o = Ok o' ->
  Forall (stamped tz_offset_hours) (fst o').
Proof.
  induction days as [|[date_str steps] days IH]; intros o o' F H; cbn [steps_days] in H.
  - now inv H.
  - destruct (steps_record _ _ _ steps) as [[rec|]| |] eqn:E; cbn [bind] in H;
      try discriminate H.
    + eapply IH; [|exact H]. cbn [fst]. apply Forall_snoc; [assumption|].
      apply steps_record_stamp in E as [S0 S1].
      split; eapply stamp_suffix; eassumption.
    + eapply IH; eassumption.
Qed.

Lemma stage_records_stamped (source_date : pyval) (stages : list pyval) :
  forall o o',
  Forall (stamped tz_offset_hours) (fst o) ->
  stage_records source_name tz_offset_hours source_date stages o = Ok o' ->
  Forall (stamped tz_offset_hours) (fst o').
Proof.
  induction stages as [|stage stages IH]; intros o o' F H; cbn [stage_records] in H.
  - now inv H.
  - destruct (stage_record _ _ _ stage) as [[rec|]| |] eqn:E; cbn [bind] in H;
      try discriminate H.
    + eapply IH; [|exact H]. cbn [fst]. apply Forall_snoc; [assumption|].
      apply stage_record_classified in E as (_ & _ & _ & d & sm & em & _ & _ & _ & S & S').
      split; eapply stamp_suffix; eassumption.
    + eapply IH; eassumption.
Qed.

Lemma inbed_record_stamped (sleep : pyval) (o o' : out) :
  -24 < tz_offset_hours < 24 ->
  Forall (stamped tz_offset_hours) (fst o) ->
  inbed_record source_name (tz_offset_hours * 3600) sleep o = Ok o' ->
  Forall (stamped tz_offset_hours) (fst o').
Proof.
  intros R F H. unfold inbed_record in H.
  destruct (py_get sleep "start" PNone) as [start| |]; cbn [bind] in H;
    try discriminate H.
  destruct (truthy start) as [has_start| |]; cbn [bind] in H; try discriminate H.
  match type of H with
  | bind ?c _ = _ => destruct c as [has_both| |]; cbn [bind] in H; try discriminate H
  end.
  destruct has_both; [|now inv H].
  destruct (py_item sleep "start") as [s| |]; cbn [bind] in H; try discriminate H.
  destruct (fromisoformat s) as [sdt| |]; cbn [bind] in H; try discriminate H.
  destruct (py_item sleep "end") as [e| |]; cbn [bind] in H; try discriminate H.
  destruct (fromisoformat e) as [edt| |]; cbn [bind] in H; try discriminate H.
  destruct (_apple_date (replace_tzinfo sdt _)) as [s1| |] eqn:A1; cbn [bind] in H;
    try discriminate H.
  destruct (_apple_date (replace_tzinfo edt _)) as [e1| |] eqn:A2; cbn [bind] in H;
    try discriminate H.
  injection H as <-. cbn [fst]. apply Forall_snoc; [assumption|].
  split; cbn [r_startDate r_endDate];
    eapply apple_date_suffix; try eassumption; reflexivity.
Qed.

Lemma sleep_session_stamped (date_str : string) (sleep : pyval) (o o' : out) :
  -24 < tz_offset_hours < 24 ->
  Forall (stamped tz_offset_hours) (fst o) ->
  sleep_session source_name tz_offset_hours (tz_offset_hours * 3600) date_str sleep o
  = Ok o' ->
  Forall (stamped tz_offset_hours) (fst o').
Proof.
  intros R F H. unfold sleep_session in H.
  destruct (truthy sleep) as [nonempty| |]; cbn [bind] in H; try discriminate H.
  match type of H with
  | bind ?c _ = _ => destruct c as [skip| |]; cbn [bind] in H; try discriminate H
  end.
  destruct skip; [now inv H|].
  destruct (py_get sleep "fetched_from" _) as [src| |]; cbn [bind] in H;
    try discriminate H.
  destruct (py_item sleep "stages") as [st| |]; cbn [bind] in H; try discriminate H.
  destruct (py_iter st) as [stages| |]; cbn [bind] in H; try discriminate H.
  destruct (stage_records _ _ src stages o) as [o1| |] eqn:E; cbn [bind] in H;
    try discriminate H.
  eapply inbed_record_stamped; [exact R| |exact H].
  eapply stage_records_stamped; eassumption.
Qed.

Lemma sleep_days_stamped (days : pydict) :
  forall o o',
  -24 < tz_offset_hours < 24 ->
  Forall (stamped tz_offset_hours) (fst o) ->
  sleep_days source_name tz_offset_hours (tz_offset_hours * 3600) days o = Ok o' ->
  Forall (stamped tz_offset_hours) (fst o').
Proof.
  induction days as [|[date_str sleep] days IH]; intros o o' R F H;
    cbn [sleep_days] in H.
  - now inv H.
  - destruct (sleep_session _ _ _ date_str sleep o) as [o1| |] eqn:E; cbn [bind] in H;
      try discriminate H.
    eapply IH; [exact R| |exact H]. eapply sleep_session_stamped; eassumption.
Qed.

Lemma section_stamped (loop : pydict -> out -> res out) (data : pyval)
    (rs : list xml_record) (o' : out) :
  (forall days o o', Forall (stamped tz_offset_hours) (fst o) ->
                     loop days o = Ok o' -> Forall (stamped tz_offset_hours) (fst o')) ->
  Forall (stamped tz_offset_hours) rs ->
  section loop data rs = Ok o' ->
  Forall (stamped tz_offset_hours) (fst o').
Proof.
  intros L F H. unfold section in H.
  destruct (truthy data) as [present| |]; cbn [bind] in H; try discriminate H.
  destruct present; [|now inv H].
  destruct (py_items data) as [items| |]; cbn [bind] in H; try discriminate H.
  eapply L; [|exact H]. exact F.
Qed.

Lemma now_offset (now tz : Z) (dt : datetime) :
  (let local := now + tz in
   let ord := EPOCH_ORD + local / 86400 in
   if (MINORD <=? ord) && (ord <=? MAXORD)
   then Ok (mkdt ord (local mod 86400) (Some tz))
   else Raise OverflowError) = Ok dt ->
  dt_utcoffset dt = Some tz.
Proof.
  cbv zeta.
  generalize (EPOCH_ORD + (now + tz) / 86400), ((now + tz) mod 86400).
  intros o s. destruct ((MINORD <=? o) && (o <=? MAXORD)); [|discriminate].
  intros H. injection H as <-. reflexivity.
Qed.

Lemma export_stamped (now : Z) (hr steps sleep : pyval) (e : export) :
  export_apple_health source_name tz_offset_hours now hr steps sleep = Ok e ->
  -24 < tz_offset_hours < 24
  /\ has_suffix (" " +++ tz_suffix tz_offset_hours) (export_date e)
  /\ Forall (stamped tz_offset_hours) (records e).
Proof.
  unfold export_apple_health. intros H.
  destruct (timezone_hours tz_offset_hours) as [tz| |] eqn:T; cbn [bind] in H;
    try discriminate H.
  apply timezone_hours_inv in T as [R ->].
  match type of H with
  | bind ?c _ = _ => destruct c as [now_dt| |] eqn:N; cbn [bind] in H;
                     try discriminate H
  end.
  destruct (_apple_date now_dt) as [ed| |] eqn:A; cbn [bind] in H; try discriminate H.
  destruct (section _ hr []) as [[rs1 c1]| |] eqn:S1; cbn [bind] in H;
    try discriminate H.
  destruct (section _ steps rs1) as [[rs2 c2]| |] eqn:S2; cbn [bind] in H;
    try discriminate H.
  destruct (section _ sleep rs2) as [[rs3 c3]| |] eqn:S3; cbn [bind] in H;
    try discriminate H.
  injection H as <-. cbn [export_date records].
  split; [exact R|]. split.
  - eapply apple_date_suffix; [exact R| |exact A].
    exact (now_offset _ _ _ N).
  - apply (section_stamped _ _ _ _ (fun d o o' F => sleep_days_stamped d o o' R F)
             (section_stamped _ _ _ _ steps_days_stamped
                (section_stamped _ _ _ _ hr_days_stamped (Forall_nil _) S1) S2) S3).
Qed.

(** C9, as the code has it.  The timestamps of a heart-rate record, of
    a step record and of a sleep-stage record are the minute-of-day value
    added to midnight of the record's source date at the configured
    offset: the day moves on by [minute / 1440] days and the time of day
    is [minute mod 1440], so a minute from 1440 on falls on a later
    calendar day (the next one, below 2880).  The source date of a
    sleep stage is [fetched_from], or the wake date when the session has
    no such key.  The InBed record carries the session's own start and
    end instead.  Every timestamp of the export, that of the export date
    and those of the InBed records included, ends with the configured
    offset. *)
Theorem record_timestamps :
  (forall s m base,
     -24 < tz_offset_hours < 24 ->
     strptime_ymd (PStr s) = Ok base ->
     MINORD <= dt_ord base + m / 1440 <= MAXORD ->
     _minute_to_datetime (PStr s) (PInt m) tz_offset_hours =
     Ok (mkdt (dt_ord base + m / 1440) (60 * (m mod 1440))
              (Some (tz_offset_hours * 3600)))
     /\ dt_sec base = 0
     /\ (0 <= m < 1440 -> m / 1440 = 0)
     /\ (1440 <= m < 2880 -> m / 1440 = 1)
     /\ (1440 <= m -> 1 <= m / 1440))
  /\ (forall date_str r rec,
        hr_record source_name tz_offset_hours date_str r = Ok rec ->
        exists d minute,
          r = PDict d /\ dict_lookup "minute" d = Some minute
          /\ stamp tz_offset_hours (PStr date_str) minute = Ok (r_startDate rec)
          /\ r_endDate rec = r_startDate rec)
  /\ (forall date_str steps rec,
        steps_record source_name tz_offset_hours date_str steps = Ok (Some rec) ->
        stamp tz_offset_hours (PStr date_str) (PInt 0) = Ok (r_startDate rec)
        /\ stamp tz_offset_hours (PStr date_str) (PInt 1439) = Ok (r_endDate rec))
  /\ (forall source_date stage rec,
        stage_record source_name tz_offset_hours source_date stage = Ok (Some rec) ->
        exists d sm em,
          stage = PDict d
          /\ dict_lookup "start_minute" d = Some sm
          /\ dict_lookup "end_minute" d = Some em
          /\ stamp tz_offset_hours source_date sm = Ok (r_startDate rec)
          /\ stamp tz_offset_hours source_date em = Ok (r_endDate rec))
  /\ (forall tz date_str d stage stages opts o,
        dict_lookup "stages" d = Some (PList (stage :: stages)) ->
        mapM (stage_record source_name tz_offset_hours
                (field_or d "fetched_from" (PStr date_str))) (stage :: stages) = Ok opts ->
        sleep_session source_name tz_offset_hours tz date_str (PDict d) o =
        inbed_record source_name tz (PDict d)
          (fst o ++ somes opts, snd o + Z.of_nat (List.length (somes opts))))
  /\ (forall tz d start end_ sdt edt s e o,
        dict_lookup "start" d = Some start -> truthy start = Ok true ->
        dict_lookup "end" d = Some end_ -> truthy end_ = Ok true ->
        fromisoformat start = Ok sdt -> fromisoformat end_ = Ok edt ->
        _apple_date (replace_tzinfo sdt tz) = Ok s ->
        _apple_date (replace_tzinfo edt tz) = Ok e ->
        inbed_record source_name tz (PDict d) o =
        Ok (fst o ++ [inbed source_name s e], snd o + 1))
  /\ (forall now hr steps sleep e,
        export_apple_health source_name tz_offset_hours now hr steps sleep = Ok e ->
        -24 < tz_offset_hours < 24
        /\ has_suffix (" " +++ tz_suffix tz_offset_hours) (export_date e)
        /\ Forall (stamped tz_offset_hours) (records e))
  /\ tz_suffix (-6) = "-0600" /\ tz_suffix 0 = "+0000" /\ tz_suffix 10 = "+1000".
Proof.
  split.
  { intros s m base R B O.
    split; [now apply minute_to_datetime_spec|].
    split; [apply (strptime_ymd_midnight _ _ B)|].
    repeat split; intros; Z.div_mod_to_equations; lia. }
  split; [exact hr_record_stamp|].
  split; [exact steps_record_stamp|].
  split.
  { intros source_date stage rec H.
    apply stage_record_classified in H as (_ & _ & _ & H). exact H. }
  split; [intros; eapply sleep_session_stages; eassumption|].
  split; [intros; eapply inbed_record_present; eassumption|].
  split; [exact export_stamped|].
  repeat split; reflexivity.
Qed.

End StampProofs.

Lemma record_timestamps_witness :
  strptime_ymd (PStr "2026-02-05") = Ok (mkdt 739652 0 None)
  /\ _minute_to_datetime (PStr "2026-02-05") (PInt 1460) (-6) =
     Ok (mkdt 739653 1200 (Some (-21600)))
  /\ stamp (-6) (PStr "2026-02-05") (PInt 1460) = Ok "2026-02-06 00:20:00 -0600".
Proof.
  split; [reflexivity|]. split; [|reflexivity].
  refine (proj1 (proj1 (record_timestamps "zepp-export" (-6)) "2026-02-05" 1460
                   (mkdt 739652 0 None) _ eq_refl _)).
  - lia.
  - cbv. split; discriminate.
Defined.

(** No text that ends in whole minutes is the timestamp below. *)
Lemma seconds_suffix_differs (x : string) :
  x +++ ":00 -0600" <> "2026-02-05 23:30:15 -0600".
Proof.
  intros H.
  do 25 (destruct x as [|? x]; cbn in H; [discriminate H | injection H as _ H]).
  destruct x; discriminate H.
Qed.

(** A timestamp made from a minute-of-day value has no seconds. *)
Lemma stamp_whole_minute (source_date minute : pyval) (s : string) :
  stamp (-6) source_date minute = Ok s -> exists x, s = x +++ ":00 -0600".
Proof.
  unfold stamp. intros H.
  destruct (_minute_to_datetime source_date minute (-6)) as [dt| |] eqn:E;
    cbn [bind] in H; try discriminate H.
  apply minute_to_datetime_offset in E as (R & O & S).
  unfold _apple_date in H.
  destruct (strftime_ymd dt) as [ymd| |]; cbn [bind] in H; try discriminate H.
  injection H as <-. rewrite O. unfold fmt_hms. rewrite S.
  exists (ymd +++ " " +++ pad2 (dt_sec dt / 3600) +++ ":"
          +++ pad2 (dt_sec dt mod 3600 / 60)).
  rewrite !append_assoc3. reflexivity.
Qed.

(** The claim C9 as stated fails: the InBed record of this session
    starts at 23:30:15, and no minute-of-day value added to the midnight
    of any date gives that timestamp. *)
Lemma inbed_timestamp_not_from_minutes :
  sleep_session "zepp-export" (-6) (-21600) "2026-02-06" (PDict odd_session) ([], 0) =
  Ok ([mkrec "HKCategoryTypeIdentifierSleepAnalysis" "zepp-export" None
             "HKCategoryValueSleepAnalysisAsleepCore"
             "2026-02-05 23:30:00 -0600" "2026-02-06 00:00:00 -0600";
       inbed "zepp-export" "2026-02-05 23:30:15 -0600" "2026-02-06 07:15:00 -0600"], 2)
  /\ forall source_date minute,
       stamp (-6) source_date minute <> Ok "2026-02-05 23:30:15 -0600".
Proof.
  split; [vm_compute; reflexivity|].
  intros source_date minute H.
  apply stamp_whole_minute in H as [x H].
  symmetry in H. exact (seconds_suffix_differs x H).
Qed.

(** ** The example night, end to end *)

Lemma night_response_days : _fetch_band_data night_response = Ok night_days.
Proof. vm_compute. reflexivity. Qed.

Lemma get_sleep_night :
  get_sleep utc_minus_6 night_response "2026-02-06" =
  Ok (PDict [("date", PStr "2026-02-06"); ("fetched_from", PStr "2026-02-05");
             ("resting_hr", PInt 57); ("sleep_score", PNone);
             ("deep_minutes", PNone); ("light_minutes", PNone);
             ("stages", PList []); ("nap_stages", PList []);
             ("start", PStr "2026-02-05T23:30:00");
             ("end", PStr "2026-02-06T07:15:00");
             ("duration_minutes", PInt 465)]).
Proof. vm_compute. reflexivity. Qed.

(* ================================================================== *)
(** * Part VIII. Further properties of the program                     *)
(* ================================================================== *)

(** ** The two heart-rate decoders *)

Lemma raw_values_length (bs : list byte) :
  List.length (raw_values bs) = List.length bs.
Proof. apply length_map. Qed.

Lemma raw_values_nth (bs : list byte) (i : nat) :
  nth_error (raw_values bs) i =
  option_map (fun b => PInt (Z.of_N (Byte.to_N b))) (nth_error bs i).
Proof. apply nth_error_map. Qed.

Lemma raw_values_inj (bs bs' : list byte) : raw_values bs = raw_values bs' -> bs = bs'.
Proof.
  revert bs'. induction bs as [|b bs IH]; intros [|b' bs'] H; try discriminate H.
  - reflexivity.
  - cbn in H. injection H as Hb Ht. f_equal; [|now apply IH].
    assert (E : Byte.to_N b = Byte.to_N b') by lia.
    pose proof (Byte.of_to_N b) as A. pose proof (Byte.of_to_N b') as A'.
    rewrite E in A. rewrite A in A'. now injection A'.
Qed.

(** X1. [decode_heart_rate_raw] undoes the encoding: the base64 text of
    any bytes decodes to those bytes, one number per byte, zeros and the
    values from 254 on included; the bytes can be read back from the
    result. *)
Theorem decode_heart_rate_raw_roundtrip :
  (forall bs, decode_heart_rate_raw (b64encode bs) = Ok (raw_values bs))
  /\ (forall bs, List.length (raw_values bs) = List.length bs)
  /\ (forall bs i b,
        nth_error bs i = Some b ->
        nth_error (raw_values bs) i = Some (PInt (Z.of_N (Byte.to_N b)))
        /\ 0 <= Z.of_N (Byte.to_N b) < 256)
  /\ (forall bs bs',
        decode_heart_rate_raw (b64encode bs) = decode_heart_rate_raw (b64encode bs') ->
        bs = bs').
Proof.
  assert (R : forall bs, decode_heart_rate_raw (b64encode bs) = Ok (raw_values bs)).
  { intros bs. apply decode_heart_rate_raw_ok, b64decode_encode. }
  split; [exact R|]. split; [exact raw_values_length|]. split.
  - intros bs i b H. rewrite raw_values_nth, H. split; [reflexivity|].
    pose proof (Byte.to_N_bounded b). lia.
  - intros bs bs' H. rewrite !R in H. injection H as H. now apply raw_values_inj.
Qed.

Lemma decode_heart_rate_value_error (raw : string) :
  b64decode raw = Raise ValueError ->
  decode_heart_rate raw = Raise ValueError
  /\ decode_heart_rate_raw raw = Raise ValueError.
Proof.
  intros H. unfold decode_heart_rate, decode_heart_rate_raw. rewrite H. split; reflexivity.
Qed.

Lemma decode_heart_rate_binascii (raw : string) :
  b64decode raw = Raise BinasciiError ->
  decode_heart_rate raw = Raise ZeppDecodeError
  /\ decode_heart_rate_raw raw = Raise ZeppDecodeError.
Proof.
  intros H. unfold decode_heart_rate, decode_heart_rate_raw. rewrite H. split; reflexivity.
Qed.

Lemma b64decode_value_error (raw : string) :
  b64decode raw = Raise ValueError <-> is_ascii raw = false.
Proof.
  unfold b64decode. destruct (is_ascii raw); split; intros H;
    try discriminate H; try reflexivity.
  destruct (a2b_loop_outcome raw 0%N 0%N 0%N []) as [[bs E]|E]; rewrite E in H;
    discriminate H.
Qed.

Lemma hr_samples_In (bs : list byte) (i v : Z) :
  In (hr_reading i v) (hr_samples bs) <->
  0 <= i /\ nth_error (raw_values bs) (Z.to_nat i) = Some (PInt v) /\ 0 < v < 254.
Proof.
  unfold hr_samples. rewrite in_map_iff. split.
  - intros [[j w] [E H]]. cbn [fst snd] in E.
    assert (j = i /\ w = v) as [-> ->].
    { unfold hr_reading in E. injection E as E1 _ E2. auto. }
    apply filter_In in H as [H V]. apply enumerate_from_In in H as [Hi [b [Hb ->]]].
    rewrite Z.sub_0_r in Hb. unfold valid_bpm in V. cbn [snd] in V.
    apply andb_prop in V as [V1 V2]. apply Z.ltb_lt in V1, V2.
    split; [exact Hi|]. split; [|lia]. now rewrite raw_values_nth, Hb.
  - intros [Hi [Hn Hv]]. exists (i, v). split; [reflexivity|].
    apply filter_In. split.
    + apply enumerate_from_In. split; [exact Hi|]. rewrite Z.sub_0_r.
      rewrite raw_values_nth in Hn. destruct (nth_error bs (Z.to_nat i)) as [b|];
        [|discriminate Hn].
      exists b. split; [reflexivity|]. cbn in Hn. now injection Hn as <-.
    + unfold valid_bpm. cbn [snd].
      destruct (Z.ltb_spec 0 v); [|lia]. destruct (Z.ltb_spec v 254); [|lia]. reflexivity.
Qed.

(** X2. The two heart-rate decoders agree on every input: they fail
    together (with [ZeppDecodeError] when base64 rejects the text, with
    a plain [ValueError] when the text is not ASCII) and succeed
    together, and then the readings are exactly the entries [v] of the
    raw list with [0 < v < 254], each under its index as minute. *)
Theorem heart_rate_decoders_agree :
  (forall raw,
     (exists bs, decode_heart_rate_raw raw = Ok (raw_values bs)
                 /\ decode_heart_rate raw = Ok (hr_samples bs))
     \/ (decode_heart_rate_raw raw = Raise ZeppDecodeError
         /\ decode_heart_rate raw = Raise ZeppDecodeError)
     \/ (is_ascii raw = false
         /\ decode_heart_rate_raw raw = Raise ValueError
         /\ decode_heart_rate raw = Raise ValueError))
  /\ (forall raw values,
        decode_heart_rate_raw raw = Ok values ->
        exists bs, values = raw_values bs /\ decode_heart_rate raw = Ok (hr_samples bs))
  /\ (forall bs i v,
        In (hr_reading i v) (hr_samples bs) <->
        0 <= i /\ nth_error (raw_values bs) (Z.to_nat i) = Some (PInt v) /\ 0 < v < 254)
  /\ (forall bs r, In r (hr_samples bs) -> exists i v, r = hr_reading i v).
Proof.
  split.
  { intros raw. destruct (b64decode_outcome raw) as [[bs H]|[H|H]].
    - left. exists bs. split; [now apply decode_heart_rate_raw_ok|].
      now apply decode_heart_rate_ok.
    - right. left. apply decode_heart_rate_binascii in H. tauto.
    - right. right. split; [now apply b64decode_value_error|].
      apply decode_heart_rate_value_error in H. tauto. }
  split.
  { intros raw values H. destruct (b64decode_outcome raw) as [[bs E]|[E|E]].
    - exists bs. rewrite (decode_heart_rate_raw_ok _ _ E) in H. injection H as <-.
      split; [reflexivity|]. now apply decode_heart_rate_ok.
    - apply decode_heart_rate_binascii in E as [_ E]. rewrite E in H. discriminate H.
    - apply decode_heart_rate_value_error in E as [_ E]. rewrite E in H. discriminate H. }
  split; [exact hr_samples_In|].
  intros bs r H. unfold hr_samples in H. apply in_map_iff in H as [[i v] [E _]].
  now exists i, v.
Qed.

Lemma b64decode_skip (s1 : string) (c : ascii) (s2 : string) :
  outside_alphabet c = true -> (N_of_ascii c < 128)%N ->
  b64decode (s1 +++ String c s2) = b64decode (s1 +++ s2).
Proof.
  intros Hc Ha. unfold b64decode.
  rewrite is_ascii_skip by now apply N.ltb_lt.
  now rewrite a2b_loop_skip.
Qed.

(** X3. Text that wraps or spaces its base64 is decoded like the text
    without the breaks: an ASCII character that is neither in the
    alphabet nor the pad (a newline, a blank, a dash) is passed over by
    both heart-rate decoders, wherever it stands. *)
Theorem heart_rate_decoders_skip_foreign (s1 : string) (c : ascii) (s2 : string) :
  outside_alphabet c = true -> (N_of_ascii c < 128)%N ->
  decode_heart_rate (s1 +++ String c s2) = decode_heart_rate (s1 +++ s2)
  /\ decode_heart_rate_raw (s1 +++ String c s2) = decode_heart_rate_raw (s1 +++ s2).
Proof.
  intros Hc Ha. unfold decode_heart_rate, decode_heart_rate_raw.
  now rewrite (b64decode_skip _ _ _ Hc Ha).
Qed.

Lemma heart_rate_decoders_skip_foreign_witness :
  decode_heart_rate (String "A" (String "E" (String (ascii_of_N 10) "g="))) =
  decode_heart_rate "AEg="
  /\ decode_heart_rate "AEg=" =
     Ok [PDict [("minute", PInt 1); ("time", PStr "00:01"); ("bpm", PInt 72)]].
Proof.
  split; [|reflexivity].
  apply (heart_rate_decoders_skip_foreign "AE" (ascii_of_N 10) "g=").
  - reflexivity.
  - reflexivity.
Defined.

Lemma decode_heart_rate_raw_roundtrip_witness :
  nth_error (raw_values [x00; x48; xfe]) 2 = Some (PInt 254)
  /\ 0 <= 254 < 256.
Proof.
  exact (proj1 (proj2 (proj2 decode_heart_rate_raw_roundtrip)) [x00; x48; xfe] 2%nat xfe
           eq_refl).
Defined.

Lemma heart_rate_decoders_agree_witness :
  exists bs, [PInt 0; PInt 72] = raw_values bs
             /\ decode_heart_rate "AEg=" = Ok (hr_samples bs).
Proof.
  exact (proj1 (proj2 heart_rate_decoders_agree) "AEg=" [PInt 0; PInt 72] eq_refl).
Defined.

(** ** Band data: what a day becomes *)

Lemma fetch_summary_spec (d result : pydict) :
  fetch_summary (PDict d) result =
  match dict_lookup "summary" d with
  | Some (PStr raw) =>
      match decode_summary raw with
      | Ok v => Ok (dict_set "summary" v result)
      | Raise ZeppDecodeError => Ok (dict_set "summary" PNone result)
      | Raise e => Raise e
      | Unmodelled => Unmodelled
      end
  | _ => Ok result
  end.
Proof.
  unfold fetch_summary. cbn [py_in py_item bind].
  destruct (dict_lookup "summary" d) as [v|]; cbn [bind]; [|reflexivity].
  destruct v; try reflexivity.
  destruct (decode_summary s) as [v|e|]; try reflexivity. destruct e; reflexivity.
Qed.

Lemma fetch_heart_rate_spec (d result : pydict) :
  fetch_heart_rate (PDict d) result =
  match dict_lookup "data_hr" d with
  | Some (PStr h) =>
      match b64decode h with
      | Ok bs =>
          Ok (dict_set "heart_rate_raw" (PList (raw_values bs))
                (dict_set "heart_rate" (PList (hr_samples bs)) result))
      | Raise BinasciiError =>
          Ok (dict_set "heart_rate_raw" (PList [])
                (dict_set "heart_rate" (PList []) result))
      | Raise e => Raise e
      | Unmodelled => Unmodelled
      end
  | _ => Ok result
  end.
Proof.
  unfold fetch_heart_rate. cbn [py_in py_item bind].
  destruct (dict_lookup "data_hr" d) as [v|]; cbn [bind]; [|reflexivity].
  destruct v; try reflexivity.
  destruct (b64decode_outcome s) as [[bs H]|[H|H]]; rewrite H.
  - now rewrite (decode_heart_rate_ok _ _ H), (decode_heart_rate_raw_ok _ _ H).
  - apply decode_heart_rate_binascii in H as [H _]. now rewrite H.
  - apply decode_heart_rate_value_error in H as [H _]. now rewrite H.
Qed.

Lemma fetch_day_spec (d : pydict) :
  fetch_day (PDict d) =
  (r1 <- fetch_summary (PDict d) [("date", field_or d "date_time" PNone)] ;;
   r2 <- fetch_heart_rate (PDict d) r1 ;;
   r3 <- fetch_activity (PDict d) r2 ;;
   Ok (PDict r3)).
Proof. reflexivity. Qed.

Lemma decode_summary_not_ascii (raw : string) :
  is_ascii raw = false -> decode_summary raw = Raise ValueError.
Proof. intros H. unfold decode_summary, b64decode. now rewrite H. Qed.

Lemma fetch_summary_keys (d result r : pydict) :
  fetch_summary (PDict d) result = Ok r ->
  (forall k, k <> "summary" -> dict_lookup k r = dict_lookup k result)
  /\ (dict_lookup "summary" r = dict_lookup "summary" result
      \/ exists raw, dict_lookup "summary" d = Some (PStr raw)
                     /\ ((exists v, decode_summary raw = Ok v
                                    /\ dict_lookup "summary" r = Some v)
                         \/ (decode_summary raw = Raise ZeppDecodeError
                             /\ dict_lookup "summary" r = Some PNone))).
Proof.
  rewrite fetch_summary_spec.
  destruct (dict_lookup "summary" d) as [v|] eqn:L;
    [|intros H; inv H; split; [reflexivity | now left]].
  destruct v; try (intros H; inv H; split; [reflexivity | now left]).
  destruct (decode_summary s) as [v|e|] eqn:E; [| |discriminate].
  - intros H. inv H. split.
    + intros k K. apply dict_lookup_set_neq. congruence.
    + right. exists s. split; [reflexivity|]. left. exists v.
      split; [exact E | apply dict_lookup_set_eq].
  - destruct (decode_summary_raises _ _ E); subst e; [|discriminate].
    intros H. inv H. split.
    + intros k K. apply dict_lookup_set_neq. congruence.
    + right. exists s. split; [reflexivity|]. right.
      split; [exact E | apply dict_lookup_set_eq].
Qed.

Lemma fetch_heart_rate_lists (d result r : pydict) :
  fetch_heart_rate (PDict d) result = Ok r ->
  ((forall h, dict_lookup "data_hr" d <> Some (PStr h)) /\ r = result)
  \/ exists h bs,
       dict_lookup "data_hr" d = Some (PStr h)
       /\ (b64decode h = Ok bs \/ (b64decode h = Raise BinasciiError /\ bs = []))
       /\ dict_lookup "heart_rate" r = Some (PList (hr_samples bs))
       /\ dict_lookup "heart_rate_raw" r = Some (PList (raw_values bs)).
Proof.
  rewrite fetch_heart_rate_spec.
  destruct (dict_lookup "data_hr" d) as [v|] eqn:L;
    [|intros H; inv H; left; split; [discriminate | reflexivity]].
  destruct v; try (intros H; inv H; left; split; [discriminate | reflexivity]).
  destruct (b64decode s) as [bs|e|] eqn:E; [| |discriminate].
  - intros H. inv H. right. exists s, bs. split; [reflexivity|]. split; [now left|].
    split; [|apply dict_lookup_set_eq].
    rewrite dict_lookup_set_neq by discriminate. apply dict_lookup_set_eq.
  - destruct e; try discriminate. intros H. inv H. right. exists s, [].
    split; [reflexivity|]. split; [now right|].
    split; [|apply dict_lookup_set_eq].
    rewrite dict_lookup_set_neq by discriminate. apply dict_lookup_set_eq.
Qed.

Lemma fetch_day_shape (d : pydict) (r : pyval) :
  fetch_day (PDict d) = Ok r ->
  exists rd,
    r = PDict rd
    /\ dict_lookup "date" rd = Some (field_or d "date_time" PNone)
    /\ (forall k v, dict_lookup k rd = Some v ->
          In k ["date"; "summary"; "heart_rate"; "heart_rate_raw";
                "activity_bytes_length"])
    /\ (((forall h, dict_lookup "data_hr" d <> Some (PStr h))
         /\ dict_lookup "heart_rate" rd = None
         /\ dict_lookup "heart_rate_raw" rd = None)
        \/ exists h bs,
             dict_lookup "data_hr" d = Some (PStr h)
             /\ (b64decode h = Ok bs \/ (b64decode h = Raise BinasciiError /\ bs = []))
             /\ dict_lookup "heart_rate" rd = Some (PList (hr_samples bs))
             /\ dict_lookup "heart_rate_raw" rd = Some (PList (raw_values bs))).
Proof.
  rewrite fetch_day_spec. intros H.
  destruct (fetch_summary _ _) as [r1| |] eqn:S; cbn [bind] in H; try discriminate H.
  destruct (fetch_heart_rate _ r1) as [r2| |] eqn:R; cbn [bind] in H; try discriminate H.
  destruct (fetch_activity_keeps d r2) as [r3 [A K3]]. rewrite A in H. cbn [bind] in H.
  inv H. exists r3.
  destruct (fetch_summary_keys _ _ _ S) as [K1 _].
  pose proof (fetch_heart_rate_keeps _ _ _ R) as K2.
  split; [reflexivity|]. split.
  { rewrite K3, K2, K1 by discriminate. cbn. reflexivity. }
  split.
  { intros k v L.
    destruct (String.eqb_spec k "activity_bytes_length") as [->|N3]; [cbn; tauto|].
    destruct (String.eqb_spec k "heart_rate") as [->|N2]; [cbn; tauto|].
    destruct (String.eqb_spec k "heart_rate_raw") as [->|N2']; [cbn; tauto|].
    destruct (String.eqb_spec k "summary") as [->|N1]; [cbn; tauto|].
    rewrite K3, K2, K1 in L by assumption. cbn in L.
    destruct (String.eqb_spec k "date") as [->|N0]; [cbn; tauto|discriminate L]. }
  destruct (fetch_heart_rate_lists _ _ _ R) as [[N ->]|(h & bs & L & B & H1 & H2)].
  - left. split; [exact N|]. rewrite !K3, !K1 by discriminate. cbn. auto.
  - right. exists h, bs. rewrite !K3 by discriminate. auto.
Qed.

(** X4. Every day that [_fetch_band_data] returns has its [date] (the
    day's [date_time], [None] without one) and at most the keys
    [summary], [heart_rate], [heart_rate_raw] and
    [activity_bytes_length].  The two heart-rate lists come and go
    together: both are absent when the day has no heart-rate text, and
    otherwise there are bytes of which [heart_rate_raw] holds every value
    and [heart_rate] the readings; they are the decoded bytes, or none
    when base64 rejected the text. *)
Theorem fetch_day_result_shape (d : pydict) (r : pyval) :
  fetch_day (PDict d) = Ok r ->
  exists rd,
    r = PDict rd
    /\ dict_lookup "date" rd = Some (field_or d "date_time" PNone)
    /\ (forall k v, dict_lookup k rd = Some v ->
          In k ["date"; "summary"; "heart_rate"; "heart_rate_raw";
                "activity_bytes_length"])
    /\ (((forall h, dict_lookup "data_hr" d <> Some (PStr h))
         /\ dict_lookup "heart_rate" rd = None
         /\ dict_lookup "heart_rate_raw" rd = None)
        \/ exists h bs,
             dict_lookup "data_hr" d = Some (PStr h)
             /\ (b64decode h = Ok bs \/ (b64decode h = Raise BinasciiError /\ bs = []))
             /\ dict_lookup "heart_rate" rd = Some (PList (hr_samples bs))
             /\ dict_lookup "heart_rate_raw" rd = Some (PList (raw_values bs))).
Proof. apply fetch_day_shape. Qed.

Lemma fetch_day_result_shape_witness :
  exists rd,
    PDict [("date", PStr "2026-02-06"); ("heart_rate", PList (hr_samples [x00; x48]));
           ("heart_rate_raw", PList [PInt 0; PInt 72])] = PDict rd
    /\ dict_lookup "date" rd =
       Some (field_or [("date_time", PStr "2026-02-06"); ("data_hr", PStr "AEg=")]
               "date_time" PNone)
    /\ (forall k v, dict_lookup k rd = Some v ->
          In k ["date"; "summary"; "heart_rate"; "heart_rate_raw";
                "activity_bytes_length"])
    /\ (((forall h, dict_lookup "data_hr"
                      [("date_time", PStr "2026-02-06"); ("data_hr", PStr "AEg=")]
                    <> Some (PStr h))
         /\ dict_lookup "heart_rate" rd = None
         /\ dict_lookup "heart_rate_raw" rd = None)
        \/ exists h bs,
             dict_lookup "data_hr"
               [("date_time", PStr "2026-02-06"); ("data_hr", PStr "AEg=")]
             = Some (PStr h)
             /\ (b64decode h = Ok bs \/ (b64decode h = Raise BinasciiError /\ bs = []))
             /\ dict_lookup "heart_rate" rd = Some (PList (hr_samples bs))
             /\ dict_lookup "heart_rate_raw" rd = Some (PList (raw_values bs))).
Proof.
  apply (fetch_day_result_shape
           [("date_time", PStr "2026-02-06"); ("data_hr", PStr "AEg=")]).
  reflexivity.
Defined.

(** X5. What [fetch_day] makes of a day depends on its two texts.  A
    day whose summary decodes or fails with [ZeppDecodeError], and whose
    heart-rate text is ASCII, always gets its result.  Any other
    failure of the summary leaves [fetch_day] as it is, and with it
    [_fetch_band_data], which catches [ZeppDecodeError] only: the plain
    [ValueError] of a summary with a character outside ASCII, and that
    of a summary whose JSON holds an integer of more than 4300 digits;
    so does the [ValueError] of a heart-rate text outside ASCII.  The
    activity text never fails the day: its step always returns, touches
    no key but [activity_bytes_length], and sets that key to the number
    of decoded bytes when the text decodes.  A day that is not a dict
    raises [AttributeError]. *)
Theorem fetch_day_outcomes :
  (forall d,
     summary_settled d -> ascii_field d "data_hr" ->
     exists r, fetch_day (PDict d) = Ok (PDict r))
  /\ (forall d s e,
        dict_lookup "summary" d = Some (PStr s) ->
        decode_summary s = Raise e -> e <> ZeppDecodeError ->
        e = ValueError /\ fetch_day (PDict d) = Raise ValueError)
  /\ (forall d s,
        dict_lookup "summary" d = Some (PStr s) -> is_ascii s = false ->
        fetch_day (PDict d) = Raise ValueError)
  /\ (forall d s bs,
        dict_lookup "summary" d = Some (PStr s) ->
        b64decode s = Ok bs -> json_loads_bytes bs = Raise ValueError ->
        fetch_day (PDict d) = Raise ValueError)
  /\ (forall d h,
        summary_settled d ->
        dict_lookup "data_hr" d = Some (PStr h) -> is_ascii h = false ->
        fetch_day (PDict d) = Raise ValueError)
  /\ (forall d result,
        exists r,
          fetch_activity (PDict d) result = Ok r
          /\ (forall k, k <> "activity_bytes_length" ->
                         dict_lookup k r = dict_lookup k result))
  /\ (forall d raw bs result,
        dict_lookup "data" d = Some (PStr raw) -> b64decode raw = Ok bs ->
        fetch_activity (PDict d) result =
        Ok (dict_set "activity_bytes_length" (PInt (Z.of_nat (List.length bs))) result))
  /\ (forall day, (forall d, day <> PDict d) -> fetch_day day = Raise AttributeError).
Proof.
  assert (S : forall d result,
            summary_settled d ->
            exists r1, fetch_summary (PDict d) result = Ok r1).
  { intros d result A. rewrite fetch_summary_spec.
    destruct (dict_lookup "summary" d) as [v|] eqn:L; [|eauto].
    destruct v; eauto.
    destruct (A _ L) as [[v E]|E]; rewrite E; eauto. }
  assert (F : forall d s e,
            dict_lookup "summary" d = Some (PStr s) ->
            decode_summary s = Raise e -> e <> ZeppDecodeError ->
            e = ValueError /\ fetch_day (PDict d) = Raise ValueError).
  { intros d s e L E N.
    destruct (decode_summary_raises _ _ E) as [-> | ->]; [now destruct N|].
    split; [reflexivity|]. rewrite fetch_day_spec, fetch_summary_spec, L.
    now rewrite E. }
  split.
  { intros d A1 A2. rewrite fetch_day_spec.
    destruct (S d [("date", field_or d "date_time" PNone)] A1) as [r1 E1].
    rewrite E1. cbn [bind]. rewrite fetch_heart_rate_spec.
    assert (exists r2,
              match dict_lookup "data_hr" d with
              | Some (PStr h) =>
                  match b64decode h with
                  | Ok bs =>
                      Ok (dict_set "heart_rate_raw" (PList (raw_values bs))
                            (dict_set "heart_rate" (PList (hr_samples bs)) r1))
                  | Raise BinasciiError =>
                      Ok (dict_set "heart_rate_raw" (PList [])
                            (dict_set "heart_rate" (PList []) r1))
                  | Raise e => Raise e
                  | Unmodelled => Unmodelled
                  end
              | _ => Ok r1
              end = Ok r2) as [r2 E2].
    { destruct (dict_lookup "data_hr" d) as [v|] eqn:L; [|eauto].
      destruct v; eauto.
      destruct (b64decode_outcome s) as [[bs H]|[H|H]]; rewrite H; eauto.
      apply b64decode_value_error in H. rewrite (A2 _ L) in H. discriminate H. }
    rewrite E2. cbn [bind].
    destruct (fetch_activity_keeps d r2) as [r3 [A _]]. rewrite A. cbn [bind]. eauto. }
  split; [exact F|].
  split.
  { intros d s L N.
    apply (F d s ValueError L (decode_summary_not_ascii _ N)). discriminate. }
  split.
  { intros d s bs L B J. apply (F d s ValueError L); [|discriminate].
    unfold decode_summary. rewrite B. cbn [bind]. now rewrite J. }
  split.
  { intros d h A L N. rewrite fetch_day_spec.
    destruct (S d [("date", field_or d "date_time" PNone)] A) as [r1 E1].
    rewrite E1. cbn [bind]. rewrite fetch_heart_rate_spec, L.
    apply b64decode_value_error in N. now rewrite N. }
  split; [exact fetch_activity_keeps|].
  split.
  { intros d raw bs result L B. unfold fetch_activity. cbn [py_in py_item bind].
    rewrite L. cbn [bind]. rewrite B. reflexivity. }
  intros day N. destruct day; try reflexivity. now destruct (N d).
Qed.

Lemma fetch_day_outcomes_witness :
  fetch_day (PDict [("date_time", PStr "2026-02-06");
                    ("data_hr", PStr (String (ascii_of_N 233) "AEg="))]) =
  Raise ValueError
  /\ fetch_day (PDict [("date_time", PStr "2026-02-06");
                       ("summary", PStr (b64encode (list_byte_of_string long_array)))]) =
     Raise ValueError.
Proof.
  split.
  - apply (proj1 (proj2 (proj2 (proj2 (proj2 fetch_day_outcomes))))
             [("date_time", PStr "2026-02-06");
              ("data_hr", PStr (String (ascii_of_N 233) "AEg="))]
             (String (ascii_of_N 233) "AEg=")).
    + intros s H. discriminate H.
    + reflexivity.
    + reflexivity.
  - apply (proj1 (proj2 (proj2 (proj2 fetch_day_outcomes)))
             [("date_time", PStr "2026-02-06");
              ("summary", PStr (b64encode (list_byte_of_string long_array)))]
             (b64encode (list_byte_of_string long_array))
             (list_byte_of_string long_array)).
    + reflexivity.
    + apply b64decode_encode.
    + vm_compute. reflexivity.
Defined.

(** ** Band data: the response as a whole *)

Lemma fetch_band_data_spec (d : pydict) :
  _fetch_band_data (PDict d) =
  (bad <- py_ne_1 (field_or d "code" PNone) ;;
   if bad then Raise ZeppAPIError
   else items <- py_iter (field_or d "data" (PList [])) ;; mapM fetch_day items).
Proof. reflexivity. Qed.

Lemma code_rejected_spec (d : pydict) :
  code_rejected d <-> py_ne_1 (field_or d "code" PNone) = Ok true.
Proof.
  unfold code_rejected, field_or. destruct (dict_lookup "code" d) as [v|]; cbn.
  - destruct v as [|b|z|f|s|l|d']; cbn; try (split; [reflexivity | intros _; exact I]).
    + destruct b; cbn; split; congruence.
    + destruct (Z.eqb_spec z 1); cbn; split; congruence.
    + split; [intros []|intros H; discriminate H].
  - split; [reflexivity | intros _; exact I].
Qed.

Lemma py_iter_never_api (obj : pyval) : never_raises ZeppAPIError (py_iter obj).
Proof. destruct obj; discriminate. Qed.

Lemma fetch_day_never_api (day : pyval) : never_raises ZeppAPIError (fetch_day day).
Proof.
  destruct day; try (intros H; cbn in H; discriminate H).
  rewrite fetch_day_spec. apply bind_never.
  { rewrite fetch_summary_spec.
    destruct (dict_lookup "summary" d) as [w|]; [|discriminate].
    destruct w; try discriminate.
    destruct (decode_summary s) as [?|e|] eqn:E; try discriminate.
    destruct (decode_summary_raises _ _ E); subst e; discriminate. }
  intros r1. apply bind_never.
  { rewrite fetch_heart_rate_spec.
    destruct (dict_lookup "data_hr" d) as [w|]; [|discriminate].
    destruct w; try discriminate.
    destruct (b64decode_outcome s) as [[bs H]|[H|H]]; rewrite H; discriminate. }
  intros r2. apply bind_never; [|discriminate].
  destruct (fetch_activity_keeps d r2) as [r3 [A _]]. rewrite A. discriminate.
Qed.

Lemma fetch_band_data_rejected (d : pydict) :
  code_rejected d -> _fetch_band_data (PDict d) = Raise ZeppAPIError.
Proof.
  intros H. apply code_rejected_spec in H. rewrite fetch_band_data_spec, H. reflexivity.
Qed.

Lemma get_sleep_fetch (lo : Z -> Z) (data : pyval) (date : string) :
  wake_date date ->
  get_sleep lo data date =
  (days <- _fetch_band_data data ;;
   b <- scan_days lo date days None ;;
   match b with
   | None => Ok (PDict [])
   | Some (best_sleep, source) =>
       nonempty <- truthy best_sleep ;;
       if nonempty then sleep_record lo date best_sleep source else Ok (PDict [])
   end).
Proof.
  intros (dt & prev & prev_date & H1 & H2 & H3). unfold get_sleep.
  rewrite H1. cbn [bind]. rewrite H2. cbn [bind]. rewrite H3. reflexivity.
Qed.

Lemma request_api_error (http : string -> bool -> pydict -> exchange)
    (path : string) (ios : bool) (q : pydict) :
  ZeppClient._request http path ios q = TRaise ZeppAPIError
  <-> request_fails (http path ios q).
Proof.
  unfold ZeppClient._request, request_fails.
  destruct (http path ios q) as [|status b]; [tauto|].
  destruct (Z.eqb_spec status 401) as [->|N1].
  { split; [discriminate | intros [N _]; now destruct N]. }
  destruct (Z.eqb_spec status 200) as [->|N2]; cbn [negb].
  - destruct b; split; try discriminate; try tauto;
      intros [_ [N|N]]; try discriminate N; now destruct N.
  - tauto.
Qed.

Lemma request_raises (http : string -> bool -> pydict -> exchange)
    (path : string) (ios : bool) (q : pydict) (e : exn) :
  ZeppClient._request http path ios q = TRaise e -> e = ZeppAPIError.
Proof.
  unfold ZeppClient._request.
  destruct (http path ios q) as [|status b]; [intros H; now inv H|].
  destruct (status =? 401); [discriminate|].
  destruct (negb (status =? 200)); [intros H; now inv H|].
  destruct b; intros H; now inv H.
Qed.

Lemma request_auth_error (http : string -> bool -> pydict -> exchange)
    (path : string) (ios : bool) (q : pydict) :
  ZeppClient._request http path ios q = TAuth
  <-> exists b, http path ios q = Answer 401 b.
Proof.
  unfold ZeppClient._request.
  destruct (http path ios q) as [|status b].
  { split; [discriminate | intros [b H]; discriminate H]. }
  destruct (Z.eqb_spec status 401) as [->|N1].
  { split; eauto. }
  split.
  - destruct (negb (status =? 200)); [discriminate|]. destruct b; discriminate.
  - intros [b' H]. inv H. now destruct N1.
Qed.

Lemma fetch_band_data_api_error (data : pyval) :
  _fetch_band_data data = Raise ZeppAPIError ->
  exists d, data = PDict d /\ code_rejected d.
Proof.
  destruct data; try discriminate. intros H. exists d. split; [reflexivity|].
  apply code_rejected_spec. rewrite fetch_band_data_spec in H.
  destruct (py_ne_1 (field_or d "code" PNone)) as [[|]|e|] eqn:E; cbn [bind] in H;
    try discriminate H.
  - reflexivity.
  - exfalso. revert H. apply bind_never; [apply py_iter_never_api|].
    intros items. apply mapM_never, fetch_day_never_api.
  - exfalso. clear H. revert E. generalize (field_or d "code" PNone).
    intros x. destruct x; cbn; discriminate.
Qed.

(** X6. Where [ZeppAPIError] comes from.  [_request] raises it when
    there is no answer, when the status is neither 200 nor 401, and when
    the body of an answer with status 200 is no JSON document; it raises
    nothing else but [ZeppAuthError], for status 401.
    [_fetch_band_data] raises it when its request does, and when the
    response is a dict whose [code] is anything but 1 (no code, [null],
    0, a string), and in no other case; the rejected code makes
    [get_band_data], [get_heart_rate], [get_steps] and, for a wake date
    that parses, [get_sleep] raise it too. *)
Theorem band_data_api_error :
  (forall d, code_rejected d -> _fetch_band_data (PDict d) = Raise ZeppAPIError)
  /\ (forall d date,
        code_rejected d ->
        get_band_data (PDict d) date = Raise ZeppAPIError
        /\ get_heart_rate (PDict d) date = Raise ZeppAPIError
        /\ get_steps (PDict d) date = Raise ZeppAPIError)
  /\ (forall lo d date,
        code_rejected d -> wake_date date ->
        get_sleep lo (PDict d) date = Raise ZeppAPIError)
  /\ (forall http path ios q,
        ZeppClient._request http path ios q = TRaise ZeppAPIError
        <-> request_fails (http path ios q))
  /\ (forall http path ios q e,
        ZeppClient._request http path ios q = TRaise e -> e = ZeppAPIError)
  /\ (forall http path ios q,
        ZeppClient._request http path ios q = TAuth
        <-> exists b, http path ios q = Answer 401 b)
  /\ (forall user_id http from_date to_date,
        ZeppClient._fetch_band_data user_id http from_date to_date = TRaise ZeppAPIError
        <-> (ZeppClient.band_data_request user_id http from_date to_date
             = TRaise ZeppAPIError
             \/ exists d,
                  ZeppClient.band_data_request user_id http from_date to_date
                  = TOk (PDict d)
                  /\ code_rejected d))
  /\ (forall user_id http date d,
        ZeppClient.band_data_request user_id http date date = TOk (PDict d) ->
        code_rejected d ->
        ZeppClient.get_band_data user_id http date = TRaise ZeppAPIError
        /\ ZeppClient.get_heart_rate user_id http date = TRaise ZeppAPIError
        /\ ZeppClient.get_steps user_id http date = TRaise ZeppAPIError)
  /\ (forall d, dict_lookup "code" d = Some (PInt 0) \/ dict_lookup "code" d = None
                \/ dict_lookup "code" d = Some PNone
                \/ dict_lookup "code" d = Some (PStr "1") ->
                code_rejected d).
Proof.
  assert (G : forall d date,
            code_rejected d ->
            get_band_data (PDict d) date = Raise ZeppAPIError
            /\ get_heart_rate (PDict d) date = Raise ZeppAPIError
            /\ get_steps (PDict d) date = Raise ZeppAPIError).
  { intros d date H. apply fetch_band_data_rejected in H.
    unfold get_steps, get_heart_rate, get_band_data. rewrite H. repeat split. }
  split; [exact fetch_band_data_rejected|].
  split; [exact G|].
  split.
  { intros lo d date H W. rewrite (get_sleep_fetch _ _ _ W).
    now rewrite (fetch_band_data_rejected _ H). }
  split; [exact request_api_error|].
  split; [exact request_raises|].
  split; [exact request_auth_error|].
  split.
  { intros user_id http from_date to_date. unfold ZeppClient._fetch_band_data.
    destruct (ZeppClient.band_data_request user_id http from_date to_date)
      as [data| |e|]; cbn [tbind].
    - split.
      + intros H. right.
        destruct (_fetch_band_data data) as [days|e|] eqn:F; cbn [lift] in H;
          try discriminate H.
        inv H. destruct (fetch_band_data_api_error _ F) as (d & -> & R). eauto.
      + intros [H | (d & H & R)]; [discriminate H|]. inv H.
        now rewrite (fetch_band_data_rejected _ R).
    - split; [discriminate | intros [H | (d & H & _)]; discriminate H].
    - split; [intros H; inv H; now left
             | intros [H | (d & H & _)]; [now inv H | discriminate H]].
    - split; [discriminate | intros [H | (d & H & _)]; discriminate H]. }
  split.
  { intros user_id http date d H R.
    unfold ZeppClient.get_band_data, ZeppClient.get_heart_rate, ZeppClient.get_steps.
    rewrite H. cbn [tbind]. destruct (G d date R) as (-> & -> & ->). repeat split. }
  intros d [H|[H|[H|H]]]; unfold code_rejected; rewrite H; auto; discriminate.
Qed.

Lemma band_data_api_error_witness :
  (get_band_data (PDict [("code", PInt 0); ("message", PStr "bad")]) "2026-02-06" =
   Raise ZeppAPIError
   /\ get_heart_rate (PDict [("code", PInt 0); ("message", PStr "bad")]) "2026-02-06" =
      Raise ZeppAPIError
   /\ get_steps (PDict [("code", PInt 0); ("message", PStr "bad")]) "2026-02-06" =
      Raise ZeppAPIError)
  /\ ZeppClient._request (fun _ _ _ => Answer 503 NotJson) "/v1/data/band_data.json"
       false [] = TRaise ZeppAPIError.
Proof.
  split.
  - apply (proj1 (proj2 band_data_api_error) [("code", PInt 0); ("message", PStr "bad")]).
    cbn. discriminate.
  - apply (proj1 (proj2 (proj2 (proj2 band_data_api_error)))).
    cbn. split; [discriminate | left; discriminate].
Defined.

(** ** Absent data *)

Lemma fetch_band_data_inv (data : pyval) (days : list pyval) :
  _fetch_band_data data = Ok days ->
  exists d items,
    data = PDict d
    /\ py_iter (field_or d "data" (PList [])) = Ok items
    /\ mapM fetch_day items = Ok days.
Proof.
  destruct data; try discriminate. rewrite fetch_band_data_spec. intros H.
  bind_inv H. destruct a; [discriminate H|]. bind_inv H.
  exists d, a. auto.
Qed.

Lemma fetch_day_inv (day r : pyval) :
  fetch_day day = Ok r -> exists d, day = PDict d.
Proof. destruct day; try discriminate. eauto. Qed.

Lemma no_summary_skip (lo : Z -> Z) (date : string) (day : pyval) :
  no_summary day -> inspect_day lo date day = Ok Skip.
Proof. intros (r & -> & H). now apply inspect_day_skip_summary. Qed.

Lemma scan_days_no_summary (lo : Z -> Z) (date : string) (days : list pyval) (b : best) :
  Forall no_summary days -> scan_days lo date days b = Ok b.
Proof.
  induction 1 as [|day days H _ IH]; [reflexivity|].
  cbn [scan_days]. rewrite (no_summary_skip _ _ _ H). exact IH.
Qed.

Lemma get_steps_no_summary (data : pyval) (date : string) (day : pyval) :
  get_band_data data date = Ok day -> no_summary day ->
  get_steps data date = Ok (PDict []).
Proof.
  intros G (r & -> & H). unfold get_steps. rewrite G. cbn [bind py_get].
  destruct H as [H|H]; rewrite H; reflexivity.
Qed.

Lemma fetch_day_no_summary (d : pydict) (r : pyval) :
  (forall raw, dict_lookup "summary" d = Some (PStr raw) ->
               decode_summary raw = Raise ZeppDecodeError) ->
  fetch_day (PDict d) = Ok r -> no_summary r.
Proof.
  rewrite fetch_day_spec. intros N H.
  destruct (fetch_summary _ _) as [r1| |] eqn:S; cbn [bind] in H; try discriminate H.
  destruct (fetch_heart_rate _ r1) as [r2| |] eqn:R; cbn [bind] in H; try discriminate H.
  destruct (fetch_activity_keeps d r2) as [r3 [A K3]]. rewrite A in H. cbn [bind] in H.
  inv H. exists r3. split; [reflexivity|].
  rewrite K3, (fetch_heart_rate_keeps _ _ _ R) by discriminate.
  destruct (fetch_summary_keys _ _ _ S) as [_ [E|(raw & L & [(v & E & _)|[_ E]])]].
  - rewrite E. now left.
  - rewrite (N _ L) in E. discriminate E.
  - now right.
Qed.

(** X7. Absent data is an empty result, never an error.  A response
    without days gives a day of empty fields from [get_band_data], no
    reading from [get_heart_rate] and the empty dict from [get_steps];
    a first day without usable summary gives the empty dict from
    [get_steps]; when none of the fetched days has a usable summary
    [get_sleep] returns the empty dict.  A day has no usable summary
    when its summary blob is missing, is no string, or fails to
    decode. *)
Theorem absent_data_is_empty :
  (forall d,
     dict_lookup "code" d = Some (PInt 1) ->
     dict_lookup "data" d = None \/ dict_lookup "data" d = Some (PList []) ->
     _fetch_band_data (PDict d) = Ok [])
  /\ (forall data date,
        _fetch_band_data data = Ok [] ->
        get_band_data data date =
        Ok (PDict [("date", PStr date); ("summary", PNone);
                   ("heart_rate", PList []); ("heart_rate_raw", PList [])])
        /\ get_heart_rate data date = Ok (PList [])
        /\ get_steps data date = Ok (PDict []))
  /\ (forall data date day days,
        _fetch_band_data data = Ok (day :: days) -> no_summary day ->
        get_steps data date = Ok (PDict []))
  /\ (forall lo data date days,
        wake_date date -> _fetch_band_data data = Ok days -> Forall no_summary days ->
        get_sleep lo data date = Ok (PDict []))
  /\ (forall d r,
        (forall raw, dict_lookup "summary" d = Some (PStr raw) ->
                     decode_summary raw = Raise ZeppDecodeError) ->
        fetch_day (PDict d) = Ok r -> no_summary r).
Proof.
  split.
  { intros d C D. rewrite fetch_band_data_spec. unfold field_or. rewrite C. cbn.
    destruct D as [D|D]; rewrite D; reflexivity. }
  split.
  { intros data date H. unfold get_steps, get_heart_rate, get_band_data.
    rewrite H. repeat split. }
  split.
  { intros data date day days H N. apply (get_steps_no_summary _ _ day); [|exact N].
    unfold get_band_data. now rewrite H. }
  split.
  { intros lo data date days W H N. rewrite (get_sleep_fetch _ _ _ W), H. cbn [bind].
    now rewrite (scan_days_no_summary _ _ _ None N). }
  exact fetch_day_no_summary.
Qed.

Lemma absent_data_is_empty_witness :
  get_sleep utc_minus_6
    (PDict [("code", PInt 1);
            ("data", PList [PDict [("date_time", PStr "2026-02-05");
                                   ("summary", PStr "!!!")];
                            PDict [("date_time", PStr "2026-02-06")]])])
    "2026-02-06" = Ok (PDict []).
Proof.
  apply (proj1 (proj2 (proj2 (proj2 absent_data_is_empty))) utc_minus_6 _ "2026-02-06"
           [PDict [("date", PStr "2026-02-05"); ("summary", PNone)];
            PDict [("date", PStr "2026-02-06")]]).
  - exists (mkdt 739653 0 None), (mkdt 739652 0 None), "2026-02-05".
    repeat split.
  - reflexivity.
  - repeat constructor.
    + eexists. split; [reflexivity|]. now right.
    + eexists. split; [reflexivity|]. now left.
Defined.

(** ** Heart rate, end to end *)

Lemma hr_samples_bounds (bs : list byte) (r : pyval) :
  In r (hr_samples bs) ->
  exists i v, r = hr_reading i v /\ 0 <= i < Z.of_nat (List.length bs) /\ 0 < v < 254.
Proof.
  intros H. unfold hr_samples in H. apply in_map_iff in H as [[i v] [E H]].
  exists i, v. split; [now rewrite <- E|].
  assert (I : In (hr_reading i v) (hr_samples bs))
    by (unfold hr_samples; apply in_map_iff; exists (i, v); auto).
  apply hr_samples_In in I as (Hi & Hn & Hv). split; [|exact Hv].
  split; [exact Hi|].
  assert (L : (Z.to_nat i < List.length (raw_values bs))%nat)
    by (apply nth_error_Some; congruence).
  rewrite raw_values_length in L. lia.
Qed.

Lemma get_band_data_inv (data : pyval) (date : string) (day : pyval) :
  get_band_data data date = Ok day ->
  (_fetch_band_data data = Ok []
   /\ day = PDict [("date", PStr date); ("summary", PNone);
                   ("heart_rate", PList []); ("heart_rate_raw", PList [])])
  \/ exists d item items days,
       data = PDict d
       /\ py_iter (field_or d "data" (PList [])) = Ok (PDict item :: items)
       /\ fetch_day (PDict item) = Ok day
       /\ _fetch_band_data data = Ok (day :: days).
Proof.
  unfold get_band_data. intros H. bind_inv H. destruct a as [|r rs].
  - left. inv H. auto.
  - right. inv H. destruct (fetch_band_data_inv _ _ E) as (d & items & -> & I & M).
    destruct items as [|item items]; [discriminate M|]. cbn [mapM] in M.
    destruct (fetch_day item) as [r0| |] eqn:F; cbn [bind] in M; try discriminate M.
    destruct (mapM fetch_day items) as [rs0| |] eqn:F'; cbn [bind] in M;
      try discriminate M.
    injection M as -> ->.
    destruct (fetch_day_inv _ _ F) as [it ->].
    exists d, it, items, rs. auto.
Qed.

(** X8. Whatever [get_heart_rate] returns is a list of readings: there
    are bytes of which it holds one reading per entry [v] with
    [0 < v < 254], with the entry's index as minute, so every minute is
    below the number of bytes (below 1440 for a day of 1440 bytes).
    For a first day whose heart-rate text is the base64 of some bytes
    and whose summary, when it has one, decodes or fails with
    [ZeppDecodeError], these are the bytes. *)
Theorem get_heart_rate_readings :
  (forall data date v,
     get_heart_rate data date = Ok v -> exists bs, v = PList (hr_samples bs))
  /\ (forall bs r,
        In r (hr_samples bs) ->
        exists i v,
          r = hr_reading i v /\ 0 <= i < Z.of_nat (List.length bs) /\ 0 < v < 254)
  /\ (forall d day days date bs,
        dict_lookup "code" d = Some (PInt 1) ->
        dict_lookup "data" d = Some (PList (PDict day :: days)) ->
        summary_settled day ->
        dict_lookup "data_hr" day = Some (PStr (b64encode bs)) ->
        (exists rs, mapM fetch_day days = Ok rs) ->
        get_heart_rate (PDict d) date = Ok (PList (hr_samples bs))).
Proof.
  split.
  { intros data date v H. unfold get_heart_rate in H. bind_inv H.
    destruct (get_band_data_inv _ _ _ E) as [[_ ->]|(d & item & items & days & _ & _ & F & _)].
    - cbn in H. inv H. now exists [].
    - destruct (fetch_day_shape _ _ F) as (rd & -> & _ & _ & [(_ & H1 & _)|(h & bs & _ & _ & H1 & _)]);
        cbn [py_get] in H; rewrite H1 in H; inv H; [now exists [] | now exists bs]. }
  split; [exact hr_samples_bounds|].
  intros d day days date bs C D A L [rs M].
  assert (exists r, fetch_day (PDict day) = Ok (PDict r)
                    /\ dict_lookup "heart_rate" r = Some (PList (hr_samples bs)))
    as (r & F & H).
  { rewrite fetch_day_spec.
    destruct (fetch_summary (PDict day) [("date", field_or day "date_time" PNone)])
      as [r1| |] eqn:S.
    - cbn [bind]. rewrite fetch_heart_rate_spec, L, b64decode_encode. cbn [bind].
      match goal with
      | |- context [fetch_activity (PDict day) ?x] =>
          destruct (fetch_activity_keeps day x) as [r3 [E K]]
      end.
      rewrite E. cbn [bind]. exists r3. split; [reflexivity|].
      rewrite K by discriminate. rewrite dict_lookup_set_neq by discriminate.
      apply dict_lookup_set_eq.
    - exfalso. revert S. rewrite fetch_summary_spec.
      destruct (dict_lookup "summary" day) as [w|] eqn:Ls; [|discriminate].
      destruct w; try discriminate.
      destruct (A _ Ls) as [[v E]|E]; rewrite E; discriminate.
    - exfalso. revert S. rewrite fetch_summary_spec.
      destruct (dict_lookup "summary" day) as [w|] eqn:Ls; [|discriminate].
      destruct w; try discriminate.
      destruct (A _ Ls) as [[v E]|E]; rewrite E; discriminate. }
  unfold get_heart_rate, get_band_data. rewrite fetch_band_data_spec.
  unfold field_or. rewrite C, D. cbn [py_ne_1].
  change (1 =? 1) with true. cbn [negb bind py_iter mapM]. rewrite F. cbn [bind].
  rewrite M. cbn [bind py_get]. now rewrite H.
Qed.

Lemma get_heart_rate_readings_witness :
  get_heart_rate
    (PDict [("code", PInt 1);
            ("data", PList [PDict [("date_time", PStr "2026-02-06");
                                   ("data_hr", PStr (b64encode [x00; x48; xff; x50]))]])])
    "2026-02-06" = Ok (PList (hr_samples [x00; x48; xff; x50])).
Proof.
  apply (proj2 (proj2 get_heart_rate_readings) _
           [("date_time", PStr "2026-02-06");
            ("data_hr", PStr (b64encode [x00; x48; xff; x50]))] []).
  - reflexivity.
  - reflexivity.
  - intros s H. discriminate H.
  - reflexivity.
  - now exists [].
Defined.

(** ** Steps *)

Lemma truthy_dict (d : pydict) (k : string) (v : pyval) :
  dict_lookup k d = Some v -> truthy (PDict d) = Ok true.
Proof. destruct d; [discriminate|reflexivity]. Qed.

Lemma steps_stage_dict (d : pydict) (start stop : pyval) (z : Z) (name : string) :
  dict_lookup "start" d = Some start ->
  dict_lookup "stop" d = Some stop ->
  dict_lookup "mode" d = Some (PInt z) ->
  mode_name ACTIVITY_MODES (PInt z) = Ok (PStr name) ->
  steps_stage (PDict d) = Ok (steps_stage_of d start stop name).
Proof.
  intros H1 H2 H3 H4. unfold steps_stage. cbn [py_item bind].
  rewrite H1, H2, H3. cbn [bind]. rewrite H4. reflexivity.
Qed.

Lemma steps_stage_missing (d : pydict) :
  dict_lookup "start" d = None \/ dict_lookup "stop" d = None
  \/ dict_lookup "mode" d = None ->
  steps_stage (PDict d) = Raise KeyError.
Proof.
  intros H. unfold steps_stage. cbn [py_item bind].
  destruct (dict_lookup "start" d); cbn [bind]; [|reflexivity].
  destruct (dict_lookup "stop" d); cbn [bind]; [|reflexivity].
  destruct (dict_lookup "mode" d); cbn [bind]; [|reflexivity].
  destruct H as [H|[H|H]]; discriminate H.
Qed.

(** X9. For a first day whose summary holds a step summary,
    [get_steps] returns the record of the date with the totals of the
    step summary ([None] for a total that is missing), the goal of the
    summary, and one stage per raw stage, in order; a stage takes its
    start, stop and mode from the raw stage and its three counters too,
    each 0 when the raw stage lacks it; a raw stage without start, stop
    or mode raises [KeyError], and one whose mode is an integer of more
    than 4300 digits, which cannot be written into the name of an
    unknown mode, raises [ValueError]. *)
Theorem get_steps_record :
  (forall data date day summary stp raw stages,
     get_band_data data date = Ok (PDict day) ->
     dict_lookup "summary" day = Some (PDict summary) ->
     dict_lookup "stp" summary = Some (PDict stp) ->
     py_iter (field_or stp "stage" (PList [])) = Ok raw ->
     mapM steps_stage raw = Ok stages ->
     get_steps data date = Ok (steps_record_of date summary stp stages)
     /\ List.length stages = List.length raw
     /\ Forall2 (fun s stage => steps_stage s = Ok stage) raw stages)
  /\ (forall d start stop z,
        dict_lookup "start" d = Some start ->
        dict_lookup "stop" d = Some stop ->
        dict_lookup "mode" d = Some (PInt z) ->
        (too_long z = false ->
         exists name,
           mode_name ACTIVITY_MODES (PInt z) = Ok (PStr name)
           /\ steps_stage (PDict d) = Ok (steps_stage_of d start stop name))
        /\ (too_long z = true -> steps_stage (PDict d) = Raise ValueError))
  /\ (forall d,
        dict_lookup "start" d = None \/ dict_lookup "stop" d = None
        \/ dict_lookup "mode" d = None ->
        steps_stage (PDict d) = Raise KeyError)
  /\ (forall data date day summary,
        get_band_data data date = Ok (PDict day) ->
        dict_lookup "summary" day = Some (PDict summary) ->
        dict_lookup "stp" summary = None ->
        get_steps data date = Ok (PDict [])).
Proof.
  split.
  { intros data date day summary stp raw stages G S P I M.
    split; [|split; [now apply mapM_length in M | now apply mapM_Forall2]].
    unfold get_steps. rewrite G. cbn [bind py_get]. rewrite S.
    rewrite (truthy_dict _ _ _ P). cbn [bind negb py_in py_item]. rewrite P.
    cbn [bind negb py_get]. unfold field_or in I. rewrite I. cbn [bind].
    rewrite M. reflexivity. }
  split.
  { intros d start stop z H1 H2 H3. split; intros L.
    - eexists. split; [apply mode_name_int; exact L|].
      apply (steps_stage_dict d start stop z); try assumption.
      now apply mode_name_int.
    - unfold steps_stage. cbn [py_item bind]. rewrite H1, H2, H3. cbn [bind].
      unfold mode_name, unknown_name, str_int. now rewrite L. }
  split; [exact steps_stage_missing|].
  intros data date day summary G S P. unfold get_steps. rewrite G.
  cbn [bind py_get]. rewrite S.
  destruct summary; [reflexivity|]. cbn [truthy bind negb py_in]. now rewrite P.
Qed.

Lemma get_steps_record_witness :
  exists name,
    mode_name ACTIVITY_MODES (PInt 7) = Ok (PStr name)
    /\ steps_stage (PDict [("start", PInt 480); ("stop", PInt 495); ("mode", PInt 7);
                           ("step", PInt 1800)]) =
       Ok (steps_stage_of [("start", PInt 480); ("stop", PInt 495); ("mode", PInt 7);
                           ("step", PInt 1800)] (PInt 480) (PInt 495) name).
Proof.
  exact (proj1 (proj1 (proj2 get_steps_record)
           [("start", PInt 480); ("stop", PInt 495); ("mode", PInt 7); ("step", PInt 1800)]
           (PInt 480) (PInt 495) 7 eq_refl eq_refl eq_refl) eq_refl).
Defined.

(** ** Sleep: the session that [get_sleep] returns *)

Lemma truthy_lookup (d : pydict) (k : string) (v : pyval) :
  py_get (PDict d) k PNone = Ok v -> truthy v = Ok true -> dict_lookup k d = Some v.
Proof.
  cbn. destruct (dict_lookup k d); intros H T; inv H; [reflexivity|discriminate T].
Qed.

Lemma inspect_day_taken (lo : Z -> Z) (date : string) (day : pyval) (v : verdict) :
  inspect_day lo date day = Ok v ->
  match v with
  | Accept slp src => usable_session slp /\ ends_on lo slp date
  | Fallback slp src => usable_session slp /\ src = PStr date
  | _ => True
  end.
Proof.
  unfold inspect_day. intros H.
  destruct (py_get day "summary" PNone) as [summary| |]; cbn [bind] in H;
    try discriminate H.
  destruct (truthy summary) as [[|]| |]; cbn [bind negb] in H; try discriminate H;
    [|now inv H].
  destruct (py_in "slp" summary) as [[|]| |]; cbn [bind negb] in H; try discriminate H;
    [|now inv H].
  destruct (py_item summary "slp") as [slp| |]; cbn [bind] in H; try discriminate H.
  destruct (py_get slp "ed" PNone) as [ed| |] eqn:Ge; cbn [bind] in H;
    try discriminate H.
  destruct (truthy ed) as [[|]| |] eqn:Te; cbn [bind negb] in H; try discriminate H;
    [|now inv H].
  destruct (py_get slp "st" PNone) as [st| |] eqn:Gs; cbn [bind] in H;
    try discriminate H.
  destruct (truthy st) as [[|]| |] eqn:Ts; cbn [bind negb] in H; try discriminate H;
    [|now inv H].
  destruct slp as [| | | | | |d]; try discriminate Ge.
  pose proof (truthy_lookup _ _ _ Ge Te) as Le.
  pose proof (truthy_lookup _ _ _ Gs Ts) as Ls.
  assert (U : usable_session (PDict d)) by (exists d, st, ed; auto).
  cbn [py_item] in H. rewrite Le in H. cbn [bind] in H.
  destruct (fromtimestamp lo ed) as [end_dt| |] eqn:F; cbn [bind] in H;
    try discriminate H.
  destruct (strftime_ymd end_dt) as [end_date| |] eqn:Y; cbn [bind] in H;
    try discriminate H.
  destruct (String.eqb_spec end_date date) as [->|N].
  - destruct (py_item day "date") as [src| |]; cbn [bind] in H; try discriminate H.
    inv H. split; [exact U|]. exists d, ed, end_dt. auto.
  - destruct (py_item day "date") as [src| |]; cbn [bind] in H; try discriminate H.
    destruct src as [| | | |s1| |]; cbn [py_eq_str] in H; try (now inv H).
    destruct (String.eqb_spec s1 date) as [E1|N']; inv H; [|exact I].
    split; [exact U|reflexivity].
Qed.

Lemma scan_days_taken (lo : Z -> Z) (date : string) (days : list pyval) :
  forall b slp src,
  scan_days lo date days b = Ok (Some (slp, src)) ->
  b = Some (slp, src)
  \/ (usable_session slp /\ (ends_on lo slp date \/ src = PStr date)).
Proof.
  induction days as [|day days IH]; intros b slp src H; cbn [scan_days] in H.
  - left. now inv H.
  - destruct (inspect_day lo date day) as [v| |] eqn:E; cbn [bind] in H;
      try discriminate H.
    apply inspect_day_taken in E.
    destruct v as [|s0 d0|s0 d0|].
    + now apply IH.
    + inv H. right. tauto.
    + destruct b as [x|].
      * now apply IH.
      * apply IH in H as [H|H]; [|now right]. inv H. right. tauto.
    + now apply IH.
Qed.

Lemma fromtimestamp_naive (lo : Z -> Z) (t : pyval) (dt : datetime) :
  fromtimestamp lo t = Ok dt -> dt_utcoffset dt = None.
Proof.
  unfold fromtimestamp. destruct (as_int t) as [z| |]; cbn [bind]; try discriminate.
  cbv zeta. generalize (EPOCH_ORD + (z + lo z) / 86400), ((z + lo z) mod 86400).
  intros o s. destruct ((MINORD <=? o) && (o <=? MAXORD)); [|discriminate].
  intros H. injection H as <-. reflexivity.
Qed.

Lemma append_empty_r (s : string) : s +++ EmptyString = s.
Proof. induction s as [|c s IH]; cbn; [reflexivity | now rewrite IH]. Qed.

Lemma strftime_ymd_text (dt : datetime) (s : string) :
  strftime_ymd dt = Ok s -> s = fmt_ymd (dt_date dt).
Proof.
  unfold strftime_ymd. destruct (dt_date dt) as [[y m] d].
  destruct (y <? 1000); intros H; inv H. reflexivity.
Qed.

Lemma sleep_record_usable (lo : Z -> Z) (date : string) (slp src r : pyval) :
  usable_session slp ->
  sleep_record lo date slp src = Ok r ->
  exists d st ed start end_ stages naps,
    slp = PDict d
    /\ dict_lookup "st" d = Some st /\ dict_lookup "ed" d = Some ed
    /\ fromtimestamp lo st = Ok start /\ fromtimestamp lo ed = Ok end_
    /\ stage_list slp "stage" = Ok stages
    /\ stage_list slp "odd_stage" = Ok naps
    /\ r = PDict [("date", PStr date); ("fetched_from", src);
                  ("resting_hr", field_or d "rhr" PNone);
                  ("sleep_score", field_or d "ss" PNone);
                  ("deep_minutes", field_or d "dp" PNone);
                  ("light_minutes", field_or d "lt" PNone);
                  ("stages", PList stages); ("nap_stages", PList naps);
                  ("start", PStr (isoformat start)); ("end", PStr (isoformat end_));
                  ("duration_minutes", PInt (duration_minutes start end_))].
Proof.
  intros (d & st & ed & -> & Ls & Ts & Le & Te) H. unfold sleep_record in H.
  destruct (stage_list (PDict d) "stage") as [stages| |] eqn:S1; cbn [bind] in H;
    try discriminate H.
  destruct (stage_list (PDict d) "odd_stage") as [naps| |] eqn:S2; cbn [bind] in H;
    try discriminate H.
  cbn [py_get py_item bind] in H. rewrite Ls, Le in H. rewrite Ts in H.
  cbn [bind] in H. rewrite Te in H. cbn [bind] in H.
  destruct (fromtimestamp lo st) as [start| |] eqn:Fs; cbn [bind] in H;
    try discriminate H.
  destruct (fromtimestamp lo ed) as [end_| |] eqn:Fe; cbn [bind] in H;
    try discriminate H.
  injection H as <-. exists d, st, ed, start, end_, stages, naps.
  repeat split; try assumption; reflexivity.
Qed.

Lemma get_sleep_inv (lo : Z -> Z) (data : pyval) (date : string) (r : pyval) :
  get_sleep lo data date = Ok r ->
  r = PDict []
  \/ exists slp src,
       usable_session slp /\ (ends_on lo slp date \/ src = PStr date)
       /\ sleep_record lo date slp src = Ok r.
Proof.
  unfold get_sleep. intros H.
  destruct (strptime_ymd (PStr date)) as [dt| |]; cbn [bind] in H; try discriminate H.
  destruct (add_minutes dt (-1440)) as [prev| |]; cbn [bind] in H; try discriminate H.
  destruct (strftime_ymd prev) as [prev_date| |]; cbn [bind] in H; try discriminate H.
  destruct (_fetch_band_data data) as [days| |]; cbn [bind] in H; try discriminate H.
  destruct (scan_days lo date days None) as [[[slp src]|]| |] eqn:S; cbn [bind] in H;
    try discriminate H; [|left; now inv H].
  destruct (truthy slp) as [[|]| |]; cbn [bind] in H; try discriminate H;
    [|left; now inv H].
  right. exists slp, src. apply scan_days_taken in S as [S|[U E]]; [discriminate S|].
  auto.
Qed.

(** X10. A record of [get_sleep] is the empty dict or holds a whole
    session: the keys [date], [fetched_from], [resting_hr],
    [sleep_score], [deep_minutes], [light_minutes], [stages],
    [nap_stages], [start], [end] and [duration_minutes], in this order
    and no other; [start] and [end] are the local start and end of the
    session in ISO form and [duration_minutes] the whole minutes between
    them.  The scan takes only sessions with a start and an end, so no
    record lacks the three. *)
Theorem get_sleep_session_complete (lo : Z -> Z) (data : pyval) (date : string)
    (r : pyval) :
  get_sleep lo data date = Ok r ->
  r = PDict []
  \/ exists rd d st ed start end_,
       r = PDict rd
       /\ map fst rd = session_keys
       /\ dict_lookup "date" rd = Some (PStr date)
       /\ dict_lookup "st" d = Some st /\ fromtimestamp lo st = Ok start
       /\ dict_lookup "ed" d = Some ed /\ fromtimestamp lo ed = Ok end_
       /\ dict_lookup "start" rd = Some (PStr (isoformat start))
       /\ dict_lookup "end" rd = Some (PStr (isoformat end_))
       /\ dict_lookup "duration_minutes" rd = Some (PInt (duration_minutes start end_))
       /\ dict_lookup "resting_hr" rd = Some (field_or d "rhr" PNone)
       /\ dict_lookup "sleep_score" rd = Some (field_or d "ss" PNone).
Proof.
  intros H. apply get_sleep_inv in H as [H|(slp & src & U & _ & H)]; [now left|].
  right. apply (sleep_record_usable _ _ _ _ _ U) in H
    as (d & st & ed & start & end_ & stages & naps & -> & Ls & Le & Fs & Fe & _ & _ & ->).
  eexists _, d, st, ed, start, end_. split; [reflexivity|].
  repeat split; try reflexivity; assumption.
Qed.

Lemma get_sleep_session_complete_witness :
  PDict [("date", PStr "2026-02-06"); ("fetched_from", PStr "2026-02-05");
         ("resting_hr", PInt 57); ("sleep_score", PNone);
         ("deep_minutes", PNone); ("light_minutes", PNone);
         ("stages", PList []); ("nap_stages", PList []);
         ("start", PStr "2026-02-05T23:30:00");
         ("end", PStr "2026-02-06T07:15:00");
         ("duration_minutes", PInt 465)] = PDict []
  \/ exists rd d st ed start end_,
       PDict [("date", PStr "2026-02-06"); ("fetched_from", PStr "2026-02-05");
              ("resting_hr", PInt 57); ("sleep_score", PNone);
              ("deep_minutes", PNone); ("light_minutes", PNone);
              ("stages", PList []); ("nap_stages", PList []);
              ("start", PStr "2026-02-05T23:30:00");
              ("end", PStr "2026-02-06T07:15:00");
              ("duration_minutes", PInt 465)] = PDict rd
       /\ map fst rd = session_keys
       /\ dict_lookup "date" rd = Some (PStr "2026-02-06")
       /\ dict_lookup "st" d = Some st /\ fromtimestamp utc_minus_6 st = Ok start
       /\ dict_lookup "ed" d = Some ed /\ fromtimestamp utc_minus_6 ed = Ok end_
       /\ dict_lookup "start" rd = Some (PStr (isoformat start))
       /\ dict_lookup "end" rd = Some (PStr (isoformat end_))
       /\ dict_lookup "duration_minutes" rd = Some (PInt (duration_minutes start end_))
       /\ dict_lookup "resting_hr" rd = Some (field_or d "rhr" PNone)
       /\ dict_lookup "sleep_score" rd = Some (field_or d "ss" PNone).
Proof.
  apply (get_sleep_session_complete utc_minus_6 night_response "2026-02-06").
  vm_compute. reflexivity.
Defined.

(** X11. The session that [get_sleep] returns for a wake date either
    ends on that date (its [end], in local time, starts with the date)
    or was fetched from the day of that date ([fetched_from] is the
    date): no other session is ever returned. *)
Theorem get_sleep_session_of_wake_date (lo : Z -> Z) (data : pyval) (date : string)
    (rd : pydict) :
  get_sleep lo data date = Ok (PDict rd) -> rd <> [] ->
  (exists hms, dict_lookup "end" rd = Some (PStr (date +++ "T" +++ hms)))
  \/ dict_lookup "fetched_from" rd = Some (PStr date).
Proof.
  intros H N. apply get_sleep_inv in H as [H|(slp & src & U & E & H)];
    [inv H; now destruct N|].
  apply (sleep_record_usable _ _ _ _ _ U) in H
    as (d & st & ed & start & end_ & stages & naps & -> & Ls & Le & Fs & Fe & _ & _ & H).
  inv H. destruct E as [(d' & ed' & end_dt & D & Le' & Fe' & Y)| ->]; [|now right].
  left. inv D. rewrite Le in Le'. inv Le'. rewrite Fe in Fe'. inv Fe'.
  exists (fmt_hms (dt_sec end_dt)). cbn [dict_lookup String.eqb Ascii.eqb Bool.eqb].
  unfold isoformat. rewrite (fromtimestamp_naive _ _ _ Fe), <- (strftime_ymd_text _ _ Y).
  now rewrite append_empty_r.
Qed.

Lemma get_sleep_session_of_wake_date_witness :
  (exists hms,
     dict_lookup "end"
       [("date", PStr "2026-02-06"); ("fetched_from", PStr "2026-02-05");
        ("resting_hr", PInt 57); ("sleep_score", PNone);
        ("deep_minutes", PNone); ("light_minutes", PNone);
        ("stages", PList []); ("nap_stages", PList []);
        ("start", PStr "2026-02-05T23:30:00");
        ("end", PStr "2026-02-06T07:15:00");
        ("duration_minutes", PInt 465)] =
     Some (PStr ("2026-02-06" +++ "T" +++ hms)))
  \/ dict_lookup "fetched_from"
       [("date", PStr "2026-02-06"); ("fetched_from", PStr "2026-02-05");
        ("resting_hr", PInt 57); ("sleep_score", PNone);
        ("deep_minutes", PNone); ("light_minutes", PNone);
        ("stages", PList []); ("nap_stages", PList []);
        ("start", PStr "2026-02-05T23:30:00");
        ("end", PStr "2026-02-06T07:15:00");
        ("duration_minutes", PInt 465)] = Some (PStr "2026-02-06").
Proof.
  apply (get_sleep_session_of_wake_date utc_minus_6 night_response "2026-02-06").
  - vm_compute. reflexivity.
  - discriminate.
Defined.

(** ** Interchange export: counts and sections *)

Lemma grows_refl (P : xml_record -> Prop) (o : out) : grows P o o.
Proof. exists []. rewrite app_nil_r. cbn. split; [reflexivity|]. split; [lia|constructor]. Qed.

Lemma grows_trans (P : xml_record -> Prop) (o1 o2 o3 : out) :
  grows P o1 o2 -> grows P o2 o3 -> grows P o1 o3.
Proof.
  intros (n1 & A1 & B1 & C1) (n2 & A2 & B2 & C2). exists (n1 ++ n2).
  rewrite A2, A1, B2, B1, length_app, app_assoc. split; [reflexivity|].
  split; [lia|]. apply Forall_app. auto.
Qed.

Lemma grows_snoc (P : xml_record -> Prop) (o : out) (rec : xml_record) :
  P rec -> grows P o (fst o ++ [rec], snd o + 1).
Proof. intros H. exists [rec]. cbn. auto. Qed.

Section CountProofs.

Variable source_name : string.
Variable tz_offset_hours : Z.

Lemma hr_record_kind (date_str : string) (r : pyval) (rec : xml_record) :
  hr_record source_name tz_offset_hours date_str r = Ok rec ->
  heart_rate_kind source_name rec.
Proof.
  unfold hr_record. intros H.
  destruct (py_item r "minute") as [minute| |]; cbn [bind] in H; try discriminate H.
  destruct (_minute_to_datetime _ minute _) as [dt| |]; cbn [bind] in H;
    try discriminate H.
  destruct (py_item r "bpm") as [bpm| |]; cbn [bind] in H; try discriminate H.
  destruct (py_str bpm) as [value| |]; cbn [bind] in H; try discriminate H.
  destruct (_apple_date dt) as [date| |]; cbn [bind] in H; try discriminate H.
  injection H as <-. repeat split.
Qed.

Lemma steps_record_kind (date_str : string) (steps : pyval) (rec : xml_record) :
  steps_record source_name tz_offset_hours date_str steps = Ok (Some rec) ->
  step_kind source_name rec.
Proof.
  unfold steps_record. intros H.
  destruct (truthy steps) as [nonempty| |]; cbn [bind] in H; try discriminate H.
  match type of H with
  | bind ?c _ = _ => destruct c as [skip| |]; cbn [bind] in H; try discriminate H
  end.
  destruct skip; [discriminate H|].
  destruct (_minute_to_datetime _ (PInt 0) _) as [d0| |]; cbn [bind] in H;
    try discriminate H.
  destruct (_minute_to_datetime _ (PInt 1439) _) as [d1| |]; cbn [bind] in H;
    try discriminate H.
  destruct (py_item steps "total_steps") as [total| |]; cbn [bind] in H;
    try discriminate H.
  destruct (py_str total) as [value| |]; cbn [bind] in H; try discriminate H.
  destruct (_apple_date d0) as [s0| |]; cbn [bind] in H; try discriminate H.
  destruct (_apple_date d1) as [s1| |]; cbn [bind] in H; try discriminate H.
  injection H as <-. repeat split.
Qed.

Lemma stage_record_kind (source_date stage : pyval) (rec : xml_record) :
  stage_record source_name tz_offset_hours source_date stage = Ok (Some rec) ->
  sleep_kind source_name rec.
Proof.
  unfold stage_record. intros H.
  destruct (py_item stage "stage") as [name| |]; cbn [bind] in H; try discriminate H.
  destruct (apple_sleep_value name) as [[v|]| |]; cbn [bind] in H; try discriminate H.
  destruct (String.eqb v EmptyString); [discriminate H|].
  destruct (py_item stage "start_minute") as [sm| |]; cbn [bind] in H;
    try discriminate H.
  destruct (_minute_to_datetime _ sm _) as [d0| |]; cbn [bind] in H; try discriminate H.
  destruct (py_item stage "end_minute") as [em| |]; cbn [bind] in H; try discriminate H.
  destruct (_minute_to_datetime _ em _) as [d1| |]; cbn [bind] in H; try discriminate H.
  destruct (_apple_date d0) as [s0| |]; cbn [bind] in H; try discriminate H.
  destruct (_apple_date d1) as [s1| |]; cbn [bind] in H; try discriminate H.
  injection H as <-. repeat split.
Qed.

Lemma hr_records_grow (date_str : string) (readings : list pyval) :
  forall o o',
  hr_records source_name tz_offset_hours date_str readings o = Ok o' ->
  grows (heart_rate_kind source_name) o o'.
Proof.
  induction readings as [|r readings IH]; intros o o' H; cbn [hr_records] in H.
  - inv H. apply grows_refl.
  - destruct (hr_record _ _ _ r) as [rec| |] eqn:E; cbn [bind] in H; try discriminate H.
    eapply grows_trans; [|apply IH; exact H].
    apply grows_snoc. eapply hr_record_kind; eassumption.
Qed.

Lemma hr_days_grow (days : pydict) :
  forall o o',
  hr_days source_name tz_offset_hours days o = Ok o' ->
  grows (heart_rate_kind source_name) o o'.
Proof.
  induction days as [|[date_str readings] days IH]; intros o o' H; cbn [hr_days] in H.
  - inv H. apply grows_refl.
  - destruct (py_iter readings) as [l| |]; cbn [bind] in H; try discriminate H.
    destruct (hr_records _ _ _ l o) as [o1| |] eqn:E; cbn [bind] in H;
      try discriminate H.
    eapply grows_trans; [eapply hr_records_grow; eassumption | now apply IH].
Qed.

Lemma steps_days_grow (days : pydict) :
  forall o o',
  steps_days source_name tz_offset_hours days o = Ok o' ->
  grows (step_kind source_name) o o'.
Proof.
  induction days as [|[date_str steps] days IH]; intros o o' H; cbn [steps_days] in H.
  - inv H. apply grows_refl.
  - destruct (steps_record _ _ _ steps) as [[rec|]| |] eqn:E; cbn [bind] in H;
      try discriminate H.
    + eapply grows_trans; [|apply IH; exact H].
      apply grows_snoc. eapply steps_record_kind; eassumption.
    + now apply IH.
Qed.

Lemma stage_records_grow (source_date : pyval) (stages : list pyval) :
  forall o o',
  stage_records source_name tz_offset_hours source_date stages o = Ok o' ->
  grows (sleep_kind source_name) o o'.
Proof.
  induction stages as [|stage stages IH]; intros o o' H; cbn [stage_records] in H.
  - inv H. apply grows_refl.
  - destruct (stage_record _ _ _ stage) as [[rec|]| |] eqn:E; cbn [bind] in H;
      try discriminate H.
    + eapply grows_trans; [|apply IH; exact H].
      apply grows_snoc. eapply stage_record_kind; eassumption.
    + now apply IH.
Qed.

Lemma inbed_record_grow (tz : Z) (sleep : pyval) (o o' : out) :
  inbed_record source_name tz sleep o = Ok o' ->
  grows (sleep_kind source_name) o o'.
Proof.
  intros H. unfold inbed_record in H.
  destruct (py_get sleep "start" PNone) as [start| |]; cbn [bind] in H;
    try discriminate H.
  destruct (truthy start) as [has_start| |]; cbn [bind] in H; try discriminate H.
  match type of H with
  | bind ?c _ = _ => destruct c as [has_both| |]; cbn [bind] in H; try discriminate H
  end.
  destruct has_both; [|inv H; apply grows_refl].
  destruct (py_item sleep "start") as [s| |]; cbn [bind] in H; try discriminate H.
  destruct (fromisoformat s) as [sdt| |]; cbn [bind] in H; try discriminate H.
  destruct (py_item sleep "end") as [e| |]; cbn [bind] in H; try discriminate H.
  destruct (fromisoformat e) as [edt| |]; cbn [bind] in H; try discriminate H.
  destruct (_apple_date (replace_tzinfo sdt _)) as [s1| |]; cbn [bind] in H;
    try discriminate H.
  destruct (_apple_date (replace_tzinfo edt _)) as [e1| |]; cbn [bind] in H;
    try discriminate H.
  injection H as <-. apply grows_snoc. repeat split.
Qed.

Lemma sleep_session_grow (tz : Z) (date_str : string) (sleep : pyval) (o o' : out) :
  sleep_session source_name tz_offset_hours tz date_str sleep o = Ok o' ->
  grows (sleep_kind source_name) o o'.
Proof.
  intros H. unfold sleep_session in H.
  destruct (truthy sleep) as [nonempty| |]; cbn [bind] in H; try discriminate H.
  match type of H with
  | bind ?c _ = _ => destruct c as [skip| |]; cbn [bind] in H; try discriminate H
  end.
  destruct skip; [inv H; apply grows_refl|].
  destruct (py_get sleep "fetched_from" _) as [src| |]; cbn [bind] in H;
    try discriminate H.
  destruct (py_item sleep "stages") as [st| |]; cbn [bind] in H; try discriminate H.
  destruct (py_iter st) as [stages| |]; cbn [bind] in H; try discriminate H.
  destruct (stage_records _ _ src stages o) as [o1| |] eqn:E; cbn [bind] in H;
    try discriminate H.
  eapply grows_trans; [eapply stage_records_grow | eapply inbed_record_grow]; eassumption.
Qed.

Lemma sleep_days_grow (tz : Z) (days : pydict) :
  forall o o',
  sleep_days source_name tz_offset_hours tz days o = Ok o' ->
  grows (sleep_kind source_name) o o'.
Proof.
  induction days as [|[date_str sleep] days IH]; intros o o' H; cbn [sleep_days] in H.
  - inv H. apply grows_refl.
  - destruct (sleep_session _ _ _ date_str sleep o) as [o1| |] eqn:E; cbn [bind] in H;
      try discriminate H.
    eapply grows_trans; [eapply sleep_session_grow; eassumption | now apply IH].
Qed.

Lemma section_grow (P : xml_record -> Prop) (loop : pydict -> out -> res out)
    (data : pyval) (rs : list xml_record) (o' : out) :
  (forall days o o', loop days o = Ok o' -> grows P o o') ->
  section loop data rs = Ok o' ->
  grows P (rs, 0) o'.
Proof.
  intros L H. unfold section in H.
  destruct (truthy data) as [present| |]; cbn [bind] in H; try discriminate H.
  destruct present; [|inv H; apply grows_refl].
  destruct (py_items data) as [items| |]; cbn [bind] in H; try discriminate H.
  eapply L; exact H.
Qed.

Lemma section_absent (loop : pydict -> out -> res out) (data : pyval)
    (rs : list xml_record) :
  truthy data = Ok false -> section loop data rs = Ok (rs, 0).
Proof. intros H. unfold section. now rewrite H. Qed.

(** X12. The three numbers that [export_apple_health] returns count
    the records it wrote: the records are the heart-rate records, then
    the step records, then the sleep records, in this order, each group
    with its own type, unit and the source name, and the counts are the
    lengths of the three groups; a section whose argument is [None] or
    empty writes nothing and counts 0. *)
Theorem export_counts_match_records :
  (forall now hr steps sleep e,
     export_apple_health source_name tz_offset_hours now hr steps sleep = Ok e ->
     exists hr_recs steps_recs sleep_recs,
       records e = hr_recs ++ steps_recs ++ sleep_recs
       /\ hr_count e = Z.of_nat (List.length hr_recs)
       /\ steps_count e = Z.of_nat (List.length steps_recs)
       /\ sleep_count e = Z.of_nat (List.length sleep_recs)
       /\ Forall (heart_rate_kind source_name) hr_recs
       /\ Forall (step_kind source_name) steps_recs
       /\ Forall (sleep_kind source_name) sleep_recs
       /\ Z.of_nat (List.length (records e)) = hr_count e + steps_count e + sleep_count e)
  /\ (forall loop data rs,
        truthy data = Ok false -> section loop data rs = Ok (rs, 0))
  /\ (forall now e,
        export_apple_health source_name tz_offset_hours now PNone PNone PNone = Ok e ->
        records e = [] /\ hr_count e = 0 /\ steps_count e = 0 /\ sleep_count e = 0).
Proof.
  split.
  { intros now hr steps sleep e H. unfold export_apple_health in H.
    destruct (timezone_hours tz_offset_hours) as [tz| |]; cbn [bind] in H;
      try discriminate H.
    match type of H with
    | bind ?c _ = _ => destruct c as [now_dt| |]; cbn [bind] in H; try discriminate H
    end.
    destruct (_apple_date now_dt) as [ed| |]; cbn [bind] in H; try discriminate H.
    destruct (section _ hr []) as [[rs1 c1]| |] eqn:S1; cbn [bind] in H;
      try discriminate H.
    destruct (section _ steps rs1) as [[rs2 c2]| |] eqn:S2; cbn [bind] in H;
      try discriminate H.
    destruct (section _ sleep rs2) as [[rs3 c3]| |] eqn:S3; cbn [bind] in H;
      try discriminate H.
    injection H as <-. cbn [records hr_count steps_count sleep_count].
    apply (section_grow _ _ _ _ _ hr_days_grow) in S1 as (n1 & A1 & B1 & C1).
    apply (section_grow _ _ _ _ _ steps_days_grow) in S2 as (n2 & A2 & B2 & C2).
    apply (section_grow _ _ _ _ _ (sleep_days_grow tz)) in S3 as (n3 & A3 & B3 & C3).
    cbn [fst snd] in *. subst rs1 rs2 rs3 c1 c2 c3.
    exists n1, n2, n3. rewrite <- app_assoc. cbn [app].
    repeat split; try assumption; try reflexivity.
    rewrite !length_app. lia. }
  split; [exact section_absent|].
  intros now e H. unfold export_apple_health in H.
  destruct (timezone_hours tz_offset_hours) as [tz| |]; cbn [bind] in H;
    try discriminate H.
  match type of H with
  | bind ?c _ = _ => destruct c as [now_dt| |]; cbn [bind] in H; try discriminate H
  end.
  destruct (_apple_date now_dt) as [ed| |]; cbn [bind] in H; try discriminate H.
  cbn in H. injection H as <-. repeat split.
Qed.

End CountProofs.

Lemma export_counts_match_records_witness :
  exists hr_recs steps_recs sleep_recs,
    [mkrec "HKQuantityTypeIdentifierHeartRate" "zepp-export" (Some "count/min") "68"
       "2026-02-06 06:40:00 -0600" "2026-02-06 06:40:00 -0600";
     mkrec "HKQuantityTypeIdentifierStepCount" "zepp-export" (Some "count") "5000"
       "2026-02-06 00:00:00 -0600" "2026-02-06 23:59:00 -0600"]
    = hr_recs ++ steps_recs ++ sleep_recs
    /\ 1 = Z.of_nat (List.length hr_recs)
    /\ 1 = Z.of_nat (List.length steps_recs)
    /\ 0 = Z.of_nat (List.length sleep_recs)
    /\ Forall (heart_rate_kind "zepp-export") hr_recs
    /\ Forall (step_kind "zepp-export") steps_recs
    /\ Forall (sleep_kind "zepp-export") sleep_recs
    /\ Z.of_nat 2 = 1 + 1 + 0.
Proof.
  exact (proj1 (export_counts_match_records "zepp-export" (-6)) 1770400000
           (PDict [("2026-02-06",
                    PList [PDict [("minute", PInt 400); ("time", PStr "06:40");
                                  ("bpm", PInt 68)]])])
           (PDict [("2026-02-06", PDict [("total_steps", PInt 5000)])])
           PNone
           (mkexport "2026-02-06 11:46:40 -0600"
              [mkrec "HKQuantityTypeIdentifierHeartRate" "zepp-export" (Some "count/min")
                 "68" "2026-02-06 06:40:00 -0600" "2026-02-06 06:40:00 -0600";
               mkrec "HKQuantityTypeIdentifierStepCount" "zepp-export" (Some "count")
                 "5000" "2026-02-06 00:00:00 -0600" "2026-02-06 23:59:00 -0600"]
              1 1 0)
           eq_refl).
Defined.

(** ** Interchange export: the order of the days *)

Lemma string_compare_trans (s1 : string) :
  forall s2 s3,
  String.compare s1 s2 <> Gt -> String.compare s2 s3 <> Gt ->
  String.compare s1 s3 <> Gt.
Proof.
  induction s1 as [|a s1 IH]; intros [|b s2] [|c s3]; cbn; try congruence.
  unfold Ascii.compare.
  destruct (N.compare_spec (N_of_ascii a) (N_of_ascii b)) as [E1|E1|E1];
    destruct (N.compare_spec (N_of_ascii b) (N_of_ascii c)) as [E2|E2|E2];
    destruct (N.compare_spec (N_of_ascii a) (N_of_ascii c)) as [E3|E3|E3];
    try congruence; try lia.
  apply IH.
Qed.

Lemma leb_trans (s1 s2 s3 : string) :
  String.leb s1 s2 = true -> String.leb s2 s3 = true -> String.leb s1 s3 = true.
Proof.
  unfold String.leb. intros H1 H2.
  pose proof (string_compare_trans s1 s2 s3) as T.
  destruct (String.compare s1 s2); try discriminate H1;
    destruct (String.compare s2 s3); try discriminate H2;
    destruct (String.compare s1 s3); try reflexivity;
    exfalso; apply T; congruence.
Qed.

Lemma insert_item_perm (kv : string * pyval) (l : pydict) :
  Permutation (insert_item kv l) (kv :: l).
Proof.
  induction l as [|x l IH]; cbn [insert_item]; [reflexivity|].
  destruct (String.leb (fst kv) (fst x)); [reflexivity|].
  rewrite IH. apply perm_swap.
Qed.

Lemma sorted_items_perm (d : pydict) : Permutation (sorted_items d) d.
Proof.
  induction d as [|kv d IH]; cbn; [reflexivity|].
  unfold sorted_items in IH. rewrite insert_item_perm. now constructor.
Qed.

Lemma insert_item_sorted (kv : string * pyval) (l : pydict) :
  StronglySorted key_le l -> StronglySorted key_le (insert_item kv l).
Proof.
  induction 1 as [|x l S IH F]; cbn [insert_item]; [repeat constructor|].
  destruct (String.leb (fst kv) (fst x)) eqn:E.
  - constructor; [now constructor|]. constructor; [exact E|].
    eapply Forall_impl; [|exact F]. intros y Hy. unfold key_le in *.
    eapply leb_trans; eassumption.
  - constructor; [exact IH|].
    apply (Permutation_Forall (Permutation_sym (insert_item_perm kv l))).
    constructor; [|exact F]. unfold key_le.
    destruct (String.leb_total (fst kv) (fst x)) as [T|T]; [congruence|exact T].
Qed.

Lemma sorted_items_sorted (d : pydict) : StronglySorted key_le (sorted_items d).
Proof.
  induction d as [|kv d IH]; cbn; [constructor|]. now apply insert_item_sorted.
Qed.

Lemma keyed_once_eq (l : pydict) (a b : string * pyval) :
  keyed_once l -> In a l -> In b l -> fst a = fst b -> a = b.
Proof.
  unfold keyed_once. induction l as [|x l IH]; cbn; intros N Ha Hb E; [tauto|].
  inversion N as [|? ? Nx Nl]; subst.
  destruct Ha as [->|Ha], Hb as [->|Hb]; auto.
  - destruct Nx. rewrite E. now apply in_map.
  - destruct Nx. rewrite <- E. now apply in_map.
Qed.

Lemma sorted_perm_eq (l1 : pydict) :
  forall l2,
  StronglySorted key_le l1 -> StronglySorted key_le l2 ->
  keyed_once l1 -> Permutation l1 l2 -> l1 = l2.
Proof.
  induction l1 as [|a l1 IH]; intros l2 S1 S2 N P.
  - apply Permutation_nil in P. now subst.
  - destruct l2 as [|b l2]; [apply Permutation_sym, Permutation_nil in P; discriminate P|].
    inversion S1 as [|? ? S1' F1]; subst. inversion S2 as [|? ? S2' F2]; subst.
    assert (E : a = b).
    { apply (keyed_once_eq (a :: l1)); [exact N|now left| |].
      - apply (Permutation_in _ (Permutation_sym P)). now left.
      - assert (Hab : String.leb (fst a) (fst b) = true).
        { assert (I : In b (a :: l1))
            by (apply (Permutation_in _ (Permutation_sym P)); now left).
          destruct I as [->|I].
          - destruct (String.leb_total (fst b) (fst b)); assumption.
          - rewrite Forall_forall in F1. now apply F1. }
        assert (Hba : String.leb (fst b) (fst a) = true).
        { assert (I : In a (b :: l2)) by (apply (Permutation_in _ P); now left).
          destruct I as [->|I].
          - destruct (String.leb_total (fst a) (fst a)); assumption.
          - rewrite Forall_forall in F2. now apply F2. }
        now apply String.leb_antisym. }
    subst b. f_equal. apply IH; try assumption.
    + unfold keyed_once in *. cbn in N. now inversion N.
    + now apply Permutation_cons_inv in P.
Qed.

Lemma sorted_items_unique (d d' : pydict) :
  keyed_once d -> Permutation d d' -> sorted_items d = sorted_items d'.
Proof.
  intros N P. apply sorted_perm_eq; try apply sorted_items_sorted.
  - unfold keyed_once in *.
    apply (Permutation_NoDup (Permutation_map fst (Permutation_sym (sorted_items_perm d)))).
    exact N.
  - rewrite sorted_items_perm, P. symmetry. apply sorted_items_perm.
Qed.

Lemma section_order (loop : pydict -> out -> res out) (d d' : pydict)
    (rs : list xml_record) :
  keyed_once d -> Permutation d d' ->
  section loop (PDict d) rs = section loop (PDict d') rs.
Proof.
  intros N P. unfold section. cbn [truthy py_items bind].
  rewrite (sorted_items_unique _ _ N P).
  destruct d, d'; try reflexivity.
  - apply Permutation_nil in P. discriminate P.
  - apply Permutation_sym, Permutation_nil in P. discriminate P.
Qed.

(** X13. The export does not depend on the order in which the dicts it
    is given hold their days: each section goes through its days sorted
    by date key, so two calls whose dicts hold the same entries in
    different orders write the same records and return the same
    counts. *)
Theorem export_order_independent (source_name : string) (tz_offset_hours now : Z)
    (hr hr' steps steps' sleep sleep' : pydict) :
  keyed_once hr -> keyed_once steps -> keyed_once sleep ->
  Permutation hr hr' -> Permutation steps steps' -> Permutation sleep sleep' ->
  export_apple_health source_name tz_offset_hours now (PDict hr) (PDict steps) (PDict sleep)
  = export_apple_health source_name tz_offset_hours now
      (PDict hr') (PDict steps') (PDict sleep')
  /\ StronglySorted key_le (sorted_items hr)
  /\ Permutation (sorted_items hr) hr.
Proof.
  intros N1 N2 N3 P1 P2 P3.
  split; [|split; [apply sorted_items_sorted | apply sorted_items_perm]].
  unfold export_apple_health.
  destruct (timezone_hours tz_offset_hours) as [tz| |]; cbn [bind]; try reflexivity.
  match goal with
  | |- bind ?c _ = _ => destruct c as [now_dt| |]; cbn [bind]; try reflexivity
  end.
  destruct (_apple_date now_dt) as [ed| |]; cbn [bind]; try reflexivity.
  rewrite (section_order _ hr hr' _ N1 P1).
  destruct (section _ (PDict hr') []) as [[rs1 c1]| |]; cbn [bind]; try reflexivity.
  rewrite (section_order _ steps steps' _ N2 P2).
  destruct (section _ (PDict steps') rs1) as [[rs2 c2]| |]; cbn [bind]; try reflexivity.
  now rewrite (section_order _ sleep sleep' _ N3 P3).
Qed.

Lemma export_order_independent_witness :
  export_apple_health "zepp-export" (-6) 1770400000
    (PDict [("2026-02-07", PList []); ("2026-02-06", PList [])])
    (PDict [("2026-02-07", PDict [("total_steps", PInt 7)]);
            ("2026-02-06", PDict [("total_steps", PInt 6)])])
    (PDict [])
  = export_apple_health "zepp-export" (-6) 1770400000
      (PDict [("2026-02-06", PList []); ("2026-02-07", PList [])])
      (PDict [("2026-02-06", PDict [("total_steps", PInt 6)]);
              ("2026-02-07", PDict [("total_steps", PInt 7)])])
      (PDict [])
  /\ StronglySorted key_le
       (sorted_items [("2026-02-07", PList []); ("2026-02-06", PList [])])
  /\ Permutation (sorted_items [("2026-02-07", PList []); ("2026-02-06", PList [])])
       [("2026-02-07", PList []); ("2026-02-06", PList [])].
Proof.
  apply export_order_independent.
  - repeat constructor; cbn; intuition discriminate.
  - repeat constructor; cbn; intuition discriminate.
  - constructor.
  - apply perm_swap.
  - apply perm_swap.
  - constructor.
Defined.

(** ** The calendar: ordinals and dates *)

Lemma forall_from_spec count f : forall start,
  forall_from count start f = true ->
  forall i, start <= i < start + Z.of_nat count -> f i = true.
Proof.
  induction count as [|count IH]; intros start H i Hi; [lia|].
  cbn [forall_from] in H. destruct (f start) eqn:E; [|discriminate].
  destruct (Z.eq_dec i start) as [->|N]; [exact E|].
  apply (IH _ H). lia.
Qed.

(** The numbers of a day (a minute, a rate) are far from the limit of
    [str]. *)
Lemma too_long_small (z : Z) : 0 <= z < 1440 -> too_long z = false.
Proof.
  intros H.
  assert (C : forall_from 1440 0 (fun i => negb (too_long i)) = true)
    by (vm_compute; reflexivity).
  apply negb_true_iff. apply (forall_from_spec _ _ _ C). cbn. lia.
Qed.

Lemma ord2ymd_unfold (n : Z) :
  _ord2ymd n =
  let n0 := n - 1 in
  let n400 := n0 / 146097 in
  let r400 := n0 mod 146097 in
  let n100 := r400 / 36524 in
  let r100 := r400 mod 36524 in
  let n4 := r100 / 1461 in
  let r4 := r100 mod 1461 in
  let n1 := r4 / 365 in
  let r1 := r4 mod 365 in
  let year := n400 * 400 + 1 + n100 * 100 + n4 * 4 + n1 in
  if (n1 =? 4) || (n100 =? 4) then (year - 1, 12, 31)
  else
    let '(m, d) := month_day ((n1 =? 3) && (negb (n4 =? 24) || (n100 =? 3))) r1 in
    (year, m, d).
Proof.
  unfold _ord2ymd, month_day, _DI400Y, _DI100Y, _DI4Y. cbv zeta.
  destruct (_ || _); [reflexivity|].
  destruct (_ <? _); reflexivity.
Qed.

Lemma month_day_check (leap : bool) (r : Z) :
  0 <= r < 365 -> month_day_ok leap r = true.
Proof.
  intros H.
  assert (C : forall_from 365 0 (month_day_ok leap) = true)
    by (destruct leap; vm_compute; reflexivity).
  apply (forall_from_spec _ _ _ C). lia.
Qed.

Lemma month_day_spec (leap : bool) (r : Z) :
  0 <= r < 365 ->
  let '(m, d) := month_day leap r in
  1 <= m <= 12 /\ 1 <= d <= days_in leap m /\ days_before leap m + d = r + 1.
Proof.
  intros H. pose proof (month_day_check leap r H) as C. unfold month_day_ok in C.
  destruct (month_day leap r) as [m d].
  repeat (apply andb_prop in C as [C ?]).
  repeat match goal with
         | H : (_ <=? _) = true |- _ => apply Z.leb_le in H
         | H : (_ =? _) = true |- _ => apply Z.eqb_eq in H
         end.
  lia.
Qed.

Lemma days_in_month_eq (y m : Z) : _days_in_month y m = days_in (_is_leap y) m.
Proof.
  unfold _days_in_month, days_in.
  destruct (Z.eqb_spec m 2) as [->|N]; cbn [andb]; [|lia].
  destruct (_is_leap y); reflexivity.
Qed.

Lemma days_before_month_eq (y m : Z) :
  _days_before_month y m = days_before (_is_leap y) m.
Proof. reflexivity. Qed.

Lemma is_leap_spec (y : Z) :
  _is_leap y = true <-> (y mod 4 = 0 /\ (y mod 100 <> 0 \/ y mod 400 = 0)).
Proof.
  unfold _is_leap. rewrite andb_true_iff, orb_true_iff, negb_true_iff.
  rewrite !Z.eqb_eq, Z.eqb_neq. tauto.
Qed.

Lemma ymd2ord_ord2ymd (n : Z) :
  1 <= n ->
  let '(y, m, d) := _ord2ymd n in
  1 <= y /\ 1 <= m <= 12 /\ 1 <= d <= _days_in_month y m /\ _ymd2ord y m d = n.
Proof.
  intros Hn. rewrite ord2ymd_unfold. cbv zeta.
  set (n0 := n - 1).
  set (n400 := n0 / 146097). set (r400 := n0 mod 146097).
  set (n100 := r400 / 36524). set (r100 := r400 mod 36524).
  set (n4 := r100 / 1461). set (r4 := r100 mod 1461).
  set (n1 := r4 / 365). set (r1 := r4 mod 365).
  assert (B400 : 0 <= n400 /\ 0 <= r400 < 146097 /\ n0 = 146097 * n400 + r400)
    by (subst n400 r400; Z.div_mod_to_equations; lia).
  assert (B100 : 0 <= n100 <= 4 /\ 0 <= r100 < 36524 /\ r400 = 36524 * n100 + r100)
    by (subst n100 r100; Z.div_mod_to_equations; lia).
  assert (B4 : 0 <= n4 <= 24 /\ 0 <= r4 < 1461 /\ r100 = 1461 * n4 + r4)
    by (subst n4 r4; Z.div_mod_to_equations; lia).
  assert (B1 : 0 <= n1 <= 4 /\ 0 <= r1 < 365 /\ r4 = 365 * n1 + r1)
    by (subst n1 r1; Z.div_mod_to_equations; lia).
  clearbody n400 r400 n100 r100 n4 r4 n1 r1.
  destruct (Z.eqb_spec n1 4) as [E1|E1]; cbn [orb].
  { (* the last day of a leap year *)
    set (y := n400 * 400 + 1 + n100 * 100 + n4 * 4 + n1 - 1).
    assert (Y : y = 400 * n400 + 100 * n100 + 4 * n4 + 4) by lia.
    assert (L : _is_leap y = true).
    { apply is_leap_spec. rewrite Y. Z.div_mod_to_equations. lia. }
    rewrite days_in_month_eq. unfold _ymd2ord. rewrite days_before_month_eq, L.
    change (days_in true 12) with 31. change (days_before true 12) with 335.
    unfold _days_before_year. rewrite Y. Z.div_mod_to_equations. lia. }
  destruct (Z.eqb_spec n100 4) as [E100|E100].
  { set (y := n400 * 400 + 1 + n100 * 100 + n4 * 4 + n1 - 1).
    assert (Y : y = 400 * n400 + 400) by lia.
    assert (L : _is_leap y = true).
    { apply is_leap_spec. rewrite Y. Z.div_mod_to_equations. lia. }
    rewrite days_in_month_eq. unfold _ymd2ord. rewrite days_before_month_eq, L.
    change (days_in true 12) with 31. change (days_before true 12) with 335.
    unfold _days_before_year. rewrite Y. Z.div_mod_to_equations. lia. }
  set (leap := (n1 =? 3) && (negb (n4 =? 24) || (n100 =? 3))).
  set (y := n400 * 400 + 1 + n100 * 100 + n4 * 4 + n1).
  assert (L : _is_leap y = leap).
  { subst leap. destruct (_is_leap y) eqn:E.
    - apply is_leap_spec in E. symmetry.
      rewrite andb_true_iff, orb_true_iff, negb_true_iff, !Z.eqb_eq, Z.eqb_neq.
      subst y. Z.div_mod_to_equations. lia.
    - symmetry. apply not_true_is_false. intros T. 
      rewrite andb_true_iff, orb_true_iff, negb_true_iff, !Z.eqb_eq, Z.eqb_neq in T.
      assert (F : _is_leap y = true)
        by (apply is_leap_spec; subst y; Z.div_mod_to_equations; lia).
      congruence. }
  pose proof (month_day_spec leap r1 (proj1 (proj2 B1))) as M.
  destruct (month_day leap r1) as [m d]. destruct M as (M1 & M2 & M3).
  rewrite days_in_month_eq, L. unfold _ymd2ord. rewrite days_before_month_eq, L.
  split; [subst y; lia|]. split; [exact M1|]. split; [exact M2|].
  unfold _days_before_year. subst y n0. Z.div_mod_to_equations. lia.
Qed.

Lemma dby_step (y : Z) :
  _days_before_year (y + 1) =
  _days_before_year y + 365 + (if _is_leap y then 1 else 0).
Proof.
  unfold _days_before_year. destruct (_is_leap y) eqn:L.
  - apply is_leap_spec in L. Z.div_mod_to_equations. lia.
  - assert (N : ~ (y mod 4 = 0 /\ (y mod 100 <> 0 \/ y mod 400 = 0)))
      by (rewrite <- is_leap_spec; congruence).
    Z.div_mod_to_equations. lia.
Qed.

Lemma dby_mono (a b : Z) : a <= b -> _days_before_year a <= _days_before_year b.
Proof.
  intros H. unfold _days_before_year.
  assert (H4 : (a - 1) / 4 <= (b - 1) / 4) by (apply Z.div_le_mono; lia).
  assert (H400 : (a - 1) / 400 <= (b - 1) / 400) by (apply Z.div_le_mono; lia).
  assert (H100 : (b - 1) / 100 - (a - 1) / 100 <= b - a).
  { destruct (Z.eq_dec a b) as [->|N]; [lia|]. Z.div_mod_to_equations. lia. }
  lia.
Qed.

Lemma month_cases (m : Z) :
  1 <= m <= 12 ->
  m = 1 \/ m = 2 \/ m = 3 \/ m = 4 \/ m = 5 \/ m = 6 \/ m = 7 \/ m = 8 \/ m = 9
  \/ m = 10 \/ m = 11 \/ m = 12.
Proof. lia. Qed.

Ltac calc_days :=
  repeat match goal with
         | |- context [days_in ?l ?m] =>
             let v := eval vm_compute in (days_in l m) in
             change (days_in l m) with v
         | |- context [days_before ?l ?m] =>
             let v := eval vm_compute in (days_before l m) in
             change (days_before l m) with v
         | H : context [days_in ?l ?m] |- _ =>
             let v := eval vm_compute in (days_in l m) in
             change (days_in l m) with v in H
         | H : context [days_before ?l ?m] |- _ =>
             let v := eval vm_compute in (days_before l m) in
             change (days_before l m) with v in H
         end.

Lemma day_of_year_bounds (leap : bool) (m d : Z) :
  1 <= m <= 12 -> 1 <= d <= days_in leap m ->
  1 <= days_before leap m + d <= 365 + (if leap then 1 else 0).
Proof.
  intros Hm. destruct (month_cases m Hm) as [E|[E|[E|[E|[E|[E|[E|[E|[E|[E|[E|E]]]]]]]]]]];
    subst m; destruct leap; calc_days; lia.
Qed.

Lemma month_day_inj (leap : bool) (m d m' d' : Z) :
  1 <= m <= 12 -> 1 <= d <= days_in leap m ->
  1 <= m' <= 12 -> 1 <= d' <= days_in leap m' ->
  days_before leap m + d = days_before leap m' + d' ->
  m = m' /\ d = d'.
Proof.
  intros Hm Hd Hm' Hd' E.
  destruct (month_cases m Hm) as [?|[?|[?|[?|[?|[?|[?|[?|[?|[?|[?|?]]]]]]]]]]]; subst m;
    destruct (month_cases m' Hm') as [?|[?|[?|[?|[?|[?|[?|[?|[?|[?|[?|?]]]]]]]]]]];
    subst m'; destruct leap; calc_days; lia.
Qed.

Lemma ymd2ord_bounds (y m d : Z) :
  1 <= m <= 12 -> 1 <= d <= _days_in_month y m ->
  _days_before_year y < _ymd2ord y m d <= _days_before_year (y + 1).
Proof.
  intros Hm Hd. rewrite days_in_month_eq in Hd. unfold _ymd2ord.
  rewrite days_before_month_eq, dby_step.
  pose proof (day_of_year_bounds _ _ _ Hm Hd). lia.
Qed.

Lemma ymd2ord_inj (y m d y' m' d' : Z) :
  1 <= m <= 12 -> 1 <= d <= _days_in_month y m ->
  1 <= m' <= 12 -> 1 <= d' <= _days_in_month y' m' ->
  _ymd2ord y m d = _ymd2ord y' m' d' ->
  y = y' /\ m = m' /\ d = d'.
Proof.
  intros Hm Hd Hm' Hd' E.
  pose proof (ymd2ord_bounds _ _ _ Hm Hd) as B.
  pose proof (ymd2ord_bounds _ _ _ Hm' Hd') as B'.
  assert (y = y').
  { destruct (Z.lt_trichotomy y y') as [L|[L|L]]; [|exact L|].
    - pose proof (dby_mono (y + 1) y' ltac:(lia)). lia.
    - pose proof (dby_mono (y' + 1) y ltac:(lia)). lia. }
  subst y'. split; [reflexivity|].
  rewrite days_in_month_eq in Hd, Hd'. unfold _ymd2ord in E.
  rewrite !days_before_month_eq in E.
  apply (month_day_inj (_is_leap y)); try assumption. lia.
Qed.

Lemma ord2ymd_ymd2ord (y m d : Z) :
  1 <= y -> 1 <= m <= 12 -> 1 <= d <= _days_in_month y m ->
  _ord2ymd (_ymd2ord y m d) = (y, m, d).
Proof.
  intros Hy Hm Hd.
  assert (N : 1 <= _ymd2ord y m d).
  { pose proof (ymd2ord_bounds _ _ _ Hm Hd). pose proof (dby_mono 1 y Hy).
    change (_days_before_year 1) with 0 in *. lia. }
  pose proof (ymd2ord_ord2ymd _ N) as F.
  destruct (_ord2ymd (_ymd2ord y m d)) as [[y' m'] d'].
  destruct F as (Hy' & Hm' & Hd' & E).
  apply ymd2ord_inj in E as (-> & -> & ->); auto.
Qed.

Lemma ymd2ord_range (y m d : Z) :
  valid_date y m d -> MINORD <= _ymd2ord y m d <= MAXORD.
Proof.
  intros (Hy & Hm & Hd). pose proof (ymd2ord_bounds _ _ _ Hm Hd).
  pose proof (dby_mono 1 y ltac:(lia)). pose proof (dby_mono (y + 1) 10000 ltac:(lia)).
  change (_days_before_year 1) with 0 in *.
  change (_days_before_year 10000) with 3652059 in *.
  unfold MINORD, MAXORD. lia.
Qed.

Lemma ord2ymd_valid (n : Z) :
  MINORD <= n <= MAXORD ->
  exists y m d, _ord2ymd n = (y, m, d) /\ valid_date y m d /\ _ymd2ord y m d = n.
Proof.
  unfold MINORD, MAXORD. intros [H1 H2]. pose proof (ymd2ord_ord2ymd n H1) as F.
  destruct (_ord2ymd n) as [[y m] d]. destruct F as (Hy & Hm & Hd & E).
  exists y, m, d. split; [reflexivity|]. split; [|exact E].
  split; [|split; assumption]. split; [exact Hy|].
  pose proof (ymd2ord_bounds _ _ _ Hm Hd).
  destruct (Z.le_gt_cases y 9999) as [L|L]; [exact L|].
  pose proof (dby_mono 10000 y ltac:(lia)).
  change (_days_before_year 10000) with 3652059 in *. lia.
Qed.

(** ** Dates as text *)

Lemma pad4_four_digits (z : Z) : 0 <= z < 10000 -> pad4 z = four_digits z.
Proof.
  intros H.
  assert (C : forall_from (Z.to_nat 10000) 0
                (fun z => String.eqb (pad4 z) (four_digits z)) = true)
    by (vm_compute; reflexivity).
  apply String.eqb_eq. apply (forall_from_spec _ _ _ C). lia.
Qed.

Lemma digit_char_props (k : Z) :
  0 <= k <= 9 ->
  is_digit (digit_char k) = true
  /\ digit_val (digit_char k) = k
  /\ (N_of_ascii (digit_char k) <? 128)%N = true.
Proof.
  intros H.
  assert (C : k = 0 \/ k = 1 \/ k = 2 \/ k = 3 \/ k = 4 \/ k = 5 \/ k = 6 \/ k = 7
              \/ k = 8 \/ k = 9) by lia.
  destruct C as [?|[?|[?|[?|[?|[?|[?|[?|[?|?]]]]]]]]]; subst k; vm_compute; auto.
Qed.

Lemma fmt_ymd_text (y m d : Z) :
  0 <= y < 10000 -> 0 <= m < 100 -> 0 <= d < 100 ->
  fmt_ymd (y, m, d) = date_text y m d.
Proof.
  intros Hy Hm Hd. unfold fmt_ymd, date_text.
  now rewrite pad4_four_digits, !pad2_two_digits.
Qed.

Lemma parse_month_digits (m : Z) (r : list ascii) :
  1 <= m <= 12 ->
  parse_month (digit_char (m / 10) :: digit_char (m mod 10) :: r) = Some (m, r).
Proof.
  intros H.
  destruct (month_cases m H) as [?|[?|[?|[?|[?|[?|[?|[?|[?|[?|[?|?]]]]]]]]]]]; subst m;
    reflexivity.
Qed.

Lemma parse_day_digits (d : Z) :
  1 <= d <= 31 ->
  parse_day [digit_char (d / 10); digit_char (d mod 10)] = Some (d, []).
Proof.
  intros H.
  assert (C : forall_from 31 1
                (fun d => match parse_day [digit_char (d / 10); digit_char (d mod 10)] with
                          | Some (d', []) => d' =? d
                          | _ => false
                          end) = true)
    by (vm_compute; reflexivity).
  pose proof (forall_from_spec _ _ _ C d ltac:(lia)) as E. cbv beta in E.
  destruct (parse_day _) as [[d' [|? ?]]|]; try discriminate E.
  apply Z.eqb_eq in E. now subst.
Qed.

Lemma strptime_date_text (y m d : Z) :
  0 <= y <= 9999 -> 1 <= m <= 12 -> 1 <= d <= 31 ->
  strptime_ymd (PStr (date_text y m d)) = make_datetime y m d 0.
Proof.
  intros Hy Hm Hd. unfold strptime_ymd, date_text, four_digits, two_digits.
  destruct (digit_char_props (y / 1000)) as (A1 & A2 & A3);
    [Z.div_mod_to_equations; lia|].
  destruct (digit_char_props (y / 100 mod 10)) as (B1 & B2 & B3);
    [Z.div_mod_to_equations; lia|].
  destruct (digit_char_props (y / 10 mod 10)) as (C1 & C2 & C3);
    [Z.div_mod_to_equations; lia|].
  destruct (digit_char_props (y mod 10)) as (D1 & D2 & D3);
    [Z.div_mod_to_equations; lia|].
  destruct (digit_char_props (m / 10)) as (E1 & E2 & E3);
    [Z.div_mod_to_equations; lia|].
  destruct (digit_char_props (m mod 10)) as (F1 & F2 & F3);
    [Z.div_mod_to_equations; lia|].
  destruct (digit_char_props (d / 10)) as (G1 & G2 & G3);
    [Z.div_mod_to_equations; lia|].
  destruct (digit_char_props (d mod 10)) as (H1 & H2 & H3);
    [Z.div_mod_to_equations; lia|].
  match goal with
  | |- context [is_ascii ?s] =>
      assert (IA : is_ascii s = true)
        by (cbn [String.append];
            rewrite !is_ascii_String, A3, B3, C3, D3, E3, F3, G3, H3; reflexivity);
      rewrite IA
  end.
  cbn [negb String.append list_ascii_of_string]. rewrite A1, B1, C1, D1. cbn [andb].
  rewrite parse_month_digits by exact Hm. rewrite parse_day_digits by exact Hd.
  rewrite A2, B2, C2, D2. f_equal.
  assert (Q1 : y / 1000 = y / 10 / 10 / 10) by (now rewrite !Z.div_div by lia).
  assert (Q2 : y / 100 = y / 10 / 10) by (now rewrite !Z.div_div by lia).
  rewrite Q1, Q2. Z.div_mod_to_equations. lia.
Qed.

Lemma days_in_month_le (y m : Z) : 1 <= m <= 12 -> 1 <= _days_in_month y m <= 31.
Proof.
  intros H. rewrite days_in_month_eq.
  destruct (month_cases m H) as [?|[?|[?|[?|[?|[?|[?|[?|[?|[?|[?|?]]]]]]]]]]]; subst m;
    destruct (_is_leap y); calc_days; lia.
Qed.

Lemma make_datetime_valid (y m d sec : Z) :
  valid_date y m d -> make_datetime y m d sec = Ok (mkdt (_ymd2ord y m d) sec None).
Proof.
  intros ((Y1 & Y2) & (M1 & M2) & (D1 & D2)). unfold make_datetime.
  apply Z.leb_le in Y1, Y2, M1, M2, D1, D2. now rewrite Y1, Y2, M1, M2, D1, D2.
Qed.

Lemma strptime_canonical (y m d : Z) :
  valid_date y m d ->
  strptime_ymd (PStr (date_text y m d)) = Ok (mkdt (_ymd2ord y m d) 0 None).
Proof.
  intros V. pose proof V as (Hy & Hm & Hd). pose proof (days_in_month_le y m Hm).
  rewrite strptime_date_text by lia. now apply make_datetime_valid.
Qed.

Lemma strftime_canonical (y m d sec : Z) (off : option Z) :
  valid_date y m d -> 1000 <= y ->
  strftime_ymd (mkdt (_ymd2ord y m d) sec off) = Ok (date_text y m d).
Proof.
  intros (Hy & Hm & Hd) Y. pose proof (days_in_month_le y m Hm).
  unfold strftime_ymd, dt_date. cbn [dt_ord].
  rewrite ord2ymd_ymd2ord by lia.
  destruct (Z.ltb_spec y 1000); [lia|]. now rewrite fmt_ymd_text by lia.
Qed.

Lemma fmt_hms_minutes (k : Z) :
  0 <= k < 1440 ->
  fmt_hms (60 * k) = two_digits (k / 60) +++ ":" +++ two_digits (k mod 60) +++ ":00".
Proof.
  intros H. unfold fmt_hms.
  assert (E1 : 60 * k / 3600 = k / 60) by (Z.div_mod_to_equations; lia).
  assert (E2 : (60 * k) mod 3600 / 60 = k mod 60) by (Z.div_mod_to_equations; lia).
  assert (E3 : (60 * k) mod 60 = 0) by (Z.div_mod_to_equations; lia).
  rewrite E1, E2, E3.
  rewrite !pad2_two_digits by (Z.div_mod_to_equations; lia). reflexivity.
Qed.

Lemma stamp_text (tz y m d mm y' m' d' : Z) :
  -24 < tz < 24 -> valid_date y m d -> valid_date y' m' d' -> 1000 <= y' ->
  _ymd2ord y' m' d' = _ymd2ord y m d + mm / 1440 ->
  stamp tz (PStr (date_text y m d)) (PInt mm) =
  Ok (date_text y' m' d' +++ " " +++ two_digits (mm mod 1440 / 60) +++ ":"
      +++ two_digits (mm mod 60) +++ ":00 " +++ tz_suffix tz).
Proof.
  intros T V V' Y E. unfold stamp.
  rewrite (minute_to_datetime_spec _ _ _ (mkdt (_ymd2ord y m d) 0 None) T
             (strptime_canonical _ _ _ V)).
  2: { cbn [dt_ord]. rewrite <- E. now apply ymd2ord_range. }
  cbn [bind dt_ord]. rewrite <- E. unfold _apple_date.
  rewrite (strftime_canonical _ _ _ _ _ V' Y). cbn [bind dt_sec dt_utcoffset].
  rewrite fmt_hms_minutes by (Z.div_mod_to_equations; lia).
  rewrite (fmt_z_hours _ T).
  assert (M : (mm mod 1440) mod 60 = mm mod 60) by (Z.div_mod_to_equations; lia).
  rewrite M. rewrite !append_assoc3. reflexivity.
Qed.

(** ** Timestamps as text *)

Lemma ymd2ord_year_le (y m d y' m' d' : Z) :
  1 <= m <= 12 -> 1 <= d <= _days_in_month y m ->
  1 <= m' <= 12 -> 1 <= d' <= _days_in_month y' m' ->
  _ymd2ord y m d <= _ymd2ord y' m' d' -> y <= y'.
Proof.
  intros Hm Hd Hm' Hd' L.
  pose proof (ymd2ord_bounds _ _ _ Hm Hd). pose proof (ymd2ord_bounds _ _ _ Hm' Hd').
  destruct (Z.le_gt_cases y y') as [H1|H1]; [exact H1|].
  pose proof (dby_mono (y' + 1) y ltac:(lia)). lia.
Qed.

(** X14. The timestamp of the minute [mm] of a date written
    [YYYY-MM-DD] is the text of the date that lies [mm / 1440] days
    later, then the hours [mm mod 1440 / 60] and the minutes
    [mm mod 60] in two digits each, no seconds, and the offset: within
    the day (minutes 0 to 1439) the date is the one given, and a minute
    from 1440 to 2879 is the same time of the next calendar day, month
    and year ends included. *)
Theorem minute_timestamp_text (tz y m d : Z) :
  -24 < tz < 24 -> valid_date y m d -> 1000 <= y ->
  (forall mm y' m' d',
     valid_date y' m' d' -> 1000 <= y' ->
     _ymd2ord y' m' d' = _ymd2ord y m d + mm / 1440 ->
     stamp tz (PStr (date_text y m d)) (PInt mm) =
     Ok (date_text y' m' d' +++ " " +++ two_digits (mm mod 1440 / 60) +++ ":"
         +++ two_digits (mm mod 60) +++ ":00 " +++ tz_suffix tz))
  /\ (forall mm,
        0 <= mm < 1440 ->
        stamp tz (PStr (date_text y m d)) (PInt mm) =
        Ok (date_text y m d +++ " " +++ two_digits (mm / 60) +++ ":"
            +++ two_digits (mm mod 60) +++ ":00 " +++ tz_suffix tz))
  /\ (forall mm y' m' d',
        valid_date y' m' d' -> _ymd2ord y' m' d' = _ymd2ord y m d + 1 ->
        0 <= mm < 1440 ->
        stamp tz (PStr (date_text y m d)) (PInt (mm + 1440)) =
        stamp tz (PStr (date_text y' m' d')) (PInt mm)).
Proof.
  intros T V Y. split; [|split].
  - intros mm y' m' d' V' Y' E. now apply stamp_text.
  - intros mm H. rewrite (stamp_text tz y m d mm y m d T V V Y).
    + now rewrite (Z.mod_small mm 1440) by lia.
    + rewrite Z.div_small by lia. lia.
  - intros mm y' m' d' V' E H.
    assert (Y' : 1000 <= y').
    { destruct V as (_ & Hm & Hd), V' as (_ & Hm' & Hd').
      pose proof (ymd2ord_year_le y m d y' m' d' Hm Hd Hm' Hd' ltac:(lia)). lia. }
    rewrite (stamp_text tz y m d (mm + 1440) y' m' d' T V V' Y').
    + rewrite (stamp_text tz y' m' d' mm y' m' d' T V' V' Y').
      * replace ((mm + 1440) mod 1440) with (mm mod 1440)
          by (Z.div_mod_to_equations; lia).
        replace ((mm + 1440) mod 60) with (mm mod 60)
          by (Z.div_mod_to_equations; lia).
        reflexivity.
      * rewrite Z.div_small by lia. lia.
    + rewrite E. f_equal. Z.div_mod_to_equations. lia.
Qed.

Lemma minute_timestamp_text_witness :
  stamp (-6) (PStr (date_text 2026 2 28)) (PInt (20 + 1440)) =
  stamp (-6) (PStr (date_text 2026 3 1)) (PInt 20)
  /\ stamp (-6) (PStr "2026-02-28") (PInt 1460) = Ok "2026-03-01 00:20:00 -0600".
Proof.
  split; [|reflexivity].
  apply (proj2 (proj2 (minute_timestamp_text (-6) 2026 2 28 ltac:(lia)
                         ltac:(repeat split; cbv; discriminate) ltac:(lia)))).
  - repeat split; cbv; discriminate.
  - reflexivity.
  - lia.
Defined.

(** ** The export of decoded data *)

Lemma stamp_minute_text (tz y m d mm : Z) :
  -24 < tz < 24 -> valid_date y m d -> 1000 <= y -> 0 <= mm < 1440 ->
  stamp tz (PStr (date_text y m d)) (PInt mm) = Ok (minute_text tz (date_text y m d) mm).
Proof.
  intros T V Y H. rewrite (stamp_text tz y m d mm y m d T V V Y).
  - unfold minute_text. now rewrite (Z.mod_small mm 1440) by lia.
  - rewrite Z.div_small by lia. lia.
Qed.

Lemma hr_record_reading (src : string) (tz y m d i v : Z) :
  -24 < tz < 24 -> valid_date y m d -> 1000 <= y -> 0 <= i < 1440 ->
  valid_bpm v = true ->
  hr_record src tz (date_text y m d) (hr_reading i v) =
  Ok (reading_record src tz (date_text y m d) (i, v)).
Proof.
  intros T V Y H B. pose proof (stamp_minute_text tz y m d i T V Y H) as S.
  assert (L : too_long v = false).
  { apply too_long_small. unfold valid_bpm in B.
    apply andb_true_iff in B as [B1 B2]. apply Z.ltb_lt in B1, B2. lia. }
  unfold stamp in S. unfold hr_record, hr_reading.
  cbn [py_item dict_lookup String.eqb Ascii.eqb Bool.eqb bind].
  change (dict_lookup "minute" _) with (Some (PInt i)).
  cbn [bind].
  destruct (_minute_to_datetime (PStr (date_text y m d)) (PInt i) tz) as [dt| |];
    cbn [bind] in S |- *; try discriminate S.
  change (dict_lookup "bpm" _) with (Some (PInt v)). cbn [bind py_str].
  unfold str_int. rewrite L. cbn [bind]. rewrite S. reflexivity.
Qed.

Lemma enumerate_from_bounds (bs : list byte) : forall (i : Z) (iv : Z * Z),
  In iv (enumerate_from i bs) -> i <= fst iv < i + Z.of_nat (List.length bs).
Proof.
  induction bs as [|b bs IH]; intros i iv H; [destruct H|].
  cbn [enumerate_from In List.length] in *. destruct H as [<-|H].
  - cbn [fst]. lia.
  - apply IH in H. lia.
Qed.

Lemma hr_records_readings (src : string) (tz y m d : Z) (l : list (Z * Z)) :
  -24 < tz < 24 -> valid_date y m d -> 1000 <= y ->
  Forall (fun iv => 0 <= fst iv < 1440 /\ valid_bpm (snd iv) = true) l ->
  forall o,
    hr_records src tz (date_text y m d)
      (map (fun iv => hr_reading (fst iv) (snd iv)) l) o =
    Ok (fst o ++ map (reading_record src tz (date_text y m d)) l,
        snd o + Z.of_nat (List.length l)).
Proof.
  intros T V Y F. induction F as [|[i v] l H F IH]; intros o.
  - cbn [map hr_records List.length]. rewrite app_nil_r, Z.add_0_r. now destruct o.
  - cbn [map hr_records fst snd]. cbn [fst snd] in H. destruct H as [H B].
    rewrite (hr_record_reading src tz y m d i v T V Y H B). cbn [bind].
    rewrite IH. cbn [fst snd List.length]. rewrite <- app_assoc. cbn [app].
    f_equal. f_equal. lia.
Qed.

(** X15. The heart-rate section of the export takes the readings that
    the decoder makes of a day of at most 1440 bytes without an error:
    under a date written [YYYY-MM-DD] (year 1000 or later) every reading
    gives one record, in the order of the readings, whose value is the
    rate in decimal and whose start and end are both the date, the
    reading's own minute as [HH:MM], [:00] and the offset; the counter
    goes up by the number of readings. *)
Theorem heart_rate_day_export (src : string) (tz y m d : Z) (bs : list byte)
    (o : list xml_record * Z) :
  -24 < tz < 24 -> valid_date y m d -> 1000 <= y ->
  (List.length bs <= 1440)%nat ->
  hr_records src tz (date_text y m d) (hr_samples bs) o =
  Ok (fst o ++ map (reading_record src tz (date_text y m d))
                   (filter (fun iv => valid_bpm (snd iv)) (enumerate_from 0 bs)),
      snd o + Z.of_nat (List.length (hr_samples bs))).
Proof.
  intros T V Y L. unfold hr_samples. rewrite length_map.
  apply hr_records_readings; auto.
  apply Forall_forall. intros iv H. apply filter_In in H as [H B].
  apply enumerate_from_bounds in H. split; [lia | exact B].
Qed.

Lemma heart_rate_day_export_witness :
  hr_records "zepp-export" (-6) (date_text 2026 2 6)
    (hr_samples [Byte.x00; Byte.x48; Byte.xff; Byte.x4b]) ([], 0) =
  Ok ([] ++ map (reading_record "zepp-export" (-6) (date_text 2026 2 6))
                (filter (fun iv => valid_bpm (snd iv))
                   (enumerate_from 0 [Byte.x00; Byte.x48; Byte.xff; Byte.x4b])),
      0 + Z.of_nat (List.length (hr_samples [Byte.x00; Byte.x48; Byte.xff; Byte.x4b]))).
Proof.
  apply (heart_rate_day_export "zepp-export" (-6) 2026 2 6
           [Byte.x00; Byte.x48; Byte.xff; Byte.x4b] ([], 0)).
  - lia.
  - repeat split; cbv; discriminate.
  - lia.
  - cbn. lia.
Defined.
(** X16. The step section writes one record for a day whose
    [total_steps] is a number other than 0: its value is that number in
    decimal and it runs from 00:00:00 to 23:59:00 of the day at the
    configured offset; a number of more than 4300 digits cannot be
    written and raises [ValueError].  A day whose [total_steps] is
    absent, [None] or 0, an empty record and [None] give no record, and
    for them the date is not even read. *)
Theorem steps_day_export (src : string) (tz : Z) :
  (forall y m d kv ds n,
     -24 < tz < 24 -> valid_date y m d -> 1000 <= y ->
     dict_lookup "total_steps" (kv :: ds) = Some (PInt n) -> n <> 0 ->
     steps_record src tz (date_text y m d) (PDict (kv :: ds)) =
     if too_long n then Raise ValueError
     else
     Ok (Some (mkrec "HKQuantityTypeIdentifierStepCount" src (Some "count")
                     (str_of_Z n)
                     (date_text y m d +++ " 00:00:00 " +++ tz_suffix tz)
                     (date_text y m d +++ " 23:59:00 " +++ tz_suffix tz))))
  /\ (forall date ds,
        dict_lookup "total_steps" ds = None
        \/ dict_lookup "total_steps" ds = Some PNone
        \/ dict_lookup "total_steps" ds = Some (PInt 0) ->
        steps_record src tz date (PDict ds) = Ok None)
  /\ (forall date, steps_record src tz date PNone = Ok None).
Proof.
  split; [|split].
  - intros y m d kv ds n T V Y L N.
    pose proof (stamp_minute_text tz y m d 0 T V Y ltac:(lia)) as S0.
    pose proof (stamp_minute_text tz y m d 1439 T V Y ltac:(lia)) as S1.
    unfold stamp in S0, S1. unfold steps_record.
    cbn [truthy bind negb py_get py_item]. rewrite L.
    cbn [truthy bind negb]. destruct (Z.eqb_spec n 0) as [E|_]; [contradiction|].
    cbn [negb bind].
    destruct (_minute_to_datetime (PStr (date_text y m d)) (PInt 0) tz) as [d0| |];
      cbn [bind] in S0 |- *; try discriminate S0.
    destruct (_minute_to_datetime (PStr (date_text y m d)) (PInt 1439) tz) as [d1| |];
      cbn [bind] in S1 |- *; try discriminate S1.
    cbn [py_str bind]. unfold str_int. destruct (too_long n); [reflexivity|].
    cbn [bind]. rewrite S0, S1. reflexivity.
  - intros date ds H. unfold steps_record. destruct ds as [|kv ds].
    + reflexivity.
    + cbn [truthy bind negb py_get].
      destruct H as [H|[H|H]]; rewrite H; reflexivity.
  - intros date. reflexivity.
Qed.

Lemma steps_day_export_witness :
  steps_record "zepp-export" (-6) (date_text 2026 2 6)
    (PDict [("date", PStr "2026-02-06"); ("total_steps", PInt 8500)]) =
  Ok (Some (mkrec "HKQuantityTypeIdentifierStepCount" "zepp-export" (Some "count")
                  (str_of_Z 8500)
                  (date_text 2026 2 6 +++ " 00:00:00 " +++ tz_suffix (-6))
                  (date_text 2026 2 6 +++ " 23:59:00 " +++ tz_suffix (-6)))).
Proof.
  apply (proj1 (steps_day_export "zepp-export" (-6)) 2026 2 6
           ("date", PStr "2026-02-06") [("total_steps", PInt 8500)] 8500).
  - lia.
  - repeat split; cbv; discriminate.
  - lia.
  - reflexivity.
  - discriminate.
Defined.

(** ** Session times: written by the client, read by the export *)

Lemma isoformat_text (y m d sec : Z) :
  valid_date y m d -> 0 <= sec < 86400 ->
  isoformat (mkdt (_ymd2ord y m d) sec None) =
  date_text y m d +++ "T" +++ two_digits (sec / 3600) +++ ":"
  +++ two_digits (sec mod 3600 / 60) +++ ":" +++ two_digits (sec mod 60).
Proof.
  intros (Hy & Hm & Hd) S. pose proof (days_in_month_le y m Hm).
  unfold isoformat, dt_date. cbn [dt_ord dt_sec dt_utcoffset].
  rewrite ord2ymd_ymd2ord by lia. rewrite fmt_ymd_text by lia.
  unfold fmt_hms. rewrite !pad2_two_digits by (Z.div_mod_to_equations; lia).
  rewrite append_empty_r. reflexivity.
Qed.

Lemma fromisoformat_text (y m d h n s : Z) :
  0 <= y <= 9999 -> 0 <= m <= 99 -> 0 <= d <= 99 ->
  0 <= h < 24 -> 0 <= n < 60 -> 0 <= s < 60 ->
  fromisoformat
    (PStr (date_text y m d +++ "T" +++ two_digits h +++ ":" +++ two_digits n
           +++ ":" +++ two_digits s)) =
  make_datetime y m d (3600 * h + 60 * n + s).
Proof.
  intros Hy Hm Hd Hh Hn Hs.
  unfold fromisoformat, date_text, four_digits, two_digits.
  destruct (digit_char_props (y / 1000)) as (A1 & A2 & _);
    [Z.div_mod_to_equations; lia|].
  destruct (digit_char_props (y / 100 mod 10)) as (B1 & B2 & _);
    [Z.div_mod_to_equations; lia|].
  destruct (digit_char_props (y / 10 mod 10)) as (C1 & C2 & _);
    [Z.div_mod_to_equations; lia|].
  destruct (digit_char_props (y mod 10)) as (D1 & D2 & _);
    [Z.div_mod_to_equations; lia|].
  destruct (digit_char_props (m / 10)) as (E1 & E2 & _);
    [Z.div_mod_to_equations; lia|].
  destruct (digit_char_props (m mod 10)) as (F1 & F2 & _);
    [Z.div_mod_to_equations; lia|].
  destruct (digit_char_props (d / 10)) as (G1 & G2 & _);
    [Z.div_mod_to_equations; lia|].
  destruct (digit_char_props (d mod 10)) as (H1 & H2 & _);
    [Z.div_mod_to_equations; lia|].
  destruct (digit_char_props (h / 10)) as (I1 & I2 & _);
    [Z.div_mod_to_equations; lia|].
  destruct (digit_char_props (h mod 10)) as (J1 & J2 & _);
    [Z.div_mod_to_equations; lia|].
  destruct (digit_char_props (n / 10)) as (K1 & K2 & _);
    [Z.div_mod_to_equations; lia|].
  destruct (digit_char_props (n mod 10)) as (L1 & L2 & _);
    [Z.div_mod_to_equations; lia|].
  destruct (digit_char_props (s / 10)) as (M1 & M2 & _);
    [Z.div_mod_to_equations; lia|].
  destruct (digit_char_props (s mod 10)) as (N1 & N2 & _);
    [Z.div_mod_to_equations; lia|].
  cbn [String.append list_ascii_of_string forallb].
  rewrite A1, B1, C1, D1, E1, F1, G1, H1, I1, J1, K1, L1, M1, N1. cbn [andb].
  cbv zeta. rewrite A2, B2, C2, D2, E2, F2, G2, H2, I2, J2, K2, L2, M2, N2.
  assert (Eh : 10 * (h / 10) + h mod 10 = h) by (Z.div_mod_to_equations; lia).
  assert (En : 10 * (n / 10) + n mod 10 = n) by (Z.div_mod_to_equations; lia).
  assert (Es : 10 * (s / 10) + s mod 10 = s) by (Z.div_mod_to_equations; lia).
  assert (Em : 10 * (m / 10) + m mod 10 = m) by (Z.div_mod_to_equations; lia).
  assert (Ed : 10 * (d / 10) + d mod 10 = d) by (Z.div_mod_to_equations; lia).
  assert (Ey : 100 * (10 * (y / 1000) + y / 100 mod 10)
               + (10 * (y / 10 mod 10) + y mod 10) = y).
  { assert (Q1 : y / 1000 = y / 10 / 10 / 10) by (now rewrite !Z.div_div by lia).
    assert (Q2 : y / 100 = y / 10 / 10) by (now rewrite !Z.div_div by lia).
    rewrite Q1, Q2. Z.div_mod_to_equations. lia. }
  rewrite Eh, En, Es, Em, Ed, Ey.
  destruct (Z.eqb_spec h 24) as [?|_]; [lia|].
  destruct (Z.ltb_spec h 24); [|lia]. destruct (Z.ltb_spec n 60); [|lia].
  destruct (Z.ltb_spec s 60); [|lia]. reflexivity.
Qed.

Lemma fromisoformat_isoformat (ord sec : Z) :
  MINORD <= ord <= MAXORD -> 0 <= sec < 86400 ->
  fromisoformat (PStr (isoformat (mkdt ord sec None))) = Ok (mkdt ord sec None).
Proof.
  intros O S. destruct (ord2ymd_valid ord O) as (y & m & d & _ & V & <-).
  rewrite isoformat_text by assumption.
  pose proof V as (Hy & Hm & Hd). pose proof (days_in_month_le y m Hm).
  rewrite fromisoformat_text by (try lia; Z.div_mod_to_equations; lia).
  rewrite make_datetime_valid by exact V. do 2 f_equal.
  Z.div_mod_to_equations. lia.
Qed.
Lemma fromtimestamp_range (lo : Z -> Z) (t : pyval) (dt : datetime) :
  fromtimestamp lo t = Ok dt ->
  exists ord sec,
    dt = mkdt ord sec None /\ MINORD <= ord <= MAXORD /\ 0 <= sec < 86400.
Proof.
  unfold fromtimestamp. destruct (as_int t) as [z| |]; cbn [bind]; try discriminate.
  cbv zeta. pose proof (Z.mod_pos_bound (z + lo z) 86400 ltac:(lia)) as B.
  revert B. generalize (EPOCH_ORD + (z + lo z) / 86400), ((z + lo z) mod 86400).
  intros o s B. destruct (Z.leb_spec MINORD o); [|discriminate].
  destruct (Z.leb_spec o MAXORD); [|discriminate].
  cbn [andb]. intros Q. injection Q as <-. exists o, s. auto.
Qed.

Lemma isoformat_truthy (dt : datetime) : truthy (PStr (isoformat dt)) = Ok true.
Proof.
  unfold isoformat. generalize (fmt_ymd (dt_date dt)). intros a.
  cbn [truthy]. destruct a as [|c a]; reflexivity.
Qed.

(** X17. A time that the client wrote is read back by the export as
    the same time: [fromisoformat] of the [isoformat] of a local time
    of [fromtimestamp] is that time again.  So the InBed record of a
    session of [get_sleep] goes from the session's own local start to
    its local end, whenever the two can be written as timestamps.  The
    export writes it after the records of the stages when the session
    has stages; a session of [get_sleep] without stages is skipped, and
    nothing is written for it, the InBed record included. *)
Theorem sleep_times_round_trip (lo : Z -> Z) :
  (forall t dt,
     fromtimestamp lo t = Ok dt -> fromisoformat (PStr (isoformat dt)) = Ok dt)
  /\ (forall data date rd,
        get_sleep lo data date = Ok (PDict rd) -> rd <> [] ->
        exists d st ed start end_ stages fetched_from,
          dict_lookup "st" d = Some st /\ fromtimestamp lo st = Ok start
          /\ dict_lookup "ed" d = Some ed /\ fromtimestamp lo ed = Ok end_
          /\ dict_lookup "start" rd = Some (PStr (isoformat start))
          /\ dict_lookup "end" rd = Some (PStr (isoformat end_))
          /\ dict_lookup "stages" rd = Some (PList stages)
          /\ dict_lookup "fetched_from" rd = Some fetched_from
          /\ (forall src tz o s e,
                _apple_date (replace_tzinfo start tz) = Ok s ->
                _apple_date (replace_tzinfo end_ tz) = Ok e ->
                inbed_record src tz (PDict rd) o =
                Ok (fst o ++ [inbed src s e], snd o + 1))
          /\ (forall src tz_offset_hours tz date_str opts o s e,
                stages <> [] ->
                mapM (stage_record src tz_offset_hours fetched_from) stages = Ok opts ->
                _apple_date (replace_tzinfo start tz) = Ok s ->
                _apple_date (replace_tzinfo end_ tz) = Ok e ->
                sleep_session src tz_offset_hours tz date_str (PDict rd) o =
                Ok (fst o ++ somes opts ++ [inbed src s e],
                    snd o + Z.of_nat (List.length (somes opts)) + 1))
          /\ (forall src tz_offset_hours tz date_str o,
                stages = [] ->
                sleep_session src tz_offset_hours tz date_str (PDict rd) o = Ok o)).
Proof.
  assert (R : forall t dt,
             fromtimestamp lo t = Ok dt -> fromisoformat (PStr (isoformat dt)) = Ok dt).
  { intros t dt H. apply fromtimestamp_range in H as (ord & sec & -> & O & S).
    now apply fromisoformat_isoformat. }
  split; [exact R|].
  intros data date rd G N. apply get_sleep_inv in G as [G|(slp & src & U & _ & G)].
  { injection G as ->. contradiction. }
  destruct (sleep_record_usable lo date slp src _ U G)
    as (d & st & ed & start & end_ & stages & naps & -> & Ls & Le & Fs & Fe & _ & _ & E).
  injection E as ->. exists d, st, ed, start, end_, stages, src.
  repeat (split; [first [assumption | reflexivity]|]).
  assert (B : forall sn tz o s e,
             _apple_date (replace_tzinfo start tz) = Ok s ->
             _apple_date (replace_tzinfo end_ tz) = Ok e ->
             inbed_record sn tz
               (PDict [("date", PStr date); ("fetched_from", src);
                       ("resting_hr", field_or d "rhr" PNone);
                       ("sleep_score", field_or d "ss" PNone);
                       ("deep_minutes", field_or d "dp" PNone);
                       ("light_minutes", field_or d "lt" PNone);
                       ("stages", PList stages); ("nap_stages", PList naps);
                       ("start", PStr (isoformat start));
                       ("end", PStr (isoformat end_));
                       ("duration_minutes", PInt (duration_minutes start end_))]) o =
             Ok (fst o ++ [inbed sn s e], snd o + 1)).
  { intros sn tz o s e As Ae.
    apply (inbed_record_present sn tz _ (PStr (isoformat start))
             (PStr (isoformat end_)) start end_ s e o);
      first [reflexivity | apply isoformat_truthy | exact (R _ _ Fs) | exact (R _ _ Fe)
            | assumption]. }
  split; [exact B|]. split.
  - intros sn tzh tz date_str opts o s e Ne M As Ae.
    destruct stages as [|stage stages]; [contradiction|].
    erewrite (sleep_session_stages sn tzh tz date_str _ stage stages opts o);
      [|reflexivity|exact M].
    rewrite (B sn tz _ s e As Ae). cbn [fst snd]. now rewrite <- app_assoc.
  - intros sn tzh tz date_str o ->.
    apply sleep_session_skipped. right. right. reflexivity.
Qed.

Lemma sleep_times_round_trip_witness :
  fromtimestamp utc_minus_6 (PInt 1770355919) = Ok (mkdt 739652 84719 None)
  /\ fromisoformat (PStr (isoformat (mkdt 739652 84719 None))) =
     Ok (mkdt 739652 84719 None).
Proof.
  split; [reflexivity|].
  apply (proj1 (sleep_times_round_trip utc_minus_6) (PInt 1770355919)). reflexivity.
Defined.

(** ** Date ranges of the command line *)

Lemma date_of_ord_text (y m d : Z) :
  valid_date y m d -> date_of_ord (_ymd2ord y m d) = date_text y m d.
Proof.
  intros (Hy & Hm & Hd). pose proof (days_in_month_le y m Hm).
  unfold date_of_ord. rewrite ord2ymd_ymd2ord by lia. apply fmt_ymd_text; lia.
Qed.

Lemma strftime_date_of_ord (o sec : Z) (off : option Z) :
  _ymd2ord 1000 1 1 <= o <= MAXORD ->
  strftime_ymd (mkdt o sec off) = Ok (date_of_ord o).
Proof.
  intros H. assert (O : MINORD <= o <= MAXORD).
  { assert (_ymd2ord 1000 1 1 = 364878) by reflexivity. unfold MINORD. lia. }
  destruct (ord2ymd_valid o O) as (y & m & d & E & V & Q).
  assert (Y : 1000 <= y).
  { destruct V as (_ & Hm & Hd).
    apply (ymd2ord_year_le 1000 1 1 y m d); try assumption; try lia.
    cbv; split; discriminate. }
  unfold strftime_ymd, dt_date, date_of_ord. cbn [dt_ord]. rewrite E.
  destruct (Z.ltb_spec y 1000); [lia|reflexivity].
Qed.

Lemma days_from_length (n : nat) : forall o, List.length (days_from o n) = n.
Proof. induction n as [|n IH]; intros o; cbn; [reflexivity | now rewrite IH]. Qed.

Lemma days_from_nth (n : nat) : forall o k,
  (k < n)%nat -> nth_error (days_from o n) k = Some (date_of_ord (o + Z.of_nat k)).
Proof.
  induction n as [|n IH]; intros o k H; [lia|]. destruct k as [|k].
  - cbn. now rewrite Z.add_0_r.
  - cbn [days_from nth_error]. rewrite IH by lia. do 2 f_equal. lia.
Qed.

Lemma iter_dates_loop_unfold (n : nat) : forall (turns : nat) (o o2 : Z),
  (n < turns)%nat -> _ymd2ord 1000 1 1 <= o -> o2 <= MAXORD ->
  o + Z.of_nat n = Z.max o (o2 + 1) ->
  iter_dates_loop turns (mkdt o 0 None) (mkdt o2 0 None) =
  yields (days_from o n)
         (if (o2 =? MAXORD) && (0 <? Z.of_nat n) then GRaise OverflowError else GDone).
Proof.
  induction n as [|n IH]; intros turns o o2 F L U E;
    (destruct turns as [|turns]; [lia|]); cbn [iter_dates_loop].
  - unfold dt_le, dt_wall. cbn [dt_ord dt_sec].
    destruct (Z.leb_spec ((o - 1) * 86400 + 0) ((o2 - 1) * 86400 + 0)); [lia|].
    rewrite andb_false_r. reflexivity.
  - unfold dt_le, dt_wall. cbn [dt_ord dt_sec].
    destruct (Z.leb_spec ((o - 1) * 86400 + 0) ((o2 - 1) * 86400 + 0)); [|lia].
    rewrite strftime_date_of_ord by lia.
    cbn [days_from yields fold_right]. f_equal.
    unfold add_minutes. cbn [dt_ord dt_sec dt_utcoffset].
    change ((0 + 60 * 1440) / 86400) with 1. change ((0 + 60 * 1440) mod 86400) with 0.
    change (_ymd2ord 1000 1 1) with 364878 in L. unfold MINORD.
    destruct (Z.leb_spec 1 (o + 1)); [|lia]. cbn [andb].
    destruct (Z.leb_spec (o + 1) MAXORD) as [M|M].
    + rewrite (IH turns (o + 1) o2) by
        (try lia; change (_ymd2ord 1000 1 1) with 364878; lia).
      fold (yields (days_from (o + 1) n)). f_equal.
      destruct (Z.eqb_spec o2 MAXORD) as [Q|Q]; cbn [andb]; [|reflexivity].
      destruct n as [|n]; [lia|reflexivity].
    + assert (n = 0%nat) by lia. subst n. cbn [days_from fold_right].
      destruct (Z.eqb_spec o2 MAXORD) as [Q|Q]; [reflexivity|lia].
Qed.

(** X18. For a first day written [YYYY-MM-DD] (year 1000 or later) and
    a last day, [count_days] is the difference of their ordinals plus
    one, and [iter_dates] yields that many dates and then ends: the
    calendar days from the first to the last, one after the other, each
    written [YYYY-MM-DD].  When the first day lies after the last,
    nothing is yielded (and [count_days] is 0 or negative).  When the
    last day is 9999-12-31, the generator raises [OverflowError] after
    it has yielded that day. *)
Theorem iter_dates_range (y1 m1 d1 y2 m2 d2 : Z) :
  valid_date y1 m1 d1 -> valid_date y2 m2 d2 -> 1000 <= y1 ->
  let o1 := _ymd2ord y1 m1 d1 in
  let o2 := _ymd2ord y2 m2 d2 in
  let n := Z.to_nat (o2 - o1 + 1) in
  count_days (PStr (date_text y1 m1 d1)) (PStr (date_text y2 m2 d2)) = Ok (o2 - o1 + 1)
  /\ iter_dates (PStr (date_text y1 m1 d1)) (PStr (date_text y2 m2 d2)) =
     yields (days_from o1 n)
            (if (o2 =? MAXORD) && (o1 <=? o2) then GRaise OverflowError else GDone)
  /\ List.length (days_from o1 n) = n
  /\ (forall k y m d,
        valid_date y m d -> 0 <= k <= o2 - o1 -> _ymd2ord y m d = o1 + k ->
        nth_error (days_from o1 n) (Z.to_nat k) = Some (date_text y m d)).
Proof.
  intros V1 V2 Y o1 o2 n.
  pose proof (ymd2ord_range _ _ _ V1) as R1. pose proof (ymd2ord_range _ _ _ V2) as R2.
  fold o1 in R1. fold o2 in R2.
  assert (L : _ymd2ord 1000 1 1 <= o1).
  { destruct V1 as (_ & Hm & Hd).
    destruct (Z.le_gt_cases (_ymd2ord 1000 1 1) o1) as [H|H]; [exact H|].
    pose proof (ymd2ord_year_le y1 m1 d1 1000 1 1 Hm Hd ltac:(lia)
                  ltac:(cbv; split; discriminate) ltac:(fold o1; lia)).
    assert (y1 = 1000) by lia. subst y1.
    pose proof (ymd2ord_bounds _ _ _ Hm Hd) as B. fold o1 in B.
    change (_days_before_year 1000) with 364877 in B.
    change (_ymd2ord 1000 1 1) with 364878 in H. lia. }
  split; [|split; [|split]].
  - unfold count_days. rewrite !strptime_canonical by assumption. cbn [bind].
    unfold timedelta_days, dt_wall. cbn [dt_ord dt_sec]. fold o1 o2. do 2 f_equal.
    Z.div_mod_to_equations. lia.
  - unfold iter_dates. rewrite !strptime_canonical by assumption.
    cbn [dt_ord]. fold o1 o2. fold n.
    rewrite (iter_dates_loop_unfold n (S n) o1 o2) by lia. f_equal.
    destruct (Z.eqb_spec o2 MAXORD); cbn [andb]; [|reflexivity].
    destruct (Z.leb_spec o1 o2), (Z.ltb_spec 0 (Z.of_nat n)); try reflexivity; lia.
  - apply days_from_length.
  - intros k y m d V K E. rewrite days_from_nth by lia.
    rewrite Z2Nat.id by lia. rewrite <- E. now rewrite date_of_ord_text.
Qed.

Lemma iter_dates_range_witness :
  iter_dates (PStr (date_text 2026 2 27)) (PStr (date_text 2026 3 1)) =
  yields (days_from (_ymd2ord 2026 2 27)
            (Z.to_nat (_ymd2ord 2026 3 1 - _ymd2ord 2026 2 27 + 1)))
         (if (_ymd2ord 2026 3 1 =? MAXORD) && (_ymd2ord 2026 2 27 <=? _ymd2ord 2026 3 1)
          then GRaise OverflowError else GDone)
  /\ iter_dates (PStr "2026-02-27") (PStr "2026-03-01") =
     GYield "2026-02-27" (GYield "2026-02-28" (GYield "2026-03-01" GDone)).
Proof.
  split; [|reflexivity].
  apply (iter_dates_range 2026 2 27 2026 3 1).
  - repeat split; cbv; discriminate.
  - repeat split; cbv; discriminate.
  - lia.
Defined.

(** ** The event endpoints *)

Lemma py_get_kind (obj : pyval) (k : string) (dflt : pyval) (e : exn) :
  py_get obj k dflt = Raise e -> e = AttributeError.
Proof. destruct obj; cbn [py_get]; intros H; inv H; reflexivity. Qed.

Lemma py_iter_kind (obj : pyval) (e : exn) : py_iter obj = Raise e -> e = TypeError.
Proof. destruct obj; cbn [py_iter]; intros H; inv H; reflexivity. Qed.

Lemma mapM_kind {A B : Type} (f : A -> res B) (l : list A) (e : exn) :
  (forall a e, f a = Raise e -> kind_error e) ->
  mapM f l = Raise e -> kind_error e.
Proof.
  intros Hf. induction l as [|a l IH]; cbn [mapM]; [discriminate|].
  destruct (f a) as [b|e'|] eqn:Fa; cbn [bind]; try discriminate.
  - destruct (mapM f l) as [bs|e'|]; cbn [bind]; try discriminate.
    intros H. injection H as <-. now apply IH.
  - intros H. injection H as <-. exact (Hf _ _ Fa).
Qed.

Lemma training_activity_kind (a : pyval) (e : exn) :
  training_activity a = Raise e -> kind_error e.
Proof. destruct a; cbn; intros H; inv H; left; reflexivity. Qed.

Lemma training_plan_inv (plan out : pyval) :
  training_plan plan = Ok out ->
  (truthy plan = Ok false /\ out = PNone)
  \/ (exists kv p,
        plan = PDict (kv :: p)
        /\ out = PDict [("hr_lower", field_or (kv :: p) "heartRateLower" PNone);
                        ("hr_upper", field_or (kv :: p) "heartRateUpper" PNone);
                        ("duration_minutes", field_or (kv :: p) "duration" PNone);
                        ("intensity", field_or (kv :: p) "intensity" PNone)]).
Proof.
  unfold training_plan. destruct (truthy plan) as [[|]| |] eqn:T; cbn [bind];
    try discriminate.
  - destruct plan as [| | | | | |[|kv p]]; cbn [py_get bind]; try discriminate.
    intros H. injection H as <-. right. exists kv, p. split; reflexivity.
  - intros H. injection H as <-. left. split; reflexivity.
Qed.

Lemma training_plan_kind (plan : pyval) (e : exn) :
  training_plan plan = Raise e -> kind_error e.
Proof.
  unfold training_plan. destruct (truthy plan) as [[|]| |] eqn:T; cbn [bind];
    try discriminate.
  - destruct plan; cbn [py_get bind]; intros H; inv H; left; reflexivity.
  - destruct plan; cbn in T; try discriminate T; destruct l; discriminate T.
Qed.

Lemma training_record_inv (item r : pyval) :
  training_record item = Ok r ->
  exists i v plan acts outs,
    item = PDict i /\ field_or i "value" (PDict []) = PDict v
    /\ training_plan (field_or v "exercisePlan" (PDict [])) = Ok plan
    /\ py_iter (field_or v "activities" (PList [])) = Ok acts
    /\ mapM training_activity acts = Ok outs
    /\ r = PDict [("timestamp", field_or i "timestamp" PNone);
                  ("exercise_score", field_or v "exerciseScore" PNone);
                  ("total_score", field_or v "totalScore" PNone);
                  ("target_score", field_or v "targetScore" PNone);
                  ("completion_percent", field_or v "completionPercent" PNone);
                  ("recovery_factor", field_or v "recoveryFactor" PNone);
                  ("atl", field_or v "atl" PNone); ("ctl", field_or v "ctl" PNone);
                  ("tsb", field_or v "tsb" PNone);
                  ("exercise_plan", plan); ("activities", PList outs)].
Proof.
  unfold training_record. destruct item as [| | | | | |i]; cbn [py_get bind];
    try discriminate.
  fold (field_or i "value" (PDict [])).
  destruct (field_or i "value" (PDict [])) as [| | | | | |v] eqn:V; cbn [py_get bind];
    try discriminate.
  fold (field_or v "exercisePlan" (PDict [])). fold (field_or v "activities" (PList [])).
  destruct (training_plan _) as [plan| |] eqn:P; cbn [bind]; try discriminate.
  destruct (py_iter _) as [acts| |] eqn:I; cbn [bind]; try discriminate.
  destruct (mapM training_activity acts) as [outs| |] eqn:M; cbn [bind];
    try discriminate.
  intros H. injection H as <-. exists i, v, plan, acts, outs.
  repeat (split; [first [reflexivity | assumption]|]). reflexivity.
Qed.

Lemma training_record_kind (item : pyval) (e : exn) :
  training_record item = Raise e -> kind_error e.
Proof.
  unfold training_record. destruct item as [| | | | | |i]; cbn [py_get bind];
    try (intros H; inv H; left; reflexivity).
  destruct (match dict_lookup "value" i with Some v => v | None => PDict [] end)
    as [| | | | | |v]; cbn [py_get bind];
    try (intros H; inv H; left; reflexivity).
  destruct (training_plan _) as [plan|e'|] eqn:P; cbn [bind]; try discriminate.
  2: { intros H. injection H as <-. exact (training_plan_kind _ _ P). }
  destruct (py_iter _) as [acts|e'|] eqn:I; cbn [bind]; try discriminate.
  2: { intros H. injection H as <-. right. exact (py_iter_kind _ _ I). }
  destruct (mapM training_activity acts) as [outs|e'|] eqn:M; cbn [bind];
    try discriminate.
  intros H. injection H as <-.
  exact (mapM_kind _ _ _ training_activity_kind M).
Qed.

Lemma Forall2_nth {A B : Type} (R : A -> B -> Prop) (l : list A) (l' : list B) :
  Forall2 R l l' ->
  forall k a b, nth_error l k = Some a -> nth_error l' k = Some b -> R a b.
Proof.
  induction 1 as [|x y l l' Rxy F IH]; intros k a b Ha Hb.
  - destruct k; discriminate Ha.
  - destruct k as [|k]; cbn in Ha, Hb.
    + injection Ha as <-. injection Hb as <-. exact Rxy.
    + exact (IH k a b Ha Hb).
Qed.

(** The outcomes of a method that makes one request and reads the
    response, and of one that converts a day first. *)
Lemma method_outcomes {A : Type} (request : tried pyval) (after : pyval -> res A) :
  (forall a, tbind request (fun data => lift (after data)) = TOk a
             <-> exists data, request = TOk data /\ after data = Ok a)
  /\ (tbind request (fun data => lift (after data)) = TAuth <-> request = TAuth)
  /\ (forall e, tbind request (fun data => lift (after data)) = TRaise e
                <-> request = TRaise e
                    \/ exists data, request = TOk data /\ after data = Raise e).
Proof.
  destruct request as [data| |e'|]; cbn [tbind].
  - destruct (after data) as [a'|e'|] eqn:E; cbn [lift];
      (split; [|split]); intros; split; intros H; try discriminate H;
      try (inv H; eauto; fail);
      try (destruct H as (data' & H1 & H2); inv H1; congruence);
      try (destruct H as [H|(data' & H1 & H2)]; [discriminate H|inv H1; congruence]).
  - (split; [|split]); intros; split; intros H; try discriminate H; try reflexivity;
      try (destruct H as (data' & H1 & H2); discriminate H1);
      try (destruct H as [H|(data' & H1 & H2)]; [discriminate H|discriminate H1]).
  - (split; [|split]); intros; split; intros H; try discriminate H;
      try (inv H; eauto; fail);
      try (destruct H as (data' & H1 & H2); discriminate H1);
      try (destruct H as [H|(data' & H1 & H2)]; [inv H; reflexivity|discriminate H1]).
  - (split; [|split]); intros; split; intros H; try discriminate H;
      try (destruct H as (data' & H1 & H2); discriminate H1);
      try (destruct H as [H|(data' & H1 & H2)]; [discriminate H|discriminate H1]).
Qed.

Lemma dated_method_outcomes {A : Type} (date : res Z) (request : Z -> tried pyval)
    (after : pyval -> res A) :
  (forall a,
     tbind (lift date) (fun ms => tbind (request ms) (fun data => lift (after data)))
     = TOk a
     <-> exists ms data, date = Ok ms /\ request ms = TOk data /\ after data = Ok a)
  /\ (tbind (lift date) (fun ms => tbind (request ms) (fun data => lift (after data)))
      = TAuth
      <-> exists ms, date = Ok ms /\ request ms = TAuth)
  /\ (forall e,
        tbind (lift date) (fun ms => tbind (request ms) (fun data => lift (after data)))
        = TRaise e
        <-> date = Raise e
            \/ exists ms,
                 date = Ok ms
                 /\ (request ms = TRaise e
                     \/ exists data, request ms = TOk data /\ after data = Raise e)).
Proof.
  destruct date as [ms|e'|]; cbn [lift tbind].
  - destruct (method_outcomes (request ms) after) as (O & U & R).
    split; [|split].
    + intros a. rewrite O. split.
      * intros (data & H1 & H2). now exists ms, data.
      * intros (ms' & data & H0 & H1 & H2). inv H0. now exists data.
    + rewrite U. split.
      * intros H. now exists ms.
      * intros (ms' & H0 & H1). now inv H0.
    + intros e. rewrite R. split.
      * intros H. right. now exists ms.
      * intros [H|(ms' & H0 & H)]; [discriminate H|]. now inv H0.
  - split; [|split].
    + intros a. split; [discriminate|]. intros (ms & data & H & _). discriminate H.
    + split; [discriminate|]. intros (ms & H & _). discriminate H.
    + intros e. split.
      * intros H. inv H. now left.
      * intros [H|(ms & H & _)]; [now inv H|discriminate H].
  - split; [|split].
    + intros a. split; [discriminate|]. intros (ms & data & H & _). discriminate H.
    + split; [discriminate|]. intros (ms & H & _). discriminate H.
    + intros e. split; [discriminate|].
      intros [H|(ms & H & _)]; discriminate H.
Qed.

(** X19. [get_training_load] returns one record per item of the
    response, in the order of the items.  Every record has the eleven
    keys [timestamp] ... [activities], in this order; a number that the
    item lacks is [None]; [exercise_plan] is [None] exactly when the
    item's plan is absent, empty or otherwise counts as false, and else
    holds the four fields of the plan; [activities] has one entry per
    activity.  The method converts its last day before it asks the
    service, so a day that is no date raises [ValueError] whatever the
    service would answer; its first day is not used.  After that it
    raises [ZeppAPIError] when the request does, and [AttributeError] or
    [TypeError] for a response with a value of the wrong kind: what is
    missing never raises [KeyError], but an item whose [value] is [null]
    raises [AttributeError], since the default applies to an absent key
    only. *)
Theorem get_training_load_records :
  (forall data rs,
     get_training_load data = Ok rs ->
     exists dd items,
       data = PDict dd /\ py_iter (field_or dd "items" (PList [])) = Ok items
       /\ List.length rs = List.length items
       /\ forall k item r,
            nth_error items k = Some item -> nth_error rs k = Some r ->
            exists i v rd acts outs,
              item = PDict i /\ field_or i "value" (PDict []) = PDict v
              /\ r = PDict rd /\ map fst rd = training_keys
              /\ dict_lookup "timestamp" rd = Some (field_or i "timestamp" PNone)
              /\ dict_lookup "exercise_score" rd = Some (field_or v "exerciseScore" PNone)
              /\ dict_lookup "total_score" rd = Some (field_or v "totalScore" PNone)
              /\ dict_lookup "target_score" rd = Some (field_or v "targetScore" PNone)
              /\ dict_lookup "completion_percent" rd
                 = Some (field_or v "completionPercent" PNone)
              /\ dict_lookup "recovery_factor" rd
                 = Some (field_or v "recoveryFactor" PNone)
              /\ dict_lookup "atl" rd = Some (field_or v "atl" PNone)
              /\ dict_lookup "ctl" rd = Some (field_or v "ctl" PNone)
              /\ dict_lookup "tsb" rd = Some (field_or v "tsb" PNone)
              /\ (dict_lookup "exercise_plan" rd = Some PNone
                  <-> truthy (field_or v "exercisePlan" (PDict [])) = Ok false)
              /\ (forall p,
                    field_or v "exercisePlan" (PDict []) = PDict p -> p <> [] ->
                    dict_lookup "exercise_plan" rd =
                    Some (PDict [("hr_lower", field_or p "heartRateLower" PNone);
                                 ("hr_upper", field_or p "heartRateUpper" PNone);
                                 ("duration_minutes", field_or p "duration" PNone);
                                 ("intensity", field_or p "intensity" PNone)]))
              /\ py_iter (field_or v "activities" (PList [])) = Ok acts
              /\ dict_lookup "activities" rd = Some (PList outs)
              /\ List.length outs = List.length acts)
  /\ (forall lo http from_date to_date e,
        ZeppClient.get_training_load lo http from_date to_date = TRaise e ->
        (e = ValueError /\ _end_of_day_ms lo (PStr to_date) = Raise e)
        \/ exists to_ms,
             _end_of_day_ms lo (PStr to_date) = Ok to_ms
             /\ ((e = ZeppAPIError
                  /\ ZeppClient.events_v2_request http "exertion" "algo_result" 0 to_ms
                     = TRaise e)
                 \/ (kind_error e
                     /\ exists data,
                          ZeppClient.events_v2_request http "exertion" "algo_result"
                            0 to_ms = TOk data
                          /\ get_training_load data = Raise e)))
  /\ (forall lo http from_date to_date rs,
        ZeppClient.get_training_load lo http from_date to_date = TOk rs <->
        exists to_ms data,
          _end_of_day_ms lo (PStr to_date) = Ok to_ms
          /\ ZeppClient.events_v2_request http "exertion" "algo_result" 0 to_ms
             = TOk data
          /\ get_training_load data = Ok rs)
  /\ (forall lo http from_date,
        ZeppClient.get_training_load lo http from_date "2026-02-30" = TRaise ValueError)
  /\ (forall lo http from_date from_date' to_date,
        ZeppClient.get_training_load lo http from_date to_date =
        ZeppClient.get_training_load lo http from_date' to_date)
  /\ (forall dd i items,
        dict_lookup "items" dd = Some (PList (PDict i :: items)) ->
        dict_lookup "value" i = Some PNone ->
        get_training_load (PDict dd) = Raise AttributeError).
Proof.
  assert (K : forall data e, get_training_load data = Raise e -> kind_error e).
  { intros data e H. unfold get_training_load, _fetch_events_v2 in H.
    destruct (py_get data "items" (PList [])) as [items|e'|] eqn:G; cbn [bind] in H;
      try discriminate H.
    2: { injection H as <-. left. exact (py_get_kind _ _ _ _ G). }
    destruct (py_iter items) as [its|e'|] eqn:I; cbn [bind] in H; try discriminate H.
    2: { injection H as <-. right. exact (py_iter_kind _ _ I). }
    exact (mapM_kind _ _ _ training_record_kind H). }
  split; [|split; [|split; [|split; [reflexivity|split; [reflexivity|]]]]].
  - intros data rs H. unfold get_training_load, _fetch_events_v2 in H.
    destruct data as [| | | | | |dd]; cbn [py_get bind] in H; try discriminate H.
    fold (field_or dd "items" (PList [])) in H.
    destruct (py_iter (field_or dd "items" (PList []))) as [items| |] eqn:I;
      cbn [bind] in H; try discriminate H.
    exists dd, items. split; [reflexivity|]. split; [exact I|].
    split; [exact (mapM_length _ _ _ H)|].
    intros k item r Hi Hr.
    pose proof (Forall2_nth _ _ _ (mapM_Forall2 _ _ _ H) k item r Hi Hr) as T.
    cbv beta in T.
    apply training_record_inv in T
      as (i & v & plan & acts & outs & -> & V & P & A & M & ->).
    eexists i, v, _, acts, outs.
    split; [reflexivity|]. split; [exact V|]. split; [reflexivity|].
    split; [reflexivity|].
    do 9 (split; [reflexivity|]).
    split; [|split; [|split; [exact A|split; [reflexivity|]]]].
    + change (dict_lookup "exercise_plan" _) with (Some plan).
      apply training_plan_inv in P as [[T ->]|(kv & p & E & ->)].
      * split; auto.
      * rewrite E. cbn [truthy]. split; discriminate.
    + intros p E N. change (dict_lookup "exercise_plan" _) with (Some plan).
      rewrite E in P. apply training_plan_inv in P as [[T _]|(kv & p' & E' & ->)].
      * destruct p; [contradiction|discriminate T].
      * injection E' as ->. reflexivity.
    + exact (mapM_length _ _ _ M).
  - intros lo http from_date to_date e H.
    apply (proj2 (proj2 (dated_method_outcomes _ _ _))) in H
      as [H|(to_ms & D & [H|(data & R & H)])].
    + left. split; [|exact H]. exact (date_to_ms_raises lo to_date e (or_intror H)).
    + right. exists to_ms. split; [exact D|]. left. split; [|exact H].
      exact (request_raises _ _ _ _ _ H).
    + right. exists to_ms. split; [exact D|]. right. split; [exact (K _ _ H)|].
      now exists data.
  - intros lo http from_date to_date rs.
    apply (proj1 (dated_method_outcomes _ _ _)).
  - intros dd i items L V. unfold get_training_load, _fetch_events_v2.
    cbn [py_get bind]. rewrite L. cbn [py_iter bind mapM].
    unfold training_record. cbn [py_get bind]. rewrite V. reflexivity.
Qed.

Lemma get_training_load_records_witness :
  ZeppClient.get_training_load utc_minus_6
    (fun _ _ _ =>
       Answer 200 (Json (PDict [("items", PList [PDict [("timestamp", PInt 1770336000000);
                                                        ("value", PNone)]])])))
    "2026-02-01" "2026-02-06" = TRaise AttributeError
  /\ ((AttributeError = ValueError
       /\ _end_of_day_ms utc_minus_6 (PStr "2026-02-06") = Raise AttributeError)
      \/ exists to_ms,
           _end_of_day_ms utc_minus_6 (PStr "2026-02-06") = Ok to_ms
           /\ ((AttributeError = ZeppAPIError
                /\ ZeppClient.events_v2_request
                     (fun _ _ _ =>
                        Answer 200
                          (Json (PDict [("items",
                                         PList [PDict [("timestamp", PInt 1770336000000);
                                                       ("value", PNone)]])])))
                     "exertion" "algo_result" 0 to_ms = TRaise AttributeError)
               \/ (kind_error AttributeError
                   /\ exists data,
                        ZeppClient.events_v2_request
                          (fun _ _ _ =>
                             Answer 200
                               (Json (PDict [("items",
                                              PList [PDict [("timestamp",
                                                             PInt 1770336000000);
                                                            ("value", PNone)]])])))
                          "exertion" "algo_result" 0 to_ms = TOk data
                        /\ get_training_load data = Raise AttributeError))).
Proof.
  split; [reflexivity|].
  apply (proj1 (proj2 get_training_load_records) utc_minus_6 _ "2026-02-01" "2026-02-06").
  reflexivity.
Defined.








(** ** The summary of the local server *)

Lemma list_min_spec (zs : list Z) : forall z,
  In (list_min z zs) (z :: zs) /\ forall x, In x (z :: zs) -> list_min z zs <= x.
Proof.
  unfold list_min. induction zs as [|a zs IH]; intros z; cbn [fold_left].
  - split; [now left|]. intros x [<-|[]]. lia.
  - destruct (IH (Z.min z a)) as [I L]. split.
    + destruct I as [I|I]; [|right; right; exact I].
      rewrite <- I. destruct (Z.min_spec z a) as [[_ ->]|[_ ->]]; [left|right; left];
        reflexivity.
    + intros x [E|[E|H]].
      * pose proof (L (Z.min z a) (or_introl eq_refl)). lia.
      * pose proof (L (Z.min z a) (or_introl eq_refl)). lia.
      * apply L. now right.
Qed.

Lemma list_max_spec (zs : list Z) : forall z,
  In (list_max z zs) (z :: zs) /\ forall x, In x (z :: zs) -> x <= list_max z zs.
Proof.
  unfold list_max. induction zs as [|a zs IH]; intros z; cbn [fold_left].
  - split; [now left|]. intros x [<-|[]]. lia.
  - destruct (IH (Z.max z a)) as [I L]. split.
    + destruct I as [I|I]; [|right; right; exact I].
      rewrite <- I. destruct (Z.max_spec z a) as [[_ ->]|[_ ->]]; [right; left|left];
        reflexivity.
    + intros x [E|[E|H]].
      * pose proof (L (Z.max z a) (or_introl eq_refl)). lia.
      * pose proof (L (Z.max z a) (or_introl eq_refl)). lia.
      * apply L. now right.
Qed.

Lemma list_sum_bounds (lo hi : Z) (zs : list Z) :
  (forall x, In x zs -> lo <= x <= hi) ->
  forall a,
    a + lo * Z.of_nat (List.length zs) <= fold_left Z.add zs a
    <= a + hi * Z.of_nat (List.length zs).
Proof.
  induction zs as [|z zs IH]; intros B a; cbn [fold_left List.length].
  - lia.
  - pose proof (B z (or_introl eq_refl)).
    pose proof (IH (fun x H => B x (or_intror H)) (a + z)). lia.
Qed.

Lemma bpm_values (l : list (Z * Z)) :
  mapM (fun r => py_item r "bpm") (map (fun iv => hr_reading (fst iv) (snd iv)) l)
  = Ok (map (fun iv => PInt (snd iv)) l).
Proof.
  induction l as [|[i v] l IH]; [reflexivity|].
  cbn [map mapM]. rewrite IH. reflexivity.
Qed.

Lemma int_values_ints (l : list (Z * Z)) :
  int_values (map (fun iv => PInt (snd iv)) l) = Ok (map snd l).
Proof.
  induction l as [|[i v] l IH]; [reflexivity|].
  cbn [map int_values]. rewrite IH. reflexivity.
Qed.

(** X21. The heart-rate entry of the day's summary, made of the
    readings that the decoder gives for the bytes of a day: without a
    reading it is [None]; else it holds the number of readings, and a
    minimum, an average and a maximum with
    [1 <= min <= avg <= max <= 253], the minimum and the maximum being
    rates of readings of the day and every rate of the day lying between
    them. *)
Theorem heart_rate_summary_bounds (bs : list byte) :
  (hr_samples bs = [] -> heart_rate_summary (PList (hr_samples bs)) = Ok PNone)
  /\ (hr_samples bs <> [] ->
      exists avg lo hi,
        heart_rate_summary (PList (hr_samples bs)) =
        Ok (PDict [("readings", PInt (Z.of_nat (List.length (hr_samples bs))));
                   ("avg", PInt avg); ("min", PInt lo); ("max", PInt hi)])
        /\ 1 <= lo /\ lo <= avg /\ avg <= hi /\ hi <= 253
        /\ (exists i, In (hr_reading i lo) (hr_samples bs))
        /\ (exists j, In (hr_reading j hi) (hr_samples bs))
        /\ (forall i v, In (hr_reading i v) (hr_samples bs) -> lo <= v <= hi)).
Proof.
  split.
  - intros E. rewrite E. reflexivity.
  - intros N. unfold heart_rate_summary.
    assert (T : truthy (PList (hr_samples bs)) = Ok true)
      by (destruct (hr_samples bs); [contradiction|reflexivity]).
    rewrite T. cbn [bind py_iter].
    assert (B : forall iv,
               In iv (filter (fun iv => valid_bpm (snd iv)) (enumerate_from 0 bs)) ->
               In (hr_reading (fst iv) (snd iv)) (hr_samples bs) /\ 1 <= snd iv <= 253).
    { intros iv H. split.
      - unfold hr_samples. apply in_map_iff. exists iv. auto.
      - apply filter_In in H as [_ V]. unfold valid_bpm in V.
        apply andb_prop in V as [V1 V2]. apply Z.ltb_lt in V1, V2. lia. }
    clear T. unfold hr_samples in N, B |- *. rewrite bpm_values. cbn [bind].
    rewrite int_values_ints. cbn [bind].
    rewrite !length_map in *.
    set (l := filter (fun iv => valid_bpm (snd iv)) (enumerate_from 0 bs)) in *.
    destruct l as [|[i0 v0] l'] eqn:El; [contradiction|].
    cbn [map snd].
    destruct (list_min_spec (map snd l') v0) as [Imin Lmin].
    destruct (list_max_spec (map snd l') v0) as [Imax Lmax].
    change (v0 :: map snd l') with (map snd ((i0, v0) :: l')) in Imin, Lmin, Imax, Lmax.
    set (lo := list_min v0 (map snd l')) in *.
    set (hi := list_max v0 (map snd l')) in *.
    apply in_map_iff in Imin as [[imin vmin] [Emin Imin]].
    apply in_map_iff in Imax as [[imax vmax] [Emax Imax]].
    cbn [snd] in Emin, Emax. subst vmin vmax.
    destruct (B _ Imin) as [Rmin Bmin]. destruct (B _ Imax) as [Rmax Bmax].
    cbn [fst snd] in Rmin, Rmax, Bmin, Bmax.
    exists (list_sum (v0 :: map snd l') / Z.of_nat (List.length ((i0, v0) :: l'))),
      lo, hi.
    split; [reflexivity|].
    assert (S : lo * Z.of_nat (List.length ((i0, v0) :: l'))
                <= list_sum (v0 :: map snd l')
                <= hi * Z.of_nat (List.length ((i0, v0) :: l'))).
    { pose proof (list_sum_bounds lo hi (map snd ((i0, v0) :: l'))) as Q.
      rewrite length_map in Q. unfold list_sum.
      change (v0 :: map snd l') with (map snd ((i0, v0) :: l')).
      specialize (Q (fun x H => conj (Lmin x H) (Lmax x H)) 0). lia. }
    assert (P : 0 < Z.of_nat (List.length ((i0, v0) :: l'))) by (cbn [List.length]; lia).
    split; [lia|]. split; [apply Z.div_le_lower_bound; lia|].
    split; [apply Z.div_le_upper_bound; lia|]. split; [lia|].
    split; [exists imin; exact Rmin|]. split; [exists imax; exact Rmax|].
    intros i v H.
    change (In (hr_reading i v)
              (map (fun iv => hr_reading (fst iv) (snd iv)) ((i0, v0) :: l'))) in H.
    apply in_map_iff in H as [[j w] [E H]]. cbn [fst snd] in E.
    assert (w = v) as -> by (unfold hr_reading in E; injection E as _ _ ?; assumption).
    split; [apply Lmin | apply Lmax]; apply in_map_iff; exists (j, v); auto.
Qed.

Lemma heart_rate_summary_bounds_witness :
  heart_rate_summary (PList (hr_samples [Byte.x00; Byte.xff])) = Ok PNone
  /\ heart_rate_summary (PList (hr_samples [Byte.x48; Byte.x00; Byte.x4b; Byte.x41])) =
     Ok (PDict [("readings", PInt 3); ("avg", PInt 70); ("min", PInt 65);
                ("max", PInt 75)]).
Proof.
  split; [|reflexivity].
  apply (proj1 (heart_rate_summary_bounds [Byte.x00; Byte.xff])). reflexivity.
Defined.

(** ** Days as query windows *)

Lemma local_seconds_constant (lo : Z -> Z) (c u : Z) :
  (forall t, lo t = c) ->
  MINORD * 86400 <= u + c < (MAXORD + 1) * 86400 ->
  local_seconds lo u = Ok (u + c).
Proof.
  intros C B. unfold local_seconds, EPOCH_SECONDS. cbv zeta. rewrite C.
  unfold MINORD, MAXORD, EPOCH_ORD in *.
  destruct (Z.leb_spec 1 (719163 + (u - 719163 * 86400 + c) / 86400));
    [|Z.div_mod_to_equations; lia].
  destruct (Z.leb_spec (719163 + (u - 719163 * 86400 + c) / 86400) 3652059);
    [|Z.div_mod_to_equations; lia].
  cbn [andb]. f_equal. Z.div_mod_to_equations. lia.
Qed.

Lemma timestamp_constant (lo : Z -> Z) (c ord sec : Z) (off : option Z) :
  (forall t, lo t = c) -> -86400 < c < 86400 ->
  MINORD < ord < MAXORD -> 0 <= sec < 86400 ->
  timestamp lo (mkdt ord sec off) = Ok ((ord - EPOCH_ORD) * 86400 + sec - c).
Proof.
  intros C Bc Bo Bs. unfold timestamp, local_to_seconds. cbn [dt_ord dt_sec]. cbv zeta.
  unfold MINORD, MAXORD in *.
  rewrite (local_seconds_constant lo c _ C) by (unfold MINORD, MAXORD; lia).
  cbn [bind].
  replace (ord * 86400 + sec - (ord * 86400 + sec + c - (ord * 86400 + sec)))
    with (ord * 86400 + sec - c) by lia.
  rewrite (local_seconds_constant lo c _ C) by (unfold MINORD, MAXORD; lia).
  cbn [bind].
  replace (ord * 86400 + sec - c + c) with (ord * 86400 + sec) by lia.
  rewrite Z.eqb_refl.
  rewrite (local_seconds_constant lo c _ C) by (unfold MINORD, MAXORD; lia).
  cbn [bind].
  replace (ord * 86400 + sec - c - 86400 + c - (ord * 86400 + sec - c - 86400))
    with c by lia.
  replace (ord * 86400 + sec + c - (ord * 86400 + sec)) with c by lia.
  rewrite Z.eqb_refl. cbn [bind]. unfold EPOCH_SECONDS. f_equal. lia.
Qed.

(** X22. The window of a day.  [_end_of_day_ms] is always
    [_date_to_ms] plus 24 hours less one millisecond, whatever the local
    zone does on that day.  In a zone of constant offset, for a date
    written [YYYY-MM-DD] other than the first and the last day of the
    calendar, [_date_to_ms] is the instant of the local midnight that
    starts the day, and the instants (in whole seconds) from it to
    [_end_of_day_ms] are exactly those that [fromtimestamp] puts on
    that day. *)
Theorem day_window (lo : Z -> Z) :
  (forall s ms, _date_to_ms lo s = Ok ms -> _end_of_day_ms lo s = Ok (ms + 86399999))
  /\ (forall c y m d,
        (forall t, lo t = c) -> -86400 < c < 86400 ->
        valid_date y m d -> MINORD < _ymd2ord y m d < MAXORD ->
        let start := ((_ymd2ord y m d - EPOCH_ORD) * 86400 - c) * 1000 in
        _date_to_ms lo (PStr (date_text y m d)) = Ok start
        /\ _end_of_day_ms lo (PStr (date_text y m d)) = Ok (start + 86399999)
        /\ forall t,
             start <= t * 1000 <= start + 86399999 <->
             exists sec, fromtimestamp lo (PInt t) = Ok (mkdt (_ymd2ord y m d) sec None)).
Proof.
  split.
  - intros s ms. unfold _date_to_ms, _end_of_day_ms.
    destruct (strptime_ymd s) as [dt| |]; cbn [bind]; try discriminate.
    destruct (timestamp lo dt) as [ts| |]; cbn [bind]; try discriminate.
    intros H. injection H as <-. f_equal. lia.
  - intros c y m d C Bc V Bo start.
    assert (S : _date_to_ms lo (PStr (date_text y m d)) = Ok start).
    { unfold _date_to_ms. rewrite (strptime_canonical _ _ _ V). cbn [bind].
      rewrite (timestamp_constant lo c _ 0 None C Bc Bo ltac:(lia)). cbn [bind].
      subst start. f_equal. lia. }
    split; [exact S|]. split.
    + unfold _date_to_ms in S. unfold _end_of_day_ms.
      destruct (strptime_ymd _) as [dt| |]; cbn [bind] in S |- *; try discriminate S.
      destruct (timestamp lo dt) as [ts| |]; cbn [bind] in S |- *; try discriminate S.
      injection S as <-. f_equal. lia.
    + intros t. unfold fromtimestamp. cbn [as_int bind]. cbv zeta. rewrite C.
      subst start. unfold MINORD, MAXORD, EPOCH_ORD in *.
      clear S V. generalize dependent (_ymd2ord y m d). intros o Bo.
      assert (W : (o - 719163) * 86400 * 1000 - c * 1000 <= t * 1000
                  <= (o - 719163) * 86400 * 1000 - c * 1000 + 86399999
                  <-> 719163 + (t + c) / 86400 = o).
      { split; intros H.
        - assert (H1 : (o - 719163) * 86400 <= t + c) by lia.
          assert (H2 : t + c < (o - 719163) * 86400 + 86400) by lia.
          generalize dependent (t + c). intros w H1 H2.
          Z.div_mod_to_equations. lia.
        - assert (H1 : (o - 719163) * 86400 <= t + c
                       /\ t + c < (o - 719163) * 86400 + 86400).
          { generalize dependent (t + c). intros w H.
            Z.div_mod_to_equations. lia. }
          lia. }
      replace (((o - 719163) * 86400 - c) * 1000)
        with ((o - 719163) * 86400 * 1000 - c * 1000) by lia.
      rewrite W. split.
      * intros E. exists ((t + c) mod 86400). rewrite E.
        destruct (Z.leb_spec 1 o); [|lia].
        destruct (Z.leb_spec o 3652059); [|lia]. reflexivity.
      * intros [sec H].
        destruct ((1 <=? 719163 + (t + c) / 86400)
                  && (719163 + (t + c) / 86400 <=? 3652059)); [|discriminate H].
        apply (f_equal (fun r => match r with Ok dt => dt_ord dt | _ => 0 end)) in H.
        exact H.
Qed.

Lemma day_window_witness :
  _date_to_ms utc_minus_6 (PStr (date_text 2026 2 6)) = Ok 1770357600000
  /\ _end_of_day_ms utc_minus_6 (PStr (date_text 2026 2 6)) = Ok (1770357600000 + 86399999).
Proof.
  split; [vm_compute; reflexivity|].
  apply (proj1 (day_window utc_minus_6) (PStr (date_text 2026 2 6)) 1770357600000).
  vm_compute. reflexivity.
Defined.

(** ** Credentials of the command line *)

Lemma config_line_fields (c : credentials) (line : string) :
  let '(t, u, b) := c in
  let '(t', u', b') := config_line c line in
  (if unset t then
     match config_entry line with
     | Some (k, v) => if String.eqb k "ZEPP_TOKEN" then t' = Some v else t' = t
     | None => t' = t
     end
   else t' = t)
  /\ (if unset u then
        match config_entry line with
        | Some (k, v) => if String.eqb k "ZEPP_USER_ID" then u' = Some v else u' = u
        | None => u' = u
        end
      else u' = u)
  /\ (if unset b then
        match config_entry line with
        | Some (k, v) => if String.eqb k "ZEPP_BASE_URL" then b' = Some v else b' = b
        | None => b' = b
        end
      else b' = b).
Proof.
  destruct c as [[t u] b]. unfold config_line.
  destruct (config_entry line) as [[k v]|].
  2: { destruct (unset t), (unset u), (unset b); auto. }
  destruct (String.eqb_spec k "ZEPP_TOKEN") as [->|N1].
  { cbn [andb String.eqb Ascii.eqb Bool.eqb].
    destruct (unset t), (unset u), (unset b); cbn [andb]; auto. }
  destruct (String.eqb_spec k "ZEPP_USER_ID") as [->|N2].
  { cbn [andb String.eqb Ascii.eqb Bool.eqb].
    destruct (unset t), (unset u), (unset b); cbn [andb]; auto. }
  destruct (String.eqb_spec k "ZEPP_BASE_URL") as [->|N3].
  { cbn [andb String.eqb Ascii.eqb Bool.eqb].
    destruct (unset t), (unset u), (unset b); cbn [andb]; auto. }
  cbn [andb]. destruct (unset t), (unset u), (unset b); auto.
Qed.

Lemma config_lines_completed (lines : list string) : forall t u b t' u' b',
  fold_left config_line lines (t, u, b) = (t', u', b') ->
  completed t "ZEPP_TOKEN" lines t'
  /\ completed u "ZEPP_USER_ID" lines u'
  /\ completed b "ZEPP_BASE_URL" lines b'.
Proof.
  induction lines as [|line lines IH]; intros t u b t' u' b' H.
  - cbn in H. injection H as <- <- <-. unfold completed. cbn [first_value].
    destruct (unset t) eqn:T, (unset u) eqn:U, (unset b) eqn:B; auto.
  - cbn [fold_left] in H. pose proof (config_line_fields (t, u, b) line) as F.
    cbv beta iota in F.
    destruct (config_line (t, u, b) line) as [[t1 u1] b1].
    destruct F as (Ft & Fu & Fb). apply IH in H as (Ht & Hu & Hb).
    unfold completed in *. cbn [first_value].
    repeat split.
    + destruct (unset t) eqn:T; [|subst t1; now rewrite T in Ht].
      destruct (config_entry line) as [[k v]|]; [|subst t1; now rewrite T in Ht].
      destruct (String.eqb k "ZEPP_TOKEN"); [|subst t1; now rewrite T in Ht].
      subst t1. cbn [andb unset] in *. destruct (String.eqb v EmptyString); exact Ht.
    + destruct (unset u) eqn:T; [|subst u1; now rewrite T in Hu].
      destruct (config_entry line) as [[k v]|]; [|subst u1; now rewrite T in Hu].
      destruct (String.eqb k "ZEPP_USER_ID"); [|subst u1; now rewrite T in Hu].
      subst u1. cbn [andb unset] in *. destruct (String.eqb v EmptyString); exact Hu.
    + destruct (unset b) eqn:T; [|subst b1; now rewrite T in Hb].
      destruct (config_entry line) as [[k v]|]; [|subst b1; now rewrite T in Hb].
      destruct (String.eqb k "ZEPP_BASE_URL"); [|subst b1; now rewrite T in Hb].
      subst b1. cbn [andb unset] in *. destruct (String.eqb v EmptyString); exact Hb.
Qed.

(** X23. Where the credentials come from.  The environment comes
    first: [ZEPP_TOKEN] before [HUAMI_APP_TOKEN] and [ZEPP_USER_ID]
    before [HUAMI_USER_ID], an empty value counting as none.  When it
    gives both a token and a user id, the config file is not consulted,
    not even for the base URL.  Else, with a config file of ASCII lines,
    each of the three values that the environment leaves unset is the
    first value of its key in the file that is not empty (stays unset
    without one), and a value that the environment sets is never
    replaced. *)
Theorem resolve_credentials_precedence (getenv : string -> option string) :
  let token := py_or (getenv "ZEPP_TOKEN") (getenv "HUAMI_APP_TOKEN") in
  let user_id := py_or (getenv "ZEPP_USER_ID") (getenv "HUAMI_USER_ID") in
  let base_url := getenv "ZEPP_BASE_URL" in
  (forall config,
     unset token = false -> unset user_id = false ->
     resolve_credentials getenv config = Ok (token, user_id, base_url))
  /\ resolve_credentials getenv None = Ok (token, user_id, base_url)
  /\ (forall lines,
        forallb is_ascii lines = true ->
        unset token = true \/ unset user_id = true ->
        exists t u b,
          resolve_credentials getenv (Some lines) = Ok (t, u, b)
          /\ completed token "ZEPP_TOKEN" lines t
          /\ completed user_id "ZEPP_USER_ID" lines u
          /\ completed base_url "ZEPP_BASE_URL" lines b)
  /\ (unset (getenv "ZEPP_TOKEN") = false -> token = getenv "ZEPP_TOKEN")
  /\ (unset (getenv "ZEPP_USER_ID") = false -> user_id = getenv "ZEPP_USER_ID").
Proof.
  intros token user_id base_url. split; [|split; [|split; [|split]]].
  - intros config T U. unfold resolve_credentials. fold token user_id base_url.
    now rewrite T, U.
  - unfold resolve_credentials. fold token user_id base_url.
    destruct (unset token || unset user_id); reflexivity.
  - intros lines A M. unfold resolve_credentials. fold token user_id base_url.
    assert (E : unset token || unset user_id = true)
      by (destruct M as [-> | ->]; [reflexivity | apply orb_true_r]).
    rewrite E, A.
    destruct (fold_left config_line lines (token, user_id, base_url))
      as [[t u] b] eqn:F.
    exists t, u, b. split; [reflexivity|]. exact (config_lines_completed _ _ _ _ _ _ _ F).
  - intros H. subst token. unfold py_or. now rewrite H.
  - intros H. subst user_id. unfold py_or. now rewrite H.
Qed.

Lemma resolve_credentials_precedence_witness :
  resolve_credentials
    (fun k => if String.eqb k "ZEPP_TOKEN" then Some "abc"
              else if String.eqb k "ZEPP_USER_ID" then Some "42" else None)
    (Some ["ZEPP_BASE_URL = https://api-mifit.huami.com"]) =
  Ok (Some "abc", Some "42", None)
  /\ resolve_credentials
       (fun k => if String.eqb k "HUAMI_APP_TOKEN" then Some "abc" else None)
       (Some ["# credentials"; "ZEPP_USER_ID ="; " ZEPP_USER_ID = 42 ";
              "ZEPP_USER_ID=43"; "ZEPP_TOKEN=xyz"]) =
     Ok (Some "abc", Some "42", None).
Proof.
  split; [|reflexivity].
  apply (proj1 (resolve_credentials_precedence
                  (fun k => if String.eqb k "ZEPP_TOKEN" then Some "abc"
                            else if String.eqb k "ZEPP_USER_ID" then Some "42"
                                 else None))); reflexivity.
Defined.

(** ** Days in calendar order *)

Lemma compare_append (a a' : string) : forall r r',
  String.length a = String.length a' ->
  String.compare (a +++ r) (a' +++ r') =
  match String.compare a a' with Eq => String.compare r r' | c => c end.
Proof.
  revert a'. induction a as [|c a IH]; intros [|c' a'] r r' L; try discriminate L.
  - reflexivity.
  - cbn [String.append String.compare]. injection L as L.
    destruct (Ascii.compare c c'); [now apply IH|reflexivity..].
Qed.

Lemma two_digits_compare (a b : Z) :
  0 <= a < 100 -> 0 <= b < 100 ->
  String.compare (two_digits a) (two_digits b) = (a ?= b).
Proof.
  intros Ha Hb.
  assert (C : forall_from 100 0
                (fun a => forall_from 100 0
                   (fun b => match String.compare (two_digits a) (two_digits b), a ?= b with
                             | Eq, Eq | Lt, Lt | Gt, Gt => true
                             | _, _ => false
                             end)) = true)
    by (vm_compute; reflexivity).
  pose proof (forall_from_spec _ _ _ C a ltac:(lia)) as Ca. cbv beta in Ca.
  pose proof (forall_from_spec _ _ _ Ca b ltac:(lia)) as Cb. cbv beta in Cb.
  destruct (String.compare (two_digits a) (two_digits b)), (a ?= b);
    try reflexivity; discriminate Cb.
Qed.

Lemma four_digits_split (y : Z) :
  0 <= y < 10000 -> four_digits y = two_digits (y / 100) +++ two_digits (y mod 100).
Proof.
  intros H. unfold four_digits, two_digits. cbn [String.append].
  assert (E1 : y / 100 / 10 = y / 1000) by (rewrite Z.div_div by lia; reflexivity).
  assert (E2 : (y / 100) mod 10 = y / 100 mod 10) by reflexivity.
  assert (E3 : y mod 100 / 10 = y / 10 mod 10) by (Z.div_mod_to_equations; lia).
  assert (E4 : (y mod 100) mod 10 = y mod 10) by (Z.div_mod_to_equations; lia).
  now rewrite E1, E3, E4.
Qed.

Lemma date_text_compare (y m d y' m' d' : Z) :
  0 <= y < 10000 -> 0 <= m < 100 -> 0 <= d < 100 ->
  0 <= y' < 10000 -> 0 <= m' < 100 -> 0 <= d' < 100 ->
  String.compare (date_text y m d) (date_text y' m' d') =
  match y ?= y' with
  | Eq => match m ?= m' with Eq => d ?= d' | c => c end
  | c => c
  end.
Proof.
  intros Hy Hm Hd Hy' Hm' Hd'. unfold date_text.
  rewrite !four_digits_split by assumption. rewrite !append_assoc3.
  rewrite compare_append by reflexivity.
  rewrite two_digits_compare by (Z.div_mod_to_equations; lia).
  rewrite compare_append by reflexivity.
  rewrite two_digits_compare by (Z.div_mod_to_equations; lia).
  rewrite (compare_append "-" "-") by reflexivity. cbn [String.compare Ascii.compare].
  change (String.compare "-" "-") with Eq. cbv iota.
  rewrite compare_append by reflexivity. rewrite two_digits_compare by assumption.
  rewrite (compare_append "-" "-") by reflexivity.
  change (String.compare "-" "-") with Eq. cbv iota.
  rewrite two_digits_compare by assumption.
  destruct (Z.compare_spec (y / 100) (y' / 100)) as [E1|E1|E1].
  - destruct (Z.compare_spec (y mod 100) (y' mod 100)) as [E2|E2|E2].
    + assert (y = y') by (Z.div_mod_to_equations; lia). subst y'.
      now rewrite Z.compare_refl.
    + assert (L : y < y') by (Z.div_mod_to_equations; lia).
      apply Z.compare_lt_iff in L. now rewrite L.
    + assert (L : y' < y) by (Z.div_mod_to_equations; lia).
      apply Z.compare_gt_iff in L. now rewrite L.
  - assert (L : y < y') by (Z.div_mod_to_equations; lia).
    apply Z.compare_lt_iff in L. now rewrite L.
  - assert (L : y' < y) by (Z.div_mod_to_equations; lia).
    apply Z.compare_gt_iff in L. now rewrite L.
Qed.

Lemma months_in_order (leap : bool) (m m' : Z) :
  1 <= m <= 12 -> 1 <= m' <= 12 -> m < m' ->
  days_before leap m + days_in leap m <= days_before leap m'.
Proof.
  intros Hm Hm' L.
  destruct (month_cases m Hm) as [E|[E|[E|[E|[E|[E|[E|[E|[E|[E|[E|E]]]]]]]]]]];
    subst m;
    destruct (month_cases m' Hm') as [E|[E|[E|[E|[E|[E|[E|[E|[E|[E|[E|E]]]]]]]]]]];
    subst m'; try lia; destruct leap; calc_days; lia.
Qed.

Lemma ymd2ord_compare (y m d y' m' d' : Z) :
  valid_date y m d -> valid_date y' m' d' ->
  (_ymd2ord y m d ?= _ymd2ord y' m' d') =
  match y ?= y' with
  | Eq => match m ?= m' with Eq => d ?= d' | c => c end
  | c => c
  end.
Proof.
  intros (Hy & Hm & Hd) (Hy' & Hm' & Hd').
  pose proof (ymd2ord_bounds _ _ _ Hm Hd) as B.
  pose proof (ymd2ord_bounds _ _ _ Hm' Hd') as B'.
  destruct (Z.compare_spec y y') as [E|L|L].
  - subst y'. rewrite days_in_month_eq in Hd, Hd'. unfold _ymd2ord.
    rewrite !days_before_month_eq.
    destruct (Z.compare_spec m m') as [E|L|L].
    + subst m'. destruct (Z.compare_spec d d') as [E|L|L].
      * subst d'. apply Z.compare_refl.
      * apply Z.compare_lt_iff. lia.
      * apply Z.compare_gt_iff. lia.
    + pose proof (months_in_order (_is_leap y) m m' Hm Hm' L).
      apply Z.compare_lt_iff. lia.
    + pose proof (months_in_order (_is_leap y) m' m Hm' Hm L).
      apply Z.compare_gt_iff. lia.
  - pose proof (dby_mono (y + 1) y' ltac:(lia)). apply Z.compare_lt_iff. lia.
  - pose proof (dby_mono (y' + 1) y ltac:(lia)). apply Z.compare_gt_iff. lia.
Qed.

Lemma date_text_order (y m d y' m' d' : Z) :
  valid_date y m d -> valid_date y' m' d' ->
  String.compare (date_text y m d) (date_text y' m' d') =
  (_ymd2ord y m d ?= _ymd2ord y' m' d').
Proof.
  intros V V'. rewrite (ymd2ord_compare _ _ _ _ _ _ V V').
  destruct V as (Hy & Hm & Hd), V' as (Hy' & Hm' & Hd').
  pose proof (days_in_month_le y m Hm). pose proof (days_in_month_le y' m' Hm').
  apply date_text_compare; lia.
Qed.

Lemma StronglySorted_impl {A : Type} (R R' : A -> A -> Prop) (l : list A) :
  (forall a b, In a l -> In b l -> R a b -> R' a b) ->
  StronglySorted R l -> StronglySorted R' l.
Proof.
  intros I S. induction S as [|a l S IH F]; constructor.
  - apply IH. intros x y Hx Hy. apply I; now right.
  - rewrite Forall_forall in *. intros x Hx. apply I; [now left | now right | auto].
Qed.

(** X24. The export writes the days in calendar order.  The text
    [YYYY-MM-DD] of one day comes before that of another in the order of
    strings exactly when the day comes before the other in the
    calendar; so [sorted(data.items())], over which every section of
    the export runs, takes the entries of a dict keyed by such dates
    from the earliest day to the latest, whatever the order of the
    dict. *)
Theorem export_days_chronological :
  (forall y m d y' m' d',
     valid_date y m d -> valid_date y' m' d' ->
     (String.leb (date_text y m d) (date_text y' m' d') = true
      <-> _ymd2ord y m d <= _ymd2ord y' m' d')
     /\ (date_text y m d = date_text y' m' d' -> y = y' /\ m = m' /\ d = d'))
  /\ (forall data : pydict,
        (forall kv, In kv data -> exists n, date_key kv n) ->
        StronglySorted day_le (sorted_items data)
        /\ Permutation (sorted_items data) data).
Proof.
  assert (O : forall y m d y' m' d',
             valid_date y m d -> valid_date y' m' d' ->
             (String.leb (date_text y m d) (date_text y' m' d') = true
              <-> _ymd2ord y m d <= _ymd2ord y' m' d')).
  { intros y m d y' m' d' V V'. unfold String.leb.
    rewrite (date_text_order _ _ _ _ _ _ V V').
    destruct (Z.compare_spec (_ymd2ord y m d) (_ymd2ord y' m' d')); split;
      intros; try reflexivity; try discriminate; lia. }
  split.
  - intros y m d y' m' d' V V'. split; [now apply O|].
    intros E. pose proof (date_text_order _ _ _ _ _ _ V V') as C. rewrite E in C.
    assert (R : forall s, String.compare s s = Eq).
    { intros s. induction s as [|c s IH]; cbn [String.compare]; [reflexivity|].
      unfold Ascii.compare. now rewrite N.compare_refl. }
    rewrite R in C. symmetry in C. apply Z.compare_eq in C.
    destruct V as (_ & Hm & Hd), V' as (_ & Hm' & Hd').
    now apply ymd2ord_inj.
  - intros data K. split; [|apply sorted_items_perm].
    apply (StronglySorted_impl key_le); [|apply sorted_items_sorted].
    intros a b Ha Hb L na nb (y & m & d & Ea & Va & <-) (y' & m' & d' & Eb & Vb & <-).
    unfold key_le in L. rewrite Ea, Eb in L. now apply O.
Qed.

Lemma export_days_chronological_witness :
  (String.leb (date_text 2026 2 28) (date_text 2026 3 1) = true
   <-> _ymd2ord 2026 2 28 <= _ymd2ord 2026 3 1)
  /\ (date_text 2026 2 28 = date_text 2026 3 1 -> 2026 = 2026 /\ 2 = 3 /\ 28 = 1).
Proof.
  apply (proj1 export_days_chronological 2026 2 28 2026 3 1);
    repeat split; cbv; discriminate.
Defined.

(** ** The client and its base URL *)

Lemma slashes_snoc (n : nat) : slashes n +++ "/" = String "/" (slashes n).
Proof. induction n as [|n IH]; cbn; [reflexivity | now rewrite IH]. Qed.

Lemma rstrip_char_spec (s : string) :
  exists n, s = rstrip_char "/" s +++ slashes n
            /\ ~ ends_with_slash (rstrip_char "/" s).
Proof.
  induction s as [|c s (n & E & N)].
  - exists 0%nat. split; [reflexivity|]. intros [[|? ?] H]; discriminate H.
  - cbn [rstrip_char]. destruct (rstrip_char "/" s) as [|c' r] eqn:R.
    + destruct (Ascii.eqb_spec c "/") as [->|Nc].
      * exists (S n). split; [now rewrite E at 1|].
        intros [[|? ?] H]; discriminate H.
      * exists n. split; [now rewrite E at 1|].
        intros [[|c1 [|c2 b]] H]; cbn in H; try discriminate H.
        injection H as H. contradiction.
    + exists n. split; [cbn [String.append]; now rewrite E at 1|].
      intros [body H]. apply N. destruct body as [|c1 b]; [discriminate H|].
      cbn [String.append] in H. injection H as _ H. now exists b.
Qed.

Lemma rstrip_char_fixed (s : string) :
  ~ ends_with_slash s -> rstrip_char "/" s = s.
Proof.
  intros N. destruct (rstrip_char_spec s) as (n & E & _).
  destruct n as [|n]; [cbn in E; now rewrite append_empty_r in E|].
  exfalso. apply N. exists (rstrip_char "/" s +++ slashes n).
  rewrite E at 1. rewrite append_assoc3. f_equal. cbn [slashes].
  now rewrite slashes_snoc.
Qed.

(** X25. The base URL of a client never ends with a slash: the
    constructor takes the URL given (the one of the US region when none
    or an empty one is given), strips every slash from its end and
    nothing else, and leaves a URL without a slash at its end as it is.
    A missing or empty token is a [ZeppAuthError], whatever the user id;
    with a token, a missing or empty user id is a [ValueError]. *)
Theorem client_base_url (token user_id : string) (base_url : option string) :
  token <> EmptyString -> user_id <> EmptyString ->
  let given :=
    match base_url with
    | Some (String c u) => String c u
    | _ => "https://api-mifit-us2.zepp.com"
    end in
  (exists url n,
     ZeppClient_init (Some token) (Some user_id) base_url = InitClient token user_id url
     /\ given = url +++ slashes n
     /\ ~ ends_with_slash url
     /\ (~ ends_with_slash given -> url = given))
  /\ (forall u b, ZeppClient_init None u b = InitAuthError
                  /\ ZeppClient_init (Some EmptyString) u b = InitAuthError)
  /\ (forall b, ZeppClient_init (Some token) None b = InitValueError
                /\ ZeppClient_init (Some token) (Some EmptyString) b = InitValueError).
Proof.
  intros T U given. split; [|split].
  - unfold ZeppClient_init.
    destruct (String.eqb_spec token EmptyString) as [?|_]; [contradiction|].
    destruct (String.eqb_spec user_id EmptyString) as [?|_]; [contradiction|].
    assert (E : (if not_given base_url
                 then match assoc "us" REGIONS with Some u => u | None => EmptyString end
                 else match base_url with Some u => u | None => EmptyString end) = given).
    { subst given. destruct base_url as [[|c u]|]; reflexivity. }
    rewrite E. destruct (rstrip_char_spec given) as (n & G & N).
    exists (rstrip_char "/" given), n. split; [reflexivity|]. split; [exact G|].
    split; [exact N|]. apply rstrip_char_fixed.
  - intros u b. split; reflexivity.
  - intros b. unfold ZeppClient_init.
    destruct (String.eqb_spec token EmptyString) as [?|_]; [contradiction|].
    split; reflexivity.
Qed.

Lemma client_base_url_witness :
  exists url n,
    ZeppClient_init (Some "tok") (Some "42") (Some "https://api-mifit.huami.com//") =
    InitClient "tok" "42" url
    /\ "https://api-mifit.huami.com//" = url +++ slashes n
    /\ ~ ends_with_slash url
    /\ (~ ends_with_slash "https://api-mifit.huami.com//" ->
        url = "https://api-mifit.huami.com//").
Proof.
  apply (proj1 (client_base_url "tok" "42" (Some "https://api-mifit.huami.com//")
                  ltac:(discriminate) ltac:(discriminate))).
Defined.

(** ** The cache of the local server: written, then read *)

Lemma pyval_nested_ind (P : pyval -> Prop) :
  P PNone -> (forall b, P (PBool b)) -> (forall z, P (PInt z)) ->
  (forall lit, P (PFloat lit)) -> (forall s, P (PStr s)) ->
  (forall l, Forall P l -> P (PList l)) ->
  (forall d, Forall (fun kv => P (snd kv)) d -> P (PDict d)) ->
  forall v, P v.
Proof.
  intros HN HB HI HF HS HL HD. fix IH 1. intros [| b | z | lit | s | l | d].
  - exact HN.
  - apply HB.
  - apply HI.
  - apply HF.
  - apply HS.
  - apply HL. induction l as [|x l IHl]; constructor; [apply IH | exact IHl].
  - apply HD. induction d as [|[k x] d IHd]; constructor; [apply IH | exact IHd].
Qed.

Lemma iterencode_list (level : nat) (first : pyval) (rest : list pyval) :
  iterencode level (PList (first :: rest)) =
  if (MAX_DEPTH <=? level)%nat then Unmodelled
  else
    (text <- iterencode (S level) first ;;
     items <- list_items (S level) rest ;;
     Ok ("[" +++ newline_indent (S level) +++ text +++ items
         +++ newline_indent level +++ "]")).
Proof. reflexivity. Qed.

Lemma iterencode_dict (level : nat) (key : string) (first : pyval) (rest : pydict) :
  iterencode level (PDict ((key, first) :: rest)) =
  if (MAX_DEPTH <=? level)%nat then Unmodelled
  else
    (key <- encode_basestring_ascii key ;;
     text <- iterencode (S level) first ;;
     items <- dict_items (S level) rest ;;
     Ok ("{" +++ newline_indent (S level) +++ key +++ ": " +++ text +++ items
         +++ newline_indent level +++ "}")).
Proof. reflexivity. Qed.

(** The scanner, piece by piece *)

Lemma json_lex_run (s1 : string) : forall m s2 m' ts,
  lex_run m s1 = Some (m', ts) ->
  json_lex m (s1 +++ s2) = ts ++ json_lex m' s2.
Proof.
  induction s1 as [|c s1 IH]; intros m s2 m' ts H; cbn [String.append json_lex lex_run] in *.
  - now inv H.
  - destruct (lex_step m c) as [[m1 ts1]|]; [|discriminate H].
    destruct (lex_run m1 s1) as [[m2 ts2]|] eqn:R; [|discriminate H]. inv H.
    rewrite (IH _ s2 _ _ R). now rewrite app_assoc.
Qed.

Lemma lex_run_app (s1 : string) : forall m s2,
  lex_run m (s1 +++ s2) =
  match lex_run m s1 with
  | Some (m', ts) =>
      match lex_run m' s2 with Some (m'', ts') => Some (m'', ts ++ ts') | None => None end
  | None => None
  end.
Proof.
  induction s1 as [|c s1 IH]; intros m s2; cbn [String.append lex_run].
  - destruct (lex_run m s2) as [[? ?]|]; reflexivity.
  - destruct (lex_step m c) as [[m' ts]|]; [|reflexivity].
    rewrite IH. destruct (lex_run m' s1) as [[m'' ts']|]; [|reflexivity].
    destruct (lex_run m'' s2) as [[? ?]|]; [|reflexivity]. now rewrite app_assoc.
Qed.

Lemma json_lex_skip (s r : string) :
  lex_run MDefault s = Some (MDefault, []) ->
  json_lex MDefault (s +++ r) = json_lex MDefault r.
Proof. intros H. now rewrite (json_lex_run _ _ _ _ _ H). Qed.

Lemma json_lex_token (s r : string) (t : jtoken) :
  lex_run MDefault s = Some (MDefault, [t]) ->
  json_lex MDefault (s +++ r) = t :: json_lex MDefault r.
Proof. intros H. now rewrite (json_lex_run _ _ _ _ _ H). Qed.

Lemma lex_run_cons (m : lexmode) (c : ascii) (r : string) :
  lex_run m (String c r) =
  match lex_step m c with
  | Some (m', ts) =>
      match lex_run m' r with Some (m'', ts') => Some (m'', ts ++ ts') | None => None end
  | None => None
  end.
Proof. reflexivity. Qed.

Lemma lex_run_spaces (n : nat) : lex_run MDefault (spaces n) = Some (MDefault, []).
Proof.
  induction n as [|n IH]; [reflexivity|]. cbn [spaces]. rewrite lex_run_cons.
  change (lex_step MDefault " ") with (Some (MDefault, @nil jtoken)).
  cbv beta iota. now rewrite IH.
Qed.

Lemma lex_run_newline (level : nat) :
  lex_run MDefault (newline_indent level) = Some (MDefault, []).
Proof.
  unfold newline_indent. rewrite lex_run_cons.
  change (lex_step MDefault (ascii_of_N 10)) with (Some (MDefault, @nil jtoken)).
  cbv beta iota. now rewrite lex_run_spaces.
Qed.

Lemma json_lex_word (v : pyval) (r : string) :
  json_lex (MWord [] v) r = TAtom v :: json_lex MDefault r.
Proof.
  destruct r as [|c r]; [reflexivity|]. cbn [json_lex lex_step].
  destruct (lex_start c) as [[m' ts]|]; reflexivity.
Qed.

Lemma json_lex_atom_word (w : string) (v : pyval) (r : string) :
  lex_run MDefault w = Some (MWord [] v, []) ->
  json_lex MDefault (w +++ r) = TAtom v :: json_lex MDefault r.
Proof. intros H. now rewrite (json_lex_run _ _ _ _ _ H), json_lex_word. Qed.

(** Strings *)

Lemma lex_run_escape (c : ascii) (acc : list ascii) :
  (N_of_ascii c <? 128)%N = true ->
  lex_run (MStr acc None) (json_escape c) = Some (MStr (c :: acc) None, []).
Proof.
  intros H.
  destruct c as [[] [] [] [] [] [] [] []]; try discriminate H; reflexivity.
Qed.

Lemma lex_run_escape_string (s : string) : forall acc,
  is_ascii s = true ->
  lex_run (MStr acc None) (json_escape_string s) =
  Some (MStr (rev (list_ascii_of_string s) ++ acc) None, []).
Proof.
  induction s as [|c s IH]; intros acc A; [reflexivity|].
  rewrite is_ascii_String in A. apply andb_prop in A as [A1 A2].
  cbn [json_escape_string list_ascii_of_string rev].
  rewrite lex_run_app, (lex_run_escape c acc A1), (IH _ A2).
  cbn [app]. now rewrite <- app_assoc.
Qed.

Lemma json_lex_string (s text r : string) :
  encode_basestring_ascii s = Ok text ->
  json_lex MDefault (text +++ r) = TAtom (PStr s) :: json_lex MDefault r.
Proof.
  unfold encode_basestring_ascii. destruct (is_ascii s) eqn:A; [|discriminate].
  intros H. injection H as <-. apply json_lex_token.
  rewrite lex_run_cons. change (lex_step MDefault dquote) with (Some (MStr [] None, @nil jtoken)).
  cbv beta iota. rewrite lex_run_app, (lex_run_escape_string s [] A).
  rewrite lex_run_cons. rewrite app_nil_r.
  change (lex_step (MStr (rev (list_ascii_of_string s)) None) dquote)
    with (Some (MDefault,
                [TAtom (PStr (string_of_rev (rev (list_ascii_of_string s))))])).
  cbv beta iota. cbn [lex_run app]. unfold string_of_rev.
  now rewrite rev_involutive, string_of_list_ascii_of_string.
Qed.

(** Numbers *)

Lemma lex_run_digits (d : Decimal.uint) : forall lit,
  lex_run (MNum lit NInt) (NilEmpty.string_of_uint d) =
  Some (MNum (rev (list_ascii_of_string (NilEmpty.string_of_uint d)) ++ lit) NInt, []).
Proof.
  induction d as [|d IH|d IH|d IH|d IH|d IH|d IH|d IH|d IH|d IH|d IH]; intros lit;
    [reflexivity|..];
    cbn [NilEmpty.string_of_uint list_ascii_of_string rev]; rewrite lex_run_cons;
    match goal with
    | |- context [lex_step (MNum lit NInt) ?c] =>
        change (lex_step (MNum lit NInt) c) with (Some (MNum (c :: lit) NInt, @nil jtoken))
    end;
    cbv beta iota; rewrite IH; cbn [app]; now rewrite <- app_assoc.
Qed.

Lemma digits_value_acc (d : Decimal.uint) : forall acc,
  digits_value (list_ascii_of_string (NilEmpty.string_of_uint d)) (Z.pos acc) =
  Z.pos (Pos.of_uint_acc d acc).
Proof.
  induction d as [|d IH|d IH|d IH|d IH|d IH|d IH|d IH|d IH|d IH|d IH]; intros acc;
    [reflexivity|..];
    cbn [NilEmpty.string_of_uint list_ascii_of_string digits_value Pos.of_uint_acc];
    rewrite <- IH; f_equal;
    match goal with
    | |- context [Z.of_N ?n] =>
        let v := eval vm_compute in (Z.of_N n) in change (Z.of_N n) with v
    end;
    lia.
Qed.

Lemma digits_value_uint (d : Decimal.uint) :
  digits_value (list_ascii_of_string (NilEmpty.string_of_uint d)) 0 =
  Z.of_N (Pos.of_uint d).
Proof.
  induction d as [|d IH|d IH|d IH|d IH|d IH|d IH|d IH|d IH|d IH|d IH];
    [reflexivity | exact IH |..];
    cbn [NilEmpty.string_of_uint list_ascii_of_string digits_value Pos.of_uint];
    apply (digits_value_acc d).
Qed.

Lemma to_uint_head (p : positive) :
  exists c s, NilEmpty.string_of_uint (Pos.to_uint p) = String c s
              /\ is_digit c = true /\ c <> "0"%char
              /\ exists l, s = NilEmpty.string_of_uint l.
Proof.
  pose proof (Unsigned.to_of (Pos.to_uint p)) as F. rewrite Unsigned.of_to in F.
  cbn [N.to_uint] in F.
  destruct (Pos.to_uint p) as [|d|d|d|d|d|d|d|d|d|d] eqn:E.
  - now apply Unsigned.to_uint_nonnil in E.
  - exfalso. rewrite DecimalFacts.unorm_D0 in F.
    assert (N : d <> Decimal.Nil).
    { intros ->. now apply Unsigned.to_uint_nonzero in E. }
    pose proof (DecimalFacts.nb_digits_unorm d N) as L. rewrite <- F in L.
    cbn [Decimal.nb_digits] in L. lia.
  - eexists _, _. cbn [NilEmpty.string_of_uint].
    split; [reflexivity|]. split; [reflexivity|]. split; [discriminate|]. now exists d.
  - eexists _, _. cbn [NilEmpty.string_of_uint].
    split; [reflexivity|]. split; [reflexivity|]. split; [discriminate|]. now exists d.
  - eexists _, _. cbn [NilEmpty.string_of_uint].
    split; [reflexivity|]. split; [reflexivity|]. split; [discriminate|]. now exists d.
  - eexists _, _. cbn [NilEmpty.string_of_uint].
    split; [reflexivity|]. split; [reflexivity|]. split; [discriminate|]. now exists d.
  - eexists _, _. cbn [NilEmpty.string_of_uint].
    split; [reflexivity|]. split; [reflexivity|]. split; [discriminate|]. now exists d.
  - eexists _, _. cbn [NilEmpty.string_of_uint].
    split; [reflexivity|]. split; [reflexivity|]. split; [discriminate|]. now exists d.
  - eexists _, _. cbn [NilEmpty.string_of_uint].
    split; [reflexivity|]. split; [reflexivity|]. split; [discriminate|]. now exists d.
  - eexists _, _. cbn [NilEmpty.string_of_uint].
    split; [reflexivity|]. split; [reflexivity|]. split; [discriminate|]. now exists d.
  - eexists _, _. cbn [NilEmpty.string_of_uint].
    split; [reflexivity|]. split; [reflexivity|]. split; [discriminate|]. now exists d.
Qed.

Lemma json_lex_number_end (lit : list ascii) (st : numstate) (r : string) :
  st = NZero \/ st = NInt -> delimited r ->
  json_lex (MNum lit st) r =
  TAtom (PInt (int_of_literal (rev lit))) :: json_lex MDefault r.
Proof.
  intros S D. destruct r as [|c r].
  - destruct S as [-> | ->]; reflexivity.
  - cbn [delimited] in D. destruct D as [-> | ->]; destruct S as [-> | ->];
      reflexivity.
Qed.

Lemma lex_start_digit (c : ascii) :
  is_digit c = true -> c <> "0"%char -> lex_start c = Some (MNum [c] NInt, []).
Proof.
  intros D N.
  destruct c as [[] [] [] [] [] [] [] []]; try discriminate D; try reflexivity.
  now contradiction N.
Qed.

Lemma lex_step_minus_digit (c : ascii) :
  is_digit c = true -> c <> "0"%char ->
  lex_step (MNum ["-"%char] NMinus) c = Some (MNum [c; "-"%char] NInt, []).
Proof.
  intros D N.
  destruct c as [[] [] [] [] [] [] [] []]; try discriminate D; try reflexivity.
  now contradiction N.
Qed.

Lemma digit_not_minus (c : ascii) : is_digit c = true -> c <> "-"%char.
Proof. intros D ->. discriminate D. Qed.

Lemma string_of_to_uint (p : positive) :
  NilZero.string_of_uint (Pos.to_uint p) = NilEmpty.string_of_uint (Pos.to_uint p).
Proof.
  destruct (Pos.to_uint p) eqn:E; try reflexivity.
  now apply Unsigned.to_uint_nonnil in E.
Qed.

Lemma json_lex_int (z : Z) (r : string) :
  delimited r ->
  json_lex MDefault (str_of_Z z +++ r) = TAtom (PInt z) :: json_lex MDefault r.
Proof.
  intros D. unfold str_of_Z. destruct z as [|p|p]; cbn [Z.to_int NilZero.string_of_int].
  - rewrite (json_lex_run (NilZero.string_of_uint (Decimal.D0 Decimal.Nil)) MDefault r
               (MNum ["0"%char] NZero) [] eq_refl).
    cbn [app]. now rewrite (json_lex_number_end _ NZero r (or_introl eq_refl) D).
  - rewrite string_of_to_uint.
    pose proof (DecimalPos.Unsigned.of_to p) as V.
    apply (f_equal Z.of_N) in V. rewrite <- digits_value_uint in V.
    cbn [Z.of_N] in V.
    destruct (to_uint_head p) as (c & s & E & Dc & Nc & l & ->). rewrite E in V |- *.
    assert (R : lex_run MDefault (String c (NilEmpty.string_of_uint l)) =
                Some (MNum (rev (list_ascii_of_string (NilEmpty.string_of_uint l)) ++ [c])
                        NInt, [])).
    { rewrite lex_run_cons. change (lex_step MDefault c) with (lex_start c).
      rewrite (lex_start_digit c Dc Nc). cbv beta iota.
      now rewrite lex_run_digits. }
    rewrite (json_lex_run _ _ r _ _ R). cbn [app].
    rewrite (json_lex_number_end _ NInt r (or_intror eq_refl) D).
    rewrite rev_app_distr, rev_involutive. cbn [rev app].
    assert (I : int_of_literal (c :: list_ascii_of_string (NilEmpty.string_of_uint l))
                = Z.pos p).
    { rewrite <- V. cbn [list_ascii_of_string]. unfold int_of_literal.
      pose proof (digit_not_minus c Dc) as M.
      destruct c as [[] [] [] [] [] [] [] []]; try reflexivity. now contradiction M. }
    now rewrite I.
  - rewrite string_of_to_uint.
    pose proof (DecimalPos.Unsigned.of_to p) as V.
    apply (f_equal Z.of_N) in V. rewrite <- digits_value_uint in V.
    cbn [Z.of_N] in V.
    destruct (to_uint_head p) as (c & s & E & Dc & Nc & l & ->). rewrite E in V |- *.
    assert (R : lex_run MDefault (String "-" (String c (NilEmpty.string_of_uint l))) =
                Some (MNum (rev (list_ascii_of_string (NilEmpty.string_of_uint l))
                            ++ [c; "-"%char]) NInt, [])).
    { rewrite lex_run_cons.
      change (lex_step MDefault "-") with (Some (MNum ["-"%char] NMinus, @nil jtoken)).
      cbv beta iota. rewrite lex_run_cons.
      rewrite (lex_step_minus_digit c Dc Nc). cbv beta iota.
      now rewrite lex_run_digits. }
    rewrite (json_lex_run _ _ r _ _ R). cbn [app].
    rewrite (json_lex_number_end _ NInt r (or_intror eq_refl) D).
    rewrite rev_app_distr, rev_involutive. cbn [rev app].
    assert (I : int_of_literal
                  ("-"%char :: c :: list_ascii_of_string (NilEmpty.string_of_uint l))
                = Z.neg p).
    { cbn [list_ascii_of_string] in V. change (int_of_literal ("-"%char :: ?x))
        with (- digits_value x 0). unfold int_of_literal.
      cbn [Ascii.eqb]. rewrite V. reflexivity. }
    now rewrite I.
Qed.

(** Values *)

Lemma Ok_inj {A : Type} (a b : A) : Ok a = Ok b -> a = b.
Proof. intros H. now injection H. Qed.

Lemma list_items_delimited (level : nat) (l : list pyval) (items r : string) :
  list_items level l = Ok items -> delimited r -> delimited (items +++ r).
Proof.
  destruct l as [|x l]; cbn [list_items].
  - intros H. injection H as <-. auto.
  - destruct (iterencode level x); cbn [bind]; try discriminate.
    destruct (list_items level l); cbn [bind]; try discriminate.
    intros H _. injection H as <-. cbn. now left.
Qed.

Lemma dict_items_delimited (level : nat) (d : pydict) (items r : string) :
  dict_items level d = Ok items -> delimited r -> delimited (items +++ r).
Proof.
  destruct d as [|[k x] d]; cbn [dict_items].
  - intros H. injection H as <-. auto.
  - destruct (encode_basestring_ascii k); cbn [bind]; try discriminate.
    destruct (iterencode level x); cbn [bind]; try discriminate.
    destruct (dict_items level d); cbn [bind]; try discriminate.
    intros H _. injection H as <-. cbn. now left.
Qed.

Lemma newline_delimited (level : nat) (r : string) : delimited (newline_indent level +++ r).
Proof. cbn. now right. Qed.

Lemma json_lex_items (level : nat) (l : list pyval) :
  Forall (fun v => forall level text r,
            iterencode level v = Ok text -> delimited r ->
            json_lex MDefault (text +++ r) = toks v ++ json_lex MDefault r) l ->
  forall items r,
    list_items level l = Ok items -> delimited r ->
    json_lex MDefault (items +++ r) =
    flat_map (fun x => TComma :: toks x) l ++ json_lex MDefault r.
Proof.
  induction 1 as [|x l Hx F IH]; intros items r H D.
  - cbn in H. injection H as <-. reflexivity.
  - cbn [list_items] in H.
    destruct (iterencode level x) as [text| |] eqn:Ex; cbn [bind] in H; try discriminate H.
    destruct (list_items level l) as [more| |] eqn:El; cbn [bind] in H;
      try discriminate H.
    apply Ok_inj in H. subst items. rewrite !append_assoc3.
    rewrite (json_lex_token "," _ TComma eq_refl).
    rewrite (json_lex_skip _ _ (lex_run_newline level)).
    rewrite (Hx level text (more +++ r) Ex (list_items_delimited _ _ _ _ El D)).
    rewrite (IH more r eq_refl D). cbn [flat_map app].
    now rewrite <- !app_assoc.
Qed.

Lemma json_lex_dict_items (level : nat) (d : pydict) :
  Forall (fun kv => forall level text r,
            iterencode level (snd kv) = Ok text -> delimited r ->
            json_lex MDefault (text +++ r) = toks (snd kv) ++ json_lex MDefault r) d ->
  forall items r,
    dict_items level d = Ok items -> delimited r ->
    json_lex MDefault (items +++ r) =
    flat_map (fun kv => let '(k, x) := kv in
                        TComma :: TAtom (PStr k) :: TColon :: toks x) d
    ++ json_lex MDefault r.
Proof.
  induction 1 as [|[k x] d Hx F IH]; intros items r H D.
  - cbn in H. injection H as <-. reflexivity.
  - cbn [dict_items] in H. cbn [snd] in Hx.
    destruct (encode_basestring_ascii k) as [key| |] eqn:Ek; cbn [bind] in H;
      try discriminate H.
    destruct (iterencode level x) as [text| |] eqn:Ex; cbn [bind] in H; try discriminate H.
    destruct (dict_items level d) as [more| |] eqn:El; cbn [bind] in H;
      try discriminate H.
    apply Ok_inj in H. subst items. rewrite !append_assoc3.
    rewrite (json_lex_token "," _ TComma eq_refl).
    rewrite (json_lex_skip _ _ (lex_run_newline level)).
    rewrite (json_lex_string k key _ Ek).
    rewrite (json_lex_token ": " _ TColon eq_refl).
    rewrite (Hx level text (more +++ r) Ex (dict_items_delimited _ _ _ _ El D)).
    rewrite (IH more r eq_refl D). cbn [flat_map app].
    now rewrite <- !app_assoc.
Qed.

Lemma str_int_ok (z : Z) (text : string) :
  str_int z = Ok text -> too_long z = false /\ text = str_of_Z z.
Proof.
  unfold str_int. destruct (too_long z); [discriminate|].
  intros H. inv H. auto.
Qed.

Lemma json_lex_value (v : pyval) : forall level text r,
  iterencode level v = Ok text -> delimited r ->
  json_lex MDefault (text +++ r) = toks v ++ json_lex MDefault r.
Proof.
  induction v as [|b|z|lit|s|l IH|d IH] using pyval_nested_ind; intros level text r H D.
  - injection H as <-. now rewrite (json_lex_atom_word "null" PNone r eq_refl).
  - destruct b; injection H as <-.
    + now rewrite (json_lex_atom_word "true" (PBool true) r eq_refl).
    + now rewrite (json_lex_atom_word "false" (PBool false) r eq_refl).
  - cbn [iterencode] in H. apply str_int_ok in H as [_ ->].
    now rewrite (json_lex_int z r D).
  - discriminate H.
  - cbn [iterencode] in H. now rewrite (json_lex_string s text r H).
  - destruct l as [|first rest].
    + cbn [iterencode] in H. destruct (MAX_DEPTH <=? level)%nat; [discriminate H|].
      injection H as <-. cbn [toks].
      now rewrite (json_lex_run "[]" MDefault r MDefault [TLBrack; TRBrack] eq_refl).
    + rewrite iterencode_list in H. inversion IH as [|? ? Hf Hr]; subst.
      destruct (MAX_DEPTH <=? level)%nat; [discriminate H|].
      destruct (iterencode (S level) first) as [text1| |] eqn:E1; cbn [bind] in H;
        try discriminate H.
      destruct (list_items (S level) rest) as [items| |] eqn:E2; cbn [bind] in H;
        try discriminate H.
      apply Ok_inj in H. subst text. rewrite !append_assoc3.
      rewrite (json_lex_token "[" _ TLBrack eq_refl).
      rewrite (json_lex_skip _ _ (lex_run_newline (S level))).
      rewrite (Hf (S level) text1 _ E1
                 (list_items_delimited _ _ _ _ E2 (newline_delimited level _))).
      rewrite (json_lex_items (S level) rest Hr items _ E2 (newline_delimited level _)).
      rewrite (json_lex_skip _ _ (lex_run_newline level)).
      rewrite (json_lex_token "]" _ TRBrack eq_refl).
      cbn [toks app]. now rewrite <- !app_assoc.
  - destruct d as [|[key first] rest].
    + cbn [iterencode] in H. destruct (MAX_DEPTH <=? level)%nat; [discriminate H|].
      injection H as <-. cbn [toks].
      now rewrite (json_lex_run "{}" MDefault r MDefault [TLBrace; TRBrace] eq_refl).
    + rewrite iterencode_dict in H. inversion IH as [|? ? Hf Hr]; subst.
      cbn [snd] in Hf.
      destruct (MAX_DEPTH <=? level)%nat; [discriminate H|].
      destruct (encode_basestring_ascii key) as [ktext| |] eqn:Ek; cbn [bind] in H;
        try discriminate H.
      destruct (iterencode (S level) first) as [text1| |] eqn:E1; cbn [bind] in H;
        try discriminate H.
      destruct (dict_items (S level) rest) as [items| |] eqn:E2; cbn [bind] in H;
        try discriminate H.
      apply Ok_inj in H. subst text. rewrite !append_assoc3.
      rewrite (json_lex_token "{" _ TLBrace eq_refl).
      rewrite (json_lex_skip _ _ (lex_run_newline (S level))).
      rewrite (json_lex_string key ktext _ Ek).
      rewrite (json_lex_token ": " _ TColon eq_refl).
      rewrite (Hf (S level) text1 _ E1
                 (dict_items_delimited _ _ _ _ E2 (newline_delimited level _))).
      rewrite (json_lex_dict_items (S level) rest Hr items _ E2
                 (newline_delimited level _)).
      rewrite (json_lex_skip _ _ (lex_run_newline level)).
      rewrite (json_lex_token "}" _ TRBrace eq_refl).
      cbn [toks app]. now rewrite <- !app_assoc.
Qed.

(** The parser *)

Lemma depth_ok (n : nat) : (n <= MAX_DEPTH)%nat -> (MAX_DEPTH <? n)%nat = false.
Proof. intros H. now apply Nat.ltb_ge. Qed.

Lemma push_value_length (v : pyval) (stk stk' : list frame) (e' : expect) :
  push_value v stk = Some (stk', e') -> List.length stk' = List.length stk.
Proof.
  destruct stk as [|[acc|d [k|]] stk]; cbn [push_value]; intros H; now inv H.
Qed.

(** A token that is taken where a value may stand and is no integer
    beyond the limit. *)
Lemma parse_atom (a : pyval) (stk : list frame) (e : expect) (ts : list jtoken) :
  e = EVal \/ e = EValOrClose ->
  (List.length stk <= MAX_DEPTH)%nat ->
  over_limit (TAtom a) = false ->
  json_parse stk e (TAtom a :: ts) =
  match push_value a stk with
  | Some (stk', e') => json_parse stk' e' ts
  | None => Raise JSONDecodeError
  end.
Proof.
  intros E L O. cbn [json_parse].
  assert (S : parse_step stk e (TAtom a) = push_value a stk)
    by (destruct E as [-> | ->]; reflexivity).
  rewrite S. destruct (push_value a stk) as [[stk' e']|] eqn:P; [|reflexivity].
  rewrite O, depth_ok; [reflexivity|].
  now rewrite (push_value_length _ _ _ _ P).
Qed.

(** A closing bracket or brace. *)
Lemma parse_close (v : pyval) (f : frame) (stk : list frame) (e : expect)
    (t : jtoken) (ts : list jtoken) :
  parse_step (f :: stk) e t = push_value v stk ->
  over_limit t = false ->
  (List.length stk <= MAX_DEPTH)%nat ->
  json_parse (f :: stk) e (t :: ts) =
  match push_value v stk with
  | Some (stk', e') => json_parse stk' e' ts
  | None => Raise JSONDecodeError
  end.
Proof.
  intros S O L. cbn [json_parse]. rewrite S.
  destruct (push_value v stk) as [[stk' e']|] eqn:P; [|reflexivity].
  rewrite O, depth_ok; [reflexivity|].
  now rewrite (push_value_length _ _ _ _ P).
Qed.

Lemma dict_set_fresh (k : string) (x : pyval) (d : pydict) :
  existsb (String.eqb k) (map fst d) = false -> dict_set k x d = d ++ [(k, x)].
Proof.
  induction d as [|[k' x'] d IH]; cbn [map fst existsb dict_set app]; [reflexivity|].
  intros H. apply orb_false_iff in H as [H1 H2]. rewrite H1. now rewrite IH.
Qed.

Lemma distinct_middle (l1 : list string) (k : string) (l2 : list string) :
  distinct (l1 ++ k :: l2) = true -> existsb (String.eqb k) l1 = false.
Proof.
  induction l1 as [|a l1 IH]; cbn [app distinct existsb]; [reflexivity|].
  intros H. apply andb_prop in H as [H1 H2]. rewrite (IH H2), orb_false_r.
  apply negb_true_iff in H1. rewrite existsb_app in H1.
  apply orb_false_iff in H1 as [_ H1]. cbn [existsb] in H1.
  apply orb_false_iff in H1 as [H1 _]. now rewrite String.eqb_sym.
Qed.

Lemma parse_items (stk : list frame) (ts : list jtoken) (l : list pyval) :
  (S (List.length stk) <= MAX_DEPTH)%nat ->
  Forall parses l ->
  forall acc items,
    list_items (S (List.length stk)) l = Ok items ->
    json_parse (FArr acc :: stk) ECommaOrClose
      ((flat_map (fun x => TComma :: toks x) l ++ [TRBrack]) ++ ts) =
    match push_value (PList (rev acc ++ l)) stk with
    | Some (stk', e') => json_parse stk' e' ts
    | None => Raise JSONDecodeError
    end.
Proof.
  intros L. induction 1 as [|x l Hx F IH]; intros acc items H.
  - cbn [flat_map app]. rewrite app_nil_r.
    apply (parse_close (PList (rev acc)) (FArr acc) stk ECommaOrClose TRBrack ts);
      [reflexivity | reflexivity | lia].
  - cbn [list_items] in H.
    destruct (iterencode (S (List.length stk)) x) as [text| |] eqn:Ex; cbn [bind] in H;
      try discriminate H.
    destruct (list_items (S (List.length stk)) l) as [more| |] eqn:El; cbn [bind] in H;
      try discriminate H.
    cbn [flat_map app]. rewrite <- !app_assoc.
    assert (C : forall rest,
              json_parse (FArr acc :: stk) ECommaOrClose (TComma :: rest) =
              json_parse (FArr acc :: stk) EVal rest).
    { intros rest. cbn [json_parse parse_step over_limit].
      now rewrite (depth_ok (List.length (FArr acc :: stk)) L). }
    rewrite C.
    rewrite (Hx (FArr acc :: stk) EVal _ text (or_introl eq_refl) L Ex).
    cbn [push_value].
    rewrite app_assoc, (IH (x :: acc) more eq_refl). cbn [rev].
    now rewrite <- app_assoc.
Qed.

Lemma parse_dict_items (stk : list frame) (ts : list jtoken) (d : pydict) :
  (S (List.length stk) <= MAX_DEPTH)%nat ->
  Forall (fun kv => parses (snd kv)) d ->
  forall acc items,
    distinct (map fst (acc ++ d)) = true ->
    dict_items (S (List.length stk)) d = Ok items ->
    json_parse (FObj acc None :: stk) ECommaOrClose
      ((flat_map (fun kv => let '(k, x) := kv in
                            TComma :: TAtom (PStr k) :: TColon :: toks x) d
        ++ [TRBrace]) ++ ts) =
    match push_value (PDict (acc ++ d)) stk with
    | Some (stk', e') => json_parse stk' e' ts
    | None => Raise JSONDecodeError
    end.
Proof.
  intros L. induction 1 as [|[k x] d Hx F IH]; intros acc items N H.
  - cbn [flat_map app]. rewrite !app_nil_r.
    apply (parse_close (PDict acc) (FObj acc None) stk ECommaOrClose TRBrace ts);
      [reflexivity | reflexivity | lia].
  - cbn [dict_items] in H. cbn [snd] in Hx.
    destruct (encode_basestring_ascii k) as [key| |] eqn:Ek; cbn [bind] in H;
      try discriminate H.
    destruct (iterencode (S (List.length stk)) x) as [text| |] eqn:Ex; cbn [bind] in H;
      try discriminate H.
    destruct (dict_items (S (List.length stk)) d) as [more| |] eqn:El; cbn [bind] in H;
      try discriminate H.
    cbn [flat_map app]. rewrite <- !app_assoc.
    assert (C : forall rest,
              json_parse (FObj acc None :: stk) ECommaOrClose
                (TComma :: TAtom (PStr k) :: TColon :: rest) =
              json_parse (FObj acc (Some k) :: stk) EVal rest).
    { intros rest. cbn [json_parse parse_step over_limit].
      change (List.length (FObj acc None :: stk)) with (S (List.length stk)).
      change (List.length (FObj acc (Some k) :: stk)) with (S (List.length stk)).
      now rewrite !(depth_ok (S (List.length stk)) L). }
    rewrite C.
    rewrite (Hx (FObj acc (Some k) :: stk) EVal _ text (or_introl eq_refl) L Ex).
    cbn [push_value].
    rewrite map_app in N. cbn [map fst] in N.
    rewrite (dict_set_fresh k x acc (distinct_middle _ _ _ N)).
    rewrite app_assoc, (IH (acc ++ [(k, x)]) more).
    + now rewrite <- app_assoc.
    + rewrite <- app_assoc, map_app. exact N.
    + reflexivity.
Qed.

Lemma parse_value (v : pyval) : plain v = true -> parses v.
Proof.
  induction v as [|b|z|lit|s|l IH|d IH] using pyval_nested_ind; intros P;
    intros stk e ts text E L H;
    try (apply (parse_atom _ stk e ts E L); reflexivity).
  - apply (parse_atom _ stk e ts E L). cbn [iterencode] in H.
    now apply str_int_ok in H as [H _].
  - destruct l as [|first rest].
    + cbn [iterencode] in H.
      destruct (MAX_DEPTH <=? List.length stk)%nat eqn:D; [discriminate H|].
      apply Nat.leb_gt in D. cbn [toks app].
      assert (O : json_parse stk e (TLBrack :: TRBrack :: ts) =
                  json_parse (FArr [] :: stk) EValOrClose (TRBrack :: ts)).
      { destruct E as [-> | ->]; cbn [json_parse parse_step over_limit];
          now rewrite (depth_ok (List.length (FArr [] :: stk)) D). }
      rewrite O.
      apply (parse_close (PList []) (FArr []) stk EValOrClose TRBrack ts);
        [reflexivity | reflexivity | exact L].
    + rewrite iterencode_list in H.
      destruct (MAX_DEPTH <=? List.length stk)%nat eqn:D; [discriminate H|].
      apply Nat.leb_gt in D.
      destruct (iterencode (S (List.length stk)) first) as [text1| |] eqn:E1;
        cbn [bind] in H; try discriminate H.
      destruct (list_items (S (List.length stk)) rest) as [items| |] eqn:E2;
        cbn [bind] in H; try discriminate H.
      cbn [plain forallb] in P. apply andb_prop in P as [P1 P2].
      inversion IH as [|? ? Hf Hr]; subst.
      assert (R : Forall parses rest).
      { rewrite Forall_forall in *. intros x Hx. apply (Hr x Hx).
        rewrite forallb_forall in P2. now apply P2. }
      cbn [toks app].
      assert (O : forall rest',
                 json_parse stk e (TLBrack :: rest') =
                 json_parse (FArr [] :: stk) EValOrClose rest').
      { intros rest'. destruct E as [-> | ->]; cbn [json_parse parse_step over_limit];
          now rewrite (depth_ok (List.length (FArr [] :: stk)) D). }
      rewrite O, <- app_assoc.
      rewrite (Hf P1 (FArr [] :: stk) EValOrClose _ text1 (or_intror eq_refl) D E1).
      cbn [push_value].
      apply (parse_items stk ts rest D R [first] items E2).
  - destruct d as [|[key first] rest].
    + cbn [iterencode] in H.
      destruct (MAX_DEPTH <=? List.length stk)%nat eqn:D; [discriminate H|].
      apply Nat.leb_gt in D. cbn [toks app].
      assert (O : json_parse stk e (TLBrace :: TRBrace :: ts) =
                  json_parse (FObj [] None :: stk) EKeyOrClose (TRBrace :: ts)).
      { destruct E as [-> | ->]; cbn [json_parse parse_step over_limit];
          now rewrite (depth_ok (List.length (FObj [] None :: stk)) D). }
      rewrite O.
      apply (parse_close (PDict []) (FObj [] None) stk EKeyOrClose TRBrace ts);
        [reflexivity | reflexivity | exact L].
    + rewrite iterencode_dict in H.
      destruct (MAX_DEPTH <=? List.length stk)%nat eqn:D; [discriminate H|].
      apply Nat.leb_gt in D.
      destruct (encode_basestring_ascii key) as [ktext| |] eqn:Ek; cbn [bind] in H;
        try discriminate H.
      destruct (iterencode (S (List.length stk)) first) as [text1| |] eqn:E1;
        cbn [bind] in H; try discriminate H.
      destruct (dict_items (S (List.length stk)) rest) as [items| |] eqn:E2;
        cbn [bind] in H; try discriminate H.
      cbn [plain forallb map fst] in P. apply andb_prop in P as [P1 N].
      apply andb_prop in P1 as [P1 P2]. apply andb_prop in P1 as [_ P1].
      inversion IH as [|? ? Hf Hr]; subst. cbn [snd] in Hf.
      assert (R : Forall (fun kv => parses (snd kv)) rest).
      { rewrite Forall_forall in *. intros [k x] Hx. apply (Hr (k, x) Hx).
        rewrite forallb_forall in P2. specialize (P2 (k, x) Hx). cbn in P2.
        now apply andb_prop in P2 as [_ P2]. }
      cbn [toks app].
      assert (O : forall rest',
                 json_parse stk e (TLBrace :: TAtom (PStr key) :: TColon :: rest')
                 = json_parse (FObj [] (Some key) :: stk) EVal rest').
      { intros rest'. destruct E as [-> | ->]; cbn [json_parse parse_step over_limit];
          change (List.length (FObj [] None :: stk)) with (S (List.length stk));
          change (List.length (FObj [] (Some key) :: stk)) with (S (List.length stk));
          now rewrite !(depth_ok (S (List.length stk)) D). }
      rewrite O, <- app_assoc.
      rewrite (Hf P1 (FObj [] (Some key) :: stk) EVal _ text1 (or_introl eq_refl) D E1).
      cbn [push_value dict_set].
      apply (parse_dict_items stk ts rest D R [(key, first)] items N E2).
Qed.

(** A plain value whose integers can be written and that nests no
    deeper than the encoder goes is written. *)
Lemma iterencode_plain (v : pyval) :
  plain v = true ->
  forall level,
    (level <= MAX_DEPTH)%nat -> printable (MAX_DEPTH - level) v = true ->
    exists text, iterencode level v = Ok text.
Proof.
  induction v as [|b|z|lit|s|l IH|d IH] using pyval_nested_ind; intros P level L Q.
  - now eexists.
  - destruct b; now eexists.
  - cbn [printable] in Q. apply negb_true_iff in Q.
    cbn [iterencode]. unfold str_int. rewrite Q. now eexists.
  - discriminate P.
  - cbn [plain] in P. cbn [iterencode]. unfold encode_basestring_ascii. rewrite P.
    now eexists.
  - cbn [printable] in Q.
    destruct (MAX_DEPTH - level)%nat as [|depth] eqn:D; [discriminate Q|].
    assert (D1 : (MAX_DEPTH <=? level)%nat = false) by (apply Nat.leb_gt; lia).
    assert (D2 : (MAX_DEPTH - S level)%nat = depth) by lia.
    destruct l as [|first rest]; [cbn [iterencode]; rewrite D1; now eexists|].
    cbn [plain forallb] in P, Q. apply andb_prop in P as [P1 P2].
    apply andb_prop in Q as [Q1 Q2].
    pose proof (Forall_inv IH) as Hf. pose proof (Forall_inv_tail IH) as Hr.
    rewrite iterencode_list, D1.
    destruct (Hf P1 (S level) ltac:(lia) ltac:(now rewrite D2)) as [text ->]. cbn [bind].
    assert (I : exists items, list_items (S level) rest = Ok items).
    { clear Hf P1 Q1 IH. induction rest as [|x rest IHr]; [now eexists|].
      cbn [forallb] in P2, Q2. apply andb_prop in P2 as [Px P2].
      apply andb_prop in Q2 as [Qx Q2].
      pose proof (Forall_inv Hr) as Hx. pose proof (Forall_inv_tail Hr) as Hr'.
      cbn [list_items].
      destruct (Hx Px (S level) ltac:(lia) ltac:(now rewrite D2)) as [tx ->]. cbn [bind].
      destruct (IHr P2 Q2 Hr') as [more ->]. cbn [bind]. now eexists. }
    destruct I as [items ->]. cbn [bind]. now eexists.
  - cbn [printable] in Q.
    destruct (MAX_DEPTH - level)%nat as [|depth] eqn:D; [discriminate Q|].
    assert (D1 : (MAX_DEPTH <=? level)%nat = false) by (apply Nat.leb_gt; lia).
    assert (D2 : (MAX_DEPTH - S level)%nat = depth) by lia.
    destruct d as [|[key first] rest]; [cbn [iterencode]; rewrite D1; now eexists|].
    cbn [plain forallb map fst snd] in P, Q. apply andb_prop in P as [P1 _].
    apply andb_prop in P1 as [P1 P2]. apply andb_prop in P1 as [Pk P1].
    apply andb_prop in Q as [Q1 Q2].
    pose proof (Forall_inv IH) as Hf. pose proof (Forall_inv_tail IH) as Hr. cbn [snd] in Hf.
    rewrite iterencode_dict, D1. unfold encode_basestring_ascii at 1. rewrite Pk.
    cbn [bind].
    destruct (Hf P1 (S level) ltac:(lia) ltac:(now rewrite D2)) as [text ->]. cbn [bind].
    assert (I : exists items, dict_items (S level) rest = Ok items).
    { clear Hf P1 Q1 IH. induction rest as [|[k x] rest IHr]; [now eexists|].
      cbn [forallb snd] in P2, Q2. apply andb_prop in P2 as [Px P2].
      apply andb_prop in Px as [Pk' Px]. apply andb_prop in Q2 as [Qx Q2].
      pose proof (Forall_inv Hr) as Hx. pose proof (Forall_inv_tail Hr) as Hr'. cbn [snd] in Hx.
      cbn [dict_items]. unfold encode_basestring_ascii at 1. rewrite Pk'. cbn [bind].
      destruct (Hx Px (S level) ltac:(lia) ltac:(now rewrite D2)) as [tx ->]. cbn [bind].
      destruct (IHr P2 Q2 Hr') as [more ->]. cbn [bind]. now eexists. }
    destruct I as [items ->]. cbn [bind]. now eexists.
Qed.

Lemma read_written (v : pyval) (text : string) :
  plain v = true -> iterencode 0 v = Ok text -> json_loads_str text = Ok v.
Proof.
  intros P H. unfold json_loads_str.
  pose proof (json_lex_value v 0 text EmptyString H I) as L.
  rewrite append_empty_r in L. rewrite L. cbn [json_lex lex_end].
  rewrite (parse_value v P [] EVal [] text (or_introl eq_refl)); [reflexivity | |exact H].
  cbn. unfold MAX_DEPTH. lia.
Qed.

Lemma is_ascii_append (a b : string) : is_ascii (a +++ b) = is_ascii a && is_ascii b.
Proof.
  induction a as [|c a IH]; [reflexivity|].
  cbn [String.append]. rewrite !is_ascii_String, IH. now rewrite andb_assoc.
Qed.

Lemma is_ascii_uint (d : Decimal.uint) : is_ascii (NilEmpty.string_of_uint d) = true.
Proof.
  induction d as [|d IH|d IH|d IH|d IH|d IH|d IH|d IH|d IH|d IH|d IH];
    [reflexivity|..]; cbn [NilEmpty.string_of_uint]; rewrite is_ascii_String, IH;
    reflexivity.
Qed.

Lemma is_ascii_str_of_Z (z : Z) : is_ascii (str_of_Z z) = true.
Proof.
  unfold str_of_Z. destruct z as [|p|p]; cbn [Z.to_int NilZero.string_of_int].
  - reflexivity.
  - rewrite string_of_to_uint. apply is_ascii_uint.
  - rewrite string_of_to_uint, is_ascii_String, is_ascii_uint. reflexivity.
Qed.

Lemma is_ascii_pad2 (z : Z) : is_ascii (pad2 z) = true.
Proof.
  unfold pad2. destruct (z <? 10); [rewrite is_ascii_String|];
    now rewrite is_ascii_str_of_Z.
Qed.

Lemma plain_hr_reading (i v : Z) : plain (hr_reading i v) = true.
Proof.
  assert (T : is_ascii (pad2 (i / 60) +++ ":" +++ pad2 (i mod 60)) = true).
  { rewrite is_ascii_append, is_ascii_pad2. cbn [andb String.append].
    rewrite is_ascii_String, is_ascii_pad2. reflexivity. }
  unfold hr_reading. cbn [plain forallb map fst]. rewrite T. reflexivity.
Qed.

Lemma printable_hr_reading (depth : nat) (i v : Z) :
  0 <= i < 1440 -> 0 < v < 254 -> printable (S depth) (hr_reading i v) = true.
Proof.
  intros Hi Hv. unfold hr_reading. cbn [printable forallb snd].
  rewrite !too_long_small by lia. reflexivity.
Qed.

(** X26. What the cache writes it reads back.  For a value made of
    [None], booleans, integers, ASCII strings, lists and dicts with
    ASCII keys (each key once in its dict), whatever text
    [_write_cache] writes is indented JSON from which [_read_cache]
    returns the value itself, so a cached answer is the answer that was
    fetched.  [_write_cache] does write such a value when its integers
    have at most 4300 digits and it nests at most [MAX_DEPTH]
    containers; an integer of more digits makes it raise [ValueError].
    The readings of [get_heart_rate] for a day of at most 1440 bytes
    are a value that it writes.  Without a file [_read_cache] returns
    [None]. *)
Theorem cache_round_trip :
  (forall data text,
     plain data = true -> _write_cache data = Ok text ->
     _read_cache (Some text) = Ok data)
  /\ (forall data,
        plain data = true -> printable MAX_DEPTH data = true ->
        exists text, _write_cache data = Ok text /\ _read_cache (Some text) = Ok data)
  /\ (forall z, too_long z = true -> _write_cache (PInt z) = Raise ValueError)
  /\ (forall bs,
        (List.length bs <= 1440)%nat ->
        plain (PList (hr_samples bs)) = true
        /\ printable MAX_DEPTH (PList (hr_samples bs)) = true)
  /\ _read_cache None = Ok PNone.
Proof.
  split; [|split; [|split; [|split; [|reflexivity]]]].
  - intros data text P H. exact (read_written data text P H).
  - intros data P Q.
    destruct (iterencode_plain data P 0 ltac:(lia) Q) as [text H].
    exists text. split; [exact H|]. exact (read_written data text P H).
  - intros z L. unfold _write_cache. cbn [iterencode]. unfold str_int. now rewrite L.
  - intros bs L. split.
    + cbn [plain]. unfold hr_samples. apply forallb_forall.
      intros r H. apply in_map_iff in H as [[i v] [<- _]]. apply plain_hr_reading.
    + change MAX_DEPTH with (S 99). cbn [printable]. apply forallb_forall.
      intros r H. apply hr_samples_bounds in H as (i & v & -> & Hi & Hv).
      apply printable_hr_reading; lia.
Qed.

Lemma cache_round_trip_witness :
  exists text,
    _write_cache (PList (hr_samples [Byte.x00; Byte.x48; Byte.x4b])) = Ok text
    /\ _read_cache (Some text) = Ok (PList (hr_samples [Byte.x00; Byte.x48; Byte.x4b])).
Proof.
  apply (proj1 (proj2 cache_round_trip)
           (PList (hr_samples [Byte.x00; Byte.x48; Byte.x4b]))); reflexivity.
Defined.

(** ** The cached routes *)

Lemma cached_route_miss (now1 now2 date : string) (file : option string)
    (fetch : fetched) :
  date = now1 \/ file = None \/ (exists text, file = Some text /\ json_loads_str text = Ok PNone) ->
  cached_route now1 now2 date file fetch =
  match fetch with
  | AuthError => Ok (Error500, None)
  | Fetched (Raise ZeppAPIError) => Ok (Error500, None)
  | Fetched (Raise e) => Raise e
  | Fetched Unmodelled => Unmodelled
  | Fetched (Ok data) =>
      if negb (_is_empty data) && negb (_is_today now2 date) then
        text <- _write_cache data ;;
        Ok (Body data, Some text)
      else Ok (Body data, None)
  end.
Proof.
  intros H. unfold cached_route, _is_today at 1.
  destruct (String.eqb_spec date now1) as [E|N]; cbn [negb]; [reflexivity|].
  destruct H as [H|[-> |(text & -> & H)]]; [contradiction|reflexivity|].
  cbn [_read_cache]. rewrite H. reflexivity.
Qed.

Lemma cached_route_hit (now1 now2 date text : string) (v : pyval) (fetch : fetched) :
  date <> now1 -> json_loads_str text = Ok v -> v <> PNone ->
  cached_route now1 now2 date (Some text) fetch = Ok (Body v, None).
Proof.
  intros N L V. unfold cached_route, _is_today.
  destruct (String.eqb_spec date now1) as [E|_]; [contradiction|].
  cbn [negb _read_cache]. rewrite L. cbn [bind].
  destruct v; try reflexivity. contradiction.
Qed.

Lemma cached_route_written (now1 now2 date : string) (file : option string)
    (fetch : fetched) (r : response) (text : string) :
  cached_route now1 now2 date file fetch = Ok (r, Some text) ->
  exists data,
    fetch = Fetched (Ok data) /\ r = Body data /\ _is_empty data = false
    /\ date <> now2 /\ _write_cache data = Ok text.
Proof.
  unfold cached_route.
  destruct (if negb (_is_today now1 date) then _read_cache file else Ok PNone)
    as [cached| |]; cbn [bind]; try discriminate.
  destruct cached; try discriminate.
  destruct fetch as [|[data|e|]]; try discriminate.
  - unfold _is_today. destruct (_is_empty data) eqn:Em; cbn [negb andb];
      [discriminate|].
    destruct (String.eqb_spec date now2) as [E|N]; cbn [negb]; [discriminate|].
    destruct (_write_cache data) as [t| |] eqn:W; cbn [bind]; try discriminate.
    intros H. injection H as <- <-. exists data. auto.
  - destruct e; discriminate.
Qed.

(** X27. The cache discipline of the routes for a date.  A cached
    answer for a day other than today is returned as it is, and the
    client is not consulted.  On the day itself the cache is not read.
    A text is written to the cache only when the getter returned data
    that is not empty for a day other than today, and it is the text of
    that data; a request that finds this text on a later day returns the
    data that was fetched (for data that the cache keeps as it is).
    When the cache gives no answer, [ZeppAuthError] and [ZeppAPIError]
    of the client become the error answer and write nothing; every
    other exception, [ZeppDecodeError] among them, leaves the route. *)
Theorem cached_route_discipline (now1 now2 date : string) :
  (forall text v fetch,
     date <> now1 -> json_loads_str text = Ok v -> v <> PNone ->
     cached_route now1 now2 date (Some text) fetch = Ok (Body v, None))
  /\ (forall file fetch,
        date = now1 ->
        cached_route now1 now2 date file fetch = cached_route now1 now2 date None fetch)
  /\ (forall file fetch r text,
        cached_route now1 now2 date file fetch = Ok (r, Some text) ->
        exists data,
          fetch = Fetched (Ok data) /\ r = Body data /\ _is_empty data = false
          /\ date <> now2 /\ _write_cache data = Ok text)
  /\ (forall file fetch data text later1 later2 fetch',
        plain data = true ->
        cached_route now1 now2 date file fetch = Ok (Body data, Some text) ->
        date <> later1 ->
        cached_route later1 later2 date (Some text) fetch' = Ok (Body data, None))
  /\ (forall file,
        date = now1 \/ file = None ->
        cached_route now1 now2 date file AuthError = Ok (Error500, None)
        /\ cached_route now1 now2 date file (Fetched (Raise ZeppAPIError))
           = Ok (Error500, None)
        /\ forall e, e <> ZeppAPIError ->
                     cached_route now1 now2 date file (Fetched (Raise e)) = Raise e).
Proof.
  split; [|split; [|split; [|split]]].
  - intros text v fetch. apply cached_route_hit.
  - intros file fetch E.
    rewrite (cached_route_miss now1 now2 date file fetch (or_introl E)).
    now rewrite (cached_route_miss now1 now2 date None fetch (or_introl E)).
  - intros file fetch r text. apply cached_route_written.
  - intros file fetch data text later1 later2 fetch' P H N.
    apply cached_route_written in H as (data' & _ & E & Em & _ & W).
    injection E as <-. apply cached_route_hit; [exact N| |].
    + exact (read_written data text P W).
    + intros ->. discriminate Em.
  - intros file H.
    assert (M : date = now1 \/ file = None
                \/ (exists text, file = Some text /\ json_loads_str text = Ok PNone))
      by tauto.
    rewrite !(cached_route_miss now1 now2 date file _ M).
    split; [reflexivity|]. split; [reflexivity|].
    intros e N. rewrite (cached_route_miss now1 now2 date file _ M).
    destruct e; try reflexivity. contradiction.
Qed.

Lemma cached_route_discipline_witness :
  cached_route "2026-02-08" "2026-02-08" "2026-02-06" (Some "[72, 75]") AuthError =
  Ok (Body (PList [PInt 72; PInt 75]), None).
Proof.
  apply (proj1 (cached_route_discipline "2026-02-08" "2026-02-08" "2026-02-06")).
  - discriminate.
  - reflexivity.
  - discriminate.
Defined.

(** ** The summary route *)

Lemma api_summary_hit (now1 now2 date text : string) (v : pyval)
    (hr sleep steps stress : fetched) :
  date <> now1 -> json_loads_str text = Ok v -> v <> PNone ->
  api_summary now1 now2 date (Some text) hr sleep steps stress = Ok (Body v, None).
Proof.
  intros N L V. unfold api_summary, _is_today.
  destruct (String.eqb_spec date now1) as [E|_]; [contradiction|].
  cbn [negb _read_cache]. rewrite L. cbn [bind].
  destruct v; try reflexivity. contradiction.
Qed.

Lemma api_summary_result (now1 now2 date : string) (file : option string)
    (hr sleep steps stress : fetched) (v : pyval) (w : option string) :
  date = now1 \/ file = None ->
  api_summary now1 now2 date file hr sleep steps stress = Ok (Body v, w) ->
  exists h s t r hr_data sleep_data steps_data stress_data,
    v = PDict [("heart_rate", h); ("sleep", s); ("steps", t); ("stress", r)]
    /\ hr = Fetched (Ok hr_data) /\ heart_rate_summary hr_data = Ok h
    /\ sleep = Fetched (Ok sleep_data) /\ value_or_none sleep_data = Ok s
    /\ steps = Fetched (Ok steps_data) /\ value_or_none steps_data = Ok t
    /\ stress = Fetched (Ok stress_data) /\ stress_summary stress_data = Ok r
    /\ (if String.eqb date now2 then w = None
        else exists text, w = Some text /\ _write_cache v = Ok text).
Proof.
  intros M. unfold api_summary.
  assert (C : (if negb (_is_today now1 date) then _read_cache file else Ok PNone)
              = Ok PNone).
  { unfold _is_today. destruct M as [-> | ->].
    - now rewrite String.eqb_refl.
    - now destruct (negb (String.eqb date now1)). }
  rewrite C. cbn [bind].
  destruct hr as [|[hr_data|e|]]; cbn [call tbind handled]; try discriminate;
    [|destruct e; discriminate].
  destruct (heart_rate_summary hr_data) as [h|e|] eqn:E1; cbn [lift tbind handled];
    try discriminate; [|destruct e; discriminate].
  destruct sleep as [|[sleep_data|e|]]; cbn [call tbind handled]; try discriminate;
    [|destruct e; discriminate].
  destruct (value_or_none sleep_data) as [s|e|] eqn:E2; cbn [lift tbind handled];
    try discriminate; [|destruct e; discriminate].
  destruct steps as [|[steps_data|e|]]; cbn [call tbind handled]; try discriminate;
    [|destruct e; discriminate].
  destruct (value_or_none steps_data) as [t|e|] eqn:E3; cbn [lift tbind handled];
    try discriminate; [|destruct e; discriminate].
  destruct stress as [|[stress_data|e|]]; cbn [call tbind handled]; try discriminate;
    [|destruct e; discriminate].
  destruct (stress_summary stress_data) as [r|e|] eqn:E4; cbn [lift tbind handled];
    try discriminate; [|destruct e; discriminate].
  unfold _is_today. destruct (String.eqb date now2); cbn [negb].
  - cbn [handled]. intros H. injection H as <- <-.
    exists h, s, t, r, hr_data, sleep_data, steps_data, stress_data.
    repeat (split; [first [reflexivity | assumption]|]). reflexivity.
  - destruct (_write_cache _) as [text|e|] eqn:W; cbn [lift tbind handled];
      try discriminate; [|destruct e; discriminate].
    intros H. injection H as <- <-.
    exists h, s, t, r, hr_data, sleep_data, steps_data, stress_data.
    repeat (split; [first [reflexivity | assumption]|]).
    exists text. split; [reflexivity|exact W].
Qed.

(** X28. The summary of a day.  When [api_summary] answers from the
    client, the answer has the four entries [heart_rate], [sleep],
    [steps] and [stress], in this order, each made from what its getter
    returned, and for a day other than today its text is written to the
    cache whatever the entries are.  So, unlike the routes of one kind
    of data, the summary of a day for which the client had nothing (four
    times [None]) is cached too, and a later request for that day
    returns this empty summary without consulting the client. *)
Theorem api_summary_caches_empty_days (now1 now2 date : string) :
  (forall file hr sleep steps stress v w,
     date = now1 \/ file = None ->
     api_summary now1 now2 date file hr sleep steps stress = Ok (Body v, w) ->
     exists h s t r hr_data sleep_data steps_data stress_data,
       v = PDict [("heart_rate", h); ("sleep", s); ("steps", t); ("stress", r)]
       /\ hr = Fetched (Ok hr_data) /\ heart_rate_summary hr_data = Ok h
       /\ sleep = Fetched (Ok sleep_data) /\ value_or_none sleep_data = Ok s
       /\ steps = Fetched (Ok steps_data) /\ value_or_none steps_data = Ok t
       /\ stress = Fetched (Ok stress_data) /\ stress_summary stress_data = Ok r
       /\ (if String.eqb date now2 then w = None
           else exists text, w = Some text /\ _write_cache v = Ok text))
  /\ (date <> now1 -> date <> now2 ->
      exists text,
        api_summary now1 now2 date None
          (Fetched (Ok (PList []))) (Fetched (Ok (PDict [])))
          (Fetched (Ok (PDict []))) (Fetched (Ok (PList []))) =
        Ok (Body empty_summary, Some text)
        /\ forall later1 later2 hr sleep steps stress,
             date <> later1 ->
             api_summary later1 later2 date (Some text) hr sleep steps stress =
             Ok (Body empty_summary, None))
  /\ (forall text v hr sleep steps stress,
        date <> now1 -> json_loads_str text = Ok v -> v <> PNone ->
        api_summary now1 now2 date (Some text) hr sleep steps stress = Ok (Body v, None)).
Proof.
  split; [|split].
  - intros file hr sleep steps stress v w. apply api_summary_result.
  - intros N1 N2.
    destruct (iterencode_plain empty_summary eq_refl 0 (Nat.le_0_l _) eq_refl) as [text W].
    exists text. split.
    + unfold api_summary, _is_today.
      destruct (String.eqb_spec date now1) as [?|_]; [contradiction|].
      destruct (String.eqb_spec date now2) as [?|_]; [contradiction|].
      cbn [negb _read_cache bind call tbind lift heart_rate_summary value_or_none
             stress_summary truthy].
      fold empty_summary. unfold _write_cache. rewrite W. reflexivity.
    + intros later1 later2 hr sleep steps stress L.
      apply api_summary_hit; [exact L| |discriminate].
      exact (read_written empty_summary text eq_refl W).
  - intros text v hr sleep steps stress. apply api_summary_hit.
Qed.

Lemma api_summary_caches_empty_days_witness :
  exists text,
    api_summary "2026-02-07" "2026-02-07" "2026-02-06" None
      (Fetched (Ok (PList []))) (Fetched (Ok (PDict [])))
      (Fetched (Ok (PDict []))) (Fetched (Ok (PList []))) =
    Ok (Body empty_summary, Some text)
    /\ forall later1 later2 hr sleep steps stress,
         "2026-02-06" <> later1 ->
         api_summary later1 later2 "2026-02-06" (Some text) hr sleep steps stress =
         Ok (Body empty_summary, None).
Proof.
  apply (proj1 (proj2 (api_summary_caches_empty_days
                         "2026-02-07" "2026-02-07" "2026-02-06")));
    discriminate.
Defined.
